(* ===== verification/_CoqProject ===== *)
-Q . S2P
Prelude.v
Text.v
Finance.v
Catalog.v
Regex.v
Intent.v
Resolver.v
Search.v
Router.v
Format.v
Conversation.v
Session.v
Paging.v
Replies.v
Kb.v
Transport.v
Reco.v
Load.v
