(* ===== verification/Prelude.v ===== *)
(** * A verification development of the auto-sales chatbot core

    The repository is a Spanish-language WhatsApp/HTTP chatbot that answers
    questions about a used-car catalog.  Its core, under [src/app], is:

    - [app/nlp/normalize.py]: text normalisation ([norm_txt]),
      [parse_numeric], and the money, price and fuzzy helpers of the
      recommender ([parse_money_token], [parse_price_hint], [fuzzy_pick],
      [canonicalize_brand], [extract_preferences]).
    - [app/nlp/intent.py]: the message router [route_message], which keeps
      per-channel state in module-level dicts ([LAST_FILTERS], [LAST_OFFSET],
      [LAST_LIMIT], [LAST_PAGE], [LAST_CTX]) and dispatches on regular
      expressions (value proposition, greeting, yes/no, contact, "cotiza",
      "ver N más", then [_detect_intent]: finance, kb, search).
    - [app/nlp/tools.py]: the catalog query ([_filtered_df_for_search],
      [search_cars], [search_cars_count]), fuzzy resolution ([fuzzy_best],
      [_guess_brand], [_guess_model]) and the finance routines
      ([monthly_payment], [finance_plan], [cotiza_car]).
    - [app/nlp/aliases.py]: alias tables and stopwords.
    - [app/router.py]: the reply builder [retrieve_cars], which re-queries
      the catalog and writes the brand/model/version it sees on the page
      back into the filter dict it was given.
    - [app/settings.py]: the rate and the allowed terms.
    - [app/reco/catalog.py]: a second, older search path that
      [route_message] does not call: the [Recommender] reads preferences
      from free text with [extract_preferences], filters and orders the
      catalogue ([_apply_filters], [recommend]) and prints the result.
    - [app/main.py]: the FastAPI app: the Twilio webhook [/whatsapp]
      (signature check, one turn of [route_message] on the channel
      ["whatsapp"], the reply cut into messages of 1200 code points, the
      welcome fallback) and [/chat] on the channel ["local"].
    - [app/nlp/retriever.py] and [scripts/build_faiss.py]: the knowledge
      base: [chunk_text] cuts [kb.md] into overlapping passages; [kb_answer]
      answers from a template, from the passages the FAISS index returns,
      or from OpenAI's draft, and offers an agent when the answer has no
      information; [kb_tool] (tools.py) wraps it for the router.

    Control flow: [route_message channel text] reads the channel's state,
    classifies the text, and either answers directly, quotes a car, pages
    through the saved search ([retrieve_cars] on the saved dict), or runs a
    new search or refinement whose filters it saves.

    ** Files (in dependency order, see _CoqProject)

    - [Prelude] (this file): the hint databases [chat] and [chat_rw], the
      tactics [invc], [case_if], [nbool], Python slicing [l[o:o+n]] with
      its lemmas, [dict.get] on maps and on dict literals ([assoc]).
    - [Text]: code-point strings, [norm_txt] (unidecode on Latin-1, strip,
      lower, whitespace collapse), [str.split], substring tests; [norm_txt]
      is idempotent.
    - [Finance]: [monthly_payment], [finance_plan], [cotiza_car]'s payment
      and [_parse_term]'s snapping, over exact rationals: the payment
      amortizes the loan, is total for a non-negative rate, and [cotiza_car]
      agrees with [monthly_payment].
    - [Catalog]: rows, the filter record with its setters and merge, the
      numeric filters and the two rankings (a stable merge sort on the keys
      of [sort_values]), pages, [cotiza_car]'s lookup.
    - [Regex]: Python [re] as a backtracking matcher (leftmost, greedy,
      groups, anchors, [\b]); it is sound and complete for a relational
      semantics, and [re.search] returns the leftmost match.
    - [Intent]: every pattern of intent.py, [_detect_intent],
      [_looks_like_search], [SYNONYMS] and [normalize_intent] (the
      iteration order of each set a parameter), [_parse_money],
      [parse_numeric], [_parse_term], [_extract_price_bounds],
      [_apply_remove_filters].
    - [Resolver]: [extractOne], [fuzzy_best], [_map_alias], [_guess_brand],
      [_guess_model] over the class [Fuzz] of the rapidfuzz scorers (a
      library the code only calls; [FuzzLaws] are their ranges): results
      stay in the vocabulary, alias entries win over scoring.
    - [Search]: the lock phase of [_filtered_df_for_search] composed with
      [Catalog.rank_rows]; [search_cars], [search_cars_count]: rows carry
      the locks, a model lock under a brand lock is a model of that brand,
      pages and counts agree; the lock phase's narrowings refine the
      declarative selection (rows carrying the locks within the bounds,
      stably ranked).
    - [Router]: [retrieve_cars] with its echo: the echo only fills an empty
      brand, model or version with the value every car of the page shares;
      each reply branch (no results, no more, empty page, cards).
    - [Format]: the text of the replies of router.py: [_fmt_mxn], [_fmt_km]
      ([int(float(x))] and [f"{n:,}"]), [str.title], [_chips_from_filters],
      [_format_card], header, footer and closing lines, and the unused
      [_format_car] and [_format_filters].  Truncation is
      within one unit of the value, a printed amount reads back through
      [parse_numeric] as the integer it shows, the digit renderer has
      enough fuel.
    - [Conversation]: [route_message] as a function from the record of the
      five per-channel dicts to a reply and the next record (or [Err] and the
      record an exception leaves).  Theorems: channel isolation; every
      reachable store holds dicts in [LAST_PAGE] and every message gets a
      reply (the second pagination branch is dead); pagination extends the
      display index; quote by reference and the "sí" that follows; the
      reset heuristic; a turn reads and writes only its channel's entries;
      a contact message saves the first run of 7 to 15 digits as the phone;
      and the findings (removal before merge, free text
      lost on later pages, the echo narrowing the saved search, card
      numbers that disagree with the index, a long number cut to its first
      15 digits).
    - [Session]: the replies typed back: on the first page of a search,
      the action a card prints ("cotiza i con 40k") quotes that card's car.
    - [Paging]: the pagination state over a whole session: in every
      reachable store the saved search, offset, page size and display index
      are present together, the page size is positive and the saved search
      has no free text; no reply is the empty page; and repeating
      "ver mas" reaches "no more results" after finitely many turns (the
      echo can narrow the saved search only finitely often, and between
      two narrowings the cursor moves forward).
    - [Replies]: the text of every reply of [route_message]: the templates
      of [texts.py], [_details_after_quote], [cotiza_car]'s quote with the
      router's notes, the contact summary, the finance lines, and
      [Format.render] for pages; [kb_tool] is a parameter.  A reply whose
      formula would raise [ZeroDivisionError] prints to [None]; no reply of
      [route_message] does, because the configured rate is positive.
    - [Kb]: [chunk_text] of build_faiss as a fuel loop, [_build_prompt],
      [postprocess_no_info], [kb_answer] over a [backend] record (the
      index, the embedding search, the metadata, the API key and the
      completion are its fields) and [kb_tool].  Theorems: [chunk_text]
      terminates when the overlap is below the chunk size and returns the
      non-blank windows of a reference definition, which stitch back to the
      text; it never terminates otherwise (for texts longer than a chunk);
      build_faiss's [main] raises exactly for a blank [kb.md], and the
      metadata it writes gives the retriever the chunk at each index;
      [postprocess_no_info] is idempotent; with an API key every answer
      reporting no information offers an agent (not without one: a
      finding); [kb_tool] never answers with a blank text.
    - [Transport]: the app's routes, the webhook and [/chat] of main.py as functions of the
      configuration, the form, the signature and the store of
      [Conversation], with Twilio's validator a parameter.  Theorems:
      [_chunk_for_whatsapp]'s pieces concatenate back to the reply; an
      accepted request always gets at least one non-blank message; the
      answer does not depend on the sender (all senders share the channel
      ["whatsapp"]: a finding); and composed with [Kb.kb_tool], a
      knowledge-base question is answered with exactly [kb_tool]'s text.

    - [Reco]: the recommender, with [_HAS_RAPIDFUZZ] as a section variable
      so that both branches of [fuzzy_pick] are covered: [re.sub] and
      [re.fullmatch] (in [Regex]) serve [parse_money_token].  Theorems:
      [recommend_from_text] returns the first [top_n] cleaned rows meeting
      the preferences read from the text, cheapest first (a refinement of
      a one-filter specification); [canonicalize_brand] returns a brand of
      its list; the brand/model index is sorted and duplicate-free; and
      [parse_price_hint] never returns a range, because its
      range branch reads the multiplier group, which a lemma of [Regex] on
      the captures of [re.search] ([re_search_group_ok]) shows to be a
      multiplier word.  The findings on [mil]/[millones], a bare year read
      as a price cap and the fallback's substring test are evaluated on the
      test fixture.
    - [Load]: the catalogue loaders: [_normalize_columns] and
      [_load_catalog] of tools.py and the recommender's [load_catalog],
      over a frame given as its list of columns (a label may occur twice);
      [read_csv] and [pd.to_numeric] on one field are parameters.
      Theorems: the column-by-column normalisation equals a row-by-row
      reading of the CSV lines; it raises only for a missing required
      column, a duplicated typed column or a non-whole year; the
      recommender's rows all have a positive price and a brand and a
      model.  A missing brand becomes the text ["nan"] (a finding).

    ** Modelling choices

    - Strings are lists of Unicode code points; literals of the source are
      written as they are ([utxt] decodes the UTF-8 of the file), so the
      reply texts read like router.py; [unidecode] is modelled on
      Latin-1 (and the ellipsis), the characters the code and the tests use.
      [\d] is the ASCII digits.
    - Python floats are exact rationals [Q]; rounding is not modelled,
      except the round-half-even of the [".0f"] and [".1f"] formats.
    - The recommender's dicts of rows are the rows themselves; its
      [top_n] is a [nat] (a negative [head(n)] is not modelled).
      Integers are [Z] or [nat] (Python's are unbounded).
    - dicts keyed by channel are stdpp [gmap]s; the filter dict is a record
      of optional fields (a key set to [None] is never stored); dict
      literals are association lists.
    - Aliasing: [retrieve_cars] returns the dict it mutated; the caller
      stores it back exactly where the Python object is the stored one.
    - The catalog is a list of rows (a Section variable); the iteration
      order of the [SYNONYMS["km"]] set, which depends on the hash seed, is
      a parameter.

    ** Fuel and bounds

    - The matcher's star loop runs on fuel [S (length rest)]: an iteration
      must consume a code point, so the fuel is never exhausted
      ([Regex.star_loop_complete]); [re.search] tries the [length + 1]
      start positions; [findall] takes at most [length + 1] matches, one per
      position at least.
    - [remove_all] ([str.replace]) runs on fuel [length s]; each step
      consumes a code point when the pattern is not empty.
    - [str(n)] divides by ten on fuel [1 + log2 n]: [n < 2 ^ (1 + log2 n)
      <= 10 ^ (1 + log2 n)], so every fuel above [log2 n] gives the same
      digits ([Format.str_N_fuel]).
    - [chunk_text]'s loop gets fuel [1 + length] of the stripped text:
      with [overlap < chunk_size] each round moves [start] forward by
      [chunk_size - overlap >= 1], so it ends within that many rounds and
      any more fuel gives the same chunks ([Kb.chunk_text_windows]); with
      [overlap >= chunk_size] no fuel is enough ([Kb.chunk_text_diverges]).
    - [_chunk_for_whatsapp]'s comprehension runs on fuel [length s]: each
      piece takes at least one code point.
    - The end of pagination is shown by well-founded induction on the
      pair (how much the echo can still fill in the saved search, count
      minus the next offset), ordered lexicographically.

    ** What is not modelled

    - I/O and libraries the code only calls: FastAPI's routing and request
      parsing, the constant [/] and [/health] answers, the XML of
      [MessagingResponse] (a response is its list of messages), pydantic's
      [schemas.py]; the FAISS index, the sentence-transformers embeddings
      and the OpenAI client, which are the fields of [Kb.backend]; the
      embedding, indexing and file writing of build_faiss's [main].
    - Of the catalogue loading: [read_csv] itself (its dtype inference:
      every cell is the text of its field) and [pd.to_numeric] on one
      field (a parameter), the columns [normalize_catalog_df] adds (nothing
      reads them), and the one-off script [normalizar_catalogo.py], which
      renames and rewrites the CSV file.
    - The [COTIZA_HELP] text, which nothing uses.  ([_send_lead_stub],
      [_format_car] and [_format_filters] are not called either; they are
      modelled in [Replies] and [Format].) *)

From stdpp Require Import base list option gmap sets.
From Stdlib Require Import ZArith Lia.

Declare Scope chat_scope.
Delimit Scope chat_scope with chat.

Create HintDb chat discriminated.
Create Rewrite HintDb chat_rw.

(** Invert a hypothesis and clean up. *)
Ltac invc H := inversion H; subst; clear H.

(** Case on every [if]/[match] in the goal whose scrutinee is a boolean test,
    remembering the equation. *)
Ltac case_if :=
  match goal with
  | |- context [if ?b then _ else _] => let E := fresh "E" in destruct b eqn:E
  end.

(** ** Python slicing [l[o : o + n]] on a list (as [DataFrame.iloc]) *)

Definition slice {A} (l : list A) (o n : nat) : list A := take n (drop o l).

Section Slice.
Context {A : Type}.
Implicit Types l : list A.

Lemma slice_app l o a b :
  slice l o a ++ slice l (o + a) b = slice l o (a + b).
Proof.
  unfold slice. rewrite <- (take_take_drop (drop o l) a b), drop_drop. done.
Qed.

Lemma length_slice l o n : length (slice l o n) = min n (length l - o).
Proof. unfold slice. rewrite length_take, length_drop. lia. Qed.

Lemma slice_past_end l o n : length l <= o -> slice l o n = [].
Proof. intros H. unfold slice. rewrite drop_ge by lia. by rewrite take_nil. Qed.

Lemma slice_all l : slice l 0 (length l) = l.
Proof. unfold slice. rewrite drop_0. apply take_ge. lia. Qed.

Lemma slice_lookup l o n i x :
  slice l o n !! i = Some x -> i < n /\ l !! (o + i) = Some x.
Proof.
  unfold slice. intros H.
  destruct (decide (i < n)) as [Hi|Hi].
  - rewrite lookup_take_lt in H by lia. rewrite lookup_drop in H. done.
  - rewrite lookup_take_ge in H by lia. done.
Qed.

Lemma slice_map {B} (f : A -> B) l o n : slice (map f l) o n = map f (slice l o n).
Proof. unfold slice. by rewrite <- fmap_drop, <- fmap_take. Qed.
End Slice.

#[export] Hint Rewrite @length_slice : chat_rw.
#[export] Hint Resolve slice_past_end : chat.

(** ** Python [dict.get(k, d)] *)

Definition get_or `{Countable K} {V} (m : gmap K V) (k : K) (d : V) : V :=
  default d (m !! k).

Lemma get_or_insert_eq `{Countable K} {V} (m : gmap K V) k v d :
  get_or (<[k:=v]> m) k d = v.
Proof. unfold get_or. by rewrite lookup_insert_eq. Qed.

Lemma get_or_insert_ne `{Countable K} {V} (m : gmap K V) k k' v d :
  k <> k' -> get_or (<[k:=v]> m) k' d = get_or m k' d.
Proof. intros. unfold get_or. by rewrite lookup_insert_ne. Qed.

#[export] Hint Rewrite @get_or_insert_eq : chat_rw.

(** ** Boolean comparisons on [N] *)

(** Turn the comparisons of a goal into case splits, closing contradictory
    branches with [lia] as they appear. *)
Ltac nbool :=
  repeat (match goal with
          | |- context [N.leb ?a ?b] => destruct (N.leb_spec a b)
          | |- context [N.ltb ?a ?b] => destruct (N.ltb_spec a b)
          | |- context [N.eqb ?a ?b] => destruct (N.eqb_spec a b)
          | H : context [N.leb ?a ?b] |- _ => destruct (N.leb_spec a b)
          | H : context [N.ltb ?a ?b] |- _ => destruct (N.ltb_spec a b)
          | H : context [N.eqb ?a ?b] |- _ => destruct (N.eqb_spec a b)
          end; cbn [andb orb negb] in *; try discriminate; try lia).

(** ** Lists *)

Lemma Forall_weaken {A} (P Q : A -> Prop) (l : list A) :
  Forall P l -> (forall x, P x -> Q x) -> Forall Q l.
Proof. induction 1; constructor; auto. Qed.

Lemma Forall2_weaken {A B} (P Q : A -> B -> Prop) (l : list A) (k : list B) :
  Forall2 P l k -> (forall x y, P x y -> Q x y) -> Forall2 Q l k.
Proof. induction 1; constructor; auto. Qed.

(** ** Python dict literals as association lists *)

(** [d.get(k)] on a dict literal [{k1: v1, k2: v2, ...}]. *)
Fixpoint assoc `{EqDecision K} {V} (tbl : list (K * V)) (k : K) : option V :=
  match tbl with
  | [] => None
  | (k', v) :: t => if decide (k = k') then Some v else assoc t k
  end.

Lemma assoc_elem_of `{EqDecision K} {V} (tbl : list (K * V)) k v :
  assoc tbl k = Some v -> (k, v) ∈ tbl.
Proof.
  induction tbl as [|[k' v'] t IH]; simpl; [done|].
  case_decide; [intros [= <-]; subst; left|intros; right; auto].
Qed.

Lemma assoc_complete `{EqDecision K} {V} (tbl : list (K * V)) k v :
  NoDup tbl.*1 -> (k, v) ∈ tbl -> assoc tbl k = Some v.
Proof.
  induction tbl as [|[k' v'] t IH]; simpl; intros Hnd Hin; [set_solver|].
  apply NoDup_cons in Hnd as [Hk Hnd].
  apply elem_of_cons in Hin as [[= -> ->]|Hin]; case_decide; subst; try done.
  - exfalso. apply Hk. apply list_elem_of_fmap. by exists (k', v).
  - by apply IH.
Qed.
