(* ===== verification/Text.v ===== *)
(** * Text: code-point strings and [norm_txt]

    Python [str] values are sequences of Unicode code points; they are
    modelled as [list N].  [txt] turns an ASCII literal into such a list, so
    that concrete inputs read as in the source.

    This file models [norm_txt] of [app/nlp/normalize.py] (lines 21-28):
    [unidecode], [strip], [lower] and [re.sub(r"\s+", " ", s)], and the
    string helpers the rest of the code uses ([str.split], [in],
    [str.isdigit], [int]).  [unidecode] is a library: it is modelled on
    ASCII and Latin-1 (accented letters lose their accent, [ñ] becomes [n],
    [¿]/[¡] become [?]/[!], the no-break space a space); other code points
    are dropped.  [str.lower] is modelled on ASCII and Latin-1 capitals. *)

From stdpp Require Import base list option.
From Stdlib Require Import NArith ZArith Lia.
From Stdlib Require String Ascii.
Export String.StringSyntax.
From S2P Require Import Prelude.

Local Open Scope N_scope.

Definition text := list N.

(** An ASCII literal as a list of code points. *)
Definition txt (s : String.string) : text :=
  map Ascii.N_of_ascii (String.list_ascii_of_string s).
Arguments txt s%_string_scope.

(** A literal of the source as it is written: the file is UTF-8, so a
    literal with accents or symbols is the UTF-8 decoding of its bytes. *)
Fixpoint utf8_decode (bs : list N) : text :=
  match bs with
  | [] => []
  | b :: r =>
      if b <? 128 then b :: utf8_decode r
      else if b <? 224 then
        match r with
        | b1 :: r1 => ((b - 192) * 64 + (b1 - 128)) :: utf8_decode r1
        | [] => []
        end
      else if b <? 240 then
        match r with
        | b1 :: b2 :: r2 => ((b - 224) * 4096 + (b1 - 128) * 64 + (b2 - 128)) :: utf8_decode r2
        | _ => []
        end
      else
        match r with
        | b1 :: b2 :: b3 :: r3 =>
            ((b - 240) * 262144 + (b1 - 128) * 4096 + (b2 - 128) * 64 + (b3 - 128))
              :: utf8_decode r3
        | _ => []
        end
  end.

Definition utxt (s : String.string) : text :=
  utf8_decode (map Ascii.N_of_ascii (String.list_ascii_of_string s)).
Arguments utxt s%_string_scope.

(** Latin-1 letters of the source's Spanish patterns. *)
Definition a_acute : N := 225.   (* á *)
Definition e_acute : N := 233.   (* é *)
Definition i_acute : N := 237.   (* í *)
Definition o_acute : N := 243.   (* ó *)
Definition u_acute : N := 250.   (* ú *)
Definition n_tilde : N := 241.   (* ñ *)
Definition ellipsis : N := 8230. (* … *)

(** ** Character classes *)

(** [str.isspace] and the [\s] class of Python's [re] on [str] patterns. *)
Definition is_space (c : N) : bool :=
  ((9 <=? c) && (c <=? 13)) || ((28 <=? c) && (c <=? 32)) || (c =? 133)
  || (c =? 160) || (c =? 5760) || ((8192 <=? c) && (c <=? 8202))
  || (c =? 8232) || (c =? 8233) || (c =? 8239) || (c =? 8287) || (c =? 12288).

(** [28 <= c <= 31] are separators, [32] the space: both are [isspace]. *)

(** The ASCII digit class [\d] (and [str.isdigit] on ASCII). *)
Definition is_digit (c : N) : bool := (48 <=? c) && (c <=? 57).

Definition is_upper (c : N) : bool :=
  ((65 <=? c) && (c <=? 90)) || ((192 <=? c) && (c <=? 222) && negb (c =? 215)).

(** [str.lower] on one code point. *)
Definition lower_char (c : N) : N := if is_upper c then c + 32 else c.

Definition lower (s : text) : text := map lower_char s.

(** ** [unidecode] on Latin-1 *)

Definition unidecode_char (c : N) : text :=
  if c <? 128 then [c]
  else if c =? 160 then [32]
  else if c =? 161 then [33]
  else if c =? 191 then [63]
  else if (192 <=? c) && (c <=? 197) then [65]
  else if c =? 198 then [65; 69]
  else if c =? 199 then [67]
  else if (200 <=? c) && (c <=? 203) then [69]
  else if (204 <=? c) && (c <=? 207) then [73]
  else if c =? 208 then [68]
  else if c =? 209 then [78]
  else if ((210 <=? c) && (c <=? 214)) || (c =? 216) then [79]
  else if c =? 215 then [120]
  else if (217 <=? c) && (c <=? 220) then [85]
  else if c =? 221 then [89]
  else if c =? 222 then [84; 104]
  else if c =? 223 then [115; 115]
  else if (224 <=? c) && (c <=? 229) then [97]
  else if c =? 230 then [97; 101]
  else if c =? 231 then [99]
  else if (232 <=? c) && (c <=? 235) then [101]
  else if (236 <=? c) && (c <=? 239) then [105]
  else if c =? 240 then [100]
  else if c =? 241 then [110]
  else if ((242 <=? c) && (c <=? 246)) || (c =? 248) then [111]
  else if c =? 247 then [47]
  else if (249 <=? c) && (c <=? 252) then [117]
  else if (c =? 253) || (c =? 255) then [121]
  else if c =? 254 then [116; 104]
  else if c =? 8230 then [46; 46; 46]
  else [].

Definition unidecode (s : text) : text := concat (map unidecode_char s).

(** ** [str.strip] and [re.sub(r"\s+", " ", s)] *)

Fixpoint drop_spaces (s : text) : text :=
  match s with
  | [] => []
  | c :: s' => if is_space c then drop_spaces s' else s
  end.

Definition strip (s : text) : text := rev (drop_spaces (rev (drop_spaces s))).

(** [collapse_ws pending s]: [pending] is set while a run of whitespace has
    been read and its single replacement space not yet written. *)
Fixpoint collapse_ws (pending : bool) (s : text) : text :=
  match s with
  | [] => if pending then [32] else []
  | c :: s' =>
      if is_space c then collapse_ws true s'
      else (if pending then [32; c] else [c]) ++ collapse_ws false s'
  end.

(** [norm_txt] (normalize.py:21-28): [unidecode(s or "")], then
    [.strip().lower()], then [re.sub(r"\s+", " ", s)]. *)
Definition norm_txt (s : text) : text :=
  collapse_ws false (lower (strip (unidecode s))).

(** [norm_txt(None)]: the [s or ""] of the source. *)
Definition norm_txt_opt (s : option text) : text := norm_txt (default [] s).

(** ** [str.split()] with no separator: maximal runs of non-space. *)

Fixpoint split_aux (cur : text) (s : text) : list text :=
  match s with
  | [] => match cur with [] => [] | _ => [rev cur] end
  | c :: s' =>
      if is_space c then match cur with [] => [] | _ => [rev cur] end ++ split_aux [] s'
      else split_aux (c :: cur) s'
  end.

Definition split (s : text) : list text := split_aux [] s.

(** ** Substring test ([x in s]) and prefixes *)

Fixpoint is_prefix (p s : text) : bool :=
  match p, s with
  | [], _ => true
  | c :: p', d :: s' => (c =? d)%N && is_prefix p' s'
  | _ :: _, [] => false
  end.

Fixpoint contains (s p : text) : bool :=
  is_prefix p s || match s with [] => false | _ :: s' => contains s' p end.

(** ** Properties of the normaliser *)

Definition is_ascii (c : N) : bool := c <? 128.

(** Whitespace runs are single spaces, with [prev] telling whether the
    previous character was one. *)
Fixpoint single_spaced (prev : bool) (s : text) : bool :=
  match s with
  | [] => true
  | c :: s' =>
      if is_space c then (c =? 32) && negb prev && single_spaced true s'
      else single_spaced false s'
  end.

Definition head_nonspace (s : text) : bool :=
  match s with c :: _ => negb (is_space c) | [] => true end.

Definition last_nonspace (s : text) : bool := head_nonspace (rev s).

(** What [norm_txt] returns: ASCII, lower case, single-spaced and stripped. *)
Definition normalized (s : text) : Prop :=
  Forall (fun c => is_ascii c = true /\ lower_char c = c) s /\
  single_spaced false s = true /\ head_nonspace s = true /\
  last_nonspace s = true.

(** *** Character facts *)

Lemma is_upper_range c :
  is_upper c = true -> (65 <= c <= 90) \/ (192 <= c <= 222).
Proof. unfold is_upper. nbool. Qed.

Lemma is_space_lower_char c : is_space (lower_char c) = is_space c.
Proof.
  unfold lower_char. destruct (is_upper c) eqn:E; [|done].
  apply is_upper_range in E. unfold is_space. nbool.
Qed.

Lemma lower_char_idem c : lower_char (lower_char c) = lower_char c.
Proof.
  unfold lower_char. destruct (is_upper c) eqn:E; [|by rewrite E].
  apply is_upper_range in E. unfold is_upper. nbool.
Qed.

Lemma lower_char_ascii c : is_ascii c = true -> is_ascii (lower_char c) = true.
Proof.
  unfold is_ascii, lower_char. intros H.
  destruct (is_upper c) eqn:E; [|done]. apply is_upper_range in E. nbool.
Qed.

Lemma lower_char_32 : lower_char 32 = 32.
Proof. reflexivity. Qed.

Lemma unidecode_char_ascii c : Forall (fun d => is_ascii d = true) (unidecode_char c).
Proof.
  unfold unidecode_char.
  repeat (case_if; [repeat constructor; try done; unfold is_ascii; nbool|]).
  constructor.
Qed.

Lemma unidecode_ascii s : Forall (fun d => is_ascii d = true) (unidecode s).
Proof.
  unfold unidecode. induction s as [|c s IH]; simpl; [constructor|].
  apply Forall_app. split; [apply unidecode_char_ascii | exact IH].
Qed.

Lemma unidecode_id s : Forall (fun d => is_ascii d = true) s -> unidecode s = s.
Proof.
  unfold unidecode. induction 1 as [|c s Hc _ IH]; simpl; [done|].
  unfold is_ascii in Hc. unfold unidecode_char at 1. rewrite Hc. cbn. f_equal. exact IH.
Qed.

(** *** Stripping *)

Lemma drop_spaces_head s : head_nonspace (drop_spaces s) = true.
Proof.
  induction s as [|c s IH]; simpl; [done|]. destruct (is_space c) eqn:E; [done|].
  simpl. by rewrite E.
Qed.

Lemma drop_spaces_id s : head_nonspace s = true -> drop_spaces s = s.
Proof. destruct s as [|c s]; simpl; [done|]. by destruct (is_space c). Qed.

Lemma drop_spaces_app x y :
  head_nonspace y = true -> drop_spaces (x ++ y) = drop_spaces x ++ y.
Proof.
  intros Hy. induction x as [|c x IH]; simpl; [by apply drop_spaces_id|].
  by destruct (is_space c).
Qed.

Lemma Forall_drop_spaces (P : N -> Prop) s : Forall P s -> Forall P (drop_spaces s).
Proof.
  induction 1 as [|c s Hc Hs IH]; simpl; [constructor|].
  destruct (is_space c); [exact IH | by constructor].
Qed.

Lemma Forall_strip (P : N -> Prop) s : Forall P s -> Forall P (strip s).
Proof.
  intros H. unfold strip. apply Forall_rev, Forall_drop_spaces, Forall_rev.
  by apply Forall_drop_spaces.
Qed.

Lemma strip_head s : head_nonspace (strip s) = true.
Proof.
  unfold strip. pose proof (drop_spaces_head s) as H.
  destruct (drop_spaces s) as [|c t]; [done|]. simpl in H |- *.
  rewrite drop_spaces_app by (simpl; done). rewrite rev_app_distr. simpl. done.
Qed.

Lemma strip_last s : last_nonspace (strip s) = true.
Proof. unfold last_nonspace, strip. rewrite rev_involutive. apply drop_spaces_head. Qed.

Lemma strip_id s : head_nonspace s = true -> last_nonspace s = true -> strip s = s.
Proof.
  unfold strip, last_nonspace. intros Hh Hl.
  rewrite (drop_spaces_id s Hh), (drop_spaces_id _ Hl). apply rev_involutive.
Qed.

(** *** Collapsing whitespace *)

Lemma Forall_collapse_ws (P : N -> Prop) b s :
  P 32 -> Forall P s -> Forall P (collapse_ws b s).
Proof.
  intros H32 Hs. revert b. induction Hs as [|c s Hc Hs IH]; intros b; simpl.
  - destruct b; repeat constructor; done.
  - destruct (is_space c); [apply IH|].
    apply Forall_app; split; [destruct b; repeat constructor; done | apply IH].
Qed.

Lemma collapse_ws_single b s : single_spaced false (collapse_ws b s) = true.
Proof.
  revert b. induction s as [|c s IH]; intros b; simpl; [by destruct b|].
  destruct (is_space c) eqn:E; [apply IH|].
  destruct b; simpl; rewrite E; apply IH.
Qed.

Lemma collapse_ws_id s :
  (single_spaced false s = true -> collapse_ws false s = s) /\
  (single_spaced true s = true -> collapse_ws true s = 32 :: s).
Proof.
  induction s as [|c s [IH1 IH2]]; simpl; [split; intros; done|].
  destruct (is_space c) eqn:E.
  - split; [|intros H; by destruct (c =? 32)]. intros H. apply andb_prop in H as [H Hs].
    apply andb_prop in H as [H _]. apply N.eqb_eq in H. subst. by apply IH2.
  - split; intros H; simpl; by rewrite IH1.
Qed.

Lemma collapse_ws_head s : head_nonspace s = true -> head_nonspace (collapse_ws false s) = true.
Proof.
  destruct s as [|c s]; simpl; [done|]. intros H.
  apply negb_true_iff in H. rewrite H. simpl. by rewrite H.
Qed.

Lemma last_nonspace_app x y :
  last_nonspace y = true -> (y = [] -> last_nonspace x = true) ->
  last_nonspace (x ++ y) = true.
Proof.
  unfold last_nonspace. intros Hy Hx. rewrite rev_app_distr.
  destruct (rev y) eqn:E; [|done]. apply (f_equal (@rev N)) in E.
  rewrite rev_involutive in E. simpl. by apply Hx.
Qed.

Lemma last_nonspace_cons c s :
  last_nonspace (c :: s) = true -> s <> [] -> last_nonspace s = true.
Proof.
  unfold last_nonspace. simpl. intros H Hs.
  destruct (rev s) eqn:E; [|done]. apply (f_equal (@rev N)) in E.
  rewrite rev_involutive in E. done.
Qed.

Lemma collapse_ws_last b s :
  (s <> [] \/ b = false) -> last_nonspace s = true -> last_nonspace (collapse_ws b s) = true.
Proof.
  revert b. induction s as [|c s IH]; intros b Hne Hl; simpl.
  - destruct Hne as [Hne| ->]; done.
  - destruct (is_space c) eqn:E.
    + destruct s as [|d s]; [unfold last_nonspace in Hl; simpl in Hl; by rewrite E in Hl|].
      apply IH; [by left | by eapply last_nonspace_cons].
    + apply last_nonspace_app; [|intros _].
      * destruct s as [|d s]; [by destruct b|].
        apply IH; [by left | by eapply last_nonspace_cons].
      * unfold last_nonspace. destruct b; simpl; by rewrite E.
Qed.

(** *** Lower case *)

Lemma head_nonspace_lower s : head_nonspace (lower s) = head_nonspace s.
Proof. destruct s; simpl; [done|]. by rewrite is_space_lower_char. Qed.

Lemma last_nonspace_lower s : last_nonspace (lower s) = last_nonspace s.
Proof. unfold last_nonspace, lower. rewrite <- map_rev. apply head_nonspace_lower. Qed.

Lemma lower_id s : Forall (fun c => lower_char c = c) s -> lower s = s.
Proof. induction 1; simpl; [done|]. unfold lower in *. by f_equal. Qed.

(** *** The normaliser's output and idempotence *)

Lemma norm_txt_normalized s : normalized (norm_txt s).
Proof.
  unfold norm_txt, normalized.
  set (w := strip (unidecode s)).
  assert (Hw : Forall (fun c => is_ascii c = true) w)
    by apply Forall_strip, unidecode_ascii.
  repeat split.
  - apply Forall_collapse_ws; [done|]. unfold lower. apply Forall_map.
    apply (Forall_weaken _ _ _ Hw). intros c Hc.
    split; [by apply lower_char_ascii | apply lower_char_idem].
  - apply collapse_ws_single.
  - apply collapse_ws_head. rewrite head_nonspace_lower. apply strip_head.
  - apply collapse_ws_last; [by right|]. rewrite last_nonspace_lower. apply strip_last.
Qed.

Lemma norm_txt_fixpoint s : normalized s -> norm_txt s = s.
Proof.
  intros (Hc & Hsp & Hh & Hl). unfold norm_txt.
  rewrite unidecode_id by (apply (Forall_weaken _ _ _ Hc); by intros c []).
  rewrite strip_id by done.
  rewrite lower_id by (apply (Forall_weaken _ _ _ Hc); by intros c []).
  by apply collapse_ws_id.
Qed.

(** *** Substrings and stripping *)

Lemma strip_idem s : strip (strip s) = strip s.
Proof. apply strip_id; [apply strip_head|apply strip_last]. Qed.

Lemma lower_app x y : lower (x ++ y) = lower x ++ lower y.
Proof. apply map_app. Qed.

Lemma is_prefix_elem p s c : is_prefix p s = true -> c ∈ p -> c ∈ s.
Proof.
  revert s. induction p as [|d p IH]; intros s Hp Hc; [by apply elem_of_nil in Hc|].
  destruct s as [|e s]; [done|]. simpl in Hp. apply andb_true_iff in Hp as [He Hp].
  apply N.eqb_eq in He as ->. apply elem_of_cons in Hc as [->|Hc]; [by left|].
  right. by apply (IH s).
Qed.

(** Every character of a substring is a character of the string. *)
Lemma contains_elem s p c : contains s p = true -> c ∈ p -> c ∈ s.
Proof.
  induction s as [|d s IH]; simpl; intros Hs Hc.
  - rewrite orb_false_r in Hs. by apply (is_prefix_elem p []).
  - apply orb_true_iff in Hs as [Hs|Hs]; [by apply (is_prefix_elem p)|]. right. by apply IH.
Qed.

Lemma contains_app_r x y p : contains y p = true -> contains (x ++ y) p = true.
Proof. intros H. induction x as [|c x IH]; simpl; [done|]. by rewrite IH, orb_true_r. Qed.

Lemma contains_nil_inv p : contains [] p = true -> p = [].
Proof. destruct p; simpl; [done|discriminate]. Qed.

#[export] Hint Resolve contains_app_r strip_head strip_last : chat.
#[export] Hint Rewrite strip_idem lower_app : chat_rw.


Example norm_txt_example :
  norm_txt ([32; 32] ++ txt "Busco  NISSAN" ++ [9; 160] ++ txt "m" ++ [225] ++ txt "s  ")
  = txt "busco nissan mas".
Proof. reflexivity. Qed.
