(* ===== verification/Finance.v ===== *)
(** * Finance: monthly payments and finance plans

    Models [monthly_payment] (tools.py:356-374), [finance_plan]
    (tools.py:380-393), the payment arithmetic of [cotiza_car]
    (tools.py:415-423), the snapping of a requested term to the allowed terms
    in [_parse_term] (intent.py:186-189), and the constants of
    [app/settings.py].

    Python floats are modelled as exact rationals: the theorems state the
    exact annuity contract of the spec (section 4.6); the rounding of the
    float computation is not modelled.  The one exception Python can raise
    here, [ZeroDivisionError] on [(1 + r) ** n - 1 == 0], is kept: the
    operations return [None] for it.  [(1 + r) ** n] is only evaluated for
    [n > 0], where it is the [Z.to_nat n]-fold product [qpow]. *)

From stdpp Require Import base list option sets.
From Stdlib Require Import ZArith QArith Qfield Lqa Lia Sorting.Sorted.
From S2P Require Import Prelude.

Set Warnings "-clear-no-such-hyp".

(** ** Settings (settings.py) *)

(** [KAVAK_ANNUAL_RATE] defaults to 0.10 when the environment does not set it. *)
Definition KAVAK_ANNUAL_RATE : Q := 1 # 10.
Definition ALLOWED_TERMS : list Z := [36; 48; 60; 72]%Z.
Definition DEFAULT_TERM : Z := 48.

(** ** Powers and the payment formula *)

(** Python's [max(a, b)]: [b] only when [b > a]. *)
Definition py_max (a b : Q) : Q := if Qlt_le_dec a b then b else a.

Fixpoint qpow (x : Q) (k : nat) : Q :=
  match k with O => 1 | S k => x * qpow x k end.

(** [monthly_payment(price, down_payment, term, annual_rate)]. *)
Definition monthly_payment (price down_payment : Q) (term : Z) (annual_rate : option Q)
  : option Q :=
  let principal := py_max (price - down_payment) 0 in
  let n := term in
  let rate := default KAVAK_ANNUAL_RATE annual_rate in
  if (n <=? 0)%Z || Qle_bool principal 0 then Some 0
  else
    let r := rate / 12 in
    if Qeq_bool r 0 then Some (principal / inject_Z n)
    else
      let x := qpow (1 + r) (Z.to_nat n) in
      if Qeq_bool (x - 1) 0 then None  (* ZeroDivisionError *)
      else Some (principal * (r * x) / (x - 1)).

(** One plan line: [{"term_months": int(term), "monthly": float(m)}]. *)
Record plan_line := { term_months : Z; monthly : Q }.

(** [finance_plan(price, down_payment, terms, annual_rate)]: one line per
    term, in the order given; [ALLOWED_TERMS] when no terms are given.  An
    exception from [monthly_payment] propagates. *)
Definition finance_plan (price down_payment : Q) (terms : option (list Z))
    (annual_rate : option Q) : option (list plan_line) :=
  let plan_terms := default ALLOWED_TERMS terms in
  let rate := default KAVAK_ANNUAL_RATE annual_rate in
  mapM (fun term =>
          m ← monthly_payment price down_payment term (Some rate);
          Some {| term_months := term; monthly := m |}) plan_terms.

(** The payment computed inline by [cotiza_car] (tools.py:415-423). *)
Definition cotiza_monthly (price down_payment : Q) (term : option Z) (annual_rate : option Q)
  : option Q :=
  let rate := default KAVAK_ANNUAL_RATE annual_rate in
  let n := default DEFAULT_TERM term in
  let principal := py_max (price - down_payment) 0 in
  let r := rate / 12 in
  if (n <=? 0)%Z || Qle_bool principal 0 || Qle_bool r 0 then
    Some (if (0 <? n)%Z then principal / inject_Z n else 0)
  else
    let x := qpow (1 + r) (Z.to_nat n) in
    if Qeq_bool (x - 1) 0 then None
    else Some (principal * (r * x) / (x - 1)).

(** ** Snapping a term to the allowed terms (intent.py:186-189) *)

(** Python's [min(xs, key=f)]: the first element of minimal key.  [None] is
    the [ValueError] of an empty sequence. *)
Fixpoint min_by_from (key : Z -> Z) (best : Z) (l : list Z) : Z :=
  match l with
  | [] => best
  | x :: l' => if (key x <? key best)%Z then min_by_from key x l' else min_by_from key best l'
  end.

Definition min_by (key : Z -> Z) (l : list Z) : option Z :=
  match l with [] => None | x :: l' => Some (min_by_from key x l') end.

(** [if term not in ALLOWED_TERMS: term = min(ALLOWED_TERMS, key=lambda x: abs(x - term))] *)
Definition snap_term (allowed : list Z) (term : Z) : option Z :=
  if decide (term ∈ allowed) then Some term
  else min_by (fun x => Z.abs (x - term)) allowed.

(** ** The amortization schedule *)

(** Balance after [k] monthly payments of [m] at monthly rate [r]. *)
Fixpoint balance (principal r m : Q) (k : nat) : Q :=
  match k with
  | O => principal
  | S k => balance principal r m k * (1 + r) - m
  end.

(** Equality of optional results up to [Qeq] (a raised exception is [None]). *)
Definition oqeq (x y : option Q) : Prop :=
  match x, y with
  | Some a, Some b => a == b
  | None, None => True
  | _, _ => False
  end.

(** ** Lemmas on the arithmetic *)

Lemma qpow_gt1 x k : 1 < x -> (0 < k)%nat -> 1 < qpow x k.
Proof.
  intros Hx Hk. induction k as [|[|k] IH]; [lia| |]; simpl.
  - lra.
  - simpl in IH. assert (1 < x * qpow x k) by (apply IH; lia). nra.
Qed.

Lemma py_max_nonneg a : 0 <= py_max a 0.
Proof. unfold py_max. destruct (Qlt_le_dec a 0); lra. Qed.

Lemma py_max_pos a : 0 < a -> py_max a 0 = a.
Proof. unfold py_max. intros H. destruct (Qlt_le_dec a 0); [lra | done]. Qed.

Lemma Qdiv_12_pos a : 0 < a -> 0 < a / 12.
Proof. intros H. unfold Qdiv. apply Qmult_lt_0_compat; [done | reflexivity]. Qed.

Lemma Qdiv_12_zero a : a / 12 == 0 -> a == 0.
Proof.
  unfold Qdiv. intros H. assert (E : a == a * / 12 * 12) by field.
  rewrite E, H. reflexivity.
Qed.

(** The closed form of the balance: [b_k r = P r x^k - m (x^k - 1)], [x = 1 + r]. *)
Lemma balance_closed P r m k :
  balance P r m k * r == P * r * qpow (1 + r) k - m * (qpow (1 + r) k - 1).
Proof.
  induction k as [|k IH]; simpl; [ring|].
  assert (E : (balance P r m k * (1 + r) - m) * r
              == balance P r m k * r * (1 + r) - m * r) by ring.
  rewrite E, IH. ring.
Qed.

Lemma balance_zero_rate P m k : balance P 0 m k == P - inject_Z (Z.of_nat k) * m.
Proof.
  induction k as [|k IH]; simpl; [ring|]. rewrite IH, Nat2Z.inj_succ.
  unfold Z.succ. rewrite inject_Z_plus. simpl. ring.
Qed.

Lemma balance_nil r k : balance 0 r 0 k == 0.
Proof. induction k as [|k IH]; simpl; [reflexivity|]. rewrite IH. ring. Qed.

#[export] Hint Resolve qpow_gt1 py_max_nonneg Qdiv_12_pos : chat.

#[export] Instance balance_proper : Proper (Qeq ==> Qeq ==> Qeq ==> eq ==> Qeq) balance.
Proof.
  intros P P' HP r r' Hr m m' Hm k ? <-.
  induction k as [|k IH]; simpl; [done|]. by rewrite IH, Hr, Hm.
Qed.

Lemma Qmult_r_integral b r : b * r == 0 -> ~ r == 0 -> b == 0.
Proof. intros H Hr. destruct (Qmult_integral _ _ H); [done | contradiction]. Qed.

(** ** Functional correctness of [monthly_payment] *)

(** with no interest, the payment is the principal over the term, exactly
    (spec section 8: [monthlyPayment(x, y, 48, 0.0) == (x - y) / 48]). *)
Theorem monthly_payment_zero_rate price down n :
  (0 < n)%Z -> down < price ->
  monthly_payment price down n (Some 0) = Some ((price - down) / inject_Z n).
Proof.
  intros Hn Hp. unfold monthly_payment.
  rewrite py_max_pos by lra.
  replace (n <=? 0)%Z with false by lia.
  replace (Qle_bool (price - down) 0) with false
    by (symmetry; apply not_true_iff_false; rewrite Qle_bool_iff; lra).
  done.
Qed.

(** C35: every payment [monthly_payment] returns amortizes the loan: after [n]
    payments of it, at the monthly rate [annual_rate / 12], the balance of the
    principal [max(price - down_payment, 0)] is exactly zero.  This is the
    annuity contract of spec section 4.6, for every rate (zero included). *)
Theorem monthly_payment_amortizes price down n rate m :
  (0 < n)%Z ->
  monthly_payment price down n (Some rate) = Some m ->
  balance (py_max (price - down) 0) (rate / 12) m (Z.to_nat n) == 0.
Proof.
  unfold monthly_payment. intros Hn H.
  replace (n <=? 0)%Z with false in H by lia. simpl in H.
  set (P := py_max (price - down) 0) in *. set (r := rate / 12) in *.
  destruct (Qle_bool P 0) eqn:EP.
  - injection H as <-. apply Qle_bool_iff in EP.
    pose proof (py_max_nonneg (price - down)) as H0. change (0 <= P) in H0.
    assert (HP : P == 0) by lra.
    rewrite HP. apply balance_nil.
  - destruct (Qeq_bool r 0) eqn:Er.
    + injection H as <-. apply Qeq_bool_iff in Er. rewrite Er, balance_zero_rate.
      rewrite Z2Nat.id by lia. field. intros Hz. unfold Qeq in Hz. simpl in Hz. lia.
    + set (x := qpow (1 + r) (Z.to_nat n)) in *.
      destruct (Qeq_bool (x - 1) 0) eqn:Ex; [discriminate|]. injection H as <-.
      apply Qeq_bool_neq in Er, Ex. apply (Qmult_r_integral _ r); [|done].
      rewrite balance_closed. fold x. field. done.
Qed.

Lemma monthly_payment_nonneg price down n rate :
  0 <= rate -> exists m, monthly_payment price down n (Some rate) = Some m /\ 0 <= m.
Proof.
  intros Hr. unfold monthly_payment.
  destruct (n <=? 0)%Z eqn:En; simpl; [eexists; split; [done|lra]|].
  set (P := py_max (price - down) 0).
  assert (HP0 : 0 <= P) by apply py_max_nonneg.
  destruct (Qle_bool P 0) eqn:EP; [eexists; split; [done|lra]|].
  apply not_true_iff_false in EP. rewrite Qle_bool_iff in EP.
  destruct (Qeq_bool (rate / 12) 0) eqn:Er.
  - eexists; split; [done|]. apply Qle_shift_div_l; [|lra].
    unfold Qlt; simpl; lia.
  - apply Qeq_bool_neq in Er.
    assert (Hr12 : 0 < rate / 12).
    { destruct (Qle_lt_or_eq _ _ Hr) as [Hlt|Heq]; [by apply Qdiv_12_pos|].
      exfalso. apply Er. rewrite <- Heq. reflexivity. }
    assert (Hx : 1 < qpow (1 + rate / 12) (Z.to_nat n)) by (apply qpow_gt1; [lra | lia]).
    destruct (Qeq_bool (qpow (1 + rate / 12) (Z.to_nat n) - 1) 0) eqn:Ex.
    + apply Qeq_bool_iff in Ex. lra.
    + eexists; split; [done|]. apply Qle_shift_div_l; [lra|]. rewrite Qmult_0_l.
      apply Qmult_le_0_compat; [lra|]. apply Qmult_le_0_compat; lra.
Qed.

(** [monthly_payment] never raises when the rate is not negative, and
    its payment is not negative. *)
Theorem monthly_payment_total price down n rate :
  0 <= rate -> exists m, monthly_payment price down n (Some rate) = Some m /\ 0 <= m.
Proof. apply monthly_payment_nonneg. Qed.

(** ** [finance_plan] *)

(** [finance_plan] returns one line per requested term (the allowed terms
    when none is given), in the order requested, each carrying
    [monthly_payment] at that term; it fails only when one of those does. *)
Theorem finance_plan_lines price down terms arate ls :
  finance_plan price down terms arate = Some ls ->
  Forall2 (fun t l => term_months l = t /\
             monthly_payment price down t (Some (default KAVAK_ANNUAL_RATE arate))
             = Some (monthly l))
          (default ALLOWED_TERMS terms) ls.
Proof.
  unfold finance_plan. intros H. apply mapM_Some_1 in H.
  apply (Forall2_weaken _ _ _ _ H). intros t l Ht.
  destruct (monthly_payment _ _ _ _) eqn:E; simpl in Ht; [|discriminate].
  by injection Ht as <-.
Qed.

Lemma finance_plan_total price down terms rate :
  0 <= rate -> is_Some (finance_plan price down terms (Some rate)).
Proof.
  intros Hr. unfold finance_plan. apply mapM_is_Some_2, Forall_forall.
  intros t _. simpl. destruct (monthly_payment_nonneg price down t rate Hr) as (m & -> & _).
  by eexists.
Qed.

(** ** The payment of [cotiza_car] *)

(** [cotiza_car]'s payment never divides by zero: its annuity branch runs
    only for a positive monthly rate and a positive term, where
    [(1 + r) ** n > 1]. *)
Lemma cotiza_monthly_total price down term rate :
  is_Some (cotiza_monthly price down term rate).
Proof.
  unfold cotiza_monthly.
  set (r := default KAVAK_ANNUAL_RATE rate / 12). set (n := default DEFAULT_TERM term).
  destruct ((n <=? 0)%Z || _ || Qle_bool r 0) eqn:E; [by eexists|].
  apply orb_false_iff in E as [E Er]. apply orb_false_iff in E as [En _].
  apply not_true_iff_false in Er. rewrite Qle_bool_iff in Er.
  assert (Hx : 1 < qpow (1 + r) (Z.to_nat n)) by (apply qpow_gt1; [lra|lia]).
  destruct (Qeq_bool (qpow (1 + r) (Z.to_nat n) - 1) 0) eqn:Ex; [|by eexists].
  apply Qeq_bool_iff in Ex. lra.
Qed.

(** C36: for a rate that is not negative, the payment [cotiza_car] computes
    inline agrees with [monthly_payment] (up to equality of rationals). *)
Theorem cotiza_monthly_refines price down n rate :
  0 <= rate ->
  oqeq (cotiza_monthly price down (Some n) (Some rate))
       (monthly_payment price down n (Some rate)).
Proof.
  intros Hr. unfold cotiza_monthly, monthly_payment. simpl.
  set (P := py_max (price - down) 0).
  assert (HP0 : 0 <= P) by apply py_max_nonneg.
  destruct (n <=? 0)%Z eqn:En; simpl.
  - replace (0 <? n)%Z with false by lia. reflexivity.
  - replace (0 <? n)%Z with true by lia.
    destruct (Qle_bool P 0) eqn:EP; simpl.
    + apply Qle_bool_iff in EP. assert (HP : P == 0) by lra.
      simpl. rewrite HP. unfold Qdiv. ring.
    + destruct (Qle_bool (rate / 12) 0) eqn:Er.
      * apply Qle_bool_iff in Er.
        assert (Hz : rate / 12 == 0).
        { destruct (Qle_lt_or_eq _ _ Hr) as [Hlt|Heq]; [|rewrite <- Heq; reflexivity].
          pose proof (Qdiv_12_pos _ Hlt). lra. }
        apply Qeq_bool_iff in Hz. rewrite Hz. simpl. reflexivity.
      * apply not_true_iff_false in Er. rewrite Qle_bool_iff in Er.
        replace (Qeq_bool (rate / 12) 0) with false
          by (symmetry; apply not_true_iff_false; rewrite Qeq_bool_iff; lra).
        destruct (Qeq_bool _ 0); simpl; reflexivity.
Qed.

(** With a negative rate the two disagree: [cotiza_car] falls back to the
    interest-free [principal / n] while [monthly_payment] applies the annuity
    formula (finding). *)
Lemma cotiza_monthly_negative_rate :
  ~ oqeq (cotiza_monthly 1200 0 (Some 12%Z) (Some (-12 # 100)))
         (monthly_payment 1200 0 12 (Some (-12 # 100))).
Proof. vm_compute. discriminate. Qed.

(** ** Snapping a requested term *)

Section MinBy.
Context (key : Z -> Z).

Lemma min_by_from_spec best l :
  let s := min_by_from key best l in
  (s = best \/ (s ∈ l /\ (key s < key best)%Z)) /\ (key s <= key best)%Z /\
  Forall (fun y => (key s <= key y)%Z) l.
Proof.
  revert best. induction l as [|x l IH]; intros best; simpl.
  - split; [by left | split; [lia | constructor]].
  - destruct (key x <? key best)%Z eqn:E.
    + destruct (IH x) as (Hs & Hle & Hall). apply Z.ltb_lt in E.
      split; [right; split; [apply elem_of_cons; destruct Hs as [->|[? ?]]; auto | lia]|].
      split; [lia | constructor; [lia | exact Hall]].
    + destruct (IH best) as (Hs & Hle & Hall). apply Z.ltb_ge in E.
      split; [destruct Hs as [->|[? ?]]; [by left | right; split; [apply elem_of_cons; auto | done]]|].
      split; [lia | constructor; [lia | exact Hall]].
Qed.

(** Among elements of equal key, [min] keeps the first; on a strictly
    increasing list that is the smallest one. *)
Lemma min_by_from_ties best l y :
  StronglySorted Z.lt (best :: l) -> y ∈ best :: l ->
  key y = key (min_by_from key best l) -> (min_by_from key best l <= y)%Z.
Proof.
  revert best. induction l as [|x l IH]; intros best Hs Hy Hk; simpl in *.
  - apply list_elem_of_singleton in Hy. lia.
  - inversion Hs as [|? ? Hs' Hf]; subst. inversion Hf as [|? ? Hbx Hbl]; subst.
    destruct (key x <? key best)%Z eqn:E.
    + apply Z.ltb_lt in E. apply elem_of_cons in Hy as [->|Hy]; [|by apply IH].
      destruct (min_by_from_spec x l) as (_ & Hle & _). lia.
    + apply Z.ltb_ge in E. inversion Hs' as [|? ? Hs'' Hf']; subst.
      assert (Hsb : StronglySorted Z.lt (best :: l)) by (constructor; done).
      apply elem_of_cons in Hy as [->|Hy].
      * apply IH; [done | apply elem_of_cons; by left | done].
      * apply elem_of_cons in Hy as [->|Hy].
        -- destruct (min_by_from_spec best l) as ([Hb|[_ Hlt]] & _ & _); [lia|].
           rewrite Hk in E. lia.
        -- apply IH; [done | apply elem_of_cons; by right | done].
Qed.
End MinBy.

Lemma snap_term_some allowed t :
  allowed <> [] -> exists s, snap_term allowed t = Some s /\ s ∈ allowed.
Proof.
  intros Hne. unfold snap_term. destruct (decide (t ∈ allowed)) as [Hin|Hout]; [by exists t|].
  destruct allowed as [|a0 rest]; [done|]. simpl.
  destruct (min_by_from_spec (fun x => Z.abs (x - t)) a0 rest) as (Hmem & _ & _).
  eexists; split; [done|]. apply elem_of_cons.
  destruct Hmem as [Hm|[Hm _]]; [left | right]; done.
Qed.

(** [_parse_term] snaps a requested term to an allowed one: the result
    is allowed, no allowed term is nearer, and of two equally near terms the
    lower is chosen (for a strictly increasing list such as [ALLOWED_TERMS]). *)
Theorem snap_term_nearest allowed t :
  StronglySorted Z.lt allowed -> allowed <> [] ->
  exists s, snap_term allowed t = Some s /\ s ∈ allowed /\
    forall a, a ∈ allowed ->
      (Z.abs (s - t) <= Z.abs (a - t))%Z /\ (Z.abs (a - t) = Z.abs (s - t) -> s <= a)%Z.
Proof.
  intros Hs Hne. unfold snap_term.
  destruct (decide (t ∈ allowed)) as [Hin|Hout].
  - exists t. split; [done|]. split; [done|]. intros a _. lia.
  - destruct allowed as [|a0 rest]; [done|]. simpl.
    set (key := fun x => Z.abs (x - t)).
    destruct (min_by_from_spec key a0 rest) as (Hmem & Hle & Hall).
    eexists; split; [done|]. split.
    + apply elem_of_cons. destruct Hmem as [Hm|[Hm _]]; [left | right]; done.
    + intros a Ha. split.
      * apply elem_of_cons in Ha as [->|Ha]; [exact Hle|].
        rewrite Forall_forall in Hall. by apply Hall.
      * intros Hk. by apply (min_by_from_ties key a0 rest a).
Qed.

Lemma ALLOWED_TERMS_sorted : StronglySorted Z.lt ALLOWED_TERMS.
Proof. unfold ALLOWED_TERMS. repeat constructor; lia. Qed.

Lemma snap_term_nearest_witness :
  snap_term ALLOWED_TERMS 42 = Some 36%Z /\
  exists s, snap_term ALLOWED_TERMS 42 = Some s /\ s ∈ ALLOWED_TERMS /\
    forall a, a ∈ ALLOWED_TERMS ->
      (Z.abs (s - 42) <= Z.abs (a - 42))%Z /\ (Z.abs (a - 42) = Z.abs (s - 42) -> s <= a)%Z.
Proof.
  split; [reflexivity|].
  apply (snap_term_nearest ALLOWED_TERMS 42); [apply ALLOWED_TERMS_sorted | discriminate].
Defined.

(** [finance_plan] computes requested terms as given: a term outside the
    allowed set is not snapped (spec section 4.6 says it is; finding). *)
Lemma finance_plan_keeps_unallowed_term :
  option_map (map term_months) (finance_plan 250000 50000 (Some [42%Z]) None) = Some [42%Z].
Proof. vm_compute. reflexivity. Qed.

(** ** Witnesses at the spec's concrete inputs *)

Lemma monthly_payment_zero_rate_witness :
  monthly_payment 250000 50000 48 (Some 0) = Some ((250000 - 50000) / inject_Z 48).
Proof. apply monthly_payment_zero_rate; [lia | reflexivity]. Defined.

(** [monthlyPayment(250000, 50000, 48, 0.10)] is 5072.54..., and it amortizes. *)
Lemma monthly_payment_amortizes_witness :
  exists m, monthly_payment 250000 50000 48 (Some (1 # 10)) = Some m /\
    (50725 # 10) < m < (50726 # 10) /\
    balance (py_max (250000 - 50000) 0) ((1 # 10) / 12) m (Z.to_nat 48) == 0.
Proof.
  eexists. split; [vm_compute; reflexivity|]. split; [split; vm_compute; reflexivity|].
  apply monthly_payment_amortizes; [lia | vm_compute; reflexivity].
Defined.

Lemma monthly_payment_total_witness :
  exists m, monthly_payment 250000 50000 48 (Some (1 # 10)) = Some m /\ 0 <= m.
Proof. apply monthly_payment_total. discriminate. Defined.

Lemma finance_plan_lines_witness :
  exists ls, finance_plan 200000 20000 (Some [36; 48]%Z) (Some (1 # 10)) = Some ls /\
    Forall2 (fun t l => term_months l = t /\
               monthly_payment 200000 20000 t (Some (default KAVAK_ANNUAL_RATE (Some (1 # 10))))
               = Some (monthly l)) [36; 48]%Z ls.
Proof.
  eexists. split; [vm_compute; reflexivity|].
  apply (finance_plan_lines 200000 20000 (Some [36; 48]%Z) (Some (1 # 10))).
  vm_compute. reflexivity.
Defined.

Lemma cotiza_monthly_refines_witness :
  oqeq (cotiza_monthly 265999 40000 (Some 36%Z) (Some (1 # 10)))
       (monthly_payment 265999 40000 36 (Some (1 # 10))).
Proof. apply cotiza_monthly_refines. discriminate. Defined.
