(* ===== verification/Catalog.v ===== *)
(** * Catalog: rows, numeric filters, ranking and pages

    A catalog row is the record [_normalize_columns] (tools.py:26-77)
    produces: [id], [brand], [model], [version], [year], [km], [price],
    [location], with the normalised columns [_brand_n], [_model_n],
    [_version_n] computed by [norm_txt].  The id is kept as the text of
    [df["id"].astype(str)], the form the router stores and [cotiza_car]
    compares.  Loading and coercing the CSV is not modelled: the spec
    (section 6) leaves malformed fields to the catalog source.

    This file models the second half of [_filtered_df_for_search]
    (tools.py:289-328): the numeric filters, applied one after the other as
    the code does, and the two rankings ([sort_values] is a stable sort;
    it is modelled by stdpp's stable merge sort on the same lexicographic
    keys); [search_cars]'s [iloc[offset:offset+limit]] (tools.py:334-342),
    [search_cars_count] (tools.py:348-350) and the catalog lookup of
    [cotiza_car] (tools.py:399-432).  The lock phase that precedes the
    numeric filters is in [Search]. *)

From stdpp Require Import base list option sorting.
From Stdlib Require Import ZArith QArith Lia.
From S2P Require Import Prelude Text Finance.

Set Warnings "-clear-no-such-hyp".
Local Close Scope Q_scope.

(** ** Rows *)

Record car := {
  car_id : text;
  brand : text;
  model : text;
  version : text;
  year : Z;
  km : Z;
  price : Q;
  location : text
}.

(** The normalised columns of [_normalize_columns] (tools.py:73-75). *)
Definition brand_n (c : car) : text := norm_txt (brand c).
Definition model_n (c : car) : text := norm_txt (model c).
Definition version_n (c : car) : text := norm_txt (version c).

(** The filter dict the router builds (intent.py:463-542), one optional
    field per key it may hold. *)
Record filters := {
  f_raw_text : option text;
  f_brand : option text;
  f_model : option text;
  f_version : option text;
  f_year_min : option Z;
  f_year_max : option Z;
  f_price_min : option Q;
  f_price_max : option Q;
  f_km_max : option Z
}.

Definition no_filters : filters :=
  {| f_raw_text := None; f_brand := None; f_model := None; f_version := None;
     f_year_min := None; f_year_max := None; f_price_min := None;
     f_price_max := None; f_km_max := None |}.

#[export] Instance Q_eq_dec : EqDecision Q.
Proof. solve_decision. Defined.
#[export] Instance car_eq_dec : EqDecision car.
Proof. solve_decision. Defined.
#[export] Instance filters_eq_dec : EqDecision filters.
Proof. solve_decision. Defined.

(** [filters[key] = value], one setter per key the code writes. *)
Definition set_raw_text (v : option text) (f : filters) : filters :=
  {| f_raw_text := v; f_brand := f_brand f; f_model := f_model f; f_version := f_version f;
     f_year_min := f_year_min f; f_year_max := f_year_max f; f_price_min := f_price_min f;
     f_price_max := f_price_max f; f_km_max := f_km_max f |}.
Definition set_brand (v : option text) (f : filters) : filters :=
  {| f_raw_text := f_raw_text f; f_brand := v; f_model := f_model f; f_version := f_version f;
     f_year_min := f_year_min f; f_year_max := f_year_max f; f_price_min := f_price_min f;
     f_price_max := f_price_max f; f_km_max := f_km_max f |}.
Definition set_model (v : option text) (f : filters) : filters :=
  {| f_raw_text := f_raw_text f; f_brand := f_brand f; f_model := v; f_version := f_version f;
     f_year_min := f_year_min f; f_year_max := f_year_max f; f_price_min := f_price_min f;
     f_price_max := f_price_max f; f_km_max := f_km_max f |}.
Definition set_version (v : option text) (f : filters) : filters :=
  {| f_raw_text := f_raw_text f; f_brand := f_brand f; f_model := f_model f; f_version := v;
     f_year_min := f_year_min f; f_year_max := f_year_max f; f_price_min := f_price_min f;
     f_price_max := f_price_max f; f_km_max := f_km_max f |}.
Definition set_year_min (v : option Z) (f : filters) : filters :=
  {| f_raw_text := f_raw_text f; f_brand := f_brand f; f_model := f_model f;
     f_version := f_version f; f_year_min := v; f_year_max := f_year_max f;
     f_price_min := f_price_min f; f_price_max := f_price_max f; f_km_max := f_km_max f |}.
Definition set_price_min (v : option Q) (f : filters) : filters :=
  {| f_raw_text := f_raw_text f; f_brand := f_brand f; f_model := f_model f;
     f_version := f_version f; f_year_min := f_year_min f; f_year_max := f_year_max f;
     f_price_min := v; f_price_max := f_price_max f; f_km_max := f_km_max f |}.
Definition set_price_max (v : option Q) (f : filters) : filters :=
  {| f_raw_text := f_raw_text f; f_brand := f_brand f; f_model := f_model f;
     f_version := f_version f; f_year_min := f_year_min f; f_year_max := f_year_max f;
     f_price_min := f_price_min f; f_price_max := v; f_km_max := f_km_max f |}.
Definition set_km_max (v : option Z) (f : filters) : filters :=
  {| f_raw_text := f_raw_text f; f_brand := f_brand f; f_model := f_model f;
     f_version := f_version f; f_year_min := f_year_min f; f_year_max := f_year_max f;
     f_price_min := f_price_min f; f_price_max := f_price_max f; f_km_max := v |}.

(** [merged = base.copy(); merged.update({k: v for k, v in new.items() if v
    is not None})]: each key of [new] overrides [base]. *)
Definition merge_filters (base new : filters) : filters :=
  let pick {B} (n b : option B) := match n with Some v => Some v | None => b end in
  {| f_raw_text := pick (f_raw_text new) (f_raw_text base);
     f_brand := pick (f_brand new) (f_brand base);
     f_model := pick (f_model new) (f_model base);
     f_version := pick (f_version new) (f_version base);
     f_year_min := pick (f_year_min new) (f_year_min base);
     f_year_max := pick (f_year_max new) (f_year_max base);
     f_price_min := pick (f_price_min new) (f_price_min base);
     f_price_max := pick (f_price_max new) (f_price_max base);
     f_km_max := pick (f_km_max new) (f_km_max base) |}.

(** ** Numeric filters (tools.py:289-312) *)

(** [if bound is not None: df = df[test]] *)
Definition filter_opt {B} (bound : option B) (test : B -> car -> bool) (rows : list car)
  : list car :=
  match bound with None => rows | Some b => filter (fun c => test b c = true) rows end.

Definition price_min_ok (p : Q) (c : car) : bool := Qle_bool p (price c).
Definition price_max_ok (p : Q) (c : car) : bool := Qle_bool (price c) p.
Definition year_min_ok (y : Z) (c : car) : bool := (y <=? year c)%Z.
Definition km_max_ok (k : Z) (c : car) : bool := (km c <=? k)%Z.

Definition numeric_filters (f : filters) (rows : list car) : list car :=
  let rows := filter_opt (f_price_min f) price_min_ok rows in
  let rows := filter_opt (f_price_max f) price_max_ok rows in
  let rows := filter_opt (f_year_min f) year_min_ok rows in
  filter_opt (f_km_max f) km_max_ok rows.

(** A row passes every bound that is set. *)
Definition opt_ok {B} (bound : option B) (test : B -> car -> bool) (c : car) : Prop :=
  match bound with None => True | Some b => test b c = true end.

Definition satisfies (f : filters) (c : car) : Prop :=
  opt_ok (f_price_min f) price_min_ok c /\ opt_ok (f_price_max f) price_max_ok c /\
  opt_ok (f_year_min f) year_min_ok c /\ opt_ok (f_km_max f) km_max_ok c.

(** ** Ranking (tools.py:317-326) *)

(** Lexicographic [<=] on keys: [(a1, b1, c1) <= (a2, b2, c2)]. *)
Definition lex3 (a1 a2 : Z) (b1 b2 : Z) (c1 c2 : Q) : Prop :=
  (a1 < a2)%Z \/ (a1 = a2 /\ ((b1 < b2)%Z \/ (b1 = b2 /\ Qle c1 c2))).

(** With a minimum year: ascending by [|year - year_min|], then km, then price. *)
Definition rank_near_year (ym : Z) (c1 c2 : car) : Prop :=
  lex3 (Z.abs (year c1 - ym)) (Z.abs (year c2 - ym)) (km c1) (km c2) (price c1) (price c2).

(** Without one: ascending km, then descending year, then ascending price. *)
Definition rank_default (c1 c2 : car) : Prop :=
  lex3 (km c1) (km c2) (- year c1) (- year c2) (price c1) (price c2).

Definition rank (ym : option Z) : relation car :=
  match ym with Some y => rank_near_year y | None => rank_default end.

#[export] Instance Qle_decision (x y : Q) : Decision (Qle x y).
Proof.
  destruct (Qle_bool x y) eqn:E; [left; by apply Qle_bool_iff|].
  right. intros H. apply Qle_bool_iff in H. congruence.
Defined.

#[export] Instance Qlt_decision (x y : Q) : Decision (Qlt x y).
Proof. destruct (Qlt_le_dec x y); [by left|right; by apply Qle_not_lt]. Defined.

#[export] Instance lex3_dec a1 a2 b1 b2 c1 c2 : Decision (lex3 a1 a2 b1 b2 c1 c2).
Proof. unfold lex3. solve_decision. Defined.

#[export] Instance rank_dec ym : RelDecision (rank ym).
Proof. intros c1 c2. destruct ym; simpl; unfold rank_near_year, rank_default; apply _. Defined.

Definition sort_rows (ym : option Z) (rows : list car) : list car :=
  merge_sort (rank ym) rows.

(** The numeric half of [_filtered_df_for_search]: filters, then the
    ranking ([if df.empty: return df] returns the same empty list). *)
Definition rank_rows (f : filters) (rows : list car) : list car :=
  sort_rows (f_year_min f) (numeric_filters f rows).

(** ** Pages and counts (tools.py:334-350) *)

(** [search_cars]: [df.iloc[offset: offset + limit]] of the ranked rows. *)
Definition page (ranked : list car) (offset limit : nat) : list car :=
  slice ranked offset limit.

(** ** The catalog lookup of [cotiza_car] (tools.py:399-432) *)

(** [df[df["id"].astype(str) == str(car_id)]] and its first row. *)
Definition find_car (catalog : list car) (id : text) : option car :=
  head (filter (fun c => bool_decide (car_id c = id)) catalog).

Inductive quote_reply :=
  | QuoteNotFound (id : text)
  | Quote (id : text) (c : car) (down : Q) (term : Z) (rate : Q) (monthly : option Q).

Definition cotiza_car (catalog : list car) (id : text) (down : Q) (term : option Z)
    (annual_rate : option Q) : quote_reply :=
  match find_car catalog id with
  | None => QuoteNotFound id
  | Some c =>
      Quote id c down (default DEFAULT_TERM term) (default KAVAK_ANNUAL_RATE annual_rate)
        (cotiza_monthly (price c) down term annual_rate)
  end.

(** ** The numeric filters keep exactly the rows within every bound *)

Lemma filter_opt_spec {B} (bound : option B) test rows c :
  c ∈ filter_opt bound test rows <-> c ∈ rows /\ opt_ok bound test c.
Proof.
  destruct bound as [b|]; simpl; [rewrite list_elem_of_filter | ]; naive_solver.
Qed.

(** a row is kept by the numeric filters of [_filtered_df_for_search]
    exactly when it is in the catalog and within every bound that is set
    (inclusive price bounds, minimum year, maximum km). *)
Theorem numeric_filters_spec f rows c :
  c ∈ numeric_filters f rows <-> c ∈ rows /\ satisfies f c.
Proof.
  unfold numeric_filters, satisfies. rewrite !filter_opt_spec. naive_solver.
Qed.

(** ** The ranking is a total preorder *)

Lemma lex3_total a1 a2 b1 b2 c1 c2 :
  lex3 a1 a2 b1 b2 c1 c2 \/ lex3 a2 a1 b2 b1 c2 c1.
Proof.
  unfold lex3.
  destruct (Z.lt_trichotomy a1 a2) as [|[->|]]; [left; by left| |right; by left].
  destruct (Z.lt_trichotomy b1 b2) as [|[->|]]; [left; right; split; [done|by left]| |
    right; right; split; [done|by left]].
  destruct (Qlt_le_dec c2 c1); [right; right; split; [done|right; split; [done|]] |
    left; right; split; [done|right; split; [done|]]]; [apply Qlt_le_weak|]; done.
Qed.

Lemma lex3_trans a1 a2 a3 b1 b2 b3 c1 c2 c3 :
  lex3 a1 a2 b1 b2 c1 c2 -> lex3 a2 a3 b2 b3 c2 c3 -> lex3 a1 a3 b1 b3 c1 c3.
Proof.
  unfold lex3. intros H1 H2.
  destruct H1 as [H1|[-> [H1|[-> H1]]]], H2 as [H2|[-> [H2|[-> H2]]]];
    try (left; lia); right; split; try done; try (left; lia).
  right. split; [done|]. by apply Qle_trans with c2.
Qed.

#[export] Instance rank_total ym : Total (rank ym).
Proof. intros c1 c2. destruct ym; apply lex3_total. Qed.

#[export] Instance rank_trans ym : Transitive (rank ym).
Proof. intros c1 c2 c3. destruct ym; apply lex3_trans. Qed.

(** [_filtered_df_for_search] returns exactly the rows within the
    bounds, ranked: each row ranks no later than every row after it, by
    [(|year - year_min|, km, price)] when a minimum year is set and by
    [(km, -year, price)] otherwise. *)
Theorem rank_rows_correct f rows :
  rank_rows f rows ≡ₚ numeric_filters f rows /\
  StronglySorted (rank (f_year_min f)) (rank_rows f rows).
Proof.
  unfold rank_rows, sort_rows. split.
  - apply merge_sort_Permutation.
  - apply StronglySorted_merge_sort; apply _.
Qed.

Lemma elem_of_rank_rows f rows c :
  c ∈ rank_rows f rows <-> c ∈ rows /\ satisfies f c.
Proof.
  unfold rank_rows, sort_rows. rewrite merge_sort_Permutation.
  unfold numeric_filters, satisfies. rewrite !filter_opt_spec. naive_solver.
Qed.

(** ** Pages *)

(** pages of one ranked result are consistent: the page at [offset]
    of [L1] rows followed by the page at [offset + L1] of [L2] rows is the
    page at [offset] of [L1 + L2] rows; a page holds [min limit (count -
    offset)] rows, every one of them within the bounds; past the end a page
    is empty (spec sections 4.5 and 8). *)
Theorem page_consistent f rows offset l1 l2 :
  let r := rank_rows f rows in
  page r offset l1 ++ page r (offset + l1) l2 = page r offset (l1 + l2) /\
  length (page r offset l1) = min l1 (length r - offset) /\
  (forall c, c ∈ page r offset l1 -> c ∈ rows /\ satisfies f c) /\
  (length r <= offset -> page r offset l1 = []).
Proof.
  intros r. unfold page. split; [apply slice_app|]. split; [apply length_slice|].
  split; [|apply slice_past_end].
  intros c Hc. apply elem_of_rank_rows. fold r.
  apply list_elem_of_lookup in Hc as [i Hi]. apply slice_lookup in Hi as [_ Hi].
  eapply list_elem_of_lookup_2. exact Hi.
Qed.

(** ** A sample catalog (the rows of tests/conftest.py) *)

Definition sample_catalog : list car :=
  [ {| car_id := txt "322722"; brand := txt "Nissan"; model := txt "Versa";
       version := txt "Sense"; year := 2020; km := 45837; price := 265999;
       location := txt "Online" |};
    {| car_id := txt "320505"; brand := txt "Nissan"; model := txt "Sentra";
       version := []; year := 2019; km := 18383; price := 268999;
       location := txt "Online" |};
    {| car_id := txt "316168"; brand := txt "Suzuki"; model := txt "Swift";
       version := []; year := 2023; km := 18410; price := 298999;
       location := txt "Online" |} ]%Z.

Definition price_cap_filters : filters :=
  {| f_raw_text := None; f_brand := None; f_model := None; f_version := None;
     f_year_min := Some 2020%Z; f_year_max := None; f_price_min := None;
     f_price_max := Some 300000%Q; f_km_max := None |}.

(** With [year_min = 2020] the 2020 Versa ranks before the 2023 Swift. *)
Example rank_rows_sample :
  map car_id (rank_rows price_cap_filters sample_catalog) = [txt "322722"; txt "316168"].
Proof. vm_compute. reflexivity. Qed.
