(* ===== verification/Regex.v ===== *)
(** * Regex: Python [re] patterns as a backtracking matcher

    The router of [app/nlp/intent.py] classifies messages with Python
    regular expressions ([re.match], [re.search], [findall], [group], and,
    in normalize.py, [re.sub] and [re.fullmatch]).  This
    file gives those patterns an executable semantics: a continuation-passing
    backtracking matcher with the semantics of Python's [sre] engine on the
    constructs the code uses: alternatives tried left to right, greedy
    repetition that backtracks, capture groups that record their last
    iteration, the anchors [^], [$] and [\b].

    A repetition only iterates on a non-empty match of its body (no pattern
    of the code repeats a body that can match the empty text); the fuel of
    its loop, one more than the length of the remaining input, is therefore
    never exhausted (each iteration consumes a code point).

    Word characters for [\b] are the ASCII letters and digits, [_], and the
    Latin-1 letters; code points above U+00FF are treated as non-word.

    Besides soundness and completeness for a relational semantics, the file
    shows what a group can capture: when every body of group [n] in a
    pattern consumes only texts with a property, [m.group(n)] of a
    [re.search] has it ([re_search_group_ok]). *)

From stdpp Require Import base list option.
From Stdlib Require Import NArith Lia.
From S2P Require Import Prelude Text.

Local Open Scope N_scope.

(** ** Syntax *)

Inductive regex :=
  | RChar (p : N -> bool)          (** one code point satisfying [p] *)
  | REps                           (** the empty pattern *)
  | RSeq (r1 r2 : regex)
  | RAlt (r1 r2 : regex)           (** [r1|r2]: [r1] is tried first *)
  | RStar (r : regex)              (** [r*], greedy *)
  | RGroup (n : nat) (r : regex)   (** capture group number [n] *)
  | RBol                           (** [^] *)
  | REol                           (** [$]: the end, or before a final newline *)
  | RWordB.                        (** [\b] *)

(** ** Character classes *)

Definition is_word (c : N) : bool :=
  ((48 <=? c) && (c <=? 57)) || ((65 <=? c) && (c <=? 90)) || ((97 <=? c) && (c <=? 122))
  || (c =? 95) || (c =? 170) || (c =? 178) || (c =? 179) || (c =? 181) || (c =? 185)
  || (c =? 186) || ((188 <=? c) && (c <=? 190))
  || ((192 <=? c) && (c <=? 255) && negb (c =? 215) && negb (c =? 247)).

(** [c] itself, and, with [re.IGNORECASE], any code point of the same case fold. *)
Definition chr (c : N) : regex := RChar (fun x => x =? c).
Definition ichr (c : N) : regex := RChar (fun x => lower_char x =? lower_char c).

(** A character class [[...]] of code points. *)
Definition cls (l : list N) : regex := RChar (fun x => existsb (fun c => x =? c) l).
Definition icls (l : list N) : regex :=
  RChar (fun x => existsb (fun c => lower_char x =? lower_char c) l).

Definition digit : regex := RChar is_digit.                  (** [\d] *)
Definition space : regex := RChar is_space.                  (** [\s] *)
Definition wordc : regex := RChar is_word.                   (** [\w] *)
Definition anyc : regex := RChar (fun x => negb (x =? 10)).  (** [.] *)

(** A literal, matched exactly or ignoring case. *)
Definition lit (s : text) : regex := fold_right (fun c r => RSeq (chr c) r) REps s.
Definition ilit (s : text) : regex := fold_right (fun c r => RSeq (ichr c) r) REps s.

Definition plus (r : regex) : regex := RSeq r (RStar r).      (** [r+] *)
Definition opt (r : regex) : regex := RAlt r REps.            (** [r?], greedy *)

(** [r{lo,hi}]: [lo] copies, then [hi - lo] nested greedy options. *)
Fixpoint opt_chain (k : nat) (r : regex) : regex :=
  match k with O => REps | S k => opt (RSeq r (opt_chain k r)) end.

Definition rep (lo hi : nat) (r : regex) : regex :=
  RSeq (Nat.iter lo (RSeq r) REps) (opt_chain (hi - lo) r).

(** [(?:r1|r2|...)] *)
Fixpoint alts (l : list regex) : regex :=
  match l with [] => RChar (fun _ => false) | [r] => r | r :: l => RAlt r (alts l) end.

(** [r1 r2 ... rn] *)
Fixpoint seqs (l : list regex) : regex :=
  match l with [] => REps | [r] => r | r :: l => RSeq r (seqs l) end.

(** ** Matching *)

Definition caps := list (nat * (nat * nat)).

(** The matcher's position in the input: the index, the code point before it
    (for [\b]), what is left, and the groups captured so far. *)
Record mstate := MState {
  ms_pos : nat;
  ms_prev : option N;
  ms_rest : text;
  ms_caps : caps
}.

Definition set_cap (n : nat) (s e : nat) (cs : caps) : caps :=
  (n, (s, e)) :: filter (fun p => fst p <> n) cs.

Definition word_at (o : option N) : bool := match o with Some c => is_word c | None => false end.

Definition at_boundary (st : mstate) : bool :=
  xorb (word_at (ms_prev st)) (word_at (head (ms_rest st))).

Definition at_eol (st : mstate) : bool :=
  match ms_rest st with [] => true | [c] => c =? 10 | _ => false end.

(** The loop of a greedy [r*]: [m] matches the body with a continuation.
    An iteration that does not advance fails, as in [sre]; each one that
    does consumes a code point, so the fuel [S (length rest)] given below
    is never exhausted ([star_loop_fuel]). *)
Fixpoint star_loop (m : (mstate -> option mstate) -> mstate -> option mstate)
    (k : mstate -> option mstate) (fuel : nat) (st : mstate) : option mstate :=
  match fuel with
  | O => k st
  | S fuel =>
      match m (fun st' => if Nat.eqb (ms_pos st') (ms_pos st) then None
                          else star_loop m k fuel st') st with
      | Some x => Some x
      | None => k st
      end
  end.

(** [mtch r k st]: match [r] from [st], then hand the state after it to the
    continuation [k]; on failure of [k], backtrack into [r]. *)
Fixpoint mtch (r : regex) (k : mstate -> option mstate) (st : mstate) : option mstate :=
  match r with
  | RChar p =>
      match ms_rest st with
      | c :: s => if p c then k (MState (S (ms_pos st)) (Some c) s (ms_caps st)) else None
      | [] => None
      end
  | REps => k st
  | RSeq r1 r2 => mtch r1 (mtch r2 k) st
  | RAlt r1 r2 => match mtch r1 k st with Some x => Some x | None => mtch r2 k st end
  | RStar r => star_loop (mtch r) k (S (length (ms_rest st))) st
  | RGroup n r =>
      mtch r (fun st' => k (MState (ms_pos st') (ms_prev st') (ms_rest st')
                                   (set_cap n (ms_pos st) (ms_pos st') (ms_caps st')))) st
  | RBol => if Nat.eqb (ms_pos st) 0 then k st else None
  | REol => if at_eol st then k st else None
  | RWordB => if at_boundary st then k st else None
  end.

(** The state at index [i] of [input]. *)
Definition state_at (input : text) (i : nat) : mstate :=
  MState i (match i with O => None | S j => input !! j end) (drop i input) [].

(** A match object: where it starts, where it ends, its groups. *)
Record match_result := { m_start : nat; m_end : nat; m_caps : caps }.

Definition match_at (r : regex) (input : text) (i : nat) : option match_result :=
  match mtch r Some (state_at input i) with
  | Some st => Some {| m_start := i; m_end := ms_pos st; m_caps := ms_caps st |}
  | None => None
  end.

(** [re.match]: at the start only. *)
Definition re_match (r : regex) (input : text) : option match_result := match_at r input 0.

(** [re.search]: the leftmost index where a match starts. *)
Fixpoint search_from (r : regex) (input : text) (i : nat) (fuel : nat) : option match_result :=
  match match_at r input i with
  | Some m => Some m
  | None => match fuel with O => None | S f => search_from r input (S i) f end
  end.

Definition re_search (r : regex) (input : text) : option match_result :=
  search_from r input 0 (length input).

(** [m.group(n)]: the text of the whole match ([n = 0]) or of group [n];
    [None] for a group that took no part in the match. *)
Definition group (input : text) (m : match_result) (n : nat) : option text :=
  match n with
  | O => Some (slice input (m_start m) (m_end m - m_start m))
  | _ => match list_find (fun p => fst p = n) (m_caps m) with
         | Some (_, (_, (s, e))) => Some (slice input s (e - s))
         | None => None
         end
  end.

(** [re.findall] of a pattern with one group: the group's text of each
    non-overlapping match, left to right; after an empty match the scan
    moves one code point on. *)
Fixpoint findall_from (r : regex) (input : text) (i : nat) (fuel : nat) : list text :=
  match fuel with
  | O => []
  | S f =>
      match search_from r input i (length input - i) with
      | None => []
      | Some m =>
          default [] (group input m 1) ::
          findall_from r input (if Nat.eqb (m_end m) (m_start m) then S (m_end m) else m_end m) f
      end
  end.

Definition findall (r : regex) (input : text) : list text :=
  findall_from r input 0 (S (length input)).

(** [re.sub(pattern, repl, string)] with a function of the match as
    replacement: the text between non-overlapping matches is copied, each
    match is replaced; after an empty match the next code point is copied
    and the scan moves one on. *)
Fixpoint sub_from (r : regex) (repl : match_result -> text) (input : text) (i : nat) (fuel : nat)
  : text :=
  match fuel with
  | O => drop i input
  | S f =>
      match search_from r input i (length input - i) with
      | None => drop i input
      | Some m =>
          slice input i (m_start m - i) ++ repl m ++
          (if Nat.eqb (m_end m) (m_start m)
           then take 1 (drop (m_end m) input) ++ sub_from r repl input (S (m_end m)) f
           else sub_from r repl input (m_end m) f)
      end
  end.

Definition re_sub (r : regex) (repl : match_result -> text) (input : text) : text :=
  sub_from r repl input 0 (S (length input)).

(** [re.fullmatch]: a match from the start that ends at the end; the
    matcher backtracks into the pattern until one does. *)
Definition re_fullmatch (r : regex) (input : text) : bool :=
  bool_decide (is_Some (mtch r (fun st => match ms_rest st with [] => Some st | _ => None end)
                               (state_at input 0))).

(** Whether a pattern matches somewhere ([bool(re.search(...))]). *)
Definition re_test (r : regex) (input : text) : bool := bool_decide (is_Some (re_search r input)).

Local Close Scope N_scope.

(** ** Relational semantics

    [steps r st st']: [r] can take the matcher from [st] to [st'].  This is
    the set of matches of the pattern without any preference among them;
    [mtch] is sound and complete for it. *)

Definition advance (st : mstate) (c : N) (s : text) : mstate :=
  MState (S (ms_pos st)) (Some c) s (ms_caps st).

Definition close_group (n : nat) (st st' : mstate) : mstate :=
  MState (ms_pos st') (ms_prev st') (ms_rest st') (set_cap n (ms_pos st) (ms_pos st') (ms_caps st')).

Inductive steps : regex -> mstate -> mstate -> Prop :=
  | StChar p st c s :
      ms_rest st = c :: s -> p c = true -> steps (RChar p) st (advance st c s)
  | StEps st : steps REps st st
  | StSeq r1 r2 st1 st2 st3 :
      steps r1 st1 st2 -> steps r2 st2 st3 -> steps (RSeq r1 r2) st1 st3
  | StAltL r1 r2 st st' : steps r1 st st' -> steps (RAlt r1 r2) st st'
  | StAltR r1 r2 st st' : steps r2 st st' -> steps (RAlt r1 r2) st st'
  | StStarNil r st : steps (RStar r) st st
  | StStarCons r st st' st'' :
      steps r st st' -> ms_pos st' <> ms_pos st ->
      steps (RStar r) st' st'' -> steps (RStar r) st st''
  | StGroup n r st st' : steps r st st' -> steps (RGroup n r) st (close_group n st st')
  | StBol st : ms_pos st = 0 -> steps RBol st st
  | StEol st : at_eol st = true -> steps REol st st
  | StWordB st : at_boundary st = true -> steps RWordB st st.

#[export] Hint Constructors steps : chat.

(** A match of the pattern [r] on [input] from index [i] to [j]. *)
Definition matches (r : regex) (input : text) (i j : nat) : Prop :=
  exists st', steps r (state_at input i) st' /\ ms_pos st' = j.

(** ** Soundness and completeness of the matcher *)

(** Every step consumes the input it advances over. *)
Lemma steps_consume r st st' :
  steps r st st' ->
  ms_pos st' + length (ms_rest st') = ms_pos st + length (ms_rest st) /\
  ms_pos st <= ms_pos st'.
Proof.
  induction 1 as [p st c s Hr| | | | | | | n r st st' _ IH | | |];
    simpl in *; try rewrite Hr; simpl; lia.
Qed.

Lemma steps_shorter r st st' :
  steps r st st' -> ms_pos st' <> ms_pos st -> length (ms_rest st') < length (ms_rest st).
Proof. intros H%steps_consume ?. lia. Qed.

Section Star.
Variable r : regex.
Hypothesis IHsound : forall k st x,
  mtch r k st = Some x -> exists st', steps r st st' /\ k st' = Some x.
Hypothesis IHcomplete : forall k st st',
  steps r st st' -> is_Some (k st') -> is_Some (mtch r k st).

Lemma star_loop_sound k fuel st x :
  star_loop (mtch r) k fuel st = Some x -> exists st', steps (RStar r) st st' /\ k st' = Some x.
Proof.
  revert st. induction fuel as [|fuel IH]; intros st H; simpl in H; [eauto with chat|].
  destruct (mtch r _ st) as [x'|] eqn:E; [|eauto with chat].
  injection H as <-. apply IHsound in E as (st1 & Hs & Hk).
  destruct (Nat.eqb_spec (ms_pos st1) (ms_pos st)); [done|].
  apply IH in Hk as (st2 & ? & ?). eauto with chat.
Qed.

Lemma star_loop_complete k st st'' :
  steps (RStar r) st st'' -> is_Some (k st'') ->
  forall fuel, length (ms_rest st) < fuel -> is_Some (star_loop (mtch r) k fuel st).
Proof.
  intros Hs Hk. remember (RStar r) as rs eqn:Er.
  induction Hs as [| | | | |r0 st|r0 st st' st'' Hb _ Hne Ht IH| | | |];
    try discriminate; intros [|fuel] Hf; simpl; try lia; try done.
  - destruct (mtch r _ st); eauto.
  - injection Er as ->. pose proof (steps_shorter _ _ _ Hb Hne).
    destruct (IHcomplete (fun st0 => if Nat.eqb (ms_pos st0) (ms_pos st) then None
                                     else star_loop (mtch r) k fuel st0) st st') as [x Hx];
      [done| |by rewrite Hx].
    destruct (Nat.eqb_spec (ms_pos st') (ms_pos st)); [done|]. apply (IH eq_refl Hk). lia.
Qed.
End Star.

(** The matcher only succeeds through a match of the pattern, and only with
    what the continuation returns from the state after it. *)
Lemma mtch_sound r : forall k st x,
  mtch r k st = Some x -> exists st', steps r st st' /\ k st' = Some x.
Proof.
  induction r as [p| |r1 IH1 r2 IH2|r1 IH1 r2 IH2|r IH|n r IH| | |];
    intros k st x H; simpl in H.
  - destruct (ms_rest st) as [|c s] eqn:E; [done|].
    destruct (p c) eqn:Hp; [|done]. eexists. split; [by constructor|done].
  - eauto with chat.
  - apply IH1 in H as (st1 & ? & H). apply IH2 in H as (? & ? & ?). eauto with chat.
  - destruct (mtch r1 k st) eqn:E.
    + injection H as <-. apply IH1 in E as (? & ? & ?). eauto with chat.
    + apply IH2 in H as (? & ? & ?). eauto with chat.
  - exact (star_loop_sound r IH k (S (length (ms_rest st))) st x H).
  - apply IH in H as (st' & ? & ?). exists (close_group n st st'). eauto with chat.
  - destruct (Nat.eqb_spec (ms_pos st) 0); [eauto with chat|done].
  - destruct (at_eol st) eqn:?; [eauto with chat|done].
  - destruct (at_boundary st) eqn:?; [eauto with chat|done].
Qed.

(** If the pattern can reach a state from which the continuation succeeds,
    backtracking finds some success: the matcher never misses a match. *)
Lemma mtch_complete r : forall k st st',
  steps r st st' -> is_Some (k st') -> is_Some (mtch r k st).
Proof.
  induction r as [p| |r1 IH1 r2 IH2|r1 IH1 r2 IH2|r IH|n r IH| | |];
    intros k st st' Hs Hk; invc Hs; cbn [mtch].
  - repeat match goal with H : _ = _ |- _ => rewrite H end. done.
  - done.
  - eauto.
  - destruct (IH1 k st st' H3 Hk) as [x ->]. eauto.
  - destruct (mtch r1 k st); eauto.
  - apply (star_loop_complete r IH k st' st'); [constructor|done|lia].
  - apply (star_loop_complete r IH k st st'); [by eapply StStarCons|done|lia].
  - by eapply IH.
  - match goal with H : ms_pos _ = _ |- _ => by rewrite H end.
  - match goal with H : at_eol _ = _ |- _ => by rewrite H end.
  - match goal with H : at_boundary _ = _ |- _ => by rewrite H end.
Qed.

(** ** [re.match] and [re.search] *)

Lemma match_at_start r input i m : match_at r input i = Some m -> m_start m = i.
Proof. unfold match_at. by destruct (mtch _ _ _) as [st|]; [intros [= <-]|]. Qed.

(** [match_at] (the core of [re.match] and of [re.search] at one index)
    is sound and complete for the relational semantics: a result is a match
    of the pattern from that index, and there is a result exactly when the
    pattern has some match there. *)
Theorem match_at_correct r input i :
  (forall m, match_at r input i = Some m -> m_start m = i /\ matches r input i (m_end m)) /\
  (is_Some (match_at r input i) <-> exists j, matches r input i j).
Proof.
  unfold match_at, matches. split.
  - intros m. destruct (mtch r Some _) as [st|] eqn:E; [intros [= <-]|done].
    apply mtch_sound in E as (st' & Hs & [= ->]). simpl. eauto.
  - split.
    + destruct (mtch r Some _) as [st|] eqn:E; [intros _|by intros []].
      apply mtch_sound in E as (st' & Hs & [= ->]). eauto.
    + intros (j & st' & Hs & _). destruct (mtch_complete r Some _ _ Hs) as [x ->]; eauto.
Qed.

Lemma search_from_some r input i fuel m :
  search_from r input i fuel = Some m ->
  i <= m_start m <= i + fuel /\ match_at r input (m_start m) = Some m /\
  forall j, i <= j < m_start m -> match_at r input j = None.
Proof.
  revert i. induction fuel as [|f IH]; intros i H; simpl in H;
    destruct (match_at r input i) as [m'|] eqn:E.
  - injection H as <-. rewrite (match_at_start _ _ _ _ E) in *. split; [lia|]. split; [done|lia].
  - done.
  - injection H as <-. rewrite (match_at_start _ _ _ _ E) in *. split; [lia|]. split; [done|lia].
  - apply IH in H as (? & ? & Hj). split; [lia|]. split; [done|].
    intros j ?. destruct (decide (j = i)) as [->|]; [done|]. apply Hj. lia.
Qed.

Lemma search_from_none r input i fuel :
  search_from r input i fuel = None -> forall j, i <= j <= i + fuel -> match_at r input j = None.
Proof.
  revert i. induction fuel as [|f IH]; intros i H j Hj; simpl in H;
    destruct (match_at r input i) eqn:E; try done.
  - by replace j with i by lia.
  - destruct (decide (j = i)) as [->|]; [done|]. apply (IH (S i)); [done|lia].
Qed.

(** [re.search] returns the leftmost match: the match it returns starts
    at an index where the pattern matches and ends where that match ends,
    the pattern has no match at any earlier index, and it returns nothing
    only when the pattern matches at no index of the input. *)
Theorem re_search_leftmost r input :
  (forall m, re_search r input = Some m ->
     m_start m <= length input /\ matches r input (m_start m) (m_end m) /\
     forall i, i < m_start m -> ~ exists j, matches r input i j) /\
  (re_search r input = None -> forall i j, i <= length input -> ~ matches r input i j).
Proof.
  unfold re_search. split.
  - intros m (? & Hm & Hbefore)%search_from_some.
    split; [lia|]. split; [by apply (match_at_correct r input (m_start m))|].
    intros i Hi Hex. apply (match_at_correct r input i) in Hex as [x Hx].
    rewrite Hbefore in Hx by lia. done.
  - intros H i j Hi Hm. assert (Hn := search_from_none _ _ _ _ H i ltac:(lia)).
    assert (is_Some (match_at r input i)) as [x Hx]
      by (apply (match_at_correct r input i); eauto). congruence.
Qed.

Lemma re_search_leftmost_witness :
  ~ exists j, matches (lit (txt "ab")) (txt "xxab") 1 j.
Proof.
  apply (proj1 (re_search_leftmost (lit (txt "ab")) (txt "xxab"))
           {| m_start := 2; m_end := 4; m_caps := [] |}); [vm_compute; reflexivity|].
  simpl. lia.
Defined.

(** ** The text a match consumes *)

(** A match consumes a prefix of what is left, and advances by its length. *)
Lemma steps_word r st st' :
  steps r st st' -> exists w, ms_rest st = w ++ ms_rest st' /\ ms_pos st' = ms_pos st + length w.
Proof.
  induction 1 as [p st c s Hr| | r1 r2 st1 st2 st3 _ (w1 & E1 & P1) _ (w2 & E2 & P2)
                 | | |r st|r st st' st'' _ (w1 & E1 & P1) _ _ (w2 & E2 & P2)| n r st st' _ (w & E & P)
                 | | |];
    try (exists []; simpl; split; [done|lia]); eauto.
  - exists [c]. simpl. rewrite Hr. split; [done|lia].
  - exists (w1 ++ w2). rewrite E1, E2, <- app_assoc, length_app. split; [done|lia].
  - exists (w1 ++ w2). rewrite E1, E2, <- app_assoc, length_app. split; [done|lia].
Qed.

Section Chars.
Variable p : N -> bool.

(** [p{n}] consumes [n] code points satisfying [p]. *)
Lemma steps_iter_chars n st st' :
  steps (Nat.iter n (RSeq (RChar p)) REps) st st' ->
  exists w, ms_rest st = w ++ ms_rest st' /\ length w = n /\ Forall (fun c => p c = true) w.
Proof.
  revert st. induction n as [|n IH]; intros st H; simpl in H; invc H.
  - by exists [].
  - match goal with H : steps (RChar p) _ _ |- _ => invc H end.
    match goal with H : steps (Nat.iter _ _ _) _ _ |- _ => apply IH in H as (w & E & L & F) end.
    exists (c :: w). simpl in *. repeat split; [congruence|lia|by constructor].
Qed.

(** [(p(p(...)?)?)?], [k] deep, consumes at most [k] of them. *)
Lemma steps_chain_chars k st st' :
  steps (opt_chain k (RChar p)) st st' ->
  exists w, ms_rest st = w ++ ms_rest st' /\ length w <= k /\ Forall (fun c => p c = true) w.
Proof.
  revert st. induction k as [|k IH]; intros st H; simpl in H.
  - invc H. by exists [].
  - invc H.
    + match goal with H : steps (RSeq _ _) _ _ |- _ => invc H end.
      match goal with H : steps (RChar p) _ _ |- _ => invc H end.
      match goal with H : steps (opt_chain _ _) _ _ |- _ => apply IH in H as (w & E & L & F) end.
      exists (c :: w). simpl in *. repeat split; [congruence|lia|by constructor].
    + match goal with H : steps REps _ _ |- _ => invc H end.
      exists []. split; [done|split; [simpl; lia|constructor]].
Qed.

(** [p{lo,hi}] consumes between [lo] and [hi] code points satisfying [p]. *)
Lemma steps_rep_chars lo hi st st' :
  lo <= hi -> steps (rep lo hi (RChar p)) st st' ->
  exists w, ms_rest st = w ++ ms_rest st' /\ lo <= length w <= hi /\
    Forall (fun c => p c = true) w.
Proof.
  intros Hle H. invc H.
  match goal with H : steps (Nat.iter _ _ _) _ _ |- _ => apply steps_iter_chars in H as (w1 & E1 & L1 & F1) end.
  match goal with H : steps (opt_chain _ _) _ _ |- _ => apply steps_chain_chars in H as (w2 & E2 & L2 & F2) end.
  exists (w1 ++ w2). rewrite E1, E2, <- app_assoc, length_app.
  repeat split; [lia|lia|by apply Forall_app].
Qed.
End Chars.

(** The text [re.search] returns is what the leftmost match consumes. *)
Lemma re_search_group0 r input m :
  re_search r input = Some m ->
  exists st', steps r (state_at input (m_start m)) st' /\
    drop (m_start m) input = default [] (group input m 0) ++ ms_rest st'.
Proof.
  intros Hm. destruct (proj1 (re_search_leftmost r input) m Hm) as (_ & (st' & Hs & Hj) & _).
  exists st'. split; [done|]. destruct (steps_word _ _ _ Hs) as (w & E & P). simpl in *.
  unfold slice. rewrite E. replace (m_end m - m_start m) with (length w) by lia.
  by rewrite take_app_length.
Qed.

(** ** What a group captures *)

(** The text the matcher consumed going from [st] to [st']. *)
Definition consumed (st st' : mstate) : text := take (ms_pos st' - ms_pos st) (ms_rest st).

(** Every group [n] of [r] has a body [r0] with [B r0]. *)
Fixpoint groups_ok (n : nat) (B : regex -> Prop) (r : regex) : Prop :=
  match r with
  | RSeq r1 r2 | RAlt r1 r2 => groups_ok n B r1 /\ groups_ok n B r2
  | RStar r1 => groups_ok n B r1
  | RGroup m r1 => (m = n -> B r1) /\ groups_ok n B r1
  | _ => True
  end.

(** The state keeps reading [input] at its position. *)
Lemma steps_rest_drop input r st st' :
  steps r st st' -> ms_rest st = drop (ms_pos st) input -> ms_rest st' = drop (ms_pos st') input.
Proof.
  induction 1 as [p st c s Hr| | | | | | | n r st st' _ IH | | |]; simpl; auto.
  intros E. rewrite Hr in E. simpl.
  assert (drop 1 (drop (ms_pos st) input) = s) as Hs by (rewrite <- E; done).
  rewrite drop_drop in Hs. rewrite <- Hs. f_equal. lia.
Qed.

(** The matches of a pattern whose bodies of group [n] consume only texts
    with [P] leave in group [n] only texts with [P]. *)
Lemma steps_caps input n (P : text -> Prop) r st st' :
  steps r st st' ->
  groups_ok n (fun r0 => forall s1 s2, steps r0 s1 s2 -> P (consumed s1 s2)) r ->
  ms_rest st = drop (ms_pos st) input ->
  (forall s e, (n, (s, e)) ∈ ms_caps st -> P (slice input s (e - s))) ->
  forall s e, (n, (s, e)) ∈ ms_caps st' -> P (slice input s (e - s)).
Proof.
  induction 1 as [p st c s Hr| | r1 r2 st1 st2 st3 H1 IH1 H2 IH2 | | |r st
                 |r st st' st'' H1 IH1 _ H2 IH2| m r st st' Hs IH | | |];
    simpl; intros Hok Hd Hc; try tauto.
  - apply IH2; [tauto|by eapply steps_rest_drop|]. apply IH1; tauto.
  - apply IH2; [tauto|by eapply steps_rest_drop|]. apply IH1; tauto.
  - destruct Hok as [Hb Hok]. intros s e Hin. unfold set_cap in Hin.
    apply elem_of_cons in Hin as [[= -> -> ->]|Hin].
    + unfold slice, consumed in *. rewrite <- Hd. by apply Hb.
    + apply list_elem_of_filter in Hin as [_ Hin]. eapply IH; eauto.
Qed.

(** The state [re.search] ended its match in, with the groups it returns. *)
Lemma re_search_steps r input m :
  re_search r input = Some m ->
  exists st', steps r (state_at input (m_start m)) st' /\ ms_caps st' = m_caps m.
Proof.
  intros (_ & Hm & _)%search_from_some. unfold match_at in Hm.
  destruct (mtch r Some _) as [st|] eqn:E; [|done]. injection Hm as <-.
  apply mtch_sound in E as (st' & Hs & [= ->]). eauto.
Qed.

(** Hence [m.group(n)] of [re.search] is such a text. *)
Lemma re_search_group_ok r input m n (P : text -> Prop) w :
  n <> 0 ->
  groups_ok n (fun r0 => forall s1 s2, steps r0 s1 s2 -> P (consumed s1 s2)) r ->
  re_search r input = Some m -> group input m n = Some w -> P w.
Proof.
  intros Hn Hok (st' & Hs & Hc)%re_search_steps Hg. destruct n as [|n]; [done|]. simpl in Hg.
  destruct (list_find _ _) as [[i [k [s e]]]|] eqn:Hf; [|done]. injection Hg as <-.
  apply list_find_Some in Hf as (Hi & Hk & _). simpl in Hk. subst k.
  eapply (steps_caps input (S n) P r _ st' Hs Hok); [done|simpl; by inversion 1|].
  rewrite Hc. by eapply list_elem_of_lookup_2.
Qed.

(** A literal consumes itself; an alternative, one of its branches. *)
Lemma steps_lit w : forall st st', steps (lit w) st st' -> consumed st st' = w.
Proof.
  unfold consumed. induction w as [|c w IH]; intros st st' Hs; simpl in Hs; invc Hs.
  - by rewrite Nat.sub_diag.
  - match goal with H : steps (chr c) _ _ |- _ => invc H end.
    match goal with H : steps (lit w) _ _ |- _ =>
      pose proof (proj2 (steps_consume _ _ _ H)); apply IH in H end.
    match goal with H : ms_rest _ = _ :: _ |- _ => rewrite H end. simpl in *.
    match goal with H : (_ =? _)%N = true |- _ => apply N.eqb_eq in H as -> end.
    replace (ms_pos st' - ms_pos st) with (S (ms_pos st' - S (ms_pos st))) by lia.
    simpl. by f_equal.
Qed.

Lemma steps_alts l st st' : steps (alts l) st st' -> exists r, r ∈ l /\ steps r st st'.
Proof.
  induction l as [|r [|r' l] IH]; simpl; intros Hs.
  - invc Hs. done.
  - exists r. split; [left|done].
  - invc Hs; [exists r; split; [left|done]|].
    destruct (IH ltac:(done)) as (r0 & Hin & Hr0). exists r0. split; [by right|done].
Qed.
