(* ===== verification/Intent.v ===== *)
(** * Intent: the patterns and parsers of [app/nlp/intent.py]

    Each regular expression of [intent.py] is transcribed into the [Regex]
    syntax, construct by construct ([re.I] patterns use the case-folding
    classes [ichr]/[icls]/[ilit]).  On top of them this file models the
    parsers the router calls: [parse_numeric] (normalize.py:44-54),
    [_parse_money], [_parse_term], [_extract_price_bounds],
    [_apply_remove_filters], [_match_prop_valor_kavak], [_looks_like_search],
    [normalize_intent] and [_detect_intent].

    [float()] of a string is modelled on decimal literals with an optional
    sign, which covers every text the callers pass it (they come from
    groups of digits, separators and suffixes); exponents, [inf], [nan] and
    digit underscores are not modelled and parse as failures. *)

From stdpp Require Import base list option sets.
From Stdlib Require Import NArith ZArith QArith Lia.
From S2P Require Import Prelude Text Regex Finance Catalog.

Set Warnings "-clear-no-such-hyp".

Local Open Scope N_scope.

(** ** Building blocks *)

Definition sps : regex := RStar space.   (** [\s*] *)
Definition sp1 : regex := plus space.    (** [\s+] *)
Definition dollar : regex := chr 36.     (** [\$] *)

(** [[\d\s\.,]] *)
Definition amount_char : regex :=
  RChar (fun x => is_digit x || is_space x || (x =? 46) || (x =? 44)).

(** [[\d\s\.,]+(?:k|mil)?] *)
Definition amount : regex :=
  RSeq (plus amount_char) (opt (alts [ilit (txt "k"); ilit (txt "mil")])).

(** [NUM = (?:\d[\d\s.,]* )] (intent.py:125; a space separates [*] and [)] here) *)
Definition NUM : regex := RSeq digit (RStar amount_char).

(** ** The patterns (intent.py:24-31, 128-149, 193-194 and inline) *)

(** [^\s*(hola+|buenas|hey|hi|menu|ayuda|start)\b], [re.I] *)
Definition GREET_RE : regex :=
  seqs [RBol; sps;
        RGroup 1 (alts [RSeq (ilit (txt "hol")) (plus (ichr 97)); ilit (txt "buenas");
                        ilit (txt "hey"); ilit (txt "hi"); ilit (txt "menu");
                        ilit (txt "ayuda"); ilit (txt "start")]);
        RWordB].

(** [[!.…]*] *)
Definition closing_marks : regex := RStar (cls [33; 46; ellipsis]).

(** [^\s*(s[ií]|si|claro|vale|ok(ay)?|de acuerdo|correcto|adelante|por favor)\s*[!.…]*\s*$], [re.I] *)
Definition YES_RE_RAW : regex :=
  seqs [RBol; sps;
        RGroup 1 (alts [RSeq (ichr 115) (icls [105; i_acute]); ilit (txt "si");
                        ilit (txt "claro"); ilit (txt "vale");
                        RSeq (ilit (txt "ok")) (opt (RGroup 2 (ilit (txt "ay"))));
                        ilit (txt "de acuerdo"); ilit (txt "correcto");
                        ilit (txt "adelante"); ilit (txt "por favor")]);
        sps; closing_marks; sps; REol].

(** [^\s*(no|luego|despu[eé]s|gracias)\s*[!.…]*\s*$], [re.I] *)
Definition NO_RE_RAW : regex :=
  seqs [RBol; sps;
        RGroup 1 (alts [ilit (txt "no"); ilit (txt "luego");
                        seqs [ilit (txt "despu"); icls [101; e_acute]; ichr 115];
                        ilit (txt "gracias")]);
        sps; closing_marks; sps; REol].

(** [^\s*(contact(o|arme)|asesor|ll[aá]mame|llamada)\b(.* )$], [re.I] *)
Definition CONTACT_RE : regex :=
  seqs [RBol; sps;
        RGroup 1 (alts [RSeq (ilit (txt "contact"))
                             (RGroup 2 (alts [ilit (txt "o"); ilit (txt "arme")]));
                        ilit (txt "asesor");
                        seqs [ilit (txt "ll"); icls [97; a_acute]; ilit (txt "mame")];
                        ilit (txt "llamada")]);
        RWordB; RGroup 3 (RStar anyc); REol].

(** [[\w\.-]] *)
Definition email_char : regex := RChar (fun x => is_word x || (x =? 46) || (x =? 45)).

(** [[\w\.-]+@[\w\.-]+\.\w+] *)
Definition EMAIL_RE : regex :=
  seqs [plus email_char; chr 64; plus email_char; chr 46; plus wordc].

(** [\+?\d{7,15}] *)
Definition PHONE_RE : regex := RSeq (opt (chr 43)) (rep 7 15 digit).

(** [(?:^|\s)cotiza\s+(\d{1,9})\s+(?:con|con\s+un\s+enganche\s+de)?\s*
     (\$?\s*NUM\s*mil|\$?\s*NUM\s*k|\$?\s*NUM)], [re.I] *)
Definition COTIZA_RE : regex :=
  seqs [RAlt RBol space; ilit (txt "cotiza"); sp1; RGroup 1 (rep 1 9 digit); sp1;
        opt (alts [ilit (txt "con");
                   seqs [ilit (txt "con"); sp1; ilit (txt "un"); sp1;
                         ilit (txt "enganche"); sp1; ilit (txt "de")]]);
        sps;
        RGroup 2 (alts [seqs [opt dollar; sps; NUM; sps; ilit (txt "mil")];
                        seqs [opt dollar; sps; NUM; sps; ilit (txt "k")];
                        seqs [opt dollar; sps; NUM]])].

(** [(?:entre|de)?\s*\$?\s*([\d\s\.,]+(?:k|mil)?)\s*(?:a|y|-)\s*\$?\s*([\d\s\.,]+(?:k|mil)?)], [re.I] *)
Definition RANGO_PRECIOS_RE : regex :=
  seqs [opt (alts [ilit (txt "entre"); ilit (txt "de")]); sps; opt dollar; sps;
        RGroup 1 amount; sps; alts [ichr 97; ichr 121; chr 45]; sps; opt dollar; sps;
        RGroup 2 amount].

(** [m[aá]s] *)
Definition MAS : regex := seqs [ichr 109; icls [97; a_acute]; ichr 115].

(** [\bver\s+(?:(\d+)\s*m[aá]s|m[aá]s(?:\s+(\d+))?)\b], [re.I] *)
Definition PAGINATE_RE : regex :=
  seqs [RWordB; ilit (txt "ver"); sp1;
        alts [seqs [RGroup 1 (plus digit); sps; MAS];
              seqs [MAS; opt (RSeq sp1 (RGroup 2 (plus digit)))]];
        RWordB].

(** [\bquita(?:r)?\s+(marca|modelo|a[nñ]o|year|precio|max|min|km|kilometraje)\b], [re.I] *)
Definition QUITAR_RE : regex :=
  seqs [RWordB; ilit (txt "quita"); opt (ichr 114); sp1;
        RGroup 1 (alts [ilit (txt "marca"); ilit (txt "modelo");
                        seqs [ichr 97; icls [110; n_tilde]; ichr 111];
                        ilit (txt "year"); ilit (txt "precio"); ilit (txt "max");
                        ilit (txt "min"); ilit (txt "km"); ilit (txt "kilometraje")]);
        RWordB].

(** [(?:a|en)\s*(\d{2,3})\s*(?:mes|meses)], [re.I] *)
Definition PLAZO_RE : regex :=
  seqs [alts [ichr 97; ilit (txt "en")]; sps; RGroup 1 (rep 2 3 digit); sps;
        alts [ilit (txt "mes"); ilit (txt "meses")]].

(** The money group of [_MIN_RE] and [_MAX_RE]: [(\$?\s*[\d\s\.,]+(?:k|mil)?)] *)
Definition bound_amount : regex := RGroup 1 (seqs [opt dollar; sps; amount]).

(** [(?:más de|mas de|mayor a|arriba de|desde)\s*(...)], [re.I] *)
Definition MIN_RE : regex :=
  seqs [alts [seqs [ichr 109; ichr a_acute; ilit (txt "s de")]; ilit (txt "mas de");
              ilit (txt "mayor a"); ilit (txt "arriba de"); ilit (txt "desde")];
        sps; bound_amount].

(** [(?:menos de|menor a|por debajo de|hasta)\s*(...)], [re.I] *)
Definition MAX_RE : regex :=
  seqs [alts [ilit (txt "menos de"); ilit (txt "menor a"); ilit (txt "por debajo de");
              ilit (txt "hasta")];
        sps; bound_amount].

(** The inline patterns of [_detect_intent] (intent.py:110-116), searched in
    the normalised text, without flags. *)
Definition HELP_RE : regex :=
  RGroup 1 (alts [lit (txt "ayuda"); lit (txt "help");
                  seqs [lit (txt "qu"); chr e_acute; lit (txt " puedes")];
                  lit (txt "que puedes"); lit (txt "como me ayudas")]).

Definition FINANCE_RE : regex :=
  RGroup 1 (alts [lit (txt "mensualidad"); lit (txt "mensualidades"); lit (txt "enganche");
                  lit (txt "plazo"); lit (txt "financia"); lit (txt "financiamiento")]).

Definition KB_RE : regex :=
  RGroup 1 (alts [lit (txt "garanti"); lit (txt "devoluc"); lit (txt "proceso");
                  lit (txt "entrega"); lit (txt "tiempo"); lit (txt "politica")]).

(** [(19|20)\d{2}] (intent.py:61, 468, 490) *)
Definition YEAR_RE : regex :=
  RSeq (RGroup 1 (alts [lit (txt "19"); lit (txt "20")])) (rep 2 2 digit).

(** [\b(busco|buscar|quiero|necesito|recomienda|mu[eé]strame)\b] (intent.py:467) *)
Definition NEW_SEARCH_RE : regex :=
  seqs [RWordB;
        RGroup 1 (alts [lit (txt "busco"); lit (txt "buscar"); lit (txt "quiero");
                        lit (txt "necesito"); lit (txt "recomienda");
                        seqs [lit (txt "mu"); cls [101; e_acute]; lit (txt "strame")]]);
        RWordB].

(** The version tokens of intent.py:472. *)
Definition VERSION_WORDS : list text :=
  [txt "sense"; txt "advance"; txt "exclusive"; txt "active"; txt "trend"; txt
   "highline"; txt "comfortline"; txt "xlt"; txt "xl"; txt "limited"; txt "lt"; txt
   "ls"; txt "xle"; txt "xse"; txt "sport"; txt "platinum"; txt "sr"; txt "sv"; txt
   "sl"].

Definition VERSION_RE : regex :=
  seqs [RWordB; RGroup 1 (alts (map lit VERSION_WORDS)); RWordB].

(** [(tasa|inter[eé]s)\s*\d], [re.I] (intent.py:352) *)
Definition TASA_NOTE_RE : regex :=
  seqs [RGroup 1 (alts [ilit (txt "tasa");
                        seqs [ilit (txt "inter"); icls [101; e_acute]; ichr 115]]);
        sps; digit].

(** The finance intent's price and down-payment patterns (intent.py:404, 406). *)
Definition FIN_PRICE_RE : regex :=
  RGroup 1 (seqs [opt dollar; sps; RChar is_digit;
                  plus (RChar (fun x => is_digit x || (x =? 44) || (x =? 46)))]).

Definition FIN_DOWN_RE : regex :=
  let money_char := RChar (fun x => (x =? 36) || is_digit x || (x =? 46) || (x =? 44)) in
  seqs [alts [seqs [ilit (txt "enganche"); sps; ilit (txt "de")]; ilit (txt "con")];
        sps;
        RGroup 1 (alts [RSeq (plus money_char) (ilit (txt "k")); plus money_char;
                        seqs [plus digit; sps; ilit (txt "mil")]])].

(** ** Numbers *)

(** The leading ASCII digits of a text and what follows them. *)
Fixpoint span_digits (s : text) : text * text :=
  match s with
  | c :: s' => if is_digit c then let '(d, r) := span_digits s' in (c :: d, r) else ([], s)
  | [] => ([], [])
  end.

Definition digits_value (d : text) : Z :=
  fold_left (fun acc c => 10 * acc + Z.of_N (c - 48))%Z d 0%Z.

(** [int(s)] of a text of ASCII digits. *)
Definition int_of_digits (d : text) : Z := digits_value d.

(** An optional sign: [-1] after a [-], [1] after a [+] or without one. *)
Definition take_sign (s : text) : Z * text :=
  match s with
  | c :: s' => if c =? 45 then ((-1)%Z, s') else if c =? 43 then (1%Z, s') else (1%Z, s)
  | [] => (1%Z, [])
  end.

(** [float(s)] on a decimal literal: surrounding whitespace, an optional
    sign, digits with at most one point, at least one digit. *)
Definition parse_float (s : text) : option Q :=
  let '(sign, s) := take_sign (strip s) in
  let '(ip, r) := span_digits s in
  match r with
  | [] => match ip with [] => None | _ => Some (inject_Z (sign * digits_value ip)%Z) end
  | c :: r' =>
      if c =? 46 then
        let '(fp, r'') := span_digits r' in
        match r'', ip, fp with
        | _ :: _, _, _ => None
        | [], [], [] => None
        | [], _, _ =>
            Some (inject_Z sign * (inject_Z (digits_value ip)
                    + inject_Z (digits_value fp) / inject_Z (10 ^ Z.of_nat (length fp))%Z))%Q
        end
      else None
  end.

(** [s.replace(c, "")] *)
Definition remove_char (c : N) (s : text) : text := filter (fun x => x <> c) s.

(** [parse_numeric] (normalize.py:44-54): drop [,] and [$], strip, [float]. *)
Definition parse_numeric (s : option text) : option Q :=
  match s with
  | None => None
  | Some s => parse_float (strip (remove_char 36 (remove_char 44 s)))
  end.

(** [s.endswith(p)] and [s[:-n]] *)
Definition ends_with (p s : text) : bool := is_prefix (rev p) (rev s).
Definition drop_last (n : nat) (s : text) : text := take (length s - n) s.

(** [_parse_money] (intent.py:152-175): a suffix [k] or [mil] multiplies by
    1000; whatever fails to parse is [0.0]. *)
Definition parse_money (s : text) : Q :=
  let t := strip (remove_char 32 (remove_char 36 (remove_char 44 (norm_txt s)))) in
  let scaled (base : text) :=
    match parse_float base with
    | Some v => v * 1000
    | None => match parse_numeric (Some base) with Some v => v * 1000 | None => 0 end
    end%Q in
  if ends_with (txt "k") t then scaled (strip (drop_last 1 t))
  else if ends_with (txt "mil") t then scaled (strip (drop_last 3 t))
  else default 0%Q (parse_numeric (Some t)).

(** ** The parsers of the router *)

(** [_parse_term(text, default)] (intent.py:178-189); [None] is the
    [ValueError] of [min] over an empty allowed set. *)
Definition parse_term (s : text) (dflt : Z) : option Z :=
  match re_search PLAZO_RE s with
  | None => Some dflt
  | Some m => snap_term ALLOWED_TERMS (int_of_digits (default [] (group s m 1)))
  end.

(** [_extract_price_bounds(raw)] (intent.py:196-214) *)
Definition extract_price_bounds (raw : text) : option Q * option Q :=
  (option_map (fun m => parse_money (default [] (group raw m 1))) (re_search MIN_RE raw),
   option_map (fun m => parse_money (default [] (group raw m 1))) (re_search MAX_RE raw)).

(** The keys [_apply_remove_filters] pops for one [quita <token>]. *)
Inductive filter_key := KBrand | KModel | KYearMin | KYearMax | KPriceMin | KPriceMax | KKmMax.

#[export] Instance filter_key_eq_dec : EqDecision filter_key.
Proof. solve_decision. Defined.

Definition keys_of_token (tok : text) : list filter_key :=
  let t := lower tok in
  if bool_decide (t = txt "marca") then [KBrand]
  else if bool_decide (t = txt "modelo") then [KModel]
  else if bool_decide (t = [97; n_tilde; 111] \/ t = txt "ano" \/ t = txt "year")
  then [KYearMin; KYearMax]
  else if bool_decide (t = txt "precio" \/ t = txt "max" \/ t = txt "min")
  then [KPriceMin; KPriceMax]
  else if bool_decide (t = txt "km" \/ t = txt "kilometraje") then [KKmMax]
  else [].

(** [filters.pop(key, None)] for one key. *)
Definition pop_key (k : filter_key) (f : filters) : filters :=
  let keep (fld : filter_key) {B} (v : option B) : option B :=
    if bool_decide (k = fld) then None else v in
  {| f_raw_text := f_raw_text f;
     f_brand := keep KBrand (f_brand f);
     f_model := keep KModel (f_model f);
     f_version := f_version f;
     f_year_min := keep KYearMin (f_year_min f);
     f_year_max := keep KYearMax (f_year_max f);
     f_price_min := keep KPriceMin (f_price_min f);
     f_price_max := keep KPriceMax (f_price_max f);
     f_km_max := keep KKmMax (f_km_max f) |}.

(** [_apply_remove_filters(filters, raw)] (intent.py:217-242): every
    [quita <campo>] of the message pops its keys. *)
Definition apply_remove_filters (f : filters) (raw : text) : filters :=
  fold_left (fun f k => pop_key k f) (concat (map keys_of_token (findall QUITAR_RE raw))) f.

(** [_match_prop_valor_kavak(text)] (intent.py:244-258) *)
Definition PROP_VALOR_KEYWORDS : list text :=
  [txt "propuesta de valor"; txt "propuesta valor"; txt "valor de kavak";
   txt "por que kavak"; txt "porque kavak"; txt "por que elegir kavak";
   txt "por que comprar en kavak"; txt "por que comprar con kavak"].

Definition match_prop_valor (text0 : text) : bool :=
  let norm := unidecode (lower (strip text0)) in
  existsb (contains norm) PROP_VALOR_KEYWORDS.

(** [SEARCH_TRIGGERS] (intent.py:33-40) *)
Definition SEARCH_TRIGGERS : list text :=
  [txt "busca"; txt "buscar"; txt "encuentra"; txt "quiero"; txt "necesito";
   txt "mu" ++ [e_acute] ++ txt "strame"; txt "muestrame";
   txt "nissan"; txt "toyota"; txt "chevrolet"; txt "honda"; txt "mazda"; txt "kia";
   txt "volkswagen"; txt "ford"; txt "bmw";
   txt "sentra"; txt "versa"; txt "corolla"; txt "civic"; txt "jetta"; txt "swift";
   txt "tracker";
   txt "2019"; txt "2020"; txt "2021"; txt "2022"; txt "2023"; txt "2024"; txt "2025"].

(** [_looks_like_search(t)] (intent.py:57-63) *)
Definition looks_like_search (t0 : text) : bool :=
  let t := norm_txt t0 in
  existsb (contains t) SEARCH_TRIGGERS || re_test YEAR_RE t || re_test RANGO_PRECIOS_RE t
  || re_test MIN_RE t || re_test MAX_RE t.

(** [SYNONYMS["km"]] as written (intent.py:84-86): a Python set literal in
    which the missing comma after ["con poco uso"] joins it to
    ["kilometraje"]. *)
Definition SYNONYMS_KM : list text :=
  [txt "usado"; txt "usada"; txt "usados"; txt "usadas"; txt "pocos km";
   txt "con poco usokilometraje"; txt "km"].

(** [SYNONYMS] (intent.py:71-87): each set as written, in source order. *)
Definition SYNONYMS : list (text * list text) :=
  [(txt "carroceria", [txt "camioneta"; txt "suv"; txt "sedan"; utxt "sedán"; txt "hatchback"; txt "hb";
                       txt "pickup"; txt "jeep"; txt "coupe"; utxt "coupé"]);
   (txt "precio", [txt "barato"; txt "barata"; txt "baratos"; txt "baratas"; txt "economico";
                   utxt "económico"; txt "economica"; utxt "económica"; txt "accesible"]);
   (txt "forma_pago", [txt "mensualidad"; txt "mensualidades"; txt "credito"; utxt "crédito";
                       txt "financiamiento"]);
   (txt "anio", [txt "nuevo"; txt "nueva"; txt "nuevos"; txt "nuevas"; txt "ultimo"; utxt "último";
                 txt "modelo"; txt "modelos"; txt "reciente"; utxt "último modelo"; txt "ultimo modelo"]);
   (txt "km", SYNONYMS_KM)].

(** [\b{re.escape(w)}\b] *)
Definition word_re (w : text) : regex := seqs [RWordB; lit w; RWordB].

(** [normalize_intent(text)] (intent.py:91-100): for each key, in the
    dict's order, the first word of its set found as a whole word, the set
    iterated in the order [orders key] (a permutation that depends on the
    hash seed). *)
Definition normalize_intent (orders : text -> list text) (text0 : text) : list (text * text) :=
  let t := norm_txt text0 in
  omap (fun kw => (fun w => (kw.1, w)) <$> find (fun w => re_test (word_re w) t) (orders kw.1)) SYNONYMS.

(** [normalize_intent(text).get("km")] (intent.py:91-100): the first word of
    the set, in the set's iteration [order], found as a whole word.  The
    iteration order of a set of strings depends on the process's string hash
    seed, so it is a parameter: any permutation of [SYNONYMS_KM]. *)
Definition synonym_km (order : list text) (text0 : text) : option text :=
  let t := norm_txt text0 in
  find (fun w => re_test (word_re w) t) order.

(** The words of intent.py:482-485 that set [km_max = 100_000]. *)
Definition KM_TRIGGER_WORDS : list text :=
  [txt "usado"; txt "usada"; txt "usados"; txt "usadas"; txt "pocos km"; txt "poco km";
   txt "con poco uso"].

Definition sets_km_max (order : list text) (text0 : text) : bool :=
  match synonym_km order text0 with
  | Some w => bool_decide (w ∈ KM_TRIGGER_WORDS)
  | None => false
  end.

(** [_detect_intent(text)] (intent.py:104-121) *)
Inductive intent := IGreet | IHelp | IFinance | IKb | ISearch.

Definition detect_intent (text0 : text) : intent :=
  let t := norm_txt text0 in
  if bool_decide (is_Some (re_match GREET_RE text0)) then IGreet
  else if re_test HELP_RE t then IHelp
  else if re_test FINANCE_RE t then IFinance
  else if re_test KB_RE t then IKb
  else if looks_like_search t then ISearch
  else IHelp.

(** ** Money parsing on digit strings *)

Definition all_digits (d : text) : Prop := Forall (fun c => is_digit c = true) d.

Lemma digit_facts c :
  is_digit c = true ->
  is_ascii c = true /\ lower_char c = c /\ is_space c = false /\
  c <> 44 /\ c <> 36 /\ c <> 32 /\ c <> 45 /\ c <> 43 /\ c <> 46 /\ c <> 107 /\ c <> 108.
Proof.
  unfold is_digit, is_ascii, lower_char, is_upper, is_space. intros H.
  repeat split; nbool.
Qed.

Lemma span_digits_app d r :
  all_digits d -> match r with c :: _ => is_digit c = false | [] => True end ->
  span_digits (d ++ r) = (d, r).
Proof.
  intros Hd Hr. induction Hd as [|c d Hc _ IH]; simpl.
  - destruct r as [|c r]; [done|]. simpl. by rewrite Hr.
  - by rewrite Hc, IH.
Qed.

Lemma filter_id_all {A} (P : A -> Prop) `{!forall x, Decision (P x)} (l : list A) :
  Forall P l -> filter P l = l.
Proof. induction 1; [done|]. rewrite filter_cons_True by done. by f_equal. Qed.

Lemma all_digits_remove c d : all_digits d -> (c = 44 \/ c = 36 \/ c = 32) ->
  remove_char c d = d.
Proof.
  intros Hd Hc. apply filter_id_all. apply (Forall_weaken _ _ _ Hd).
  intros x Hx. pose proof (digit_facts x Hx). intros ->. lia.
Qed.

Lemma single_spaced_digits d r :
  all_digits d -> single_spaced false (d ++ r) = single_spaced false r.
Proof.
  induction 1 as [|c d Hc _ IH]; simpl; [done|].
  destruct (digit_facts c Hc) as (_ & _ & -> & _). exact IH.
Qed.

Lemma head_nonspace_digits s : all_digits s -> head_nonspace s = true.
Proof.
  destruct 1 as [|c s Hc _]; simpl; [done|].
  by destruct (digit_facts c Hc) as (_ & _ & -> & _).
Qed.

Lemma strip_digits s : all_digits s -> strip s = s.
Proof.
  intros Hd. apply strip_id; [by apply head_nonspace_digits|].
  unfold last_nonspace. apply head_nonspace_digits. by apply Forall_rev.
Qed.

Lemma remove_all_digits d :
  all_digits d -> remove_char 32 (remove_char 36 (remove_char 44 d)) = d.
Proof. intros Hd. rewrite (all_digits_remove 44 d), (all_digits_remove 36 d), (all_digits_remove 32 d); auto. Qed.

Lemma single_spaced_nospace b s :
  Forall (fun c => is_space c = false) s -> single_spaced b s = true.
Proof. intros H. revert b. induction H as [|c s Hc _ IH]; intros b; simpl; [done|]. by rewrite Hc. Qed.

Lemma all_digits_nospace d : all_digits d -> Forall (fun c => is_space c = false) d.
Proof. intros H. apply (Forall_weaken _ _ _ H). intros c Hc. apply (digit_facts c Hc). Qed.

Lemma all_digits_lower d :
  all_digits d -> Forall (fun c => is_ascii c = true /\ lower_char c = c) d.
Proof.
  intros H. apply (Forall_weaken _ _ _ H). intros c Hc.
  destruct (digit_facts c Hc) as (? & ? & _). done.
Qed.

Lemma all_digits_app d1 d2 : all_digits d1 -> all_digits d2 -> all_digits (d1 ++ d2).
Proof. intros. by apply Forall_app. Qed.

Lemma remove_char_app c s1 s2 : remove_char c (s1 ++ s2) = remove_char c s1 ++ remove_char c s2.
Proof. unfold remove_char. apply list.filter_app. Qed.

Lemma parse_float_digits d :
  all_digits d -> d <> [] -> parse_float d = Some (inject_Z (digits_value d)).
Proof.
  intros Hd Hne. unfold parse_float. rewrite strip_digits by done.
  destruct d as [|c d']; [done|]. inversion Hd as [|? ? Hc Hd']; subst.
  destruct (digit_facts c Hc) as (_ & _ & _ & _ & _ & _ & H45 & H43 & _).
  simpl take_sign. replace (c =? 45) with false by (symmetry; by apply N.eqb_neq).
  replace (c =? 43) with false by (symmetry; by apply N.eqb_neq).
  rewrite <- (app_nil_r (c :: d')), span_digits_app by done. rewrite app_nil_r.
  by rewrite Z.mul_1_l.
Qed.

Lemma ends_with_digits p s :
  all_digits s -> s <> [] -> match rev p with c :: _ => is_digit c = false | [] => False end ->
  ends_with p s = false.
Proof.
  intros Hd Hne Hp. unfold ends_with. apply Forall_rev in Hd.
  destruct (rev s) as [|c s'] eqn:E; [destruct s; [done|]; simpl in E; by destruct (rev s)|].
  inversion Hd as [|? ? Hc]; subst. destruct (rev p) as [|c' p']; [done|]. simpl.
  destruct (c' =? c) eqn:Ec; [|done]. apply N.eqb_eq in Ec. subst. congruence.
Qed.

(** Whatever [norm_txt] leaves alone: ASCII, lower case, single-spaced,
    stripped. *)
Lemma norm_txt_keeps s :
  Forall (fun c => is_ascii c = true /\ lower_char c = c) s ->
  single_spaced false s = true -> head_nonspace s = true -> last_nonspace s = true ->
  norm_txt s = s.
Proof. intros. by apply norm_txt_fixpoint. Qed.

Lemma head_nonspace_digits_app d r : all_digits d -> d <> [] -> head_nonspace (d ++ r) = true.
Proof.
  intros Hd Hne. destruct d as [|c d]; [done|]. inversion Hd as [|? ? Hc]; subst. simpl.
  by destruct (digit_facts c Hc) as (_ & _ & -> & _).
Qed.

Lemma drop_last_app (d r : text) n : length r = n -> drop_last n (d ++ r) = d.
Proof.
  intros <-. unfold drop_last. rewrite length_app. replace (length d + length r - length r)%nat
    with (length d) by lia. apply take_app_length.
Qed.

(** Normalising, then dropping [,], [$] and spaces, leaves [d ++ suffix]. *)
Ltac money_norm d :=
  rewrite norm_txt_keeps;
  [ rewrite ?remove_char_app, (remove_all_digits d) by done
  | apply Forall_app; split; [by apply all_digits_lower | repeat constructor]
  | rewrite single_spaced_digits by done; reflexivity
  | by apply head_nonspace_digits_app
  | apply last_nonspace_app; [reflexivity | discriminate] ].

Lemma parse_money_k d :
  all_digits d -> d <> [] -> parse_money (d ++ txt "k") = (inject_Z (digits_value d) * 1000)%Q.
Proof.
  intros Hd Hne. unfold parse_money. money_norm d.
  change (remove_char 32 (remove_char 36 (remove_char 44 (txt "k")))) with (txt "k").
  rewrite strip_id; [| by apply head_nonspace_digits_app | apply last_nonspace_app; [reflexivity|discriminate]].
  replace (ends_with (txt "k") (d ++ txt "k")) with true
    by (unfold ends_with; rewrite rev_app_distr; reflexivity).
  rewrite (drop_last_app d (txt "k") 1) by reflexivity.
  rewrite strip_digits, parse_float_digits by done. reflexivity.
Qed.

Lemma parse_money_mil d :
  all_digits d -> d <> [] -> parse_money (d ++ txt " mil") = (inject_Z (digits_value d) * 1000)%Q.
Proof.
  intros Hd Hne. unfold parse_money. money_norm d.
  change (remove_char 32 (remove_char 36 (remove_char 44 (txt " mil")))) with (txt "mil").
  rewrite strip_id; [| by apply head_nonspace_digits_app | apply last_nonspace_app; [reflexivity|discriminate]].
  replace (ends_with (txt "k") (d ++ txt "mil")) with false
    by (unfold ends_with; rewrite rev_app_distr; reflexivity).
  replace (ends_with (txt "mil") (d ++ txt "mil")) with true
    by (unfold ends_with; rewrite rev_app_distr; reflexivity).
  rewrite (drop_last_app d (txt "mil") 3) by reflexivity.
  rewrite strip_digits, parse_float_digits by done. reflexivity.
Qed.

Lemma parse_money_dollar_commas d1 d2 :
  all_digits d1 -> d1 <> [] -> all_digits d2 -> d2 <> [] ->
  parse_money (txt "$" ++ d1 ++ txt "," ++ d2) = inject_Z (digits_value (d1 ++ d2)).
Proof.
  intros H1 Hn1 H2 Hn2. unfold parse_money.
  assert (H12 : all_digits (d1 ++ d2)) by (by apply all_digits_app).
  assert (Hn12 : d1 ++ d2 <> []) by (destruct d1; done).
  rewrite norm_txt_keeps.
  - rewrite !remove_char_app, (remove_all_digits d1), (remove_all_digits d2) by done.
    change (remove_char 32 (remove_char 36 (remove_char 44 (txt "$")))) with ([] : text).
    change (remove_char 32 (remove_char 36 (remove_char 44 (txt ",")))) with ([] : text).
    simpl app.
    rewrite strip_digits by done.
    rewrite (ends_with_digits (txt "k") (d1 ++ d2)); [| done | done | exact eq_refl].
    rewrite (ends_with_digits (txt "mil") (d1 ++ d2)); [| done | done | exact eq_refl].
    unfold parse_numeric. rewrite (all_digits_remove 44 (d1 ++ d2)), (all_digits_remove 36 (d1 ++ d2)) by auto.
    rewrite strip_digits, parse_float_digits by done. reflexivity.
  - apply Forall_app; split; [repeat constructor|].
    apply Forall_app; split; [by apply all_digits_lower|].
    apply Forall_app; split; [repeat constructor | by apply all_digits_lower].
  - apply single_spaced_nospace. repeat (apply Forall_app; split);
      first [by apply all_digits_nospace | repeat constructor].
  - reflexivity.
  - unfold last_nonspace. rewrite !rev_app_distr.
    assert (Hr : all_digits (rev d2)) by (by apply Forall_rev).
    destruct (rev d2) as [|c r] eqn:E.
    + apply (f_equal (@rev N)) in E. rewrite rev_involutive in E. simpl in E. congruence.
    + inversion Hr as [|? ? Hc]; subst. simpl.
      by destruct (digit_facts c Hc) as (_ & _ & -> & _).
Qed.

(** [_parse_money] reads the suffixes [k] and [mil] as thousands and
    commas as thousand separators: for digit strings [d], [d1], [d2],
    ["<d>k"] and ["<d> mil"] are [1000 * d] and ["$<d1>,<d2>"] is the number
    [d1 d2] (spec section 8: [50k], [50 mil] and [$50,000] are 50000). *)
Theorem parse_money_units d d1 d2 :
  all_digits d -> d <> [] -> all_digits d1 -> d1 <> [] -> all_digits d2 -> d2 <> [] ->
  parse_money (d ++ txt "k") = (inject_Z (digits_value d) * 1000)%Q /\
  parse_money (d ++ txt " mil") = (inject_Z (digits_value d) * 1000)%Q /\
  parse_money (txt "$" ++ d1 ++ txt "," ++ d2) = inject_Z (digits_value (d1 ++ d2)).
Proof.
  intros. split; [by apply parse_money_k|]. split; [by apply parse_money_mil|].
  by apply parse_money_dollar_commas.
Qed.

Lemma parse_money_units_witness :
  parse_money (txt "50" ++ txt "k") = (inject_Z (digits_value (txt "50")) * 1000)%Q /\
  parse_money (txt "50" ++ txt " mil") = (inject_Z (digits_value (txt "50")) * 1000)%Q /\
  parse_money (txt "$" ++ txt "50" ++ txt "," ++ txt "000")
    = inject_Z (digits_value (txt "50" ++ txt "000")).
Proof. apply parse_money_units; (repeat constructor || discriminate). Defined.

(** The router's [_parse_money] reads ["50.000"] as fifty: the spec (section
    4.1) says a dot between groups of three digits separates thousands. *)
Lemma parse_money_dot_thousands : (parse_money (txt "50.000") == 50)%Q.
Proof. vm_compute. reflexivity. Qed.

(** ** The removal directive *)

(** The filters with the keys [ks] popped, field by field. *)
Definition removed (ks : list filter_key) (f : filters) : filters :=
  let keep (k : filter_key) {B} (v : option B) : option B :=
    if bool_decide (k ∈ ks) then None else v in
  {| f_raw_text := f_raw_text f;
     f_brand := keep KBrand (f_brand f);
     f_model := keep KModel (f_model f);
     f_version := f_version f;
     f_year_min := keep KYearMin (f_year_min f);
     f_year_max := keep KYearMax (f_year_max f);
     f_price_min := keep KPriceMin (f_price_min f);
     f_price_max := keep KPriceMax (f_price_max f);
     f_km_max := keep KKmMax (f_km_max f) |}.

Lemma fold_pop_key ks f : fold_left (fun f k => pop_key k f) ks f = removed ks f.
Proof.
  revert f. induction ks as [|k ks IH]; intros f; simpl.
  - by destruct f.
  - rewrite IH. destruct f, k; unfold removed, pop_key; simpl; f_equal;
      repeat case_bool_decide; set_solver.
Qed.

(** [_apply_remove_filters] pops exactly the keys the message's
    [quita <campo>] directives name ([marca], [modelo], [año]/[year],
    [precio]/[max]/[min], [km]/[kilometraje]) from the dict it is given,
    and leaves every other key as it was. *)
Theorem apply_remove_filters_spec f raw :
  apply_remove_filters f raw
  = removed (concat (map keys_of_token (findall QUITAR_RE raw))) f.
Proof. apply fold_pop_key. Qed.

(** ** Term parsing *)

(** [_parse_term] always returns a term, and it is the default or one of
    [ALLOWED_TERMS]. *)
Theorem parse_term_allowed s dflt :
  exists t, parse_term s dflt = Some t /\ (t = dflt \/ t ∈ ALLOWED_TERMS).
Proof.
  unfold parse_term. destruct (re_search PLAZO_RE s) as [m|]; [|eauto].
  destruct (snap_term_some ALLOWED_TERMS (int_of_digits (default [] (group s m 1))))
    as (t & Ht & Hin); [discriminate|].
  eauto.
Qed.

(** ** [normalize_intent] and the [km] synonyms *)

Lemma find_none_all {A} (p : A -> bool) (l : list A) :
  Forall (fun x => p x = false) l -> find p l = None.
Proof. induction 1 as [|x l Hx _ IH]; simpl; [done|]. by rewrite Hx. Qed.

(** because of the missing comma in [SYNONYMS["km"]], "con poco uso"
    never sets [km_max], whatever the iteration order of the set (the
    comment and the set of trigger words of intent.py:481-487 say it does). *)
Theorem km_con_poco_uso_ignored order :
  order ≡ₚ SYNONYMS_KM -> sets_km_max order (txt "con poco uso") = false.
Proof.
  intros Hp. unfold sets_km_max, synonym_km. rewrite find_none_all; [done|].
  rewrite Hp. repeat constructor.
Qed.

Lemma km_con_poco_uso_ignored_witness :
  sets_km_max SYNONYMS_KM (txt "con poco uso") = false.
Proof. apply km_con_poco_uso_ignored. reflexivity. Defined.

(** Whether "usado" sets [km_max] in a message that also says "km" depends on
    the iteration order of a Python set of strings, which the string hash
    seed of the process fixes (finding). *)
Lemma km_max_depends_on_set_order :
  SYNONYMS_KM ≡ₚ SYNONYMS_KM /\ rev SYNONYMS_KM ≡ₚ SYNONYMS_KM /\
  sets_km_max SYNONYMS_KM (txt "auto usado km") = true /\
  sets_km_max (rev SYNONYMS_KM) (txt "auto usado km") = false.
Proof.
  split; [done|]. split; [symmetry; apply Permutation_rev|]. split; vm_compute; reflexivity.
Qed.

(** ** Classification findings *)

(** [(19|20)\d{2}] has no word boundaries: in "menos de 200000" it finds the
    year 2000 inside the price. *)
Lemma year_found_in_price :
  option_map (fun m => group (norm_txt (txt "menos de 200000")) m 0)
    (re_search YEAR_RE (norm_txt (txt "menos de 200000"))) = Some (Some (txt "2000")).
Proof. vm_compute. reflexivity. Qed.

(** [RANGO_PRECIOS_RE] accepts a lone space as an amount, so any text with a
    free-standing "a" or "y" looks like a price range and is a search. *)
Lemma plain_sentence_is_search : detect_intent (txt "voy a comprar") = ISearch.
Proof. vm_compute. reflexivity. Qed.

Lemma parse_term_some s dflt : is_Some (parse_term s dflt).
Proof.
  unfold parse_term. destruct (re_search PLAZO_RE s) as [m|]; [|by eexists].
  destruct (snap_term_some ALLOWED_TERMS (int_of_digits (default [] (group s m 1))))
    as (t & -> & _); [discriminate|by eexists].
Qed.

Lemma normalize_intent_km orders text0 :
  assoc (normalize_intent orders text0) (txt "km") = synonym_km (orders (txt "km")) text0.
Proof.
  unfold normalize_intent, synonym_km, SYNONYMS. cbn [omap list_omap fst].
  repeat match goal with |- context [find ?f ?l] =>
    match l with orders (txt "km") => fail 1 | _ => destruct (find f l) end end;
  cbn [fmap option_fmap option_map assoc]; rewrite ?decide_False by (vm_compute; discriminate);
  rewrite ?decide_True by done; by destruct (find _ (orders (txt "km"))).
Qed.
