(* ===== verification/Resolver.v ===== *)
(** * Resolver: fuzzy resolution of brands, models and versions

    [app/nlp/tools.py] resolves free text to catalog vocabulary with
    [fuzzy_best] (tools.py:97-101), [_map_alias] (104-107), [_guess_brand]
    (110-142) and [_guess_model] (145-176), over the alias tables and the
    stopwords of [app/nlp/aliases.py].  The scorers come from the rapidfuzz
    library, which the code only calls; they are the operations of the class
    [Fuzz], with the range laws of [FuzzLaws], and every theorem here holds
    for every lawful instance.  [process.extractOne] is modelled exactly
    ([extract_one]): the first choice of maximal score, if that score reaches
    the cut-off. *)

From stdpp Require Import base list option sets.
From Stdlib Require Import NArith QArith Lqa Lia.
From S2P Require Import Prelude Text Catalog.

Set Warnings "-clear-no-such-hyp".
Local Close Scope Q_scope.

(** ** The scorers (rapidfuzz) *)

Class Fuzz := {
  wratio : text -> text -> Q;            (** [fuzz.WRatio] *)
  token_set_ratio : text -> text -> Q;   (** [fuzz.token_set_ratio] *)
  partial_ratio : text -> text -> Q;     (** [fuzz.partial_ratio] *)
  lev_similarity : text -> text -> Q     (** [distance.Levenshtein.normalized_similarity] *)
}.

Class FuzzLaws `{Fuzz} := {
  wratio_range a b : (0 <= wratio a b <= 100)%Q;
  token_set_ratio_range a b : (0 <= token_set_ratio a b <= 100)%Q;
  partial_ratio_range a b : (0 <= partial_ratio a b <= 100)%Q;
  lev_similarity_range a b : (0 <= lev_similarity a b <= 1)%Q
}.

(** [process.extractOne(q, choices, scorer=scorer, score_cutoff=cutoff)]:
    a later choice replaces the best so far only with a strictly higher
    score, so the first choice of maximal score is returned. *)
Definition extract_step (scorer : text -> text -> Q) (q : text) (cutoff : Q)
    (best : option (text * Q)) (c : text) : option (text * Q) :=
  let s := scorer q c in
  match best with
  | None => if decide (cutoff <= s)%Q then Some (c, s) else None
  | Some (_, bs) => if decide (bs < s)%Q then Some (c, s) else best
  end.

Definition extract_one (scorer : text -> text -> Q) (q : text) (choices : list text)
    (cutoff : Q) : option (text * Q) :=
  fold_left (extract_step scorer q cutoff) choices None.

(** ** Alias tables (aliases.py) *)

Definition BRAND_ALIAS : list (text * text) :=
  [(txt "vw", txt "volkswagen"); (txt "vokswagen", txt "volkswagen");
   (txt "mercedes", txt "mercedes benz"); (txt "mercedes-benz", txt "mercedes benz");
   (txt "mercedesbenz", txt "mercedes benz"); (txt "chevy", txt "chevrolet");
   (txt "bmv", txt "bmw");
   (txt "nisan", txt "nissan"); (txt "nizan", txt "nissan"); (txt "nisaan", txt "nissan");
   (txt "nizzan", txt "nissan"); (txt "niisan", txt "nissan"); (txt "nisssan", txt "nissan");
   (txt "toyoya", txt "toyota"); (txt "hunday", txt "hyundai")].

Definition MODEL_ALIAS : list (text * text) :=
  [(txt "kix", txt "kicks"); (txt "kick", txt "kicks"); (txt "xtrail", txt "x-trail");
   (txt "extrail", txt "x-trail"); (txt "estrail", txt "x-trail");
   (txt "x trail", txt "x-trail"); (txt "sentar", txt "sentra");
   (txt "sentrea", txt "sentra"); (txt "verzza", txt "versa"); (txt "verssa", txt "versa");
   (txt "corola", txt "corolla"); (txt "forte", txt "forte"); (txt "clasea", txt "clase a")].

Definition VERSION_ALIAS : list (text * text) :=
  [(txt "sense", txt "sense"); (txt "advance", txt "advance");
   (txt "exclusive", txt "exclusive"); (txt "lt", txt "lt"); (txt "ls", txt "ls");
   (txt "sr", txt "sr"); (txt "le", txt "le"); (txt "xe", txt "xe"); (txt "xl", txt "xl")].

Definition STOPWORDS : list text :=
  [txt "busco"; txt "buscar"; txt "un"; txt "una"; txt "por"; txt "de"; txt "mas";
   txt "m" ++ [a_acute] ++ txt "s"; txt "menos"; txt "hasta"; txt "desde"; txt "quiero";
   txt "necesito"; txt "auto"; txt "carro"; txt "coche"; txt "barato"; txt "semineuvo";
   txt "seminuevo"].

(** [dict.get(k, k)] *)
Definition alias_or_self (tbl : list (text * text)) (k : text) : text :=
  default k (assoc tbl k).

(** [_map_alias(s)] (tools.py:104-107) *)
Definition map_alias (s : text) : text :=
  match s with [] => s | _ => alias_or_self BRAND_ALIAS s end.

(** ** [fuzzy_best] (tools.py:97-101) *)

Definition fuzzy_best `{Fuzz} (q : text) (choices : list text) (cutoff : Q)
    : option text * Q :=
  match q with
  | [] => (None, 0%Q)
  | _ => match extract_one token_set_ratio q choices cutoff with
         | Some (c, s) => (Some c, s)
         | None => (None, 0%Q)
         end
  end.

(** ** [_guess_brand] and [_guess_model] *)

(** The tokens both guessers look at: length at least 3, not a stopword. *)
Definition guess_tokens (t_full : text) : list text :=
  filter (fun tok => 3 <= length tok /\ tok ∉ STOPWORDS) (split t_full).

(** Step 3: for each token, the best candidate by [partial_ratio] (no
    cut-off), accepted when its edit similarity reaches [min_sim]. *)
Fixpoint token_fallback `{Fuzz} (vocab : list text) (min_sim : Q) (toks : list text)
    : option text :=
  match toks with
  | [] => None
  | tok :: toks =>
      match extract_one partial_ratio tok vocab 0 with
      | Some (cand, _) =>
          if decide (min_sim <= lev_similarity tok cand)%Q then Some cand
          else token_fallback vocab min_sim toks
      | None => token_fallback vocab min_sim toks
      end
  end.

(** The two whole-phrase passes. *)
Definition phrase_guess `{Fuzz} (t_full : text) (vocab : list text) (c1 c2 : Q)
    : option text :=
  match extract_one wratio t_full vocab c1 with
  | Some (c, _) => Some c
  | None => option_map fst (extract_one token_set_ratio t_full vocab c2)
  end.

(** The shared shape of [_guess_brand] and [_guess_model]: alias lookup per
    token, the phrase passes with cut-offs [c1], [c2], the token fallback. *)
Definition guess `{Fuzz} (alias : text -> text) (c1 c2 min_sim : Q)
    (raw_text : text) (vocab : list text) : option text :=
  let t_full := norm_txt raw_text in
  let toks := guess_tokens t_full in
  match find (fun tok => bool_decide (alias tok ∈ vocab)) toks with
  | Some tok => Some (alias tok)
  | None =>
      match phrase_guess t_full vocab c1 c2 with
      | Some c => Some c
      | None => token_fallback vocab min_sim toks
      end
  end.

(** [_guess_brand(raw_text, brands)] (tools.py:110-142) *)
Definition guess_brand `{Fuzz} (raw_text : text) (brands : list text) : option text :=
  guess map_alias 90 88 (4 # 5) raw_text brands.

(** [_guess_model(raw_text, candidate_models)] (tools.py:145-176) *)
Definition guess_model `{Fuzz} (raw_text : text) (models : list text) : option text :=
  guess (alias_or_self MODEL_ALIAS) 88 86 (78 # 100) raw_text models.

(** A lawful instance that scores 100 on equal texts and 0 otherwise, used
    to run the definitions on examples. *)
Definition exact_fuzz : Fuzz := {|
  wratio a b := if decide (a = b) then 100%Q else 0%Q;
  token_set_ratio a b := if decide (a = b) then 100%Q else 0%Q;
  partial_ratio a b := if decide (a = b) then 100%Q else 0%Q;
  lev_similarity a b := if decide (a = b) then 1%Q else 0%Q
|}.

(** ** [extractOne] *)

Section ExtractOne.
Variable scorer : text -> text -> Q.
Variable q : text.
Variable cutoff : Q.

(** What the fold keeps after the choices [seen]: nothing when every score
    is below the cut-off; otherwise the first choice of maximal score, which
    reaches the cut-off. *)
Definition best_of (seen : list text) (best : option (text * Q)) : Prop :=
  match best with
  | None => Forall (fun c => (scorer q c < cutoff)%Q) seen
  | Some (c, s) =>
      s = scorer q c /\ (cutoff <= s)%Q /\
      exists l1 l2, seen = l1 ++ c :: l2 /\
        Forall (fun c' => (scorer q c' < s)%Q) l1 /\ Forall (fun c' => (scorer q c' <= s)%Q) l2
  end.

Lemma extract_step_best seen best c :
  best_of seen best -> best_of (seen ++ [c]) (extract_step scorer q cutoff best c).
Proof.
  unfold extract_step. destruct best as [[b bs]|]; simpl.
  - intros (-> & Hcut & l1 & l2 & -> & H1 & H2). case_decide.
    + split; [done|]. split; [lra|]. exists (l1 ++ b :: l2), []. split; [by simplify_list_eq|].
      split; [|done]. apply Forall_app; split; [|constructor; [done|]].
      * eapply Forall_weaken; [exact H1|]. intros ? Hx; simpl in Hx; lra.
      * eapply Forall_weaken; [exact H2|]. intros ? Hx; simpl in Hx; lra.
    + split; [done|]. split; [done|]. exists l1, (l2 ++ [c]).
      split; [by simplify_list_eq|]. split; [done|]. apply Forall_app; split; [done|].
      constructor; [lra|done].
  - intros Hall. case_decide.
    + split; [done|]. split; [done|]. exists seen, []. split; [done|]. split; [|done].
      eapply Forall_weaken; [exact Hall|]. intros ? Hx; simpl in Hx; lra.
    + apply Forall_app; split; [done|]. constructor; [lra|done].
Qed.

Lemma extract_fold_best seen best l :
  best_of seen best -> best_of (seen ++ l) (fold_left (extract_step scorer q cutoff) l best).
Proof.
  revert seen best. induction l as [|c l IH]; intros seen best H; simpl.
  - by rewrite app_nil_r.
  - replace (seen ++ c :: l) with ((seen ++ [c]) ++ l) by by simplify_list_eq.
    apply IH. by apply extract_step_best.
Qed.

Lemma extract_one_best choices : best_of choices (extract_one scorer q choices cutoff).
Proof. apply (extract_fold_best [] None choices). constructor. Qed.

Lemma extract_one_elem_of choices c s :
  extract_one scorer q choices cutoff = Some (c, s) -> c ∈ choices.
Proof.
  intros E. pose proof (extract_one_best choices) as Hb. rewrite E in Hb.
  destruct Hb as (_ & _ & l1 & l2 & -> & _). set_solver.
Qed.
End ExtractOne.

(** ** Resolution stays inside the vocabulary *)

Section Guess.
Context `{Fuzz}.

Lemma token_fallback_elem_of vocab min_sim toks c :
  token_fallback vocab min_sim toks = Some c -> c ∈ vocab.
Proof.
  induction toks as [|tok toks IH]; simpl; [done|].
  destruct (extract_one partial_ratio tok vocab 0) as [[cand s]|] eqn:E; [|done].
  case_decide; [|done]. intros [= <-]. by eapply extract_one_elem_of.
Qed.

Lemma phrase_guess_elem_of t vocab c1 c2 c :
  phrase_guess t vocab c1 c2 = Some c -> c ∈ vocab.
Proof.
  unfold phrase_guess.
  destruct (extract_one wratio t vocab c1) as [[c' s]|] eqn:E.
  - intros [= <-]. by eapply extract_one_elem_of.
  - destruct (extract_one token_set_ratio t vocab c2) as [[c' s]|] eqn:E'; [|done].
    intros [= <-]. by eapply extract_one_elem_of.
Qed.

Lemma guess_elem_of alias c1 c2 min_sim raw vocab c :
  guess alias c1 c2 min_sim raw vocab = Some c -> c ∈ vocab.
Proof.
  unfold guess. destruct (find _ _) as [tok|] eqn:E.
  - intros [= <-]. apply find_some in E as [_ E]. by apply bool_decide_eq_true in E.
  - destruct (phrase_guess _ _ _ _) eqn:E'; [intros [= <-]; by eapply phrase_guess_elem_of|].
    apply token_fallback_elem_of.
Qed.

(** The first eligible token whose alias is in the vocabulary decides. *)
Lemma guess_alias_first alias c1 c2 min_sim raw vocab tok :
  guess_tokens (norm_txt raw) = [tok] -> alias tok ∈ vocab ->
  guess alias c1 c2 min_sim raw vocab = Some (alias tok).
Proof. intros Ht Hin. unfold guess. rewrite Ht. simpl. by rewrite bool_decide_eq_true_2. Qed.
End Guess.

(** The alias entries as the resolver sees them: for each key of at least
    three letters, the key is its own only token and maps to its value. *)
Lemma brand_alias_tokens :
  Forall (fun '(k, v) => 3 <= length k -> guess_tokens (norm_txt k) = [k] /\ map_alias k = v)
    BRAND_ALIAS.
Proof. apply (bool_decide_unpack _). vm_compute. reflexivity. Qed.

(** [_guess_brand] and [_guess_model] never invent a value: whatever the
    scorers, a brand they return is one of the brands they were given, and a
    model one of the candidate models (spec 4.3, step 6). *)
Theorem guess_in_vocab `{Fuzz} raw (vocab : list text) :
  (forall b, guess_brand raw vocab = Some b -> b ∈ vocab) /\
  (forall m, guess_model raw vocab = Some m -> m ∈ vocab).
Proof. split; intros ?; apply guess_elem_of. Qed.

(** alias resolution precedes fuzzy scoring: for every entry [k -> v] of
    [BRAND_ALIAS] whose key has at least three letters, the message [k]
    resolves to [v] whenever [v] is a catalog brand, whatever the scorers
    (spec section 8: "nisan" resolves to "nissan"). *)
Theorem brand_alias_precedence `{Fuzz} k v brands :
  (k, v) ∈ BRAND_ALIAS -> 3 <= length k -> v ∈ brands -> guess_brand k brands = Some v.
Proof.
  intros Hkv Hlen Hv. pose proof brand_alias_tokens as Hall.
  rewrite Forall_forall in Hall. destruct (Hall _ Hkv Hlen) as [Ht Hm].
  unfold guess_brand. rewrite <- Hm. apply guess_alias_first; [done|by rewrite Hm].
Qed.

Lemma brand_alias_precedence_witness :
  @guess_brand exact_fuzz (txt "nisan") [txt "toyota"; txt "nissan"] = Some (txt "nissan").
Proof.
  apply (@brand_alias_precedence exact_fuzz);
    [apply (bool_decide_unpack _); vm_compute; reflexivity | simpl; lia | set_solver].
Defined.

Lemma exact_fuzz_laws : @FuzzLaws exact_fuzz.
Proof. split; intros a b; simpl; case_decide; split; discriminate. Qed.

(** The alias ["vw" -> "volkswagen"] is dead: [_guess_brand] drops tokens
    shorter than three letters before the alias lookup, so "vw" is left to
    the scorers, and under a lawful scorer it resolves to nothing (spec 8
    lists "vw" among the aliases that precede scoring). *)
Lemma vw_alias_unreachable :
  @FuzzLaws exact_fuzz /\
  guess_tokens (norm_txt (txt "vw")) = [] /\
  @guess_brand exact_fuzz (txt "vw") [txt "volkswagen"] = None.
Proof. split; [apply exact_fuzz_laws|]. split; vm_compute; reflexivity. Qed.

(** [fuzzy_best] returns nothing for an empty query, and otherwise the
    [extractOne] result: the first choice of maximal [token_set_ratio], with
    its score, when that score reaches the cut-off; and nothing, with score
    0, when every choice scores below the cut-off. *)
Theorem fuzzy_best_spec `{Fuzz} q choices cutoff :
  match fuzzy_best q choices cutoff with
  | (Some c, s) =>
      q <> [] /\ s = token_set_ratio q c /\ (cutoff <= s)%Q /\
      exists l1 l2, choices = l1 ++ c :: l2 /\
        Forall (fun c' => (token_set_ratio q c' < s)%Q) l1 /\
        Forall (fun c' => (token_set_ratio q c' <= s)%Q) l2
  | (None, s) =>
      s = 0%Q /\ (q = [] \/ Forall (fun c => (token_set_ratio q c < cutoff)%Q) choices)
  end.
Proof.
  unfold fuzzy_best. destruct q as [|x q]; [by split; [|left]|].
  pose proof (extract_one_best token_set_ratio (x :: q) cutoff choices) as Hb.
  destruct (extract_one _ _ _ _) as [[c s]|]; simpl in Hb.
  - split; [done|]. exact Hb.
  - split; [done|]. by right.
Qed.
