(* ===== verification/Search.v ===== *)
(** * Search: the catalog query [_filtered_df_for_search]

    [_filtered_df_for_search] (tools.py:185-328) runs in two phases.  The
    lock phase (185-288) resolves the version, the brand and the model of the
    filter dict (or, when they are absent, of its free text) against the
    catalog's vocabularies with the resolvers of [Resolver], and narrows the
    rows to each lock in turn; the numeric phase (289-328) is
    [Catalog.rank_rows].  [search_cars] (334-342) slices the result and
    [search_cars_count] (348-350) counts it.

    The catalog is the Section variable [catalog] (the CSV that
    [_load_catalog] reads on every call; loading is not modelled), and the
    scorers are any instance of [Resolver.Fuzz].  The theorems show that the
    locks are catalog values, that every returned row carries them (a model
    locked under a brand lock is a model of that brand: spec section 8's
    hierarchical scoping), and that counts and pages agree.  [search_spec]
    states the selection declaratively (the catalog rows that carry every
    lock and are within every bound, stably ranked) and
    [filtered_df_refines] shows the code computes exactly it. *)

From stdpp Require Import base list option sets sorting.
From Stdlib Require Import NArith ZArith QArith Lia Sorting.Sorted.
From S2P Require Import Prelude Text Catalog Resolver.

Set Warnings "-clear-no-such-hyp".
Local Close Scope Q_scope.

(** [series.dropna().unique().tolist()]: the distinct values in order of
    first occurrence. *)
Fixpoint unique_from (seen : list text) (l : list text) : list text :=
  match l with
  | [] => []
  | x :: l =>
      if decide (x ∈ seen) then unique_from seen l else x :: unique_from (x :: seen) l
  end.

Definition unique (l : list text) : list text := unique_from [] l.

(** [df[df[col] == v]] *)
Definition rows_with (col : car -> text) (v : text) (df : list car) : list car :=
  filter (fun c => col c = v) df.

(** [df[col] == v] when the lock is set, [df] otherwise. *)
Definition narrow (col : car -> text) (lock : option text) (df : list car) : list car :=
  match lock with Some v => rows_with col v df | None => df end.

Definition is_empty (s : text) : bool := match s with [] => true | _ => false end.

(** [x if x else None]: Python's truth test on an optional string. *)
Definition truthy (o : option text) : option text :=
  match o with Some [] => None | _ => o end.

Section Query.
Context `{Fuzz}.

(** The free-text version inference of tools.py:224-232: the first token
    that is a key of [VERSION_ALIAS] and whose alias the scorer accepts at
    80 locks the version. *)
Fixpoint version_from_tokens (candidates : list text) (toks : list text) : option text :=
  match toks with
  | [] => None
  | tok :: toks =>
      match assoc VERSION_ALIAS (strip tok) with
      | Some vq =>
          match truthy (fst (fuzzy_best vq candidates 80)) with
          | Some v => Some v
          | None => version_from_tokens candidates toks
          end
      | None => version_from_tokens candidates toks
      end
  end.

(** The version lock (tools.py:216-232): an explicit version through its
    alias and the scorer at 85, else the free text's tokens. *)
Definition resolve_version (version_q raw_text : text) (candidates : list text) : option text :=
  if negb (is_empty version_q) then
    truthy (fst (fuzzy_best (alias_or_self VERSION_ALIAS version_q) candidates 85))
  else if negb (is_empty raw_text) then version_from_tokens candidates (split raw_text)
  else None.

(** The brand lock (tools.py:239-253): guessed from the free text when no
    brand is given, else the given brand re-validated by the scorer at 86. *)
Definition resolve_brand (brand_q raw_text : text) (brands : list text) : option text :=
  if is_empty brand_q && negb (is_empty raw_text) then truthy (guess_brand raw_text brands)
  else if negb (is_empty brand_q) then truthy (fst (fuzzy_best brand_q brands 86))
  else None.

(** The model lock (tools.py:268-279), the same way at 85. *)
Definition resolve_model (model_q raw_text : text) (candidates : list text) : option text :=
  if is_empty model_q && negb (is_empty raw_text) then truthy (guess_model raw_text candidates)
  else if negb (is_empty model_q) then truthy (fst (fuzzy_best (norm_txt model_q) candidates 85))
  else None.

(** The final guard (tools.py:286-287): the brand lock again, on a
    non-empty frame. *)
Definition brand_guard (block : option text) (df : list car) : list car :=
  match df with [] => df | _ => narrow brand_n block df end.

(** The locks of the three dimensions. *)
Record locks := Locks { version_lock : option text; brand_lock : option text;
                        model_lock : option text }.

(** The lock phase (tools.py:190-287): the locks, and the rows left. *)
Definition lock_phase (df : list car) (f : filters) : locks * list car :=
  let brand_q := norm_txt_opt (f_brand f) in
  let model_q := norm_txt_opt (f_model f) in
  let version_q := norm_txt_opt (f_version f) in
  let raw_text := norm_txt_opt (f_raw_text f) in
  let brands := unique (map brand_n df) in
  let models := unique (map model_n df) in
  let candidate_versions := unique (map version_n df) in
  let vlock := resolve_version version_q raw_text candidate_versions in
  let df := narrow version_n vlock df in
  let block := resolve_brand brand_q raw_text brands in
  let df := narrow brand_n block df in
  (* tools.py:256; the version candidates re-derived at 259-265 are not
     read again *)
  let candidate_models := if is_Some_dec block then unique (map model_n df) else models in
  let mlock := resolve_model model_q raw_text candidate_models in
  let df := narrow model_n mlock df in
  (Locks vlock block mlock, brand_guard block df).

Context (catalog : list car).

(** [_filtered_df_for_search(filters)] *)
Definition filtered_df_for_search (f : filters) : list car :=
  match catalog with
  | [] => []
  | _ => rank_rows f (snd (lock_phase catalog f))
  end.

(** [search_cars(filters, limit, offset)] *)
Definition search_cars (f : filters) (limit offset : nat) : list car :=
  page (filtered_df_for_search f) offset limit.

(** [search_cars_count(filters)] *)
Definition search_cars_count (f : filters) : nat := length (filtered_df_for_search f).
End Query.

(** ** Narrowing and vocabularies *)

Lemma elem_of_narrow col lock df c :
  c ∈ narrow col lock df <-> c ∈ df /\ (forall v, lock = Some v -> col c = v).
Proof.
  destruct lock as [v|]; simpl; [unfold rows_with; rewrite list_elem_of_filter|]; naive_solver.
Qed.

Lemma elem_of_unique_from seen l x :
  x ∈ unique_from seen l -> x ∈ l.
Proof.
  revert seen. induction l as [|y l IH]; intros seen; simpl; [done|].
  case_decide; [intros ?%IH; set_solver|]. rewrite elem_of_cons. intros [->|?%IH]; set_solver.
Qed.

Lemma elem_of_unique l x : x ∈ unique l -> x ∈ l.
Proof. apply elem_of_unique_from. Qed.

Lemma truthy_some o v : truthy o = Some v -> o = Some v /\ v <> [].
Proof. destruct o as [[|x s]|]; simpl; intros; simplify_eq; done. Qed.

Lemma fuzzy_best_elem_of `{Fuzz} q choices cutoff v :
  fst (fuzzy_best q choices cutoff) = Some v -> v ∈ choices.
Proof.
  unfold fuzzy_best. destruct q; [done|].
  destruct (extract_one _ _ _ _) as [[c s]|] eqn:E; simpl; [|done].
  intros [= <-]. by eapply extract_one_elem_of.
Qed.

Lemma version_from_tokens_elem_of `{Fuzz} cands toks v :
  version_from_tokens cands toks = Some v -> v ∈ cands.
Proof.
  induction toks as [|tok toks IH]; cbn [version_from_tokens]; [done|].
  destruct (assoc VERSION_ALIAS (strip tok)); [|exact IH].
  destruct (truthy _) as [v'|] eqn:E; [|exact IH].
  intros [= <-]. apply truthy_some in E as [E _]. by eapply fuzzy_best_elem_of.
Qed.

#[export] Hint Resolve elem_of_unique fuzzy_best_elem_of version_from_tokens_elem_of : chat.

(** The lock of a dimension comes from its vocabulary, whichever branch set it. *)
Lemma lock_from_vocab `{Fuzz} (g : option text) (vocab : list text) v :
  (forall v, g = Some v -> v ∈ vocab) -> truthy g = Some v -> v ∈ vocab.
Proof. intros Hg (E & _)%truthy_some. by apply Hg. Qed.

Section Locks.
Context `{Fuzz}.

Lemma resolve_version_vocab q r cands v : resolve_version q r cands = Some v -> v ∈ cands.
Proof.
  unfold resolve_version. destruct (negb (is_empty q)); [|destruct (negb (is_empty r))];
    [intros (E & _)%truthy_some| |]; eauto with chat; done.
Qed.

Lemma resolve_brand_vocab q r brands b : resolve_brand q r brands = Some b -> b ∈ brands.
Proof.
  unfold resolve_brand. destruct (_ && _); [|destruct (negb _)]; [| |done];
    intros (E & _)%truthy_some; [exact (guess_elem_of _ _ _ _ _ _ _ E)|eauto with chat].
Qed.

Lemma resolve_model_vocab q r cands m : resolve_model q r cands = Some m -> m ∈ cands.
Proof.
  unfold resolve_model. destruct (_ && _); [|destruct (negb _)]; [| |done];
    intros (E & _)%truthy_some; [exact (guess_elem_of _ _ _ _ _ _ _ E)|eauto with chat].
Qed.

Lemma elem_of_brand_guard block df c :
  c ∈ brand_guard block df -> c ∈ df /\ (forall b, block = Some b -> brand_n c = b).
Proof.
  destruct df as [|x df]; simpl; [set_solver|]. intros Hc%elem_of_narrow. naive_solver.
Qed.

(** Every row the lock phase keeps is a catalog row that carries each lock;
    each lock is a value of its column; a model locked under a brand lock is
    the model of a row of that brand (and of the locked version). *)
Lemma lock_phase_spec df f :
  let '(lk, rows) := lock_phase df f in
  (forall c, c ∈ rows -> c ∈ df /\
     (forall v, version_lock lk = Some v -> version_n c = v) /\
     (forall b, brand_lock lk = Some b -> brand_n c = b) /\
     (forall m, model_lock lk = Some m -> model_n c = m)) /\
  (forall v, version_lock lk = Some v -> v ∈ map version_n df) /\
  (forall b, brand_lock lk = Some b -> b ∈ map brand_n df) /\
  (forall m, model_lock lk = Some m -> m ∈ map model_n df) /\
  (forall b m, brand_lock lk = Some b -> model_lock lk = Some m ->
     exists c, c ∈ df /\ brand_n c = b /\ model_n c = m /\
       forall v, version_lock lk = Some v -> version_n c = v).
Proof.
  unfold lock_phase; cbn zeta; simpl.
  set (vl := resolve_version _ _ _). set (bl := resolve_brand _ _ _).
  set (ml := resolve_model _ _ _).
  assert (Hm : forall m, ml = Some m -> m ∈ map model_n df ∧
            forall b, bl = Some b -> exists c, c ∈ df /\ brand_n c = b /\ model_n c = m /\
              forall v, vl = Some v -> version_n c = v).
  { intros m Em%resolve_model_vocab. destruct (is_Some_dec bl) as [[b Eb]|Eb].
    - apply elem_of_unique, list_elem_of_fmap in Em as (c & -> & Hc).
      rewrite !elem_of_narrow in Hc. split; [apply list_elem_of_fmap; naive_solver|].
      intros b' Eb'. exists c. naive_solver.
    - split; [by apply elem_of_unique|]. intros b Eb'. exfalso. apply Eb. by eexists. }
  split; [|split; [|split; [|split]]].
  - intros c (Hc & Hb)%elem_of_brand_guard. rewrite !elem_of_narrow in Hc. naive_solver.
  - intros v Ev%resolve_version_vocab. by apply elem_of_unique.
  - intros b Eb%resolve_brand_vocab. by apply elem_of_unique.
  - intros m Em. by apply Hm.
  - intros b m Eb Em. by apply Hm.
Qed.
End Locks.

Section Results.
Context `{Fuzz} (catalog : list car).

Lemma elem_of_filtered f c :
  c ∈ filtered_df_for_search catalog f <->
  c ∈ snd (lock_phase catalog f) /\ satisfies f c.
Proof.
  unfold filtered_df_for_search. destruct catalog as [|x l] eqn:Ec.
  - split; [cbn; set_solver|]. intros [Hc _].
    pose proof (lock_phase_spec [] f) as Hl. destruct (lock_phase [] f) as [lk rows].
    destruct Hl as [Hr _]. apply Hr in Hc. set_solver.
  - by rewrite elem_of_rank_rows.
Qed.

Lemma filtered_in_catalog f c : c ∈ filtered_df_for_search catalog f -> c ∈ catalog.
Proof.
  intros [Hc _]%elem_of_filtered. pose proof (lock_phase_spec catalog f) as Hl.
  destruct (lock_phase catalog f) as [lk rows]. destruct Hl as [Hrows _]. apply Hrows in Hc.
  naive_solver.
Qed.

(** every row [_filtered_df_for_search] returns is a catalog row within
    the numeric bounds that carries each lock of the lock phase (the locked
    version, brand and model), and the rows come ranked by the order of the
    filter set. *)
Theorem search_rows_spec f :
  let lk := fst (lock_phase catalog f) in
  (forall c, c ∈ filtered_df_for_search catalog f ->
     c ∈ catalog /\ satisfies f c /\
     (forall v, version_lock lk = Some v -> version_n c = v) /\
     (forall b, brand_lock lk = Some b -> brand_n c = b) /\
     (forall m, model_lock lk = Some m -> model_n c = m)) /\
  StronglySorted (rank (f_year_min f)) (filtered_df_for_search catalog f).
Proof.
  cbn zeta. split.
  - intros c [Hc Hs]%elem_of_filtered.
    pose proof (lock_phase_spec catalog f) as Hl. destruct (lock_phase catalog f) as [lk rows].
    cbn [fst snd] in *. destruct Hl as [Hrows _]. apply Hrows in Hc. naive_solver.
  - unfold filtered_df_for_search. destruct catalog; [constructor|].
    apply StronglySorted_merge_sort; apply _.
Qed.

(** C29: hierarchical scoping (spec section 8): when the lock phase locks a
    brand and a model, the model is the model of a catalog row of that brand
    (and of the locked version), so for brand-disjoint model sets it is a
    model of the locked brand; each lock is a value of its catalog column. *)
Theorem model_lock_scoped f b m :
  brand_lock (fst (lock_phase catalog f)) = Some b ->
  model_lock (fst (lock_phase catalog f)) = Some m ->
  b ∈ map brand_n catalog /\ m ∈ map model_n catalog /\
  exists c, c ∈ catalog /\ brand_n c = b /\ model_n c = m /\
    forall v, version_lock (fst (lock_phase catalog f)) = Some v -> version_n c = v.
Proof.
  pose proof (lock_phase_spec catalog f) as Hl. destruct (lock_phase catalog f) as [lk rows].
  cbn [fst] in *. intros Eb Em. destruct Hl as (_ & _ & Hb & Hm & Hbm).
  split; [by apply Hb|]. split; [by apply Hm|]. by apply Hbm.
Qed.


(** ** The search as a declarative selection *)

(** The selection spec 4.5 describes: the catalog rows that carry each
    lock and are within every bound, ranked by the filter set's order. *)
Definition lock_ok (col : car -> text) (lock : option text) (c : car) : bool :=
  match lock with Some v => bool_decide (col c = v) | None => true end.

Definition opt_test {B} (bound : option B) (test : B -> car -> bool) (c : car) : bool :=
  match bound with Some b => test b c | None => true end.

Definition carries (lk : locks) (c : car) : bool :=
  lock_ok version_n (version_lock lk) c && lock_ok brand_n (brand_lock lk) c &&
  lock_ok model_n (model_lock lk) c.

Definition keeps (f : filters) (lk : locks) (c : car) : bool :=
  carries lk c &&
  opt_test (f_price_min f) price_min_ok c && opt_test (f_price_max f) price_max_ok c &&
  opt_test (f_year_min f) year_min_ok c && opt_test (f_km_max f) km_max_ok c.

Definition search_spec (f : filters) : list car :=
  sort_rows (f_year_min f) (filter (fun c => keeps f (fst (lock_phase catalog f)) c = true) catalog).

Lemma filter_true {A} (l : list A) : filter (fun _ => true = true) l = l.
Proof. induction l as [|x l IH]; [done|]. rewrite filter_cons_True by done. by f_equal. Qed.

Lemma narrow_filter col lock df :
  narrow col lock df = filter (fun c => lock_ok col lock c = true) df.
Proof.
  destruct lock as [v|]; simpl; [|by rewrite filter_true].
  apply list_filter_iff. intros c. by rewrite bool_decide_eq_true.
Qed.

Lemma filter_opt_filter {B} (bound : option B) test rows :
  filter_opt bound test rows = filter (fun c => opt_test bound test c = true) rows.
Proof. destruct bound as [b|]; [done|]. by rewrite filter_true. Qed.

(** The final guard narrows by a lock every row already carries. *)
Lemma brand_guard_filter block (P : car -> Prop) `{!forall c, Decision (P c)} l :
  (forall c, P c -> lock_ok brand_n block c = true) -> brand_guard block (filter P l) = filter P l.
Proof.
  intros HP. unfold brand_guard. destruct (filter P l) as [|x r] eqn:E; [done|].
  rewrite <- E, narrow_filter. by apply list_filter_filter_r.
Qed.

Lemma lock_rows f :
  snd (lock_phase catalog f) = filter (fun c => carries (fst (lock_phase catalog f)) c = true) catalog.
Proof.
  unfold lock_phase. cbn zeta. cbn [fst snd]. unfold carries. cbn [version_lock brand_lock model_lock].
  set (vl := resolve_version _ _ _). set (bl := resolve_brand _ _ _). set (ml := resolve_model _ _ _).
  clearbody vl bl ml. rewrite !narrow_filter, !list_filter_filter. rewrite brand_guard_filter.
  - apply list_filter_iff. intros c. rewrite !andb_true_iff. tauto.
  - intros c. tauto.
Qed.

(** C30: refinement of the declarative search: [_filtered_df_for_search]
    returns exactly the catalog rows that carry every lock of the lock
    phase and are within every bound, in the order of the stable ranking:
    the lock phase's successive narrowings and the final guard select no
    more and no fewer rows than the declarative filter. *)
Theorem filtered_df_refines f : filtered_df_for_search catalog f = search_spec f.
Proof.
  unfold filtered_df_for_search, search_spec. case_match eqn:Ec.
  - done.
  - rewrite <- Ec. unfold rank_rows, numeric_filters. rewrite lock_rows, !filter_opt_filter, !list_filter_filter.
    f_equal. apply list_filter_iff. intros x. unfold keeps. rewrite !andb_true_iff. tauto.
Qed.
End Results.

(** The sample catalog, searched for "Nissan" "versa" with the exact scorer. *)
Definition nissan_versa : filters :=
  {| f_raw_text := None; f_brand := Some (txt "Nissan"); f_model := Some (txt "versa");
     f_version := None; f_year_min := None; f_year_max := None; f_price_min := None;
     f_price_max := None; f_km_max := None |}.

Lemma model_lock_scoped_witness :
  txt "nissan" ∈ map brand_n sample_catalog /\ txt "versa" ∈ map model_n sample_catalog /\
  exists c, c ∈ sample_catalog /\ brand_n c = txt "nissan" /\ model_n c = txt "versa" /\
    forall v, version_lock (fst (@lock_phase exact_fuzz sample_catalog nissan_versa)) = Some v ->
      version_n c = v.
Proof.
  apply (@model_lock_scoped exact_fuzz sample_catalog nissan_versa); vm_compute; reflexivity.
Defined.

Example search_nissan_versa :
  map car_id (@filtered_df_for_search exact_fuzz sample_catalog nissan_versa) = [txt "322722"].
Proof. vm_compute. reflexivity. Qed.
