(* ===== verification/Router.v ===== *)
(** * Router: the reply builder [retrieve_cars] (app/router.py)

    [retrieve_cars(filters, offset, limit)] (router.py:68-142) re-runs the
    query for a page and builds the reply.  Besides the reply it mutates the
    dict it is given: when every car of the page shares a brand, a model or
    a (non-empty) version and the dict has none, it writes that value into
    the dict (router.py:95-108).  The model returns the reply and the dict
    as it is after the call, so that the caller decides, as Python's
    aliasing does, whether that dict is the one it keeps.

    Replies are modelled by their kind and their data (the filter set whose
    chips head them, the count, the numbered cards, what remains); the
    number formatting of [_fmt_mxn] and [_fmt_km] is presentation. *)

From stdpp Require Import base list option sets.
From Stdlib Require Import ZArith QArith Lia.
From S2P Require Import Prelude Text Catalog Resolver Search.

Set Warnings "-clear-no-such-hyp".
Local Close Scope Q_scope.

Inductive cars_reply :=
  | CNoResults (chips : filters)                       (** 0 results *)
  | CEnd (chips : filters) (total : nat)                (** offset past the end *)
  | CEmptyPage (chips : filters) (total : nat)          (** the page came back empty *)
  | CCards (chips : filters) (total : nat) (cards : list (nat * car)) (remaining : nat).

(** [not filters.get(key)] on a text value. *)
Definition falsy_text (o : option text) : bool :=
  match o with None | Some [] => true | _ => false end.

(** [len(s) == 1] for the set [s] of the values, and its element. *)
Definition single (l : list text) : option text :=
  match unique l with [x] => Some x | _ => None end.

(** One key of the echo: [if cars and not filters.get(key)] and the set of
    the page's values has one element, store it. *)
Definition fill (get : filters -> option text) (set : option text -> filters -> filters)
    (vals : list text) (f : filters) : filters :=
  if falsy_text (get f) then match single vals with Some v => set (Some v) f | None => f end
  else f.

(** The echo of router.py:95-108: brand, then model, then the version
    (lower-cased and stripped, the empty one discarded). *)
Definition echo (cars : list car) (f : filters) : filters :=
  match cars with
  | [] => f
  | _ =>
      let f := fill f_brand set_brand (map brand cars) f in
      let f := fill f_model set_model (map model cars) f in
      fill f_version set_version
        (filter (fun v => v <> []) (map (fun c => lower (strip (version c))) cars)) f
  end.

Section Retrieve.
Context `{Fuzz} (catalog : list car).

(** [retrieve_cars(filters, offset, limit)]: the reply and the dict after
    the call. *)
Definition retrieve_cars (f : filters) (offset limit : nat) : cars_reply * filters :=
  let total := search_cars_count catalog f in
  if Nat.eqb total 0 then (CNoResults f, f)
  else if Nat.leb total offset then (CEnd f total, f)
  else
    let cars := search_cars catalog f limit offset in
    let f' := echo cars f in
    match cars with
    | [] => (CEmptyPage f' total, f')
    | _ =>
        let shown_total := Nat.min (offset + length cars) total in
        (CCards f' total (zip (seq 1 (length cars)) cars) (total - shown_total), f')
    end.
End Retrieve.

(** ** The reply builder *)

Lemma unique_from_complete seen l y : y ∈ l -> y ∈ seen \/ y ∈ unique_from seen l.
Proof.
  revert seen. induction l as [|x l IH]; intros seen Hy; [set_solver|]. simpl.
  apply elem_of_cons in Hy as [->|Hy].
  - case_decide; [by left|right; set_solver].
  - case_decide; [by apply IH|]. destruct (IH (x :: seen) Hy) as [Hs|Hs]; set_solver.
Qed.

(** A single distinct value is the value of every element. *)
Lemma single_all l x : single l = Some x -> Forall (fun y => y = x) l.
Proof.
  unfold single. destruct (unique l) as [|x' [|]] eqn:E; intros; simplify_eq.
  apply Forall_forall. intros y Hy.
  destruct (unique_from_complete [] l y Hy) as [Hs|Hs]; [set_solver|].
  unfold unique in E. rewrite E in Hs. set_solver.
Qed.

(** What the echo does to one key: nothing, or it fills an empty key with
    the value every car of the page has. *)
Definition echo_fills (old new : option text) (col : car -> text) (cars : list car) : Prop :=
  new = old \/
  (falsy_text old = true /\ cars <> [] /\ exists v, new = Some v /\ Forall (fun c => col c = v) cars).

Lemma echo_fills_single (old : option text) (col : car -> text) (cars : list car) (v : text) :
  cars <> [] -> falsy_text old = true -> single (map col cars) = Some v ->
  echo_fills old (Some v) col cars.
Proof.
  intros Hne Hf Hs. right. split; [done|]. split; [done|]. exists v. split; [done|].
  apply single_all in Hs. by apply Forall_fmap in Hs.
Qed.

Definition refill (old : option text) (v : option text) : option text :=
  if falsy_text old then match v with Some x => Some x | None => old end else old.

Lemma echo_fields cars f :
  cars <> [] ->
  f_brand (echo cars f) = refill (f_brand f) (single (map brand cars)) /\
  f_model (echo cars f) = refill (f_model f) (single (map model cars)) /\
  f_version (echo cars f)
  = refill (f_version f) (single (filter (fun v => v <> []) (map (fun c => lower (strip (version c))) cars))) /\
  set_brand (f_brand f) (set_model (f_model f) (set_version (f_version f) (echo cars f))) = f.
Proof.
  intros Hne. destruct cars as [|c cs]; [done|]. unfold echo.
  set (sb := single (map brand (c :: cs))). set (sm := single (map model (c :: cs))).
  set (sv := single (filter (fun v => v <> []) (map (fun c => lower (strip (version c))) (c :: cs)))).
  unfold fill, refill. fold sb sm sv. clearbody sb sm sv.
  destruct f as [r b m v y1 y2 p1 p2 k]; simpl.
  destruct (falsy_text b), sb; simpl; destruct (falsy_text m), sm; simpl;
    destruct (falsy_text v), sv; simpl; done.
Qed.

Lemma refill_fills old (l : list text) (col : car -> text) cars :
  cars <> [] -> Forall (fun c => col c ∈ l) cars ->
  echo_fills old (refill old (single l)) col cars.
Proof.
  intros Hne Hin. unfold refill, echo_fills. destruct (falsy_text old) eqn:Ef; [|by left].
  destruct (single l) as [v|] eqn:E; [|by left]. right. split; [done|]. split; [done|].
  exists v. split; [done|]. apply single_all in E. rewrite Forall_forall in E. rewrite Forall_forall in Hin. apply Forall_forall.
  intros c Hc. by apply E, Hin.
Qed.

(** the echo of [retrieve_cars] changes the dict it is given only by
    filling an empty brand, model or version with the value every car of
    the page shares (for the version, every car with a non-empty one); all
    other keys are left as they were. *)
Theorem echo_only_fills cars f :
  echo_fills (f_brand f) (f_brand (echo cars f)) brand cars /\
  echo_fills (f_model f) (f_model (echo cars f)) model cars /\
  (f_version (echo cars f) = f_version f \/
   (falsy_text (f_version f) = true /\ exists v, f_version (echo cars f) = Some v /\
      Forall (fun c => lower (strip (version c)) = [] \/ lower (strip (version c)) = v) cars)) /\
  set_brand (f_brand f) (set_model (f_model f) (set_version (f_version f) (echo cars f))) = f.
Proof.
  destruct cars as [|c cs] eqn:Ec.
  - simpl. split; [by left|]. split; [by left|]. split; [by left|]. by destruct f.
  - rewrite <- Ec. assert (Hne : cars <> []) by (subst; discriminate).
    destruct (echo_fields cars f Hne) as (-> & -> & -> & Hrest). split; [|split; [|split]].
    + apply refill_fills; [done|].
      apply Forall_forall. intros x Hx. apply list_elem_of_fmap. eauto.
    + apply refill_fills; [done|].
      apply Forall_forall. intros x Hx. apply list_elem_of_fmap. eauto.
    + unfold refill. destruct (falsy_text (f_version f)) eqn:Ef; [|by left].
      destruct (single _) as [v|] eqn:E; [|by left]. right. split; [done|]. exists v.
      split; [done|]. apply single_all in E. rewrite Forall_forall in E. apply Forall_forall. intros x Hx.
      destruct (decide (lower (strip (version x)) = [])) as [|Hn]; [by left|right].
      apply E. apply list_elem_of_filter. split; [done|]. apply list_elem_of_fmap. eauto.
    + done.
Qed.

Section RetrieveSpec.
Context `{Fuzz} (catalog : list car).

(** The page [retrieve_cars] shows has [min(limit, count - offset)] cars. *)
Lemma length_search_cars f limit offset :
  length (search_cars catalog f limit offset) = min limit (search_cars_count catalog f - offset).
Proof. unfold search_cars, search_cars_count, page. apply length_slice. Qed.

(** The cards of a page are the cars of [search_cars], numbered from 1. *)
Lemma retrieve_cars_cards f offset limit f' total cards rem f'' :
  retrieve_cars catalog f offset limit = (CCards f' total cards rem, f'') ->
  cards = zip (seq 1 (length (search_cars catalog f limit offset))) (search_cars catalog f limit offset).
Proof. unfold retrieve_cars. repeat case_match; intros; simplify_eq; done. Qed.

(** With an offset below the count and a positive limit the page is not
    empty. *)
Lemma retrieve_cars_nonempty f offset limit f' total :
  offset < search_cars_count catalog f -> 0 < limit ->
  fst (retrieve_cars catalog f offset limit) <> CEmptyPage f' total.
Proof.
  intros Ho Hl. pose proof (length_search_cars f limit offset) as Hlen. unfold retrieve_cars.
  rewrite (proj2 (Nat.eqb_neq _ _)), (proj2 (Nat.leb_gt _ _)) by lia.
  destruct (search_cars catalog f limit offset); [simpl in Hlen; lia|done].
Qed.

(** The dict [retrieve_cars] leaves keeps its free text. *)
Lemma retrieve_cars_raw_text f offset limit :
  f_raw_text (snd (retrieve_cars catalog f offset limit)) = f_raw_text f.
Proof.
  unfold retrieve_cars, echo, fill.
  repeat case_match; simplify_eq/=; done.
Qed.

(** C27: [retrieve_cars] answers "no results" with a count of 0, "no more"
    at or past the count, the empty page only for a zero limit, and
    otherwise the page of [search_cars] numbered from 1 with
    [count - offset - n] cars remaining; only that last reply changes the
    dict, by the echo of its page. *)
Theorem retrieve_cars_spec f offset limit :
  let total := search_cars_count catalog f in
  let cars := search_cars catalog f limit offset in
  retrieve_cars catalog f offset limit =
    if decide (total = 0) then (CNoResults f, f)
    else if decide (total <= offset) then (CEnd f total, f)
    else if decide (limit = 0) then (CEmptyPage f total, f)
    else (CCards (echo cars f) total (zip (seq 1 (length cars)) cars)
            (total - offset - length cars), echo cars f).
Proof.
  cbn zeta. unfold retrieve_cars. pose proof (length_search_cars f limit offset) as Hl.
  set (total := search_cars_count catalog f) in *. set (cars := search_cars catalog f limit offset) in *.
  clearbody cars. destruct (decide (total = 0)) as [->|Hz]; [done|].
  rewrite (proj2 (Nat.eqb_neq _ _) Hz). destruct (decide (total <= offset)) as [Ho|Ho].
  { by rewrite (proj2 (Nat.leb_le _ _) Ho). }
  rewrite (proj2 (Nat.leb_gt _ _)) by lia. destruct (decide (limit = 0)) as [->|Hlim].
  - destruct cars; [done|simpl in Hl; lia].
  - destruct cars as [|c cs]; [simpl in Hl; lia|].
    replace (total - Nat.min (offset + length (c :: cs)) total) with (total - offset - length (c :: cs));
      [done|simpl in *; lia].
Qed.
End RetrieveSpec.
