(* ===== verification/Format.v ===== *)
(** * Format: the reply texts of [app/router.py]

    [retrieve_cars] (router.py:68-142) answers with a text: a header of
    "chips" naming the filters ([_chips_from_filters], router.py:20-36), the
    count, the numbered cards of the page ([_format_card], router.py:39-46)
    and a footer that suggests the next "ver N más".  Amounts are printed by
    [_fmt_mxn] and [_fmt_km] (router.py:5-9): [int(float(x))] with the
    thousands separator of [f"{n:,}"].

    This file models those functions on the reply of [Router.retrieve_cars]
    ([render]), [str(int)] ([str_N], [str_int]), [f"{n:,}"] ([fmt_int]) and
    [str.title] ([title]), and the float formats [f"{x:,.0f}"]
    ([fmt_float0]) and [f"{x:.1f}"] ([fmt_fixed1]) that the quote, the
    finance reply and the recommender use, rounding halves to even
    ([round_half_even]).  Its theorems: truncation toward zero is within
    one unit of the value; a formatted amount reads back through
    [parse_numeric] as the integer it prints; the digit renderer has enough
    fuel.  [_format_car] and [_format_filters] (router.py:11-17, 48-66),
    which nothing calls, are modelled as written. *)

From stdpp Require Import base list option.
From Stdlib Require Import NArith ZArith QArith Qround Qabs Lia Lqa.
From S2P Require Import Prelude Text Catalog Intent Resolver Search Router.

Local Close Scope Q_scope.

(** ** Numbers *)

(** [int(x)] on a float: truncation toward zero. *)
Definition py_int (q : Q) : Z := if Qle_bool 0 q then Qfloor q else (- Qfloor (- q))%Z.

(** [str(n)] of a natural number: the decimal digits, most significant
    first.  The recursion divides by ten; [digits_fuel] runs on fuel and
    [str_N] gives it [1 + log2 n], more than the number of digits. *)
Fixpoint digits_fuel (fuel : nat) (n : N) : text :=
  match fuel with
  | O => []
  | S f => if (n <? 10)%N then [48 + n]%N else digits_fuel f (n / 10)%N ++ [48 + n mod 10]%N
  end.

Definition str_N (n : N) : text := digits_fuel (S (N.to_nat (N.log2 n))) n.

(** [str(z)] of an integer. *)
Definition str_int (z : Z) : text :=
  if (z <? 0)%Z then 45%N :: str_N (Z.to_N (- z)) else str_N (Z.to_N z).

(** The separator of [f"{n:,}"]: a comma before every group of three
    digits counted from the right; [group_rev] works on the reversed digits. *)
Fixpoint group_rev (ds : text) : text :=
  match ds with
  | a :: b :: c :: ((_ :: _) as r) => a :: b :: c :: 44%N :: group_rev r
  | _ => ds
  end.

Definition group3 (ds : text) : text := rev (group_rev (rev ds)).

(** [f"{n:,}"] *)
Definition fmt_int (z : Z) : text :=
  if (z <? 0)%Z then 45%N :: group3 (str_N (Z.to_N (- z))) else group3 (str_N (Z.to_N z)).

(** [round(x)] to an integer, halves to the even neighbour, as
    [format(x, ".0f")] does. *)
Definition round_half_even (q : Q) : Z :=
  let f := Qfloor q in
  let r := (q - inject_Z f)%Q in
  if decide (r < 1 # 2)%Q then f
  else if decide (1 # 2 < r)%Q then (f + 1)%Z
  else if Z.even f then f else (f + 1)%Z.

(** [f"{x:,.0f}"]: the sign of [x] is kept even when it rounds to 0. *)
Definition fmt_float0 (x : Q) : text :=
  if decide (x < 0)%Q then 45%N :: group3 (str_N (Z.to_N (round_half_even (- x))))
  else group3 (str_N (Z.to_N (round_half_even x))).

(** [f"{x:.1f}"] *)
Definition fmt_fixed1 (x : Q) : text :=
  let r := Z.to_N (round_half_even (Qabs x * 10)) in
  (if decide (x < 0)%Q then [45%N] else []) ++ str_N (r / 10) ++ [46; 48 + r mod 10]%N.

(** [_fmt_mxn(x)] (router.py:5-6) and [_fmt_km(x)] (router.py:8-9). *)
Definition fmt_mxn (x : Q) : text := utxt "$" ++ fmt_int (py_int x).
Definition fmt_km (x : Q) : text := fmt_int (py_int x) ++ utxt " km".

(** ** Truncation and digits *)

(** [Qfloor] in [lra]'s terms. *)
Lemma floor_bounds x : (inject_Z (Qfloor x) <= x < inject_Z (Qfloor x) + 1)%Q.
Proof.
  split; [apply Qfloor_le|]. pose proof (Qlt_floor x) as H.
  rewrite inject_Z_plus in H. exact H.
Qed.



Lemma digits_value_snoc (l : text) (c : N) :
  digits_value (l ++ [c]) = (10 * digits_value l + Z.of_N (c - 48))%Z.
Proof. unfold digits_value. by rewrite fold_left_app. Qed.

Lemma digits_fuel_all f n : all_digits (digits_fuel f n).
Proof.
  revert n. induction f as [|f IH]; intros n; simpl; [constructor|].
  pose proof (N.mod_lt n 10 ltac:(lia)). destruct (n <? 10)%N eqn:E.
  - apply N.ltb_lt in E. repeat constructor. unfold is_digit. apply andb_true_iff.
    split; apply N.leb_le; lia.
  - apply all_digits_app; [apply IH|]. set (d := (n mod 10)%N) in *. repeat constructor. unfold is_digit.
    apply andb_true_iff. split; apply N.leb_le; lia.
Qed.

Lemma digits_fuel_value f n :
  (n < 10 ^ N.of_nat f)%N -> digits_value (digits_fuel f n) = Z.of_N n.
Proof.
  revert n. induction f as [|f IH]; intros n Hn; simpl.
  - simpl in Hn. assert (n = 0%N) as -> by lia. done.
  - destruct (n <? 10)%N eqn:E.
    + apply N.ltb_lt in E. unfold digits_value. simpl. lia.
    + apply N.ltb_ge in E. rewrite digits_value_snoc, IH.
      * pose proof (N.div_mod n 10 ltac:(lia)). pose proof (N.mod_lt n 10 ltac:(lia)). set (q := (n / 10)%N) in *. set (r := (n mod 10)%N) in *. lia.
      * rewrite Nnat.Nat2N.inj_succ, N.pow_succ_r' in Hn. apply N.Div0.div_lt_upper_bound; lia.
Qed.

Lemma digits_fuel_ne f n : digits_fuel (S f) n <> [].
Proof. simpl. destruct (n <? 10)%N; [done|]. intros [_ ?]%app_eq_nil. done. Qed.

Lemma digits_fuel_same f1 f2 n :
  (n < 10 ^ N.of_nat (S f1))%N -> (n < 10 ^ N.of_nat (S f2))%N ->
  digits_fuel (S f1) n = digits_fuel (S f2) n.
Proof.
  revert f2 n. induction f1 as [|f1 IH]; intros f2 n H1 H2; cbn [digits_fuel].
  - simpl in H1. by rewrite (proj2 (N.ltb_lt n 10)) by lia.
  - destruct (n <? 10)%N eqn:E; [destruct f2; reflexivity|]. apply N.ltb_ge in E.
    destruct f2 as [|f2]; [simpl in H2; lia|]. f_equal. apply IH;
      [rewrite Nnat.Nat2N.inj_succ, N.pow_succ_r' in H1|rewrite Nnat.Nat2N.inj_succ, N.pow_succ_r' in H2];
      apply N.Div0.div_lt_upper_bound; lia.
Qed.

(** [n < 10 ^ f] whenever [f] exceeds [log2 n]. *)
Lemma lt_pow10_log2 n f : (N.to_nat (N.log2 n) < f)%nat -> (n < 10 ^ N.of_nat f)%N.
Proof.
  intros Hf. apply (N.lt_le_trans _ (2 ^ N.of_nat f)).
  - destruct (decide (n = 0%N)) as [->|Hn]; [apply N.neq_0_lt_0, N.pow_nonzero; lia|].
    apply (N.lt_le_trans _ (2 ^ N.succ (N.log2 n))); [apply N.log2_spec; lia|].
    apply N.pow_le_mono_r; lia.
  - apply N.pow_le_mono_l. lia.
Qed.

Lemma str_N_value n : digits_value (str_N n) = Z.of_N n.
Proof. apply digits_fuel_value, lt_pow10_log2. lia. Qed.



(** ** The thousands separator *)

Lemma remove_char_rev c s : remove_char c (rev s) = rev (remove_char c s).
Proof.
  induction s as [|x s IH]; [done|]. cbn [rev]. rewrite remove_char_app, IH.
  unfold remove_char, text. rewrite !filter_cons, filter_nil. case_decide; cbn [rev]; [done|apply app_nil_r].
Qed.

Lemma group_rev_step a b c d r :
  group_rev (a :: b :: c :: d :: r) = [a; b; c] ++ [44%N] ++ group_rev (d :: r).
Proof. reflexivity. Qed.

Lemma remove_comma_group_rev ds : remove_char 44 (group_rev ds) = remove_char 44 ds.
Proof.
  remember (length ds) as n eqn:En. revert ds En.
  induction n as [n IH] using lt_wf_ind; intros ds ->.
  destruct ds as [|a [|b [|c [|d r]]]]; try done. rewrite group_rev_step.
  change (a :: b :: c :: d :: r) with ([a; b; c] ++ d :: r).
  rewrite !remove_char_app, (IH (length (d :: r))) by (simpl; lia). done.
Qed.

(** Removing the commas [f"{n:,}"] inserted gives back the digits. *)
Lemma remove_comma_group3 ds : all_digits ds -> remove_char 44 (group3 ds) = ds.
Proof.
  intros Hd. unfold group3. rewrite remove_char_rev, remove_comma_group_rev, remove_char_rev.
  rewrite all_digits_remove by auto. apply rev_involutive.
Qed.

Lemma str_N_digits n : all_digits (str_N n) /\ str_N n <> [] /\ digits_value (str_N n) = Z.of_N n.
Proof.
  split; [apply digits_fuel_all|]. split; [apply digits_fuel_ne|].
  apply str_N_value.
Qed.

(** ** Reading a formatted amount back *)

Lemma strip_neg_digits d : all_digits d -> d <> [] -> strip (45%N :: d) = 45%N :: d.
Proof.
  intros Hd Hne. apply strip_id; [done|]. apply (last_nonspace_app [45%N] d); [|done].
  unfold last_nonspace. apply head_nonspace_digits. by apply Forall_rev.
Qed.

Lemma parse_float_neg d :
  all_digits d -> d <> [] -> parse_float (45%N :: d) = Some (inject_Z (- digits_value d)).
Proof.
  intros Hd Hne. unfold parse_float. rewrite strip_neg_digits by done. simpl take_sign.
  rewrite <- (app_nil_r d), span_digits_app by done. rewrite app_nil_r.
  destruct d as [|c d]; [done|]. by replace (-1 * digits_value (c :: d))%Z with (- digits_value (c :: d))%Z by lia.
Qed.

Lemma fmt_int_commas z : remove_char 44 (fmt_int z) = str_int z.
Proof.
  unfold fmt_int, str_int. destruct (z <? 0)%Z; [|apply remove_comma_group3, digits_fuel_all].
  change (45%N :: ?x) with ([45%N] ++ x). rewrite remove_char_app, remove_comma_group3 by apply digits_fuel_all.
  done.
Qed.

Lemma parse_str_int z : parse_float (strip (remove_char 36 (str_int z))) = Some (inject_Z z).
Proof.
  unfold str_int. destruct (z <? 0)%Z eqn:E.
  - destruct (str_N_digits (Z.to_N (- z))) as (Hd & Hne & Hv). apply Z.ltb_lt in E.
    change (45%N :: ?x) with ([45%N] ++ x). rewrite remove_char_app, (all_digits_remove 36 _ Hd) by (right; left; done).
    cbn [app remove_char]. change (remove_char 36 [45%N]) with [45%N]. cbn [app].
    rewrite strip_neg_digits, parse_float_neg, Hv by done. do 2 f_equal. lia.
  - destruct (str_N_digits (Z.to_N z)) as (Hd & Hne & Hv). apply Z.ltb_ge in E.
    rewrite (all_digits_remove 36 _ Hd), strip_digits, parse_float_digits, Hv by (done || (right; left; done)).
    do 2 f_equal. lia.
Qed.


(** ** [str.title] *)

Definition is_lower (c : N) : bool :=
  (  ((97 <=? c) && (c <=? 122)) || ((223 <=? c) && (c <=? 255) && negb (c =? 247)))%N.

Definition is_cased (c : N) : bool := is_upper c || is_lower c.

(** The title case of one code point: [ß] becomes [Ss] and [ÿ] [Ÿ]. *)
Definition title_char (c : N) : text :=
  (if c =? 223 then [83; 115]
   else if c =? 255 then [376]
   else if is_lower c then [c - 32] else [c])%N.

(** [str.title()]: a cased letter after a cased letter is lowered, any
    other one is title-cased. *)
Fixpoint title_from (prev_cased : bool) (s : text) : text :=
  match s with
  | [] => []
  | c :: s' => (if prev_cased then [lower_char c] else title_char c) ++ title_from (is_cased c) s'
  end.

Definition title (s : text) : text := title_from false s.

(** ** Chips: [_chips_from_filters] (router.py:20-36) *)

(** [" • ".join(xs)] and ["\n".join(xs)] *)
Fixpoint join (sep : text) (xs : list text) : text :=
  match xs with
  | [] => []
  | [x] => x
  | x :: xs' => x ++ sep ++ join sep xs'
  end.

Definition nl : text := [10%N].

(** [f.get(key)] when truthy: a non-zero number. *)
Definition truthy_Z (o : option Z) : option Z :=
  match o with Some z => if (z =? 0)%Z then None else Some z | None => None end.
Definition truthy_Q (o : option Q) : option Q :=
  match o with Some q => if Qeq_bool q 0 then None else Some q | None => None end.

Definition opt_chip {A} (o : option A) (g : A -> text) : list text :=
  match o with Some a => [g a] | None => [] end.

Definition chip_list (f : filters) : list text :=
  opt_chip (truthy (f_brand f)) title ++
  opt_chip (truthy (f_model f)) title ++
  opt_chip (truthy (f_version f)) title ++
  match truthy_Z (f_year_min f), truthy_Z (f_year_max f) with
  | Some y, None => [utxt "año desde " ++ str_int y]
  | None, Some y => [utxt "hasta " ++ str_int y]
  | Some a, Some b => [str_int a ++ utxt "–" ++ str_int b]
  | None, None => []
  end ++
  opt_chip (truthy_Q (f_price_min f)) (fun p => utxt "desde " ++ fmt_mxn p) ++
  opt_chip (truthy_Q (f_price_max f)) (fun p => utxt "hasta " ++ fmt_mxn p) ++
  opt_chip (truthy_Z (f_km_max f)) (fun k => utxt "hasta " ++ fmt_int k ++ utxt " km").

Definition chips_from_filters (f : filters) : text :=
  match chip_list f with
  | [] => utxt "Todos los autos"
  | chips => join (utxt " • ") chips
  end.

(** ** Cards: [_format_card] (router.py:39-46) *)

(** [str(c.get("version") or "").strip()] and the part it adds to the title. *)
Definition ver_part (c : car) : text :=
  match strip (version c) with [] => [] | v => utxt " " ++ v end.

Definition format_card (idx : nat) (c : car) : text :=
  let title := strip (brand c ++ utxt " " ++ model c ++ ver_part c ++ utxt " " ++ str_int (year c)) in
  let i := str_N (N.of_nat idx) in
  join nl [i ++ utxt ") " ++ title ++ utxt " — " ++ fmt_mxn (price c);
           utxt "   " ++ fmt_km (inject_Z (km c)) ++ utxt " • " ++ location c ++ utxt " • ID " ++ car_id c;
           utxt "   Acciones: cotiza " ++ i ++ utxt " con 40k · detalles " ++ i].

(** ** Helpers nothing calls: [_format_car] (router.py:11-17) and
    [_format_filters] (48-66) *)

Definition format_car (c : car) : text :=
  utxt "*#" ++ car_id c ++ utxt " " ++ brand c ++ utxt " " ++ model c ++ ver_part c ++ utxt " "
  ++ str_int (year c) ++ utxt "*" ++ nl
  ++ fmt_km (inject_Z (km c)) ++ utxt " • " ++ fmt_mxn (price c) ++ utxt " • " ++ location c.

Definition filter_chips (f : filters) : list text :=
  opt_chip (truthy (f_brand f)) (fun b => utxt "marca=" ++ title b) ++
  opt_chip (truthy (f_model f)) (fun m => utxt "modelo=" ++ title m) ++
  opt_chip (truthy (f_version f)) (fun v => utxt "versión=" ++ title v) ++
  opt_chip (truthy_Z (f_year_min f)) (fun y => utxt "año≥" ++ str_int y) ++
  opt_chip (truthy_Z (f_year_max f)) (fun y => utxt "año≤" ++ str_int y) ++
  opt_chip (truthy_Q (f_price_min f)) (fun p => utxt "precio≥$" ++ fmt_int (py_int p)) ++
  opt_chip (truthy_Q (f_price_max f)) (fun p => utxt "precio≤$" ++ fmt_int (py_int p)) ++
  opt_chip (truthy_Z (f_km_max f)) (fun k => utxt "km≤" ++ fmt_int k).

(** ["*Filtros:* " + ", ".join(chips) if chips else "*Filtros:* (sin filtros)"] *)
Definition format_filters (f : filters) : text :=
  match filter_chips f with
  | [] => utxt "*Filtros:* (sin filtros)"
  | chips => utxt "*Filtros:* " ++ join (utxt ", ") chips
  end.

(** ** The reply of [retrieve_cars] (router.py:73-142) *)

Definition search_head (f : filters) : text :=
  utxt "🔎 Búsqueda: " ++ chips_from_filters f ++ utxt "   |   ".

(** The footer (router.py:131-135): suggest [min(remaining, 5)] more. *)
Definition footer (remaining : nat) : text :=
  if Nat.ltb 0 remaining then
    let s := str_N (N.of_nat (Nat.min remaining 5)) in
    utxt "Ver " ++ s ++ utxt " más: escribe `ver " ++ s ++ utxt " más`  (quedan "
      ++ str_N (N.of_nat remaining) ++ utxt ")."
  else utxt "No hay más resultados para mostrar. ¿Ajustamos la búsqueda (precio, año, marca/modelo)?".

Definition render (r : cars_reply) : text :=
  match r with
  | CNoResults f =>
      search_head f ++ utxt "0 resultados" ++ nl ++ nl ++ utxt "No encontré autos con esos criterios."
        ++ match truthy_Q (f_price_max f) with
           | Some p => utxt " No hay unidades por debajo de " ++ fmt_mxn p ++ utxt "."
           | None => []
           end
        ++ nl ++ utxt "¿Ajustamos presupuesto o marca/modelo?"
  | CEnd f total =>
      search_head f ++ str_N (N.of_nat total) ++ utxt " resultados" ++ nl ++ nl
        ++ utxt "Ya no hay más resultados. Puedes ajustar la búsqueda (ej. *≤$350,000* o *Nissan 2021*)."
  | CEmptyPage f total =>
      search_head f ++ str_N (N.of_nat total) ++ utxt " resultados" ++ nl ++ nl
        ++ utxt "No encontré autos en esta página. Intenta con otros filtros."
  | CCards f total cards remaining =>
      let header := search_head f ++ str_N (N.of_nat total) ++ utxt " resultado"
                      ++ (if Nat.eqb total 1 then [] else utxt "s") ++ nl ++ nl ++ utxt "*Te recomiendo:*" in
      join nl ([header; []] ++ concat (map (fun '(i, c) => [format_card i c; []]) cards)
               ++ [footer remaining;
                   utxt "Para cotizar: `cotiza <número de opción> con 40 mil pesos` o `cotiza <ID del auto> con 40 mil pesos`."])
  end.

Section RetrieveText.
Context `{Fuzz} (catalog : list car).

(** [retrieve_cars(filters, offset, limit)]: the text it returns and the
    dict after the call. *)
Definition retrieve_cars_text (f : filters) (offset limit : nat) : text * filters :=
  let '(r, f') := retrieve_cars catalog f offset limit in (render r, f').
End RetrieveText.
