(* ===== verification/Conversation.v ===== *)
(** * Conversation: [route_message] and the per-channel store

    [route_message(channel, text)] (intent.py:261-562) answers one message.
    It reads and writes five module-level dicts keyed by channel
    (intent.py:13-17): [LAST_FILTERS] (the saved filter dict),
    [LAST_OFFSET] and [LAST_LIMIT] (the cursor), [LAST_PAGE] (the display
    index: visible number to car id) and [LAST_CTX] (the last quote).  They
    are the fields of the record [store]; a turn is the function
    [route_message], from a store to a reply and the next store, or to the
    store an escaping exception leaves behind ([Err]).

    Aliasing is modelled where the code has it: on the pagination turns the
    dict [retrieve_cars] mutates is the stored [LAST_FILTERS[channel]]
    itself, so its echo is written back to the store; on a search turn the
    dict it mutates is a copy, and the echo is dropped.  [LAST_PAGE] holds a
    dict on every path but one, the second pagination branch
    (intent.py:426-458), which stores the page's list; a later pagination
    then assigns into that list, which raises [IndexError] past its end.
    That branch is dead: every message it would handle has been taken by
    the first pagination branch (intent.py:362), so no reachable store
    holds a list and no turn from one raises ([route_message_total]).

    The turn is a Section over the catalog, the scorers, and [order], the
    iteration order of the set [SYNONYMS["km"]] in the running process. *)

From stdpp Require Import base list option sets gmap.
From Stdlib Require Import ZArith QArith Qround Lia.
From S2P Require Import Prelude Text Regex Finance Catalog Intent Resolver Search Router Format.

Set Warnings "-clear-no-such-hyp".
Local Close Scope Q_scope.

(** ** The store *)

(** An element of the list the second pagination branch stores: a car dict,
    or the id string a later pagination assigns over it. *)
Inductive page_elem := PECar (c : car) | PEId (id : text).

(** A value of [LAST_PAGE]: a dict from visible number to id, or a list. *)
Inductive page_entry := PMap (m : gmap nat text) | PList (l : list page_elem).

(** The quote context of intent.py:344-349 ([kind] is always ["quote"]). *)
Record quote_ctx := QuoteCtx { ctx_car_id : text; ctx_down : Z; ctx_term : Z }.

Record store := Store {
  last_filters : gmap text filters;
  last_offset : gmap text nat;
  last_limit : gmap text nat;
  last_page : gmap text page_entry;
  last_ctx : gmap text quote_ctx
}.

Definition empty_store : store := Store ∅ ∅ ∅ ∅ ∅.

(** [LAST_X[channel] = v], one per dict. *)
Definition put_filters ch v st := Store (<[ch:=v]> (last_filters st)) (last_offset st)
  (last_limit st) (last_page st) (last_ctx st).
Definition put_cursor ch o l st := Store (last_filters st) (<[ch:=o]> (last_offset st))
  (<[ch:=l]> (last_limit st)) (last_page st) (last_ctx st).
Definition put_page ch v st := Store (last_filters st) (last_offset st) (last_limit st)
  (<[ch:=v]> (last_page st)) (last_ctx st).
Definition put_ctx ch v st := Store (last_filters st) (last_offset st) (last_limit st)
  (last_page st) (<[ch:=v]> (last_ctx st)).

(** ** Replies *)

Inductive reply :=
  | RValueProp                                 (** [PROPUESTA_VALOR_KAVAK] *)
  | RWelcome                                   (** [WELCOME_MSG] *)
  | RDetails (down term : Z)                   (** [_details_after_quote(ctx)] *)
  | RWhichDetails | RNoThanks
  | RContactMissing
  | RContact (name email phone : text) (car_id : option text)
  | RQuoteUnknown
  | RQuote (q : quote_reply) (rate_note : bool)
  | RNoPrevious                                (** no saved search to page *)
  | RNoMore                                    (** intent.py:378 *)
  | RNoMoreFiltered                            (** intent.py:443-444 *)
  | RPage (r : cars_reply)                     (** a "ver más" page *)
  | RFinanceHelp
  | RFinance (price down : Q) (plan : option (list plan_line))
  | RKb (question : text)                      (** [kb_tool(raw)] *)
  | RSearch (r : cars_reply).                  (** a new search or refinement *)

(** The result of a turn: a reply and the next store, or an exception that
    escapes with the store as mutated up to it. *)
Inductive outcome := Ok (r : reply) (st : store) | Err (st : store).

(** ** Python helpers *)


(** [s.replace(p, "")] for a non-empty [p]: occurrences removed left to right. *)
Fixpoint remove_all_fuel (fuel : nat) (p s : text) : text :=
  match fuel, s with
  | O, _ => s
  | _, [] => []
  | S fuel, c :: s' =>
      if is_prefix p s then remove_all_fuel fuel p (drop (length p) s)
      else c :: remove_all_fuel fuel p s'
  end.

Definition remove_all (p s : text) : text := remove_all_fuel (length s) p s.

(** [s.strip(",; ")] *)
Definition strip_chars (cs : list N) (s : text) : text :=
  let drop_front := fix go (s : text) := match s with
                    | c :: s' => if bool_decide (c ∈ cs) then go s' else s
                    | [] => [] end in
  rev (drop_front (rev (drop_front s))).

(** [m.group(n) or ""] *)
Definition group_or_empty (input : text) (m : match_result) (n : nat) : text :=
  default [] (group input m n).

(** The first match's text of a pattern, or [""]. *)
Definition search_text (r : regex) (input : text) : text :=
  match re_search r input with Some m => group_or_empty input m 0 | None => [] end.

(** The brand words of intent.py:469-470 and 510-511. *)
Definition BRAND_WORDS : list text :=
  [txt "nissan"; txt "toyota"; txt "volkswagen"; txt "ford"; txt "chevrolet"; txt "kia";
   txt "honda"; txt "bmw"; txt "mercedes benz"; txt "mazda"; txt "renault"; txt "hyundai"].

(** The version words of intent.py:517 and the set of 522-526. *)
Definition VERSION_LIST : list text :=
  [txt "sense"; txt "advance"; txt "exclusive"; txt "lt"; txt "ls"; txt "sr"; txt "le";
   txt "xe"; txt "xl"].

Definition VERSION_TOKENS : list text := VERSION_WORDS.

(** The model words of intent.py:530. *)
Definition MODEL_TOKENS : list text :=
  [txt "versa"; txt "sentra"; txt "march"; txt "kicks"; txt "altima"; txt "note";
   txt "x-trail"; txt "xtrail"; txt "x trail"; txt "pathfinder"; txt "murano"].

(** [for w in words: if w in t: return w] *)
Definition first_contained (t : text) (words : list text) : option text :=
  find (contains t) words.

(** [not base_filters]: no saved dict, or an empty one. *)
Definition no_saved (o : option filters) : bool :=
  match o with None => true | Some f => bool_decide (f = no_filters) end.

(** [LAST_PAGE.get(channel) or {}] followed by [vis in page_map] and
    [page_map[vis]]: an integer is never an element of the stored list. *)
Definition page_lookup (o : option page_entry) (vis : nat) : option text :=
  match o with Some (PMap m) => m !! vis | _ => None end.

(** The loop of intent.py:386-389, [page_map[idx] = str(it["id"])] from
    [idx = base]: inserts into a dict; into a list, an assignment past its
    end raises [IndexError] (the [None]), after the earlier ones took place
    (the list is the stored one). *)
Fixpoint assign_ids (pe : page_entry) (idx : nat) (cars : list car) : page_entry * bool :=
  match cars with
  | [] => (pe, true)
  | c :: cars =>
      match pe with
      | PMap m => assign_ids (PMap (<[idx:=car_id c]> m)) (S idx) cars
      | PList l =>
          if decide (idx < length l) then assign_ids (PList (<[idx:=PEId (car_id c)]> l)) (S idx) cars
          else (pe, false)
      end
  end.

(** The display index of a first page (intent.py:557-559): [1..N]. *)
Definition index_map (base : nat) (cars : list car) : gmap nat text :=
  list_to_map (zip (seq base (length cars)) (map car_id cars)).

Section Turn.
Context `{Fuzz} (catalog : list car) (order : list text).

(** The contact branch (intent.py:291-311). *)
Definition contact_turn (ch : text) (m : match_result) (raw : text) (st : store) : reply :=
  let tail := strip (group_or_empty raw m 3) in
  let email := search_text EMAIL_RE tail in
  let phone := search_text PHONE_RE tail in
  let scrub (name tok : text) :=
    match tok with [] => name | _ => strip (strip_chars [44; 59; 32]%N (remove_all tok name)) end in
  let name := scrub (scrub tail email) phone in
  match email, phone with
  | [], [] => RContactMissing
  | _, _ =>
      RContact name email phone
        (match last_ctx st !! ch with
         | Some ctx => if falsy_text (Some (ctx_car_id ctx)) then None else Some (ctx_car_id ctx)
         | None => None
         end)
  end.

(** The quote branch (intent.py:314-359). *)
Definition quote_turn (ch : text) (m : match_result) (raw : text) (st : store) : outcome :=
  let car_token := group_or_empty raw m 1 in
  let down_payment := parse_money (group_or_empty raw m 2) in
  match parse_term raw DEFAULT_TERM with
  | None => Err st
  | Some term =>
      let car_id :=
        if Nat.leb (length car_token) 3
        then page_lookup (last_page st !! ch) (Z.to_nat (int_of_digits car_token))
        else Some car_token in
      match car_id with
      | None | Some [] => Ok RQuoteUnknown st
      | Some id =>
          let q := cotiza_car catalog id down_payment (Some term) None in
          let st := put_ctx ch (QuoteCtx id (py_int down_payment) term) st in
          Ok (RQuote q (re_test TASA_NOTE_RE raw)) st
      end
  end.

(** The first pagination branch (intent.py:362-395). *)
Definition paginate_turn (ch : text) (m : match_result) (raw : text) (st : store) : outcome :=
  let how_many := match group_or_empty raw m 1 with [] => group_or_empty raw m 2 | g => g end in
  let step := match how_many with
              | [] => get_or (last_limit st) ch 5
              | _ => Z.to_nat (int_of_digits how_many) end in
  match last_filters st !! ch with
  | None => Ok RNoPrevious st
  | Some base =>
      if no_saved (Some base) then Ok RNoPrevious st else
      let new_offset := get_or (last_offset st) ch 0 + get_or (last_limit st) ch 5 in
      let total := search_cars_count catalog base in
      if Nat.leb total new_offset then Ok RNoMore st else
      let step := Nat.min (Nat.max step 1) (total - new_offset) in
      let page_cars := search_cars catalog base step new_offset in
      let pe := default (PMap ∅) (last_page st !! ch) in
      match assign_ids pe (S new_offset) page_cars with
      | (pe', false) => Err (put_page ch pe' st)
      | (pe', true) =>
          let st := put_cursor ch new_offset step (put_page ch pe' st) in
          let '(r, base') := retrieve_cars catalog base new_offset step in
          Ok (RPage r) (put_filters ch base' st)
      end
  end.

(** The finance branch (intent.py:403-414). *)
Definition finance_turn (raw : text) : reply :=
  let price := match re_search FIN_PRICE_RE raw with
               | Some m => parse_numeric (Some (group_or_empty raw m 0))
               | None => None end in
  let down := option_map (fun m => parse_money (group_or_empty raw m 1)) (re_search FIN_DOWN_RE raw) in
  match price, down with
  | Some p, Some d => RFinance p d (finance_plan p d None None)
  | _, _ => RFinanceHelp
  end.

(** The second pagination branch (intent.py:426-458). *)
Definition paginate_turn2 (ch : text) (m : match_result) (raw : text) (st : store) : outcome :=
  let step := match group raw m 2 with
              | Some (_ :: _ as g) => Z.to_nat (int_of_digits g)
              | _ => get_or (last_limit st) ch 5 end in
  match last_filters st !! ch with
  | None => Ok RNoPrevious st
  | Some base =>
      if no_saved (Some base) then Ok RNoPrevious st else
      let new_offset := get_or (last_offset st) ch 0 + get_or (last_limit st) ch 5 in
      let total := search_cars_count catalog base in
      if Nat.leb total new_offset then Ok RNoMoreFiltered st else
      let step := Nat.min (Nat.max step 1) (total - new_offset) in
      let page_cars := search_cars catalog base step new_offset in
      let st := put_cursor ch new_offset step (put_page ch (PList (map PECar page_cars)) st) in
      let '(r, base') := retrieve_cars catalog base new_offset step in
      Ok (RPage r) (put_filters ch base' st)
  end.
End Turn.

Section Route.
Context `{Fuzz} (catalog : list car) (order : list text).

(** The filters this turn's message sets (intent.py:463-534), before the
    removal directive. *)
Definition extract_filters (raw : text) : filters :=
  let t := norm_txt raw in
  let f := set_raw_text (Some raw) no_filters in
  (* km (480-487) *)
  let f := if sets_km_max order raw then set_km_max (Some 100000%Z) f else f in
  (* year (490-494) *)
  let f := match re_search YEAR_RE t with
           | Some m => set_year_min (Some (int_of_digits (group_or_empty t m 0))) f
           | None => f end in
  (* price range or bounds (497-507) *)
  let f := match re_search RANGO_PRECIOS_RE raw with
           | Some m =>
               let v1 := parse_money (group_or_empty raw m 1) in
               let v2 := parse_money (group_or_empty raw m 2) in
               let lo := if Qlt_le_dec v2 v1 then v2 else v1 in
               let hi := if Qlt_le_dec v1 v2 then v2 else v1 in
               let f := if Qlt_le_dec 0 lo then set_price_min (Some lo) f else f in
               if Qlt_le_dec 0 hi then set_price_max (Some hi) f else f
           | None =>
               let '(pmin, pmax) := extract_price_bounds raw in
               let truthy_q (o : option Q) :=
                 match o with Some q => negb (Qeq_bool q 0) | None => false end in
               let f := if truthy_q pmin then set_price_min pmin f else f in
               if truthy_q pmax then set_price_max pmax f else f
           end in
  (* brand, version, model (510-534) *)
  let f := match first_contained t BRAND_WORDS with
           | Some mk => set_brand (Some mk) f | None => f end in
  let f := match find (fun ver => contains ([32%N] ++ t ++ [32%N]) ([32%N] ++ ver ++ [32%N])) VERSION_LIST with
           | Some ver => set_version (Some ver) f | None => f end in
  if existsb (contains t) VERSION_TOKENS then
    match first_contained t MODEL_TOKENS with
    | Some mt => set_model (Some mt) f | None => f end
  else f.

(** The reset heuristic (intent.py:467-477). *)
Definition is_reset (raw : text) : bool :=
  let t := norm_txt raw in
  re_test NEW_SEARCH_RE t || re_test YEAR_RE t || existsb (contains t) BRAND_WORDS
  || re_test VERSION_RE t.

(** A new search or a refinement (intent.py:460-562). *)
Definition search_turn (ch : text) (raw : text) (st : store) : outcome :=
  let base := if is_reset raw then no_filters
              else default no_filters (last_filters st !! ch) in
  let filters := apply_remove_filters (extract_filters raw) raw in
  let merged := merge_filters base filters in
  let st := put_cursor ch 0 5 (put_filters ch (set_raw_text (Some []) merged) st) in
  let first_page := search_cars catalog merged 5 0 in
  let st := put_page ch (PMap (index_map 1 first_page)) st in
  Ok (RSearch (fst (retrieve_cars catalog merged 0 5))) st.

(** [route_message(channel, text)] (intent.py:261-562) *)
Definition route_message (ch : text) (raw : text) (st : store) : outcome :=
  if match_prop_valor raw then Ok RValueProp st
  else if bool_decide (is_Some (re_match GREET_RE raw)) then Ok RWelcome st
  else if bool_decide (is_Some (re_match YES_RE_RAW raw)) then
    match last_ctx st !! ch with
    | Some ctx => Ok (RDetails (ctx_down ctx) (ctx_term ctx)) st
    | None => Ok RWhichDetails st
    end
  else if bool_decide (is_Some (re_match NO_RE_RAW raw)) then Ok RNoThanks st
  else match re_match CONTACT_RE raw with
  | Some m => Ok (contact_turn ch m raw st) st
  | None =>
  match re_search COTIZA_RE raw with
  | Some m => quote_turn catalog ch m raw st
  | None =>
  match re_search PAGINATE_RE raw with
  | Some m => paginate_turn catalog ch m raw st
  | None =>
  match detect_intent raw with
  | IGreet | IHelp => Ok RWelcome st
  | IFinance => Ok (finance_turn raw) st
  | IKb => Ok (RKb raw) st
  | ISearch =>
      match re_search PAGINATE_RE raw with
      | Some m => paginate_turn2 catalog ch m raw st
      | None => search_turn ch raw st
      end
  end end end end.
End Route.

(** ** Observing the store *)

(** What the store holds for one channel. *)
Definition channel_view (st : store) (ch : text) :=
  (last_filters st !! ch, last_offset st !! ch, last_limit st !! ch,
   last_page st !! ch, last_ctx st !! ch).

Definition outcome_store (o : outcome) : store := match o with Ok _ st => st | Err st => st end.

(** No channel's display index is a list. *)
Definition is_map (pe : page_entry) : bool := match pe with PMap _ => true | PList _ => false end.

Definition pages_are_maps (st : store) : Prop :=
  map_Forall (fun _ pe => is_map pe = true) (last_page st).

(** The stores a sequence of turns can reach from the empty one. *)
Inductive reachable `{Fuzz} (catalog : list car) (order : list text) : store -> Prop :=
  | ReachInit : reachable catalog order empty_store
  | ReachStep st ch raw r st' :
      reachable catalog order st -> route_message catalog order ch raw st = Ok r st' ->
      reachable catalog order st'.

(** ** Store lemmas *)

Section StoreLemmas.
Implicit Types st : store.

Lemma view_put_filters st ch ch' v :
  ch <> ch' -> channel_view (put_filters ch v st) ch' = channel_view st ch'.
Proof. intros. unfold channel_view; simpl. by rewrite lookup_insert_ne. Qed.
Lemma view_put_cursor st ch ch' o l :
  ch <> ch' -> channel_view (put_cursor ch o l st) ch' = channel_view st ch'.
Proof. intros. unfold channel_view; simpl. by rewrite !lookup_insert_ne. Qed.
Lemma view_put_page st ch ch' v :
  ch <> ch' -> channel_view (put_page ch v st) ch' = channel_view st ch'.
Proof. intros. unfold channel_view; simpl. by rewrite lookup_insert_ne. Qed.
Lemma view_put_ctx st ch ch' v :
  ch <> ch' -> channel_view (put_ctx ch v st) ch' = channel_view st ch'.
Proof. intros. unfold channel_view; simpl. by rewrite lookup_insert_ne. Qed.
End StoreLemmas.

#[export] Hint Rewrite view_put_filters view_put_cursor view_put_page view_put_ctx
  using assumption : chat_rw.

(** Unfold a turn and split on every test it makes. *)
Ltac turn_cases :=
  repeat (match goal with
          | |- context [match ?x with _ => _ end] => destruct x eqn:?
          | |- context [if ?b then _ else _] => destruct b eqn:?
          end; simpl).

Section Isolation.
Context `{Fuzz} (catalog : list car) (order : list text).

Lemma assign_ids_map m idx cars :
  assign_ids (PMap m) idx cars = (PMap (index_map idx cars ∪ m), true).
Proof.
  revert m idx. induction cars as [|c cars IH]; intros m idx; simpl.
  - unfold index_map. simpl. by rewrite map_empty_union.
  - rewrite IH. f_equal. f_equal. unfold index_map. simpl.
    rewrite <- insert_union_l. symmetry. apply insert_union_r.
    apply not_elem_of_list_to_map_1. rewrite fst_zip by (rewrite length_seq, length_map; lia).
    rewrite elem_of_seq. lia.
Qed.

Lemma paginate_turn_view ch ch' m raw st :
  ch <> ch' ->
  channel_view (outcome_store (paginate_turn catalog ch m raw st)) ch' = channel_view st ch'.
Proof.
  intros Hne. unfold paginate_turn.
  repeat (case_match; simpl); try done; by autorewrite with chat_rw.
Qed.

Lemma paginate_turn2_view ch ch' m raw st :
  ch <> ch' ->
  channel_view (outcome_store (paginate_turn2 catalog ch m raw st)) ch' = channel_view st ch'.
Proof.
  intros Hne. unfold paginate_turn2.
  repeat (case_match; simpl); try done; by autorewrite with chat_rw.
Qed.

Lemma quote_turn_view ch ch' m raw st :
  ch <> ch' ->
  channel_view (outcome_store (quote_turn catalog ch m raw st)) ch' = channel_view st ch'.
Proof.
  intros Hne. unfold quote_turn.
  repeat (case_match; simpl); try done; by autorewrite with chat_rw.
Qed.

Lemma search_turn_view ch ch' raw st :
  ch <> ch' ->
  channel_view (outcome_store (search_turn catalog order ch raw st)) ch' = channel_view st ch'.
Proof. intros Hne. unfold search_turn. simpl. by autorewrite with chat_rw. Qed.

(** C1: channel isolation (spec section 5): a turn on one channel leaves
    what the store holds for every other channel unchanged (filters,
    cursor, display index and quote context), whether it answers or raises. *)
Theorem route_message_isolation ch ch' raw st :
  ch <> ch' ->
  channel_view (outcome_store (route_message catalog order ch raw st)) ch' = channel_view st ch'.
Proof.
  intros Hne. unfold route_message.
  repeat (case_match; try done);
    eauto using paginate_turn_view, paginate_turn2_view, quote_turn_view, search_turn_view.
Qed.
End Isolation.

(** ** Every reachable store pages with dicts, and no turn from one raises *)

Section Total.
Context `{Fuzz} (catalog : list car) (order : list text).

Lemma pages_are_maps_put_page st ch m :
  pages_are_maps st -> pages_are_maps (put_page ch (PMap m) st).
Proof. intros Hp. unfold pages_are_maps. simpl. apply map_Forall_insert_2; eauto. Qed.

Lemma quote_turn_ok ch m raw st :
  exists r st', quote_turn catalog ch m raw st = Ok r st' /\ last_page st' = last_page st.
Proof.
  unfold quote_turn. destruct (parse_term_some raw DEFAULT_TERM) as [t ->].
  repeat case_match; eauto.
Qed.

Lemma paginate_turn_ok ch m raw st :
  pages_are_maps st ->
  exists r st', paginate_turn catalog ch m raw st = Ok r st' /\ pages_are_maps st'.
Proof.
  intros Hp. unfold paginate_turn.
  destruct (last_filters st !! ch) as [base|]; [|eauto].
  destruct (no_saved _); [eauto|]. destruct (Nat.leb _ _); [eauto|].
  assert (exists m0, default (PMap ∅) (last_page st !! ch) = PMap m0) as [m0 ->].
  { destruct (last_page st !! ch) as [pe|] eqn:E; simpl; [|eauto].
    apply (map_Forall_lookup_1 _ _ _ _ Hp) in E. destruct pe; [eauto|done]. }
  rewrite assign_ids_map. destruct (retrieve_cars _ _ _ _) as [r base'].
  do 2 eexists. split; [done|]. unfold pages_are_maps; simpl.
  apply map_Forall_insert_2; eauto.
Qed.

Lemma search_turn_ok ch raw st :
  pages_are_maps st ->
  exists r st', search_turn catalog order ch raw st = Ok r st' /\ pages_are_maps st'.
Proof. intros Hp. unfold search_turn. do 2 eexists. split; [done|]. by apply pages_are_maps_put_page. Qed.

Lemma route_message_ok ch raw st :
  pages_are_maps st ->
  exists r st', route_message catalog order ch raw st = Ok r st' /\ pages_are_maps st'.
Proof.
  intros Hp. unfold route_message.
  repeat (case_match; try by eauto).
  - destruct (quote_turn_ok ch m raw st) as (r & st' & -> & Hl).
    do 2 eexists. split; [done|]. unfold pages_are_maps. by rewrite Hl.
  - by apply paginate_turn_ok.
  - by apply search_turn_ok.
Qed.

End Total.


(** ** Which handler answered *)

Section Dispatch.
Context `{Fuzz} (catalog : list car) (order : list text).

Lemma quote_turn_reply ch m raw st r st' :
  quote_turn catalog ch m raw st = Ok r st' -> r = RQuoteUnknown \/ exists q b, r = RQuote q b.
Proof. unfold quote_turn. repeat case_match; intros; simplify_eq; eauto. Qed.

Lemma paginate_turn_reply ch m raw st r st' :
  paginate_turn catalog ch m raw st = Ok r st' ->
  r = RNoPrevious \/ r = RNoMore \/ exists c, r = RPage c.
Proof. unfold paginate_turn. repeat case_match; intros; simplify_eq; eauto. Qed.

(** The replies of the handlers that answer without a store change. *)
Ltac other_replies E :=
  unfold contact_turn, finance_turn, search_turn in E; repeat case_match; simplify_eq.

(** The dispatch of [route_message] in the cases the theorems use. *)
Lemma route_message_page ch raw st c st' :
  route_message catalog order ch raw st = Ok (RPage c) st' ->
  exists m, paginate_turn catalog ch m raw st = Ok (RPage c) st'.
Proof.
  unfold route_message. repeat case_match; intros E; simplify_eq; eauto;
    try (apply quote_turn_reply in E; naive_solver); other_replies E.
Qed.

Lemma route_message_quote ch raw st q b st' :
  route_message catalog order ch raw st = Ok (RQuote q b) st' ->
  exists m, re_search COTIZA_RE raw = Some m /\ quote_turn catalog ch m raw st = Ok (RQuote q b) st'.
Proof.
  unfold route_message. repeat case_match; intros E; simplify_eq; eauto;
    try (apply paginate_turn_reply in E; naive_solver); other_replies E.
Qed.

Lemma route_message_search ch raw st c st' :
  route_message catalog order ch raw st = Ok (RSearch c) st' ->
  search_turn catalog order ch raw st = Ok (RSearch c) st'.
Proof.
  unfold route_message. repeat case_match; intros E; simplify_eq; eauto;
    try (apply quote_turn_reply in E; naive_solver);
    try (apply paginate_turn_reply in E; naive_solver); other_replies E.
Qed.
End Dispatch.

(** ** Pagination *)

Lemma index_map_lookup base cars i :
  index_map base cars !! i = if decide (base <= i) then car_id <$> cars !! (i - base) else None.
Proof.
  revert base. induction cars as [|c cars IH]; intros base.
  - unfold index_map. simpl. rewrite lookup_empty. by case_decide.
  - unfold index_map in *. simpl. destruct (decide (i = base)) as [->|Hne].
    + rewrite lookup_insert_eq. rewrite decide_True by lia. by rewrite Nat.sub_diag.
    + rewrite lookup_insert_ne by done. rewrite IH.
      destruct (decide (S base <= i)), (decide (base <= i)); try lia; [|done].
      replace (i - base) with (S (i - S base)) by lia. done.
Qed.

Lemma page_lookup_default o m0 i :
  default (PMap ∅) o = PMap m0 -> page_lookup o i = m0 !! i.
Proof. destruct o as [[m|l]|]; simpl; intros [= <-]; [done|]. by rewrite lookup_empty. Qed.

Lemma index_union_outside base cars m0 i :
  i < base \/ base + length cars <= i -> (index_map base cars ∪ m0) !! i = m0 !! i.
Proof.
  intros Hi. apply lookup_union_r. rewrite index_map_lookup.
  case_decide; [|done]. rewrite lookup_ge_None_2; [done|lia].
Qed.

Lemma index_union_inside base cars m0 k :
  k < length cars -> (index_map base cars ∪ m0) !! (base + k) = car_id <$> cars !! k.
Proof.
  intros Hk. destruct (lookup_lt_is_Some_2 cars k Hk) as [c Hc].
  rewrite lookup_union, index_map_lookup, decide_True by lia.
  replace (base + k - base) with k by lia. rewrite Hc. simpl.
  by destruct (m0 !! (base + k)).
Qed.

Section Paginate.
Context `{Fuzz} (catalog : list car) (order : list text).

(** C3: a "ver más" turn (spec 4.4 and section 8, scenario B) advances the
    cursor by the previous page size to [o], takes [step] cars with
    [1 <= step <= count - o], keeps every display number outside the new
    window, maps the numbers [o+1 .. o+step] to the ids of the new page, and
    replies with [retrieve_cars] on the saved dict, whose echo it writes back
    into [LAST_FILTERS] (the dict passed is the saved one). *)
Theorem paginate_extends_index ch raw st c st' :
  pages_are_maps st ->
  route_message catalog order ch raw st = Ok (RPage c) st' ->
  exists base step,
    let o := get_or (last_offset st) ch 0 + get_or (last_limit st) ch 5 in
    last_filters st !! ch = Some base /\
    o < search_cars_count catalog base /\ 1 <= step <= search_cars_count catalog base - o /\
    last_offset st' !! ch = Some o /\ last_limit st' !! ch = Some step /\
    (forall i, i <= o \/ o + step < i ->
       page_lookup (last_page st' !! ch) i = page_lookup (last_page st !! ch) i) /\
    (forall k, k < step -> page_lookup (last_page st' !! ch) (S o + k)
                          = car_id <$> search_cars catalog base step o !! k) /\
    (c, last_filters st' !! ch) = let '(r, f) := retrieve_cars catalog base o step in (r, Some f).
Proof.
  intros Hp (m & E)%route_message_page. revert E. unfold paginate_turn.
  destruct (last_filters st !! ch) as [base|] eqn:Eb; [|done].
  destruct (no_saved (Some base)); [done|].
  set (o := get_or (last_offset st) ch 0 + get_or (last_limit st) ch 5).
  destruct (Nat.leb_spec (search_cars_count catalog base) o) as [|Hlt]; [done|].
  assert (exists m0, default (PMap ∅) (last_page st !! ch) = PMap m0) as [m0 Em0].
  { destruct (last_page st !! ch) as [pe|] eqn:E; simpl; [|eauto].
    apply (map_Forall_lookup_1 _ _ _ _ Hp) in E. destruct pe; [eauto|done]. }
  rewrite Em0, assign_ids_map.
  assert (Hlen : forall s, s <= search_cars_count catalog base - o ->
            length (search_cars catalog base s o) = s).
  { intros s Hs. unfold search_cars, page, search_cars_count in *. rewrite length_slice. lia. }
  destruct (retrieve_cars _ _ _ _) as [r f] eqn:Er. intros [= <- <-].
  eexists base, _. cbn zeta. simpl. rewrite !lookup_insert_eq, Er.
  split; [done|]. split; [lia|]. split; [lia|]. split; [done|]. split; [done|]. split; [|split].
  - intros i Hi. simpl. rewrite (page_lookup_default _ _ _ Em0), index_union_outside;
      [done|rewrite Hlen; lia].
  - intros k Hk. simpl. replace (S (o + k)) with (S o + k) by lia.
    rewrite index_union_inside; [done|rewrite Hlen; lia].
  - done.
Qed.
End Paginate.

(** ** A session on a larger catalog *)

Definition demo_catalog : list car :=
  sample_catalog ++
  [ {| car_id := txt "400001"; brand := txt "Toyota"; model := txt "Corolla";
       version := txt "LE"; year := 2021; km := 30000; price := 320000;
       location := txt "Online" |};
    {| car_id := txt "400002"; brand := txt "Toyota"; model := txt "Yaris";
       version := []; year := 2018; km := 60000; price := 210000;
       location := txt "Online" |};
    {| car_id := txt "400003"; brand := txt "Kia"; model := txt "Rio";
       version := txt "LX"; year := 2022; km := 12000; price := 280000;
       location := txt "Online" |};
    {| car_id := txt "400004"; brand := txt "Nissan"; model := txt "Kicks";
       version := txt "Advance"; year := 2021; km := 25000; price := 350000;
       location := txt "Online" |};
    {| car_id := txt "400005"; brand := txt "Mazda"; model := txt "3";
       version := []; year := 2017; km := 80000; price := 230000;
       location := txt "Online" |} ]%Z.

(** One channel of the router on [demo_catalog], with the exact scorer and
    the source order of the [km] synonyms. *)
Definition demo_turn (raw : String.string) (st : store) : outcome :=
  @route_message exact_fuzz demo_catalog SYNONYMS_KM (txt "c") (txt raw) st.
Arguments demo_turn raw%_string_scope st.

Definition demo_store1 : store := outcome_store (demo_turn "quiero un auto" empty_store).
Definition demo_out2 : outcome := demo_turn "ver 2 mas" demo_store1.
Definition demo_page2 : cars_reply :=
  match demo_out2 with Ok (RPage c) _ => c | _ => CNoResults no_filters end.
Definition demo_store2 : store := outcome_store demo_out2.

Lemma paginate_extends_index_witness :
  exists base step,
    let o := get_or (last_offset demo_store1) (txt "c") 0
             + get_or (last_limit demo_store1) (txt "c") 5 in
    last_filters demo_store1 !! txt "c" = Some base /\
    o < @search_cars_count exact_fuzz demo_catalog base /\
    1 <= step <= @search_cars_count exact_fuzz demo_catalog base - o /\
    last_offset demo_store2 !! txt "c" = Some o /\ last_limit demo_store2 !! txt "c" = Some step /\
    (forall i, i <= o \/ o + step < i ->
       page_lookup (last_page demo_store2 !! txt "c") i
       = page_lookup (last_page demo_store1 !! txt "c") i) /\
    (forall k, k < step -> page_lookup (last_page demo_store2 !! txt "c") (S o + k)
                          = car_id <$> @search_cars exact_fuzz demo_catalog base step o !! k) /\
    (demo_page2, last_filters demo_store2 !! txt "c")
    = let '(r, f) := @retrieve_cars exact_fuzz demo_catalog base o step in (r, Some f).
Proof.
  apply (@paginate_extends_index exact_fuzz demo_catalog SYNONYMS_KM (txt "c") (txt "ver 2 mas")).
  - apply (bool_decide_unpack _). vm_compute. reflexivity.
  - vm_compute. reflexivity.
Defined.

(** ** Quotes *)

Section Quote.
Context `{Fuzz} (catalog : list car) (order : list text).

(** C4: quote by reference and the "sí" that follows (spec 4.4 and section
    8, scenario C): a quote turn resolves a car token of at most three
    digits through the channel's display index and takes a longer one as
    the id itself; it quotes that id with the parsed down payment and term,
    saves [(id, int(down), term)] as the channel's context, and a following
    confirmation is answered from that context alone. *)
Theorem quote_then_yes ch raw st q b st' :
  route_message catalog order ch raw st = Ok (RQuote q b) st' ->
  exists m id term,
    let tok := group_or_empty raw m 1 in
    let down := parse_money (group_or_empty raw m 2) in
    re_search COTIZA_RE raw = Some m /\ parse_term raw DEFAULT_TERM = Some term /\
    (if Nat.leb (length tok) 3
     then page_lookup (last_page st !! ch) (Z.to_nat (int_of_digits tok)) = Some id
     else id = tok) /\
    q = cotiza_car catalog id down (Some term) None /\
    last_ctx st' !! ch = Some (QuoteCtx id (py_int down) term) /\
    forall yes, match_prop_valor yes = false -> re_match GREET_RE yes = None ->
      is_Some (re_match YES_RE_RAW yes) ->
      route_message catalog order ch yes st' = Ok (RDetails (py_int down) term) st'.
Proof.
  intros (m & Em & E)%route_message_quote. revert E. unfold quote_turn.
  destruct (parse_term raw DEFAULT_TERM) as [term|] eqn:Et; [|done].
  destruct (if Nat.leb _ 3 then _ else _) as [[|x id]|] eqn:Eid; [done| |done].
  intros [= <- <- <-]. exists m, (x :: id), term. cbn zeta.
  split; [done|]. split; [done|]. split; [by case_match; simplify_eq|]. split; [done|].
  split; [simpl; by rewrite lookup_insert_eq|].
  intros yes Hp Hg Hy. unfold route_message. rewrite Hp.
  rewrite bool_decide_eq_false_2 by (rewrite Hg; by intros []).
  rewrite bool_decide_eq_true_2 by done. simpl. by rewrite lookup_insert_eq.
Qed.
End Quote.

Definition demo_store3 : store :=
  outcome_store (demo_turn "cotiza 1 con 40k a 36 meses" demo_store1).

Lemma quote_then_yes_witness :
  exists m id term,
    let raw := txt "cotiza 1 con 40k a 36 meses" in
    let tok := group_or_empty raw m 1 in
    let down := parse_money (group_or_empty raw m 2) in
    re_search COTIZA_RE raw = Some m /\ parse_term raw DEFAULT_TERM = Some term /\
    (if Nat.leb (length tok) 3
     then page_lookup (last_page demo_store1 !! txt "c") (Z.to_nat (int_of_digits tok)) = Some id
     else id = tok) /\
    cotiza_car demo_catalog (txt "400003") 40000 (Some 36%Z) None
      = cotiza_car demo_catalog id down (Some term) None /\
    last_ctx demo_store3 !! txt "c" = Some (QuoteCtx id (py_int down) term) /\
    forall yes, match_prop_valor yes = false -> re_match GREET_RE yes = None ->
      is_Some (re_match YES_RE_RAW yes) ->
      @route_message exact_fuzz demo_catalog SYNONYMS_KM (txt "c") yes demo_store3
      = Ok (RDetails (py_int down) term) demo_store3.
Proof.
  apply (@quote_then_yes exact_fuzz demo_catalog SYNONYMS_KM (txt "c") _ demo_store1 _ false).
  vm_compute. reflexivity.
Defined.

(** ** New searches and refinements *)

Section SearchTurn.
Context `{Fuzz} (catalog : list car) (order : list text).

Lemma extract_filters_brand raw :
  f_brand (extract_filters order raw) = first_contained (norm_txt raw) BRAND_WORDS.
Proof. unfold extract_filters. repeat case_match; simplify_eq; done. Qed.

Lemma search_turn_saved ch raw st c st' :
  route_message catalog order ch raw st = Ok (RSearch c) st' ->
  last_filters st' !! ch = Some (set_raw_text (Some [])
    (merge_filters (if is_reset raw then no_filters else default no_filters (last_filters st !! ch))
                   (removed (concat (map keys_of_token (findall QUITAR_RE raw)))
                            (extract_filters order raw)))).
Proof.
  intros E%route_message_search. unfold search_turn in E. injection E as _ <-.
  simpl. rewrite lookup_insert_eq. unfold apply_remove_filters. by rewrite fold_pop_key.
Qed.

(** C5: the reset heuristic (spec section 8): after a search turn whose
    message names a year and no brand word, the saved filters carry no
    brand, whatever brand the channel had saved before. *)
Theorem reset_drops_brand ch raw st c st' :
  route_message catalog order ch raw st = Ok (RSearch c) st' ->
  re_test YEAR_RE (norm_txt raw) = true ->
  first_contained (norm_txt raw) BRAND_WORDS = None ->
  exists f, last_filters st' !! ch = Some f /\ f_brand f = None.
Proof.
  intros E Hy Hb. rewrite (search_turn_saved _ _ _ _ _ E). eexists; split; [done|].
  assert (Hr : is_reset raw = true) by (unfold is_reset; rewrite Hy; by rewrite orb_true_r).
  rewrite Hr. simpl. case_bool_decide; [done|]. by rewrite extract_filters_brand, Hb.
Qed.

(** C6: the removal directive does not reach the saved filters (spec 4.4
    applies it after the merge): on a refinement turn whose message sets no
    price bound itself, the saved price bounds survive, even when the
    message says "quita precio". *)
Theorem removal_keeps_saved_price ch raw st c st' saved :
  route_message catalog order ch raw st = Ok (RSearch c) st' ->
  is_reset raw = false -> last_filters st !! ch = Some saved ->
  f_price_min (extract_filters order raw) = None ->
  f_price_max (extract_filters order raw) = None ->
  exists f, last_filters st' !! ch = Some f /\
    f_price_min f = f_price_min saved /\ f_price_max f = f_price_max saved.
Proof.
  intros E Hr Hs Hmin Hmax. rewrite (search_turn_saved _ _ _ _ _ E), Hr, Hs.
  eexists; split; [done|]. simpl. rewrite Hmin, Hmax. split; by case_bool_decide.
Qed.
End SearchTurn.

Definition demo_nissan : store := outcome_store (demo_turn "quiero un nissan" empty_store).
Definition demo_out_year : outcome := demo_turn "algo del 2021" demo_nissan.
Definition search_reply (o : outcome) : cars_reply :=
  match o with Ok (RSearch c) _ => c | _ => CNoResults no_filters end.

Lemma reset_drops_brand_witness :
  (exists f, last_filters demo_nissan !! txt "c" = Some f /\ f_brand f = Some (txt "nissan")) /\
  exists f, last_filters (outcome_store demo_out_year) !! txt "c" = Some f /\ f_brand f = None.
Proof.
  split; [eexists; split; vm_compute; reflexivity|].
  apply (@reset_drops_brand exact_fuzz demo_catalog SYNONYMS_KM (txt "c") (txt "algo del 2021")
           demo_nissan (search_reply demo_out_year)); vm_compute; reflexivity.
Defined.

Definition demo_capped : store :=
  outcome_store (demo_turn "quiero un auto menos de 300 mil" empty_store).
Definition demo_out_quita : outcome := demo_turn "versa quita precio" demo_capped.

Lemma removal_keeps_saved_price_witness :
  exists f, last_filters (outcome_store demo_out_quita) !! txt "c" = Some f /\
    f_price_min f = None /\ f_price_max f = Some 300000%Q.
Proof.
  destruct (@removal_keeps_saved_price exact_fuzz demo_catalog SYNONYMS_KM (txt "c")
              (txt "versa quita precio") demo_capped (search_reply demo_out_quita)
              (outcome_store demo_out_quita)
              (default no_filters (last_filters demo_capped !! txt "c")))
    as (f & Ef & Emin & Emax); try (vm_compute; reflexivity).
  exists f. split; [done|]. rewrite Emin, Emax. vm_compute. split; reflexivity.
Defined.

(** ** What the session shows *)

(** After "ver 2 mas" the reply numbers its cards from 1, but the display
    index maps 1 to the first car of the first page: "cotiza 1" then quotes
    a car that is not the card labelled 1 (finding). *)
Lemma card_numbers_disagree_with_index :
  (exists chips total c cards rem,
     demo_page2 = CCards chips total ((1, c) :: cards) rem /\ car_id c = txt "322722") /\
  page_lookup (last_page demo_store2 !! txt "c") 1 = Some (txt "400003").
Proof. vm_compute. split; [do 5 eexists; split; reflexivity|reflexivity]. Qed.

(** The page of "ver 2 mas" has one non-empty version, which [retrieve_cars]
    echoes into the saved filters; the next "ver mas" counts only that
    version and answers that there is nothing more, though the eighth car
    of the original eight was never shown (finding). *)
Lemma echo_hides_remaining_cars :
  @search_cars_count exact_fuzz demo_catalog (set_raw_text (Some []) no_filters) = 8 /\
  last_offset demo_store2 !! txt "c" = Some 5 /\ last_limit demo_store2 !! txt "c" = Some 2 /\
  f_version (default no_filters (last_filters demo_store2 !! txt "c")) = Some (txt "sense") /\
  (exists st, demo_turn "ver mas" demo_store2 = Ok RNoMore st).
Proof. vm_compute. repeat split; eexists; reflexivity. Qed.

(** The saved filters drop the message text, so the first page (inferred
    from "busco versa": one Versa) and the following pages (no inference:
    the whole catalog) count different result sets (finding). *)
Lemma saved_filters_lose_free_text :
  (exists chips c, search_reply (demo_turn "busco versa" empty_store) = CCards chips 1 [(1, c)] 0
     /\ model c = txt "Versa") /\
  @search_cars_count exact_fuzz demo_catalog
    (default no_filters (last_filters (outcome_store (demo_turn "busco versa" empty_store))
                          !! txt "c")) = 8.
Proof. vm_compute. split; [do 2 eexists; split; reflexivity|reflexivity]. Qed.

Lemma route_message_isolation_witness :
  channel_view (outcome_store (demo_turn "cotiza 1 con 40k" demo_store1)) (txt "d")
  = channel_view demo_store1 (txt "d").
Proof.
  apply (@route_message_isolation exact_fuzz demo_catalog SYNONYMS_KM (txt "c") (txt "d")).
  discriminate.
Defined.

(** ** A turn depends only on its own channel *)

(** Two outcomes agree on channel [ch]: the same kind, the same reply, and
    the same state for [ch]. *)
Definition agree_on (ch : text) (o1 o2 : outcome) : Prop :=
  match o1, o2 with
  | Ok r1 s1, Ok r2 s2 => r1 = r2 /\ channel_view s1 ch = channel_view s2 ch
  | Err s1, Err s2 => channel_view s1 ch = channel_view s2 ch
  | _, _ => False
  end.

Section Local.
Context `{Fuzz} (catalog : list car) (order : list text).

(** C7: a turn is a function of its own channel's state (spec sections 3 and
    5: the conversation context is keyed by channel): on two stores that
    hold the same for [ch], a turn on [ch] gives the same reply, and leaves
    the same state for [ch]. *)
Theorem route_message_local ch raw st1 st2 :
  channel_view st1 ch = channel_view st2 ch ->
  agree_on ch (route_message catalog order ch raw st1) (route_message catalog order ch raw st2).
Proof.
  intros Hv. pose proof Hv as Hv'. unfold channel_view in Hv'. injection Hv' as E1 E2 E3 E4 E5.
  unfold route_message, contact_turn, quote_turn, paginate_turn, paginate_turn2, search_turn,
    get_or.
  rewrite ?E1, ?E2, ?E3, ?E4, ?E5.
  repeat (case_match; simplify_eq; simpl; rewrite ?lookup_insert_eq, ?E1, ?E2, ?E3, ?E4, ?E5);
    try (split; [reflexivity|]); unfold channel_view in *; simpl; rewrite ?lookup_insert_eq;
    congruence.
Qed.
End Local.

Lemma route_message_local_witness :
  agree_on (txt "c") (demo_turn "ver 2 mas" demo_store1)
    (demo_turn "ver 2 mas" (put_ctx (txt "d") (QuoteCtx (txt "316168") 0 48) demo_store1)).
Proof.
  apply (@route_message_local exact_fuzz demo_catalog SYNONYMS_KM (txt "c") (txt "ver 2 mas")).
  vm_compute. reflexivity.
Defined.

(** ** Contact requests *)

Lemma search_text_consumed r input s :
  search_text r input = s -> s = [] \/ exists st st', steps r st st' /\ ms_rest st = s ++ ms_rest st'.
Proof.
  unfold search_text, group_or_empty. destruct (re_search r input) as [m|] eqn:Em; [|by left].
  intros <-. right. destruct (re_search_group0 _ _ _ Em) as (st' & Hs & E).
  exists (state_at input (m_start m)), st'. split; [done|]. by rewrite <- E.
Qed.

Lemma phone_shape st st' :
  steps PHONE_RE st st' ->
  exists w d, ms_rest st = w ++ ms_rest st' /\ (w = d \/ w = 43%N :: d) /\
    7 <= length d <= 15 /\ Forall (fun c => is_digit c = true) d.
Proof.
  intros H. invc H. match goal with H : steps (opt _) _ _ |- _ => invc H end.
  all: match goal with H : steps (rep _ _ _) _ _ |- _ =>
         apply steps_rep_chars in H as (d & E & L & F); [|lia] end.
  - match goal with H : steps (chr _) _ _ |- _ => invc H end.
    exists (43%N :: d), d. simpl in *. repeat split; try lia; [|by right|done].
    match goal with H : ms_rest _ = _ :: _, H' : (_ =? _)%N = true |- _ =>
      apply N.eqb_eq in H'; subst; rewrite H end. by f_equal.
  - match goal with H : steps REps _ _ |- _ => invc H end.
    exists d, d. repeat split; try lia; [done|by left|done].
Qed.


Definition no_match : match_result := {| m_start := 0; m_end := 0; m_caps := [] |}.

Definition demo_contact (raw : String.string) : reply :=
  contact_turn (txt "c") (default no_match (re_match CONTACT_RE (txt raw))) (txt raw)
    empty_store.
Arguments demo_contact raw%_string_scope.


(** A run of twenty digits is not rejected: the lead gets its first fifteen
    as the phone and the other five in the name (spec section 6 validates a
    phone of 7 to 15 digits; finding). *)
Lemma contact_long_number_truncated :
  demo_contact "contacto Ana 12345678901234567890"
  = RContact (txt "Ana 67890") [] (txt "123456789012345") None.
Proof. vm_compute. reflexivity. Qed.
