(* ===== verification/Session.v ===== *)
(** * Session: what a reply tells the user to type, typed back

    The replies of [retrieve_cars] tell the user what to write next: each
    card prints the action [cotiza {idx} con 40k] (router.py:45).  This file
    composes [Format], [Router] and [Conversation]: it feeds those texts
    back to [route_message] and states what the router does with them. *)

From stdpp Require Import base list option gmap.
From Stdlib Require Import NArith ZArith QArith Lia.
From S2P Require Import Prelude Text Regex Finance Catalog Intent Resolver Search Router Format Conversation.

Local Close Scope Q_scope.

(** The action a card prints (router.py:45), as the user types it. *)
Definition card_action (i : nat) : text := utxt "cotiza " ++ str_N (N.of_nat i) ++ utxt " con 40k".

(** How the router's patterns read the action of the cards 1 to 5. *)
Lemma card_action_parse (i : nat) : 1 <= i <= 5 ->
  match_prop_valor (card_action i) = false /\
  re_match GREET_RE (card_action i) = None /\
  re_match YES_RE_RAW (card_action i) = None /\
  re_match NO_RE_RAW (card_action i) = None /\
  re_match CONTACT_RE (card_action i) = None /\
  parse_term (card_action i) DEFAULT_TERM = Some DEFAULT_TERM /\
  re_test TASA_NOTE_RE (card_action i) = false /\
  match re_search COTIZA_RE (card_action i) with
  | Some m =>
      Nat.leb (length (group_or_empty (card_action i) m 1)) 3 = true /\
      Z.to_nat (int_of_digits (group_or_empty (card_action i) m 1)) = i /\
      parse_money (group_or_empty (card_action i) m 2) = 40000%Q
  | None => False
  end.
Proof.
  intros Hi. destruct i as [|[|[|[|[|[|i]]]]]]; try lia; vm_compute; repeat split.
Qed.

Lemma elem_of_zip_seq {A} (b i : nat) (l : list A) (x : A) :
  (i, x) ∈ zip (seq b (length l)) l -> b <= i /\ l !! (i - b) = Some x.
Proof.
  intros [k Hk]%list_elem_of_lookup. rewrite lookup_zip_with in Hk.
  destruct (seq b (length l) !! k) as [j|] eqn:Ej; [|done]. simpl in Hk.
  destruct (l !! k) as [y|] eqn:Ey; simplify_eq/=.
  apply lookup_seq in Ej as [-> _]. split; [lia|]. by replace (b + k - b) with k by lia.
Qed.

Section CardAction.
Context `{Fuzz} (catalog : list car) (order : list text).
Hypothesis ids_nonempty : Forall (fun c => car_id c <> []) catalog.

Lemma search_cars_lookup f limit offset k c :
  search_cars catalog f limit offset !! k = Some c -> c ∈ catalog.
Proof.
  unfold search_cars, page. intros [_ Hc]%slice_lookup.
  apply (filtered_in_catalog catalog f). by eapply list_elem_of_lookup_2.
Qed.

(** C11: the numbers of the cards of a new search are the numbers of the
    display index: after a search turn that answers with cards, typing the
    action a card prints, [cotiza i con 40k], quotes the car of that card
    with 40,000 down and the default term, and saves it as the channel's
    quote context. *)
Theorem card_action_quotes ch raw st f total cards rem st' i c :
  route_message catalog order ch raw st = Ok (RSearch (CCards f total cards rem)) st' ->
  (i, c) ∈ cards ->
  exists st'',
    route_message catalog order ch (card_action i) st'
    = Ok (RQuote (cotiza_car catalog (car_id c) 40000 (Some DEFAULT_TERM) None) false) st'' /\
    last_ctx st'' !! ch = Some (QuoteCtx (car_id c) 40000 DEFAULT_TERM).
Proof.
  intros E%route_message_search Hic. unfold search_turn in E.
  set (merged := merge_filters _ _) in E. injection E as Er <-.
  destruct (retrieve_cars catalog merged 0 5) as [r f''] eqn:Ert. simpl in Er. subst r.
  apply retrieve_cars_cards in Ert as ->. apply elem_of_zip_seq in Hic as [Hi1 Hc].
  pose proof (lookup_lt_Some _ _ _ Hc) as Hlt. rewrite length_search_cars in Hlt.
  destruct (card_action_parse i ltac:(lia)) as (Hp & Hg & Hy & Hn & Hct & Ht & Htasa & Hm).
  destruct (re_search COTIZA_RE (card_action i)) as [m|] eqn:Em; [|done].
  destruct Hm as (Hlen & Hnum & Hdown).
  assert (Hid : car_id c <> []).
  { rewrite Forall_forall in ids_nonempty. apply ids_nonempty. by eapply search_cars_lookup. }
  unfold route_message. rewrite Hp, Hg, Hy, Hn, Hct, Em. cbn [bool_decide is_Some]. simpl.
  unfold quote_turn. rewrite Ht, Hlen, Hnum, Hdown, Htasa. simpl.
  rewrite lookup_insert_eq. simpl. rewrite index_map_lookup, decide_True by lia. rewrite Hc.
  simpl. destruct (car_id c) as [|x id] eqn:Ec; [done|]. eexists. split; [reflexivity|].
  simpl. by rewrite lookup_insert_eq.
Qed.
End CardAction.

(** The sample session: the search "quiero un auto" shows the Nissan
    Sentra 320505 as its second card. *)
Definition demo_search_reply : cars_reply :=
  match demo_turn "quiero un auto" empty_store with Ok (RSearch r) _ => r | _ => CNoResults no_filters end.

Definition sentra : car :=
  {| car_id := txt "320505"; brand := txt "Nissan"; model := txt "Sentra";
     version := []; year := 2019; km := 18383; price := 268999; location := txt "Online" |}.

Lemma card_action_quotes_witness :
  exists st'',
    @route_message exact_fuzz demo_catalog SYNONYMS_KM (txt "c") (card_action 2) demo_store1
    = Ok (RQuote (cotiza_car demo_catalog (car_id sentra) 40000 (Some DEFAULT_TERM) None) false) st'' /\
    last_ctx st'' !! txt "c" = Some (QuoteCtx (car_id sentra) 40000 DEFAULT_TERM).
Proof.
  apply (@card_action_quotes exact_fuzz demo_catalog SYNONYMS_KM
           ltac:(apply (bool_decide_unpack _); vm_compute; reflexivity)
           (txt "c") (txt "quiero un auto") empty_store
           (match demo_search_reply with CCards f _ _ _ => f | _ => no_filters end)
           (match demo_search_reply with CCards _ t _ _ => t | _ => 0 end)
           (match demo_search_reply with CCards _ _ cs _ => cs | _ => [] end)
           (match demo_search_reply with CCards _ _ _ k => k | _ => 0 end)
           demo_store1 2 sentra).
  - vm_compute. reflexivity.
  - apply (bool_decide_unpack _). vm_compute. reflexivity.
Defined.
