(* ===== verification/Paging.v ===== *)
(** * Paging: the pagination state of a channel over a session

    [route_message] keeps, per channel, the saved search ([LAST_FILTERS]),
    the cursor ([LAST_OFFSET], [LAST_LIMIT]) and the display index
    ([LAST_PAGE]) (intent.py:13-17); the search branch writes all four
    (546-560), the "ver más" branch the cursor, the index and the echoed
    filters (384-395).  This file proves what holds of them over any
    sequence of turns: the four are saved together, the saved page size is
    positive and the saved search has no free text; no reply is the empty
    page of router.py:111-115; and repeating "ver más" reaches the end of
    the results. *)

From stdpp Require Import base list option gmap.
From Stdlib Require Import NArith ZArith QArith Lia.
From S2P Require Import Prelude Text Regex Finance Catalog Intent Resolver Search Router Format Conversation.

Set Warnings "-clear-no-such-hyp".
Local Close Scope Q_scope.

(** The reply "No encontré autos en esta página" (router.py:111-115), as a
    page or as a search. *)
Definition is_empty_page (r : reply) : bool :=
  match r with RPage (CEmptyPage _ _) | RSearch (CEmptyPage _ _) => true | _ => false end.

Section NoEmptyPage.
Context `{Fuzz} (catalog : list car) (order : list text).

Lemma retrieve_pair_nonempty f o l c f' ft t :
  retrieve_cars catalog f o l = (c, f') -> o < search_cars_count catalog f -> 0 < l ->
  c <> CEmptyPage ft t.
Proof. intros E Ho Hl. change c with (fst (c, f')). rewrite <- E. by apply retrieve_cars_nonempty. Qed.

Lemma paginate_turn_nonempty ch m raw st c st' f t :
  paginate_turn catalog ch m raw st = Ok (RPage c) st' -> c <> CEmptyPage f t.
Proof.
  unfold paginate_turn. repeat case_match; intros E; simplify_eq;
    (match goal with Hb : Nat.leb _ _ = false |- _ => apply Nat.leb_gt in Hb end;
     eapply retrieve_pair_nonempty; [eassumption|eassumption|lia]).
Qed.

(** C12: no reply of the router is the empty page of router.py:111-115:
    every page it asks [retrieve_cars] for starts below the count and has a
    positive size, so the reply "No encontré autos en esta página" is never
    given. *)
Theorem route_message_no_empty_page ch raw st r st' :
  route_message catalog order ch raw st = Ok r st' -> is_empty_page r = false.
Proof.
  intros E. destruct r as [| | | | | | | | | | | |[]| | | |[]]; try done.
  - apply route_message_page in E as [m E]. by eapply paginate_turn_nonempty in E.
  - apply route_message_search in E. unfold search_turn in E. injection E as Er _.
    set (merged := merge_filters _ _) in Er.
    destruct (decide (search_cars_count catalog merged = 0)) as [Hz|Hz].
    + unfold retrieve_cars in Er. by rewrite Hz in Er.
    + exfalso. revert Er. apply retrieve_cars_nonempty; lia.
Qed.
End NoEmptyPage.

Definition demo_first_reply : reply :=
  match demo_turn "quiero un auto" empty_store with Ok r _ => r | Err _ => RNoMore end.

Lemma route_message_no_empty_page_witness : is_empty_page demo_first_reply = false.
Proof.
  apply (@route_message_no_empty_page exact_fuzz demo_catalog SYNONYMS_KM (txt "c")
           (txt "quiero un auto") empty_store demo_first_reply demo_store1).
  vm_compute. reflexivity.
Defined.

(** ** The pagination state is saved whole *)

(** What one channel's entries must satisfy: the saved search, the offset,
    the page size and the display index are present together, the page
    size is positive, and the saved search has no free text. *)
Definition view_wf (v : option filters * option nat * option nat * option page_entry * option quote_ctx)
  : Prop :=
  let '(fo, oo, lo, po, _) := v in
  (is_Some fo <-> is_Some oo) /\ (is_Some oo <-> is_Some lo) /\ (is_Some fo <-> is_Some po) /\
  (forall l, lo = Some l -> 1 <= l) /\ (forall f, fo = Some f -> f_raw_text f = Some []).

Definition cursor_wf (st : store) : Prop := forall ch, view_wf (channel_view st ch).

Lemma view_wf_full f o l p c : 1 <= l -> f_raw_text f = Some [] -> view_wf (Some f, Some o, Some l, Some p, c).
Proof. intros Hl Hr. cbn. split; [done|]. split; [done|]. split; [done|]. split; naive_solver. Qed.

Lemma cursor_wf_update st st' ch :
  cursor_wf st -> (forall ch', ch <> ch' -> channel_view st' ch' = channel_view st ch') ->
  view_wf (channel_view st' ch) -> cursor_wf st'.
Proof. intros Hw Ho Hc ch'. destruct (decide (ch = ch')) as [<-|Hne]; [done|]. rewrite Ho; auto. Qed.

Lemma cursor_wf_same st st' :
  cursor_wf st -> (forall ch, channel_view st' ch = channel_view st ch) -> cursor_wf st'.
Proof. intros Hw Hv ch. by rewrite Hv. Qed.

Lemma view_wf_offset_limit st ch f :
  cursor_wf st -> last_filters st !! ch = Some f ->
  (exists o, last_offset st !! ch = Some o) /\ (exists l, last_limit st !! ch = Some l) /\
  is_Some (last_page st !! ch) /\ f_raw_text f = Some [].
Proof.
  intros Hw Hf. specialize (Hw ch). unfold channel_view in Hw. rewrite Hf in Hw.
  destruct Hw as (Ho & Hl & Hp & _ & Hr). destruct (proj1 Ho ltac:(eauto)) as [o Eo].
  rewrite Eo in Hl. destruct (proj1 Hl ltac:(eauto)) as [l El].
  split; [eauto|]. split; [eauto|]. split; [by apply Hp|by apply Hr].
Qed.

Lemma cursor_wf_put_ctx st ch v : cursor_wf st -> cursor_wf (put_ctx ch v st).
Proof. intros Hw ch'. specialize (Hw ch'). unfold channel_view in *. exact Hw. Qed.

Lemma cursor_wf_put_page st ch p :
  cursor_wf st -> is_Some (last_filters st !! ch) -> cursor_wf (put_page ch p st).
Proof.
  intros Hw [f Hf]. apply (cursor_wf_update st _ ch Hw).
  - intros ch' Hne. by autorewrite with chat_rw.
  - pose proof (Hw ch) as Hc. unfold channel_view in *. simpl. rewrite lookup_insert_eq, Hf.
    rewrite Hf in Hc. destruct Hc as (Ho & Hl & _ & Hpos & Hr). repeat split; try naive_solver.
Qed.

Lemma view_search st ch f o l p :
  channel_view (put_filters ch f (put_cursor ch o l (put_page ch p st))) ch
  = (Some f, Some o, Some l, Some p, last_ctx st !! ch).
Proof. unfold channel_view. simpl. by rewrite !lookup_insert_eq. Qed.

Lemma view_new_search st ch f o l p :
  channel_view (put_page ch p (put_cursor ch o l (put_filters ch f st))) ch
  = (Some f, Some o, Some l, Some p, last_ctx st !! ch).
Proof. unfold channel_view. simpl. by rewrite !lookup_insert_eq. Qed.

Lemma cursor_wf_search st ch f o l p :
  cursor_wf st -> 1 <= l -> f_raw_text f = Some [] ->
  cursor_wf (put_filters ch f (put_cursor ch o l (put_page ch p st))).
Proof.
  intros Hw Hl Hr. apply (cursor_wf_update st _ ch Hw).
  - intros ch' Hne. by autorewrite with chat_rw.
  - rewrite view_search. by apply view_wf_full.
Qed.

Section Turns.
Context `{Fuzz} (catalog : list car) (order : list text).

Lemma quote_turn_wf ch m raw st :
  cursor_wf st -> cursor_wf (outcome_store (quote_turn catalog ch m raw st)).
Proof. intros Hw. unfold quote_turn. repeat case_match; simpl; auto using cursor_wf_put_ctx. Qed.

Lemma paginate_turn_wf ch m raw st :
  cursor_wf st -> cursor_wf (outcome_store (paginate_turn catalog ch m raw st)).
Proof.
  intros Hw. unfold paginate_turn. destruct (last_filters st !! ch) as [base|] eqn:Ef; [|done].
  destruct (no_saved _); [done|]. destruct (Nat.leb _ _) eqn:Eleb; [done|]. apply Nat.leb_gt in Eleb.
  destruct (view_wf_offset_limit st ch base Hw Ef) as (_ & _ & _ & Hr).
  destruct (assign_ids _ _ _) as [pe' []]; simpl; [|by apply cursor_wf_put_page].
  destruct (retrieve_cars _ _ _ _) as [r base'] eqn:Er. simpl.
  apply cursor_wf_search; [done|lia|]. change base' with (snd (r, base')).
  by rewrite <- Er, retrieve_cars_raw_text.
Qed.

Lemma paginate_turn2_wf ch m raw st :
  cursor_wf st -> cursor_wf (outcome_store (paginate_turn2 catalog ch m raw st)).
Proof.
  intros Hw. unfold paginate_turn2. destruct (last_filters st !! ch) as [base|] eqn:Ef; [|done].
  destruct (no_saved _); [done|]. destruct (Nat.leb _ _) eqn:Eleb; [done|]. apply Nat.leb_gt in Eleb.
  destruct (view_wf_offset_limit st ch base Hw Ef) as (_ & _ & _ & Hr).
  destruct (retrieve_cars _ _ _ _) as [r base'] eqn:Er. simpl.
  apply cursor_wf_search; [done|lia|]. change base' with (snd (r, base')).
  by rewrite <- Er, retrieve_cars_raw_text.
Qed.

Lemma search_turn_wf ch raw st :
  cursor_wf st -> cursor_wf (outcome_store (search_turn catalog order ch raw st)).
Proof.
  intros Hw. unfold search_turn. simpl. apply (cursor_wf_update st _ ch Hw).
  - intros ch' Hne. by autorewrite with chat_rw.
  - rewrite view_new_search. apply view_wf_full; [lia|done].
Qed.

Lemma route_message_wf ch raw st :
  cursor_wf st -> cursor_wf (outcome_store (route_message catalog order ch raw st)).
Proof.
  intros Hw. unfold route_message.
  repeat (case_match; try done);
    auto using quote_turn_wf, paginate_turn_wf, paginate_turn2_wf, search_turn_wf.
Qed.

Lemma reachable_wf st : reachable catalog order st -> cursor_wf st.
Proof.
  induction 1 as [|st ch raw r st' _ IH E].
  - intros ch. cbn. rewrite !lookup_empty. repeat split; try by intros [].
  - pose proof (route_message_wf ch raw st IH) as Hw. by rewrite E in Hw.
Qed.

(** C10: the pagination state of a channel is well formed in every
    reachable store: the channel has a saved search exactly when it has an
    offset, a page size and a display index (they are written together),
    the saved page size is at least 1, and the saved search carries no
    free text ([raw_text] is the empty string). *)
Theorem reachable_cursor_wf st ch :
  reachable catalog order st -> view_wf (channel_view st ch).
Proof. intros Hr. exact (reachable_wf st Hr ch). Qed.
End Turns.

Lemma reachable_cursor_wf_witness : view_wf (channel_view demo_store1 (txt "c")).
Proof.
  apply (@reachable_cursor_wf exact_fuzz demo_catalog SYNONYMS_KM demo_store1 (txt "c")).
  apply (ReachStep _ _ empty_store (txt "c") (txt "quiero un auto") demo_first_reply demo_store1
           (ReachInit _ _)).
  vm_compute. reflexivity.
Defined.

(** ** Repeating "ver mas" reaches the end *)

(** How the router reads the message "ver mas": a pagination with no count. *)
Lemma ver_mas_parse :
  match_prop_valor (txt "ver mas") = false /\ re_match GREET_RE (txt "ver mas") = None /\
  re_match YES_RE_RAW (txt "ver mas") = None /\ re_match NO_RE_RAW (txt "ver mas") = None /\
  re_match CONTACT_RE (txt "ver mas") = None /\ re_search COTIZA_RE (txt "ver mas") = None /\
  match re_search PAGINATE_RE (txt "ver mas") with
  | Some m => group_or_empty (txt "ver mas") m 1 = [] /\ group_or_empty (txt "ver mas") m 2 = []
  | None => False
  end.
Proof. vm_compute. repeat split. Qed.

(** How far the echo can still narrow a saved search: each of brand, model
    and version counts 2 while absent, 1 while empty. *)
Definition echo_room (o : option text) : nat := match o with None => 2 | Some [] => 1 | Some _ => 0 end.

Definition echo_potential (f : filters) : nat :=
  echo_room (f_brand f) + echo_room (f_model f) + echo_room (f_version f).

Lemma refill_room old v : refill old v = old \/ echo_room (refill old v) < echo_room old.
Proof. unfold refill. destruct old as [[|]|], v as [[|]|]; simpl; auto with lia. Qed.

Lemma room3 (b m v b' m' v' : option text) :
  (b' = b \/ echo_room b' < echo_room b) -> (m' = m \/ echo_room m' < echo_room m) ->
  (v' = v \/ echo_room v' < echo_room v) ->
  (b' = b /\ m' = m /\ v' = v) \/
  echo_room b' + echo_room m' + echo_room v' < echo_room b + echo_room m + echo_room v.
Proof. intros [->|] [->|] [->|]; auto with lia. Qed.

(** The echo leaves the dict as it was or lowers its potential. *)
Lemma echo_progress cars f : echo cars f = f \/ echo_potential (echo cars f) < echo_potential f.
Proof.
  destruct cars as [|c cs]; [by left|].
  destruct (echo_fields (c :: cs) f ltac:(done)) as (Eb & Em & Ev & Hrest).
  set (e := echo (c :: cs) f) in *. clearbody e.
  assert (Hb : f_brand e = f_brand f \/ echo_room (f_brand e) < echo_room (f_brand f))
    by (rewrite Eb; apply refill_room).
  assert (Hm : f_model e = f_model f \/ echo_room (f_model e) < echo_room (f_model f))
    by (rewrite Em; apply refill_room).
  assert (Hv : f_version e = f_version f \/ echo_room (f_version e) < echo_room (f_version f))
    by (rewrite Ev; apply refill_room).
  unfold echo_potential. destruct (room3 _ _ _ _ _ _ Hb Hm Hv) as [(Hb' & Hm' & Hv')|Hlt]; [left|by right].
  rewrite <- Hb', <- Hm', <- Hv' in Hrest. rewrite <- Hrest. by destruct e.
Qed.

Lemma retrieve_cars_progress `{Fuzz} catalog f o l :
  snd (retrieve_cars catalog f o l) = f \/
  echo_potential (snd (retrieve_cars catalog f o l)) < echo_potential f.
Proof.
  unfold retrieve_cars. case_match; [by left|]. case_match; [by left|].
  case_match; cbn [snd]; apply echo_progress.
Qed.

Section Liveness.
Context `{Fuzz} (catalog : list car) (order : list text).

(** The session of a channel reaches the end of its results when sending
    [raw] again and again gives pages and then "no more results". *)
Inductive pages_to_end (ch raw : text) : store -> Prop :=
  | PagesEnd st st' :
      route_message catalog order ch raw st = Ok RNoMore st' -> pages_to_end ch raw st
  | PagesMore st c st' :
      route_message catalog order ch raw st = Ok (RPage c) st' ->
      pages_to_end ch raw st' -> pages_to_end ch raw st.

Lemma route_ver_mas ch st :
  exists m, route_message catalog order ch (txt "ver mas") st = paginate_turn catalog ch m (txt "ver mas") st /\
    group_or_empty (txt "ver mas") m 1 = [] /\ group_or_empty (txt "ver mas") m 2 = [].
Proof.
  destruct ver_mas_parse as (Hp & Hg & Hy & Hn & Hc & Hq & Hm).
  destruct (re_search PAGINATE_RE (txt "ver mas")) as [m|] eqn:Em; [|done].
  exists m. split; [|done]. unfold route_message. rewrite Hp, Hg, Hy, Hn, Hc, Hq, Em. done.
Qed.

(** One "ver mas" turn on a saved search: no more results, or a page after
    which the cursor has moved past the old window with a positive size and
    the saved search is the same or has a lower potential. *)
Lemma paginate_step ch m raw st base :
  group_or_empty raw m 1 = [] -> group_or_empty raw m 2 = [] ->
  pages_are_maps st -> last_filters st !! ch = Some base -> f_raw_text base <> None ->
  let n := get_or (last_offset st) ch 0 + get_or (last_limit st) ch 5 in
  (search_cars_count catalog base <= n /\ paginate_turn catalog ch m raw st = Ok RNoMore st) \/
  (n < search_cars_count catalog base /\
   exists c st' base' step,
     paginate_turn catalog ch m raw st = Ok (RPage c) st' /\ 1 <= step /\
     last_filters st' !! ch = Some base' /\ get_or (last_offset st') ch 0 = n /\
     get_or (last_limit st') ch 5 = step /\ pages_are_maps st' /\
     (base' = base \/ echo_potential base' < echo_potential base) /\ f_raw_text base' = f_raw_text base).
Proof.
  intros H1 H2 Hmaps Hf Hraw. cbn zeta. unfold paginate_turn. rewrite H1, H2, Hf.
  assert (Hns : no_saved (Some base) = false).
  { simpl. apply bool_decide_eq_false_2. intros ->. by apply Hraw. }
  rewrite Hns. destruct (Nat.leb _ _) eqn:Eleb; [left; by apply Nat.leb_le in Eleb|right].
  apply Nat.leb_gt in Eleb. split; [done|].
  assert (exists m0, default (PMap ∅) (last_page st !! ch) = PMap m0) as [m0 ->].
  { destruct (last_page st !! ch) as [pe|] eqn:E; simpl; [|eauto].
    apply (map_Forall_lookup_1 _ _ _ _ Hmaps) in E. destruct pe; [eauto|done]. }
  rewrite assign_ids_map. destruct (retrieve_cars _ _ _ _) as [r base'] eqn:Er.
  pose proof (retrieve_cars_progress catalog base
    (get_or (last_offset st) ch 0 + get_or (last_limit st) ch 5)
    (Nat.min (Nat.max (get_or (last_limit st) ch 5) 1)
       (search_cars_count catalog base - (get_or (last_offset st) ch 0 + get_or (last_limit st) ch 5))))
    as Hprog.
  pose proof (retrieve_cars_raw_text catalog base
    (get_or (last_offset st) ch 0 + get_or (last_limit st) ch 5)
    (Nat.min (Nat.max (get_or (last_limit st) ch 5) 1)
       (search_cars_count catalog base - (get_or (last_offset st) ch 0 + get_or (last_limit st) ch 5))))
    as Hrt.
  rewrite Er in Hprog, Hrt. cbn [snd] in Hprog, Hrt.
  eexists r, _, base', (Nat.min (Nat.max (get_or (last_limit st) ch 5) 1)
       (search_cars_count catalog base - (get_or (last_offset st) ch 0 + get_or (last_limit st) ch 5))).
  split; [reflexivity|]. split; [lia|]. cbn [last_filters last_offset last_limit put_filters put_cursor].
  rewrite lookup_insert_eq, !get_or_insert_eq. split; [done|]. split; [done|]. split; [done|].
  split; [|done]. by apply pages_are_maps_put_page.
Qed.

Lemma ver_mas_measure ch : forall p k st base,
  echo_potential base = p ->
  search_cars_count catalog base - (get_or (last_offset st) ch 0 + get_or (last_limit st) ch 5) = k ->
  pages_are_maps st -> last_filters st !! ch = Some base -> f_raw_text base <> None ->
  pages_to_end ch (txt "ver mas") st.
Proof.
  intros p. induction p as [p IHp] using lt_wf_ind. intros k. induction k as [k IHk] using lt_wf_ind.
  intros st base Hp Hk Hmaps Hf Hraw.
  destruct (route_ver_mas ch st) as (m & Er & H1 & H2).
  destruct (paginate_step ch m (txt "ver mas") st base H1 H2 Hmaps Hf Hraw)
    as [(_ & Ep)|(Hlt & c & st' & base' & step & Ep & Hstep & Hf' & Ho' & Hl' & Hmaps' & Hprog & Hraw')].
  - apply (PagesEnd _ _ st st). by rewrite Er.
  - apply (PagesMore _ _ st c st'); [by rewrite Er|]. rewrite <- Hraw' in Hraw.
    destruct Hprog as [->|Hdown].
    + eapply (IHk (search_cars_count catalog base
                   - (get_or (last_offset st') ch 0 + get_or (last_limit st') ch 5))); try done.
      rewrite Ho', Hl'. lia.
    + subst p. by eapply (IHp (echo_potential base')).
Qed.

Lemma reachable_pages st : reachable catalog order st -> pages_are_maps st.
Proof.
  induction 1 as [|st ch raw r st' _ IH E]; [apply map_Forall_empty|].
  destruct (route_message_ok catalog order ch raw st IH) as (r' & st'' & E' & Hp).
  rewrite E in E'. by injection E' as _ <-.
Qed.

(** C9: liveness of pagination: from every reachable store in which a
    channel has a saved search, sending "ver mas" again and again gives
    pages and then, after finitely many turns, "no more results".  The echo
    of [retrieve_cars] can narrow the saved search only finitely often, and
    between two narrowings each page moves the cursor forward by a positive
    size. *)
Theorem ver_mas_reaches_end st ch base :
  reachable catalog order st -> last_filters st !! ch = Some base ->
  pages_to_end ch (txt "ver mas") st.
Proof.
  intros Hr Hf. destruct (view_wf_offset_limit st ch base (reachable_wf catalog order st Hr) Hf)
    as (_ & _ & _ & Hraw).
  eapply (ver_mas_measure ch _ _ st base eq_refl eq_refl (reachable_pages st Hr) Hf).
  by rewrite Hraw.
Qed.
End Liveness.

Lemma ver_mas_reaches_end_witness :
  @pages_to_end exact_fuzz demo_catalog SYNONYMS_KM (txt "c") (txt "ver mas") demo_store1.
Proof.
  apply (@ver_mas_reaches_end exact_fuzz demo_catalog SYNONYMS_KM demo_store1 (txt "c")
           (match last_filters demo_store1 !! txt "c" with Some f => f | None => no_filters end)).
  - apply (ReachStep _ _ empty_store (txt "c") (txt "quiero un auto") demo_first_reply demo_store1
             (ReachInit _ _)).
    vm_compute. reflexivity.
  - vm_compute. reflexivity.
Defined.
