(* ===== verification/Kb.v ===== *)
(** * Kb: the knowledge base and its retriever

    [scripts/build_faiss.py] cuts [kb.md] into overlapping passages
    ([chunk_text], 17-30) that are embedded and stored in a FAISS index
    with their metadata.  [app/nlp/retriever.py] answers a question from
    them: [kb_answer] (95-214) answers the value-proposition questions from
    a template, looks the question up in the index, and has OpenAI write the
    answer from the passages found ([_build_prompt], 54-69), adding the
    offer of an agent when the answer says it has no information
    ([postprocess_no_info], 72-90, and the [NOINFO_PATTERNS] of 197-209).
    [kb_tool] (tools.py:438-459) wraps it for the router.

    The index, the embedding model and the OpenAI client are external: a
    [backend] record gives the results of [_load_index], of
    [index.search(_embed([query]), k)] (the row of indices, or [None] when
    it raises), the metadata, the API key and the completion (its content,
    or the text of the exception it raised).

    [main] of build_faiss ([build_kb]) writes the chunks as the metadata
    the retriever reads, or raises on a missing or blank [kb.md].

    Theorems: [chunk_text] terminates whenever the overlap is smaller than
    the chunk size, and then returns the non-blank windows of the reference
    [windows], which stitch back to the text; it runs forever when the
    overlap is not smaller and the text is longer than one chunk.  [main]
    always returns and raises exactly for a blank file; the retriever's
    hits are the chunks at the indices FAISS returns.
    [postprocess_no_info] is idempotent and
    leaves every answer that reports no information with the offer of an
    agent; [kb_answer] does so on every path that asks the language model,
    but not without an API key. *)

From stdpp Require Import base list option.
From Stdlib Require Import NArith ZArith QArith Lia.
From S2P Require Import Prelude Text Regex Format Replies.

Local Close Scope Q_scope.

(** ** [chunk_text] (build_faiss.py:17-30) *)

(** [chunk.strip()] is truthy. *)
Definition keep_nonblank (chunk : text) : list text :=
  match strip chunk with [] => [] | _ => [chunk] end.

(** The [while start < n] loop from a given [start]; [None] when the fuel
    runs out.  [chunk_size] and [overlap] are the non-negative integers the
    callers pass, so [max(end - overlap, 0)] is [end - overlap] on [nat]. *)
Fixpoint chunk_loop (fuel : nat) (t : text) (chunk_size overlap start : nat) : option (list text) :=
  match fuel with
  | O => None
  | S f =>
      if start <? length t then
        let end_ := Nat.min (start + chunk_size) (length t) in
        let chunk := slice t start (end_ - start) in
        if end_ =? length t then Some (keep_nonblank chunk)
        else (fun cs => keep_nonblank chunk ++ cs) <$> chunk_loop f t chunk_size overlap (end_ - overlap)
      else Some []
  end.

Definition chunk_text_fuel (fuel : nat) (text0 : text) (chunk_size overlap : nat) : option (list text) :=
  chunk_loop fuel (strip text0) chunk_size overlap 0.

(** [chunk_text(text, chunk_size, overlap)]: one round per character and
    one more is enough when it terminates ([chunk_text_terminates]). *)
Definition chunk_text (text0 : text) (chunk_size overlap : nat) : option (list text) :=
  chunk_text_fuel (S (length (strip text0))) text0 chunk_size overlap.

(** The defaults [chunk_size=600, overlap=60] that [main] uses. *)
Definition kb_chunks (content : text) : option (list text) := chunk_text content 600 60.

(** The reference: windows of [chunk_size] characters starting every
    [chunk_size - overlap] characters, up to the first one that reaches the
    end of the text. *)
Definition nwindows (n chunk_size step : nat) : nat :=
  if n =? 0 then 0 else S ((n - chunk_size + step - 1) / step).

Definition windows (t : text) (chunk_size overlap : nat) : list text :=
  map (fun i => slice t (i * (chunk_size - overlap)) chunk_size)
      (seq 0 (nwindows (length t) chunk_size (chunk_size - overlap))).

(** Consecutive windows share [overlap] characters: the first window and
    the rest of every later one. *)
Definition stitch (overlap : nat) (ws : list text) : text :=
  match ws with [] => [] | w :: ws' => w ++ concat (map (drop overlap) ws') end.

(** ** Termination and the reference windows *)

Lemma slice_upto {A} (l : list A) o k :
  slice l o (Nat.min (o + k) (length l) - o) = slice l o k.
Proof.
  unfold slice. set (d := drop o l).
  assert (Hd : length d = length l - o) by apply length_drop.
  rewrite <- (take_ge d (length d)) at 2 by lia. rewrite take_take. f_equal. lia.
Qed.

Lemma filter_nonblank_cons c l :
  filter (fun p => strip p <> []) (c :: l) = keep_nonblank c ++ filter (fun p => strip p <> []) l.
Proof. unfold keep_nonblank. rewrite filter_cons. by case_decide; destruct (strip c). Qed.

Section Windows.
Variables (n cs ov : nat).
Hypothesis Hov : ov < cs.
Hypothesis Hn : 0 < n.

Let step := cs - ov.
Let q := (n - cs + step - 1) / step.

Lemma nwindows_last : nwindows n cs step = S q.
Proof. unfold nwindows. by replace (n =? 0) with false by (symmetry; apply Nat.eqb_neq; lia). Qed.

(** The last window reaches the end; every earlier one stops before it. *)
Lemma windows_bounds :
  n <= q * step + cs /\ (forall i, i < q -> i * step + cs < n) /\ (forall i, i <= q -> i * step < n).
Proof.
  assert (Hs : 0 < step) by (subst step; lia).
  pose proof (Nat.div_mod (n - cs + step - 1) step ltac:(lia)) as Hdm.
  pose proof (Nat.mod_upper_bound (n - cs + step - 1) step ltac:(lia)) as Hm.
  fold q in Hdm. assert (Hq : n - cs <= q * step <= n - cs + step - 1) by nia.
  assert (Hqn : q * step < n).
  { destruct (Nat.le_gt_cases cs n); [subst step; lia|].
    assert (Hq0 : q = 0) by (unfold q; apply Nat.div_small; lia). rewrite Hq0. lia. }
  split; [lia|split].
  - intros i Hi. pose proof (Nat.mul_le_mono_r (S i) q step ltac:(lia)). simpl in *. lia.
  - intros i Hi. pose proof (Nat.mul_le_mono_r i q step Hi). lia.
Qed.

Lemma chunk_loop_windows t i f :
  length t = n -> i <= q -> S q - i <= f ->
  chunk_loop f t cs ov (i * step) =
  Some (filter (fun p => strip p <> []) (map (fun j => slice t (j * step) cs) (seq i (S q - i)))).
Proof.
  destruct windows_bounds as (Hend & Hbefore & Hin).
  intros Hl. revert i. induction f as [|f IH]; intros i Hi Hf; [lia|]. simpl.
  rewrite Hl. replace (i * step <? n) with true by (symmetry; apply Nat.ltb_lt, Hin, Hi).
  rewrite <- Hl, slice_upto, Hl. replace (S q - i) with (S (q - i)) by lia.
  cbn [seq map]. rewrite filter_nonblank_cons.
  destruct (decide (i = q)) as [->|Hiq].
  - replace (Nat.min (q * step + cs) n =? n) with true by (symmetry; apply Nat.eqb_eq; lia).
    replace (q - q) with 0 by lia. simpl. by rewrite app_nil_r.
  - replace (Nat.min (i * step + cs) n =? n) with false
      by (symmetry; apply Nat.eqb_neq; specialize (Hbefore i); lia).
    replace (Nat.min (i * step + cs) n - ov) with (S i * step)
      by (specialize (Hbefore i); subst step; nia).
    rewrite IH by lia. by replace (S q - S i) with (q - i) by lia.
Qed.

End Windows.

Lemma drop_slice {A} (l : list A) o n k : k <= n -> drop k (slice l o n) = slice l (o + k) (n - k).
Proof.
  intros Hk. unfold slice. replace n with (k + (n - k)) at 1 by lia.
  by rewrite <- take_drop_commute, drop_drop.
Qed.

Lemma windows_stitch_prefix (t : text) cs ov m :
  ov < cs ->
  slice t 0 cs ++ concat (map (drop ov) (map (fun i => slice t (i * (cs - ov)) cs) (seq 1 m))) =
  slice t 0 (cs + m * (cs - ov)).
Proof.
  intros Hov. induction m as [|m IH]; [by rewrite Nat.add_0_r, app_nil_r|].
  rewrite seq_S, !map_app, concat_app, app_assoc, IH. simpl. rewrite app_nil_r, drop_slice by lia.
  replace (cs - ov + m * (cs - ov) + ov) with (0 + (cs + m * (cs - ov))) by lia.
  rewrite slice_app. f_equal. nia.
Qed.

(** No character is lost between windows: the windows, with the
    [overlap] characters each later window shares with the one before
    dropped, concatenate back to the text. *)
Lemma windows_stitch t chunk_size overlap :
  overlap < chunk_size -> stitch overlap (windows t chunk_size overlap) = t.
Proof.
  intros Hov. unfold windows. destruct (decide (length t = 0)) as [H0|H0].
  - apply nil_length_inv in H0 as ->. done.
  - destruct (windows_bounds (length t) chunk_size overlap Hov ltac:(lia)) as (Hend & _).
    rewrite nwindows_last by lia. cbn [seq map stitch]. rewrite Nat.mul_0_l.
    rewrite windows_stitch_prefix by done.
    unfold slice. rewrite drop_0. apply take_ge. lia.
Qed.

Lemma chunk_text_fuel_windows text0 chunk_size overlap fuel :
  overlap < chunk_size -> length (strip text0) < fuel ->
  chunk_text_fuel fuel text0 chunk_size overlap =
  Some (filter (fun p => strip p <> []) (windows (strip text0) chunk_size overlap)).
Proof.
  intros Hov Hf. unfold chunk_text_fuel, windows. set (t := strip text0) in *.
  destruct (decide (length t = 0)) as [H0|H0].
  - destruct fuel as [|f]; [lia|]. simpl. rewrite H0. done.
  - destruct (windows_bounds (length t) chunk_size overlap Hov ltac:(lia)) as (_ & _ & Hin).
    specialize (Hin _ (le_n _)).
    rewrite nwindows_last by lia. rewrite <- (Nat.mul_0_l (chunk_size - overlap)) at 1.
    rewrite <- (Nat.sub_0_r (S _)). apply chunk_loop_windows; try lia.
    assert (Hs : 1 <= chunk_size - overlap) by lia.
    pose proof (Nat.mul_le_mono_l _ _ ((length t - chunk_size + (chunk_size - overlap) - 1)
                                        / (chunk_size - overlap)) Hs). lia.
Qed.

(** C18: when the overlap is smaller than the chunk size, [chunk_text]
    terminates within one round per character plus one, whatever fuel
    beyond that it is given, and returns the non-blank windows of the
    reference [windows]: [chunk_size] characters every
    [chunk_size - overlap], up to the first one that reaches the end.
    Those windows lose no character: with the overlap of each later one
    dropped they concatenate back to the stripped text. *)
Theorem chunk_text_windows text0 chunk_size overlap fuel :
  overlap < chunk_size -> length (strip text0) < fuel ->
  chunk_text_fuel fuel text0 chunk_size overlap =
  Some (filter (fun p => strip p <> []) (windows (strip text0) chunk_size overlap)) /\
  stitch overlap (windows (strip text0) chunk_size overlap) = strip text0.
Proof. intros Hov Hf. split; [by apply chunk_text_fuel_windows|by apply windows_stitch]. Qed.


Lemma chunk_loop_stuck t cs ov start f :
  cs <= ov -> start + cs < length t -> chunk_loop f t cs ov start = None.
Proof.
  intros Hov. revert start. induction f as [|f IH]; intros start Hs; [done|]. simpl.
  replace (start <? length t) with true by (symmetry; apply Nat.ltb_lt; lia).
  replace (Nat.min (start + cs) (length t)) with (start + cs) by lia.
  replace (start + cs =? length t) with false by (symmetry; apply Nat.eqb_neq; lia).
  rewrite IH by lia. done.
Qed.

(** C19: when the overlap is at least the chunk size and the stripped text is
    longer than one chunk, the loop of [chunk_text] never ends: [start]
    never moves forward, whatever the fuel. *)
Theorem chunk_text_diverges text0 chunk_size overlap fuel :
  chunk_size <= overlap -> chunk_size < length (strip text0) ->
  chunk_text_fuel fuel text0 chunk_size overlap = None.
Proof. intros Hov Hn. apply chunk_loop_stuck; lia. Qed.

(** ** [postprocess_no_info] (retriever.py:72-90) *)

Definition NEG_PATTERNS : list text :=
  [utxt "no hay información disponible en el contexto";
   utxt "no encontré información relacionada";
   utxt "no tengo información disponible en el contexto";
   utxt "no se menciona en el contexto";
   utxt "no se encuentra en el contexto";
   utxt "no tengo información"].

(** ["agente de kavak"] *)
Definition AGENTE : text := txt "agente de kavak".

(** ["\n\n¿Quieres que te ponga en contacto con un agente de Kavak?"] *)
Definition AGENT_OFFER : text :=
  nl ++ nl ++ utxt "¿Quieres que te ponga en contacto con un agente de Kavak?".

(** [any(p in low for p in NEG_PATTERNS)] *)
Definition reports_no_info (low : text) : bool := existsb (contains low) NEG_PATTERNS.

Definition postprocess_no_info (text0 : text) : text :=
  let t := strip text0 in
  let low := lower t in
  if reports_no_info low && negb (contains low AGENTE) then t ++ AGENT_OFFER else t.

(** ** [_build_prompt] (retriever.py:54-69) *)

(** A metadata entry of [kb_meta.json], [{"id": i, "text": chunk}], or the
    manual source of the shortcut, which has no ["id"]. *)
Record snippet := Snippet { snippet_id : option Z; snippet_text : option text }.

(** [s.get("text", "")] *)
Definition snippet_body (s : snippet) : text := default [] (snippet_text s).

(** [{"role": role, "content": content}] *)
Definition message := (text * text)%type.

Definition SYSTEM_PROMPT : text :=
  utxt "Eres un asistente de soporte de Kavak. Responde en español, "
  ++ utxt "de forma clara, concisa y basada EXCLUSIVAMENTE en el contexto provisto. "
  ++ utxt "Si la respuesta no está en el contexto, dilo explícitamente y AÑADE esta frase al final: "
  ++ utxt "“¿Quieres que te ponga en contacto con un agente de Kavak?”".

(** ["\n\n".join(s.get("text", "") for s in snippets)] *)
Definition contexto_of (snippets : list snippet) : text := join (nl ++ nl) (map snippet_body snippets).

Definition build_prompt (query : text) (snippets : list snippet) : list message :=
  [(txt "system", SYSTEM_PROMPT);
   (txt "user", utxt "Pregunta del usuario: " ++ query ++ nl ++ nl ++ txt "Contexto:" ++ nl
                ++ contexto_of snippets)].

(** ** [kb_answer] (retriever.py:95-214) *)

(** What [chat.completions.create] gives: the content of the first choice
    ([None] when absent), or the text of the exception it raised. *)
Inductive completion := Completion (content : option text) | CompletionError (e : text).

(** The external collaborators of [kb_answer]. *)
Record backend := Backend {
  kb_index_loaded : bool;                            (** [_load_index()] found both files *)
  kb_search : text -> nat -> option (list Z);        (** [index.search(_embed([q]), k)[1][0]]; [None]: raised *)
  kb_meta : list snippet;                            (** [kb_meta.json] *)
  kb_api_key : text;                                 (** [os.getenv("OPENAI_API_KEY", "")] *)
  kb_complete : list message -> Q -> completion      (** OpenAI, at [OPENAI_MODEL], [max_tokens=600] *)
}.

Definition TRIGGER_PHRASES : list text :=
  [txt "propuesta de valor"; txt "propuesta valor"; txt "valor de kavak"; txt "por que kavak";
   txt "porque kavak"; txt "por que elegir kavak"; txt "por que comprar en kavak";
   txt "por que comprar con kavak"; txt "por que elegir a kavak"; txt "por que kavak";
   txt "por que en kavak"; txt "que ofrece kavak"; utxt "qué ofrece kavak";
   txt "porque elegir kavak"; txt "por que comprar con kavak"; txt "por que confiar en kavak";
   txt "porque confiar en kavak"].

(** [unidecode((query or "").strip().lower())] *)
Definition q_norm (query : text) : text := unidecode (lower (strip query)).

Definition MANUAL_SOURCE : snippet := Snippet None (Some (txt "Fuente: texts.py (manual)")).

Definition KB_NOT_BUILT : text :=
  utxt "La base de conocimiento no está construida aún. Ejecuta scripts/build_faiss.py".

Definition NO_HITS : text :=
  utxt "No encontré información relacionada con tu criterio de búsqueda. "
  ++ utxt "¿Quieres que te ponga en contacto con un agente de Kavak?".

Definition NO_ANSWER : text :=
  utxt "No encontré información suficiente referente a tu pregunta. "
  ++ utxt "¿Quieres que te ponga en contacto con un agente de Kavak?".

(** [hits]: the entries of [meta] at the indices in range (143-145). *)
Definition hits_of (meta : list snippet) (ids : list Z) : list snippet :=
  omap (fun idx => if ((0 <=? idx) && (idx <? Z.of_nat (length meta)))%Z
                   then meta !! Z.to_nat idx else None) ids.

(** [informaci[oó]n] *)
Definition INFORMACION : regex := seqs [lit (txt "informaci"); cls [111; o_acute]%N; chr 110%N].

(** [NOINFO_PATTERNS] (197-206), searched in the lower-cased answer. *)
Definition NOINFO_PATTERNS : list regex :=
  [seqs [RWordB; lit (txt "no "); alts [lit (txt "tengo"); lit (txt "dispongo"); lit (txt "cuento")];
         chr 32%N; alts [INFORMACION; lit (txt "info")]; RWordB];
   seqs [RWordB; lit (txt "no "); alts [lit (txt "hay"); lit (txt "existe")];
         chr 32%N; alts [INFORMACION; lit (txt "datos")]; RWordB];
   seqs [RWordB; lit (txt "no encontr"); cls [101; e_acute]%N; chr 32%N;
         alts [INFORMACION; lit (txt "datos")]; RWordB];
   seqs [RWordB; lit (txt "no se menciona"); RWordB];
   seqs [RWordB; lit (txt "no "); alts [RSeq (lit (txt "est")) (cls [97; a_acute]%N);
                                       lit (txt "figura"); lit (txt "aparece")];
         lit (txt " en el contexto"); RWordB];
   seqs [RWordB; lit (txt "no "); RStar anyc; lit (txt " en el contexto"); RWordB];
   seqs [alts [lit (txt "contexto"); lit (txt "proporcionado")]; RStar anyc;
         alts [lit (txt "sin"); lit (txt "no")]; RStar anyc; INFORMACION];
   seqs [lit (txt "no tengo informaci"); cls [111; o_acute]%N; lit (txt "n disponible en el contexto")]].

(** The answer the model wrote (170-186) and the defence of 189-193. *)
Definition llm_answer (b : backend) (query : text) (hits : list snippet) (temperature : Q) : text :=
  let answer :=
    match kb_complete b (build_prompt query hits) temperature with
    | Completion content => strip (default [] content)
    | CompletionError e =>
        utxt "No pude generar la respuesta automáticamente (" ++ e
        ++ utxt "). Te comparto el contexto relevante encontrado:" ++ nl ++ nl ++ contexto_of hits
    end in
  match answer with [] => NO_ANSWER | _ => answer end.

(** 196-212: the regexes, then [postprocess_no_info]. *)
Definition finish_answer (answer : text) : text :=
  let ans_l := lower answer in
  let answer :=
    if existsb (fun p => re_test p ans_l) NOINFO_PATTERNS && negb (contains ans_l AGENTE)
    then answer ++ AGENT_OFFER else answer in
  postprocess_no_info answer.

(** [kb_answer(query, k, temperature)]: the answer and the sources, or
    [None] when the embedding or the search raises. *)
Definition kb_answer (b : backend) (query : text) (k : nat) (temperature : Q)
    : option (text * list snippet) :=
  if existsb (contains (q_norm query)) TRIGGER_PHRASES then Some (PROPUESTA_VALOR_KAVAK, [MANUAL_SOURCE])
  else if negb (kb_index_loaded b) then Some (KB_NOT_BUILT, [])
  else
    ids ← kb_search b query k;
    match hits_of (kb_meta b) ids with
    | [] => Some (NO_HITS, [])
    | hits =>
        match strip (kb_api_key b) with
        | [] => Some (utxt "No tengo acceso al modelo de lenguaje (falta OPENAI_API_KEY). "
                      ++ utxt "A continuación, el contexto relevante encontrado:" ++ nl ++ nl
                      ++ contexto_of hits, hits)
        | _ => Some (finish_answer (llm_answer b query hits temperature), hits)
        end
    end.

(** ** [kb_tool] (tools.py:438-459) *)

Section Tool.
(** Whether [from .retriever import kb_answer] succeeds (it loads the
    embedding model and FAISS at import time). *)
Variable retriever_available : bool.
(** [f"- {s}"]: Python's [str] of a source dictionary. *)
Variable show_source : snippet -> text.
Variable b : backend.

Definition kb_tool (question : text) : text :=
  if negb retriever_available then utxt "La base de conocimiento no está disponible por ahora."
  else
    match kb_answer b question 4 (2 # 10) with
    | None => utxt "No pude consultar la base de conocimiento en este momento."
    | Some (answer, srcs) =>
        let suffix :=
          match srcs with
          | [] => []
          | _ => nl ++ nl ++ txt "Fuentes:" ++ nl ++ join nl (map (fun s => txt "- " ++ show_source s) srcs)
          end in
        match answer with [] => utxt "No encontré información en la base de conocimiento." | _ => answer end
        ++ suffix
    end.
End Tool.

(** ** [main] of build_faiss.py (32-57) *)

(** [meta = [{"id": i, "text": chunks[i]} for i in range(len(chunks))]]
    (53); the embeddings are added to the index in the same order, so row
    [i] of the index is chunk [i]. *)
Definition build_meta (chunks : list text) : list snippet :=
  imap (fun i c => Snippet (Some (Z.of_nat i)) (Some c)) chunks.

(** [FileNotFoundError] (33-34) and [ValueError("kb.md está vacío")] (40-41). *)
Inductive build_error := KbNotFound | KbEmpty.

(** [main()]: the metadata it writes, or the exception it raises; [None]
    if [chunk_text] ran out of fuel, which it never does
    ([build_kb_spec]).  Encoding, indexing and writing the files are I/O. *)
Definition build_kb (exists_ : bool) (content : text) : option (build_error + list snippet) :=
  if negb exists_ then Some (inl KbNotFound)
  else chunks ← kb_chunks content;
       Some (match chunks with [] => inl KbEmpty | _ => inr (build_meta chunks) end).

(** ** The offer of an agent *)

Lemma Some_pair_inj {A B} (a a' : A) (b b' : B) : Some (a, b) = Some (a', b') -> a = a' /\ b = b'.
Proof. by intros [= -> ->]. Qed.

(** Read the answer off [kb_answer ... = Some (answer, sources)] without
    normalising the texts. *)
Ltac inj_answer := let E := fresh "E" in intros E; apply Some_pair_inj in E as [<- _].

Lemma agent_offer_facts :
  contains (lower AGENT_OFFER) AGENTE = true /\ last_nonspace AGENT_OFFER = true.
Proof. vm_compute. auto. Qed.

Lemma reports_no_info_nonnil low : reports_no_info low = true -> low <> [].
Proof.
  intros H ->. unfold reports_no_info in H. apply existsb_exists in H as (p & Hp & Hc).
  apply contains_nil_inv in Hc as ->. vm_compute in Hp. intuition discriminate.
Qed.

(** A stripped text with the offer appended is stripped, and its lower
    case contains ["agente de kavak"]. *)
Lemma offer_appended t :
  t <> [] -> head_nonspace t = true ->
  strip (t ++ AGENT_OFFER) = t ++ AGENT_OFFER /\ contains (lower (t ++ AGENT_OFFER)) AGENTE = true.
Proof.
  destruct agent_offer_facts as [Hc Hl]. intros Ht Hh. split.
  - apply strip_id; [by destruct t|]. apply last_nonspace_app; [done|]. intros E; vm_compute in E; discriminate.
  - rewrite lower_app. auto with chat.
Qed.

Lemma postprocess_no_info_cases s :
  (postprocess_no_info s = strip s /\
   (reports_no_info (lower (strip s)) = true -> contains (lower (strip s)) AGENTE = true)) \/
  (postprocess_no_info s = strip s ++ AGENT_OFFER /\ strip s <> [] /\
   contains (lower (strip s ++ AGENT_OFFER)) AGENTE = true /\
   strip (strip s ++ AGENT_OFFER) = strip s ++ AGENT_OFFER).
Proof.
  unfold postprocess_no_info.
  destruct (reports_no_info _) eqn:Hr, (contains _ AGENTE) eqn:Ha; simpl; [by left|right|by left|by left].
  assert (Hn : strip s <> []) by (intros E; apply (reports_no_info_nonnil _ Hr); by rewrite E).
  destruct (offer_appended (strip s)) as [H1 H2]; [done|apply strip_head|]. auto.
Qed.

Lemma postprocess_no_info_fixed x :
  strip x = x -> (reports_no_info (lower x) = true -> contains (lower x) AGENTE = true) ->
  postprocess_no_info x = x.
Proof.
  intros Hs Ha. unfold postprocess_no_info. rewrite Hs.
  destruct (reports_no_info _) eqn:Hr; [by rewrite Ha|done].
Qed.

(** An answer that [postprocess_no_info] returns and that reports no
    information offers an agent. *)
Lemma postprocess_no_info_offers s :
  reports_no_info (lower (postprocess_no_info s)) = true ->
  contains (lower (postprocess_no_info s)) AGENTE = true.
Proof. destruct (postprocess_no_info_cases s) as [(-> & H)|(-> & _ & H & _)]; auto. Qed.

(** C23: [postprocess_no_info] is idempotent: a second pass neither strips
    nor appends anything more, so the offer of an agent is added at most
    once. *)
Theorem postprocess_no_info_idempotent s :
  postprocess_no_info (postprocess_no_info s) = postprocess_no_info s.
Proof.
  destruct (postprocess_no_info_cases s) as [(-> & H)|(-> & _ & H & Hs)];
    apply postprocess_no_info_fixed; auto using strip_idem.
Qed.

Lemma kb_texts_facts :
  reports_no_info (lower PROPUESTA_VALOR_KAVAK) = false /\ reports_no_info (lower KB_NOT_BUILT) = false /\
  contains (lower NO_HITS) AGENTE = true.
Proof. vm_compute. auto. Qed.

(** C22: with an OpenAI key configured, every answer of [kb_answer] that
    reports having no information (one of [NEG_PATTERNS] in its lower
    case) also offers an agent of Kavak: the template, the missing index
    and the empty search do not report it or offer the agent, and the
    model's answer goes through [postprocess_no_info]. *)
Theorem kb_answer_offers_agent bk query k temperature answer sources :
  strip (kb_api_key bk) <> [] ->
  kb_answer bk query k temperature = Some (answer, sources) ->
  reports_no_info (lower answer) = true -> contains (lower answer) AGENTE = true.
Proof.
  destruct kb_texts_facts as (Hp & Hb & Hh). intros Hk. unfold kb_answer.
  destruct (existsb _ _); [inj_answer; intros Hr; by rewrite Hp in Hr|].
  destruct (kb_index_loaded bk); cbn [negb]; [|inj_answer; intros Hr; by rewrite Hb in Hr].
  destruct (kb_search bk query k) as [ids|]; cbn [mbind option_bind]; [|done].
  destruct (hits_of _ ids) as [|h hs]; [inj_answer; done|].
  destruct (strip (kb_api_key bk)); [done|]. inj_answer.
  apply postprocess_no_info_offers.
Qed.

(** The trigger ["qué ofrece kavak"] is tested against a text that
    [unidecode] has made ASCII, so it never matches. *)
Lemma q_norm_misses_accented_trigger query : contains (q_norm query) (utxt "qué ofrece kavak") = false.
Proof.
  destruct (contains _ _) eqn:E; [exfalso|done].
  assert (Hin : e_acute ∈ q_norm query) by (apply (contains_elem _ _ _ E); vm_compute; right; right; left).
  pose proof (unidecode_ascii (lower (strip query))) as Ha. unfold q_norm in Hin.
  apply list_elem_of_In in Hin. rewrite List.Forall_forall in Ha. specialize (Ha _ Hin). done.
Qed.

(** ** [kb_tool] never answers with a blank text *)

(** [bool(s.strip())] *)
Definition nonblank (s : text) : bool := existsb (fun c => negb (is_space c)) s.

Lemma nonblank_app x y : nonblank (x ++ y) = nonblank x || nonblank y.
Proof. apply existsb_app. Qed.

Lemma nonblank_drop_spaces s : nonblank (drop_spaces s) = nonblank s.
Proof. induction s as [|c s IH]; simpl; [done|]. destruct (is_space c) eqn:E; simpl; [exact IH|by rewrite E]. Qed.

Lemma nonblank_rev s : nonblank (rev s) = nonblank s.
Proof. induction s as [|c s IH]; simpl; [done|]. rewrite nonblank_app, IH. unfold nonblank. simpl. by destruct (negb (is_space c)), (existsb _ s). Qed.

Lemma nonblank_strip s : nonblank (strip s) = nonblank s.
Proof. unfold strip. by rewrite nonblank_rev, nonblank_drop_spaces, nonblank_rev, nonblank_drop_spaces. Qed.

Lemma strip_nonblank s : strip s <> [] <-> nonblank s = true.
Proof.
  rewrite <- nonblank_strip. pose proof (strip_head s) as H.
  destruct (strip s) as [|c t]; simpl in *; [done|]. rewrite H. split; [done|discriminate].
Qed.

Lemma nonblank_or_default (x d : text) :
  (x <> [] -> nonblank x = true) -> nonblank d = true ->
  nonblank (match x with [] => d | _ :: _ => x end) = true.
Proof. destruct x; auto. Qed.

Lemma llm_answer_nonblank bk query hits temperature : nonblank (llm_answer bk query hits temperature) = true.
Proof.
  unfold llm_answer. apply nonblank_or_default; [|by vm_compute].
  destruct (kb_complete _ _ _) as [c|e]; intros Hne.
  - rewrite nonblank_strip. by apply strip_nonblank.
  - rewrite nonblank_app. by vm_compute.
Qed.

Lemma postprocess_nonblank x : nonblank x = true -> nonblank (postprocess_no_info x) = true.
Proof.
  intros H. destruct (postprocess_no_info_cases x) as [(-> & _)|(-> & _)];
    rewrite ?nonblank_app, nonblank_strip, H; done.
Qed.

Lemma kb_answer_nonblank bk query k temperature answer sources :
  kb_answer bk query k temperature = Some (answer, sources) -> nonblank answer = true.
Proof.
  unfold kb_answer.
  destruct (existsb _ _); [inj_answer; by vm_compute|].
  destruct (kb_index_loaded bk); cbn [negb]; [|inj_answer; by vm_compute].
  destruct (kb_search bk query k) as [ids|]; cbn [mbind option_bind]; [|done].
  destruct (hits_of _ ids) as [|h hs]; [inj_answer; by vm_compute|].
  destruct (strip (kb_api_key bk)); inj_answer; [rewrite nonblank_app; by vm_compute|].
  unfold finish_answer. try apply postprocess_nonblank.
  pose proof (llm_answer_nonblank bk query (h :: hs) temperature) as H.
  destruct (_ && _); rewrite ?nonblank_app, H; done.
Qed.

Section ToolProps.
Variable retriever_available : bool.
Variable show_source : snippet -> text.

Lemma kb_tool_has_text bk question : nonblank (kb_tool retriever_available show_source bk question) = true.
Proof.
  unfold kb_tool. destruct retriever_available; cbn [negb]; [|by vm_compute].
  destruct (kb_answer bk question 4 (2 # 10)) as [[a srcs]|] eqn:E; [|by vm_compute].
  rewrite nonblank_app. apply kb_answer_nonblank in E. destruct a; [by vm_compute|by rewrite E].
Qed.

(** [kb_tool] never returns a blank text: the import failing, the
    embedding or search raising, a missing index, an empty answer of the
    model or its exception all give a message, so the webhook never has to
    replace a knowledge-base reply by its welcome fallback. *)
Theorem kb_tool_nonblank bk question : strip (kb_tool retriever_available show_source bk question) <> [].
Proof. apply strip_nonblank, kb_tool_has_text. Qed.
End ToolProps.

(** ** What build_faiss writes and the retriever reads *)

Lemma nonblank_drop k w : nonblank (drop k w) = true -> nonblank w = true.
Proof. intros H. rewrite <- (take_drop k w), nonblank_app, H. apply orb_true_r. Qed.

Lemma blank_windows ov ws :
  filter (fun p => strip p <> []) ws = [] -> nonblank (stitch ov ws) = false.
Proof.
  intros Hf. assert (Hb : Forall (fun w => nonblank w = false) ws).
  { induction ws as [|w ws IH]; [done|]. rewrite filter_cons in Hf. case_decide as Hw; [done|].
    constructor; [|by apply IH]. apply not_true_is_false. intros Hn%strip_nonblank. by apply Hn. }
  destruct ws as [|w ws]; [done|]. inversion Hb as [|? ? Hw Hws]; subst. cbn [stitch].
  rewrite nonblank_app, Hw. simpl. clear Hf Hb Hw.
  induction Hws as [|w' ws Hw' Hws IH]; [done|]. cbn [map concat]. rewrite nonblank_app, IH, orb_false_r.
  apply not_true_is_false. intros H. apply nonblank_drop in H. congruence.
Qed.

(** C20: [main] of build_faiss always returns (the chunking terminates for
    its sizes 600 and 60), raises [ValueError("kb.md está vacío")] exactly
    when [kb.md] holds only whitespace, and otherwise writes as metadata
    the non-blank windows of the file, numbered from 0. *)
Theorem build_kb_spec content :
  build_kb true content =
  Some (if nonblank content
        then inr (build_meta (filter (fun p => strip p <> []) (windows (strip content) 600 60)))
        else inl KbEmpty).
Proof.
  unfold build_kb, kb_chunks, chunk_text. rewrite chunk_text_fuel_windows by lia. cbn [negb mbind option_bind].
  pose proof (windows_stitch (strip content) 600 60 ltac:(lia)) as Hs.
  destruct (filter _ (windows (strip content) 600 60)) as [|w ws] eqn:E; destruct (nonblank content) eqn:Hn;
    try done.
  - apply (blank_windows 60) in E. rewrite Hs, nonblank_strip in E. congruence.
  - exfalso. assert (H0 : strip content = []) by (apply dec_stable; intros H; by apply strip_nonblank in H; congruence).
    rewrite H0 in E. discriminate.
Qed.

Lemma build_meta_length chunks : length (build_meta chunks) = length chunks.
Proof. apply length_imap. Qed.

Lemma build_meta_lookup chunks n :
  build_meta chunks !! n = (fun c => Snippet (Some (Z.of_nat n)) (Some c)) <$> chunks !! n.
Proof. apply list_lookup_imap. Qed.



(** ** Examples *)

Definition garantia_snippet : snippet :=
  Snippet (Some 0%Z) (Some (utxt "La garantía de Kavak cubre 3 meses o 3,000 km.")).

(** An index that returns the passage once and two indices out of range. *)
Definition demo_backend (key : text) (reply : completion) (meta : list snippet) : backend :=
  Backend true (fun _ _ => Some [0; -1; 7]%Z) meta key (fun _ _ => reply).

Definition no_info_reply : completion :=
  Completion (Some (utxt "No tengo información sobre la garantía extendida.")).

Lemma chunk_text_windows_witness :
  (1 < 4 /\ length (strip (txt " abcdefghij ")) < 11) /\
  chunk_text_fuel 11 (txt " abcdefghij ") 4 1 =
  Some (filter (fun p => strip p <> []) (windows (strip (txt " abcdefghij ")) 4 1)) /\
  stitch 1 (windows (strip (txt " abcdefghij ")) 4 1) = strip (txt " abcdefghij ").
Proof.
  assert (H : 1 < 4 /\ length (strip (txt " abcdefghij ")) < 11) by (vm_compute; lia).
  split; [done|]. destruct H as [H1 H2]. exact (chunk_text_windows _ 4 1 11 H1 H2).
Defined.

Lemma chunk_text_diverges_witness :
  (2 <= 3 /\ 2 < length (strip (txt "abcdef"))) /\ chunk_text_fuel 1000 (txt "abcdef") 2 3 = None.
Proof.
  assert (H : 2 <= 3 /\ 2 < length (strip (txt "abcdef"))) by (vm_compute; lia).
  split; [done|]. destruct H as [H1 H2]. exact (chunk_text_diverges _ 2 3 1000 H1 H2).
Defined.

Lemma kb_answer_offers_agent_witness :
  exists answer sources,
    kb_answer (demo_backend (txt "sk-test") no_info_reply [garantia_snippet])
              (txt "cual es la garantia") 4 (2 # 10) = Some (answer, sources) /\
    reports_no_info (lower answer) = true /\ contains (lower answer) AGENTE = true.
Proof.
  destruct (kb_answer _ _ _ _) as [[a s]|] eqn:E; [|vm_compute in E; discriminate].
  assert (Hr : reports_no_info (lower a) = true)
    by (vm_compute in E; injection E as <- _; vm_compute; reflexivity).
  exists a, s. split; [done|split; [done|]].
  refine (kb_answer_offers_agent _ _ _ _ a s _ E Hr). vm_compute. discriminate.
Defined.

(** Without an API key the passages are returned as they are: a passage
    that says there is no information comes back without the offer of an
    agent. *)
Lemma kb_answer_no_key_skips_offer :
  exists answer sources,
    kb_answer (demo_backend [] no_info_reply
                 [Snippet (Some 0%Z) (Some (utxt "No tengo información de precios en el contexto."))])
              (txt "cual es la garantia") 4 (2 # 10) = Some (answer, sources) /\
    reports_no_info (lower answer) = true /\ contains (lower answer) AGENTE = false.
Proof. eexists _, _. split; [vm_compute; reflexivity|]. vm_compute. auto. Qed.
