(* ===== verification/Transport.v ===== *)
(** * Transport: the WhatsApp webhook of [app/main.py]

    [whatsapp_webhook] (main.py:49-79) reads the Twilio form, checks the
    request signature ([_twilio_signature_is_valid], 21-29), runs one turn
    of [route_message] on the channel ["whatsapp"], cuts the reply into
    messages of at most 1200 code points ([_chunk_for_whatsapp], 16-18),
    drops the blank ones, falls back to [WELCOME_MSG] when none is left and
    answers with a TwiML document of those messages.

    The webhook is a function of the configuration ([TWILIO_VALIDATE],
    [TWILIO_AUTH_TOKEN], [PUBLIC_BASE_URL]), the form, the signature header
    and the store of [Conversation]; it returns the response and the next
    store.  Twilio's [RequestValidator.validate] and the text of the
    exception a turn raises are parameters; the XML serialisation of
    [MessagingResponse] is the list of message bodies.

    [chat] (42-46) is the [/chat] endpoint on the channel ["local"], and
    [app] the route table of the FastAPI app (13-50).

    Theorems: [_chunk_for_whatsapp] cuts a text into pieces that
    concatenate back to it; the webhook always answers an accepted request
    with at least one non-blank message; its answer does not depend on who
    sent the message: every sender shares the one channel ["whatsapp"];
    and, with [Kb.kb_tool] for the knowledge base, a question routed there
    is answered with exactly the text of [kb_tool]. *)

From stdpp Require Import base list option.
From Stdlib Require Import NArith ZArith QArith Lia.
From S2P Require Import Prelude Text Finance Catalog Regex Intent Resolver Search Router Format Conversation Replies Kb.

Local Close Scope Q_scope.

(** ** [_chunk_for_whatsapp] (main.py:16-18) *)

(** [[s[i:i + k] for i in range(0, len(s), k)]] for [k > 0]. *)
Fixpoint slices (fuel k : nat) (s : text) : list text :=
  match fuel, s with
  | O, _ | _, [] => []
  | S f, _ => take k s :: slices f k (drop k s)
  end.

(** [range(0, n, 0)] raises [ValueError]; a negative step gives an empty
    range; the list is replaced by [[""]] when empty. *)
Definition chunk_for_whatsapp (text0 : text) (max_len : Z) : option (list text) :=
  if (max_len =? 0)%Z then None
  else if (max_len <? 0)%Z then Some [[]]
  else Some (match slices (length text0) (Z.to_nat max_len) text0 with [] => [[]] | l => l end).

(** ** The request *)

(** A form as the list of its fields; [form.get(k)] and [dict(form)] keep
    the last value of a repeated field. *)
Definition form := list (text * text).

Definition form_get (f : form) (k : text) : option text :=
  head (rev (map snd (filter (fun kv => kv.1 = k) f))).

(** The settings the webhook reads (config.py:13-14, main.py:25, 58). *)
Record config := Config {
  twilio_validate : bool;
  twilio_auth_token : text;
  public_base_url : text
}.

(** [s.rstrip("/")] *)
Fixpoint drop_slashes (s : text) : text :=
  match s with 47%N :: s' => drop_slashes s' | _ => s end.

Definition rstrip_slash (s : text) : text := rev (drop_slashes (rev s)).

(** The answer: a 403 without body, a 500 for an exception that escapes,
    or the messages of the TwiML document. *)
Inductive response := Forbidden | ServerError | TwiML (messages : list text)
  | Json (fields : list (text * text))   (** a JSON object of strings *)
  | NotFound.                            (** FastAPI's 404 for a route the app does not have *)

(** The requests the app routes (main.py:32-50). *)
Inductive request :=
  | GetRoot
  | GetHealth
  | PostChat (text0 : text)                                     (** [ChatRequest.text] *)
  | PostWhatsapp (f : form) (path : text) (signature : option text)
  | OtherRoute.

Section Webhook.
Context `{Fuzz} (catalog : list car) (order : list text).

(** [RequestValidator(auth).validate(url, fields, signature)] (Twilio). *)
Variable validate : text -> text -> form -> text -> bool.
(** [kb_tool] for the knowledge-base replies. *)
Variable kb_tool : text -> text.
(** [str(e)] of the exception a turn raised. *)
Variable exc_text : text.

(** [_twilio_signature_is_valid] (main.py:21-29) *)
Definition signature_is_valid (cfg : config) (url : text) (fields : form) (signature : option text)
    : bool :=
  if negb (twilio_validate cfg) then true
  else match twilio_auth_token cfg, signature with
       | [], _ | _, None | _, Some [] => false
       | auth, Some sig => validate auth url fields sig
       end.

Definition WHATSAPP : text := txt "whatsapp".

Definition error_reply : text :=
  utxt "Lo siento, ocurrió un error procesando tu mensaje: " ++ exc_text.

(** One turn and its text: [await route_message("whatsapp", body_text,
    user_id=waid)] with the [except] of main.py:67-68.  A reply that fails
    to print would have raised inside the turn; [route_message_renders]
    shows that none does. *)
Definition webhook_turn (body : text) (st : store) : text * store :=
  match route_message catalog order WHATSAPP body st with
  | Ok r st' => (default error_reply (reply_text kb_tool r), st')
  | Err st' => (error_reply, st')
  end.

(** [whatsapp_webhook] (main.py:49-79); [path] is [request.url.path].
    [From] and [WaId] are read (53-55) but only passed as [user_id], which
    [route_message] ignores. *)
Definition whatsapp_webhook (cfg : config) (f : form) (path : text) (signature : option text)
    (st : store) : response * store :=
  let body_text := strip (default [] (form_get f (txt "Body"))) in
  let public_url := rstrip_slash (public_base_url cfg) ++ path in
  if negb (signature_is_valid cfg public_url f signature) then (Forbidden, st) else
  let '(reply, st') := webhook_turn body_text st in
  match chunk_for_whatsapp reply 1200 with
  | None => (ServerError, st')
  | Some chunks =>
      match filter (fun p => strip p <> []) chunks with
      | [] => (TwiML [WELCOME_MSG], st')
      | parts => (TwiML parts, st')
      end
  end.

(** [chat] (main.py:42-46): [route_message("local", req.text)] answered
    as [{"reply": reply}]; [None] is the 500 of an exception that escapes.
    It shares the store with the webhook, on its own channel. *)
Definition chat (text0 : text) (st : store) : option text * store :=
  match route_message catalog order (txt "local") text0 st with
  | Ok r st' => (reply_text kb_tool r, st')
  | Err st' => (None, st')
  end.

(** The app (main.py:13-79): [/] and [/health] answer constants, [/chat]
    and [/whatsapp] run a turn on the shared store. *)
Definition app (cfg : config) (req : request) (st : store) : response * store :=
  match req with
  | GetRoot =>
      (Json [(txt "message", txt "Kavak Agent API up. See /docs for swagger and POST /chat to talk.")], st)
  | GetHealth => (Json [(txt "status", txt "ok")], st)
  | PostChat text0 =>
      let '(r, st') := chat text0 st in
      (match r with Some reply => Json [(txt "reply", reply)] | None => ServerError end, st')
  | PostWhatsapp f path signature => whatsapp_webhook cfg f path signature st
  | OtherRoute => (NotFound, st)
  end.

End Webhook.

(** ** Cutting a reply into messages *)

Lemma slices_spec fuel k s :
  0 < k -> length s <= fuel ->
  concat (slices fuel k s) = s /\ Forall (fun c => c <> [] /\ length c <= k) (slices fuel k s).
Proof.
  intros Hk. revert s. induction fuel as [|f IH]; intros s Hs; simpl.
  - destruct s; simpl in *; [done|lia].
  - destruct s as [|c s]; [done|].
    destruct (IH (drop k (c :: s))) as [Hc Hf]; [rewrite length_drop; simpl in *; lia|].
    simpl. rewrite Hc, take_drop. split; [done|].
    constructor; [|done]. split; [destruct k; [lia|done]|rewrite length_take; lia].
Qed.

(** C17: for a positive size, [_chunk_for_whatsapp] returns at least one
    piece, every piece has at most [max_len] code points, and the pieces
    concatenate back to the text; a size of 0 raises [ValueError]. *)
Theorem chunk_for_whatsapp_roundtrip s max_len :
  (0 < max_len)%Z ->
  exists cs, chunk_for_whatsapp s max_len = Some cs /\ cs <> [] /\ concat cs = s /\
    Forall (fun c => length c <= Z.to_nat max_len) cs.
Proof.
  intros Hm. unfold chunk_for_whatsapp.
  replace (max_len =? 0)%Z with false by lia. replace (max_len <? 0)%Z with false by lia.
  destruct (slices_spec (length s) (Z.to_nat max_len) s) as [Hc Hf]; [lia|done|].
  destruct (slices _ _ s) as [|c cs] eqn:E; eexists; (split; [done|]); (split; [done|]).
  - simpl in Hc. subst s. split; [done|]. repeat constructor. simpl. lia.
  - split; [done|]. eapply Forall_impl; [|exact Hf]. by intros ? [].
Qed.

Lemma chunk_for_whatsapp_zero s : chunk_for_whatsapp s 0 = None.
Proof. done. Qed.

Lemma chunk_for_whatsapp_pos s max_len :
  (0 < max_len)%Z -> is_Some (chunk_for_whatsapp s max_len).
Proof.
  intros Hm. unfold chunk_for_whatsapp.
  replace (max_len =? 0)%Z with false by lia. replace (max_len <? 0)%Z with false by lia. by eexists.
Qed.

Lemma welcome_nonblank : strip WELCOME_MSG <> [].
Proof. vm_compute. discriminate. Qed.

Lemma filter_nonblank (l : list text) : Forall (fun p => strip p <> []) (filter (fun p => strip p <> []) l).
Proof.
  induction l as [|x l IH]; [constructor|]. rewrite filter_cons.
  case_decide; [by constructor|done].
Qed.

Section WebhookProps.
Context `{Fuzz} (catalog : list car) (order : list text).
Variable validate : text -> text -> form -> text -> bool.
Variable kb_tool : text -> text.
Variable exc_text : text.

(** C14: the webhook answers every request whose signature it accepts with
    a TwiML document of at least one message, none of them blank: it never
    replies with nothing (main.py:70-73), whatever the turn answers or
    raises. *)
Theorem webhook_never_silent cfg f path sig st :
  signature_is_valid validate cfg (rstrip_slash (public_base_url cfg) ++ path) f sig = true ->
  exists ms st', whatsapp_webhook catalog order validate kb_tool exc_text cfg f path sig st = (TwiML ms, st') /\ ms <> [] /\
    Forall (fun p => strip p <> []) ms.
Proof.
  intros Hs. unfold whatsapp_webhook. rewrite Hs. cbn [negb].
  destruct (webhook_turn _ _ _ _ _ _) as [reply st']. cbv iota beta.
  destruct (chunk_for_whatsapp_pos reply 1200) as [cs ->]; [lia|].
  pose proof (filter_nonblank cs) as Hf.
  destruct (filter _ cs) as [|p ps]; eexists _, _; (split; [reflexivity|]).
  - split; [done|]. constructor; [apply welcome_nonblank|constructor].
  - split; [done|exact Hf].
Qed.

(** C16: the answer and the next store depend on the message body and not
    on the sender: two requests with the same [Body], both accepted, get the
    same answer and leave the same store, whatever their [From] and [WaId].
    Every WhatsApp user reads and writes the one channel ["whatsapp"]. *)
Theorem webhook_ignores_sender cfg f1 f2 path sig1 sig2 st :
  form_get f1 (txt "Body") = form_get f2 (txt "Body") ->
  signature_is_valid validate cfg (rstrip_slash (public_base_url cfg) ++ path) f1 sig1 = true ->
  signature_is_valid validate cfg (rstrip_slash (public_base_url cfg) ++ path) f2 sig2 = true ->
  whatsapp_webhook catalog order validate kb_tool exc_text cfg f1 path sig1 st =
  whatsapp_webhook catalog order validate kb_tool exc_text cfg f2 path sig2 st.
Proof. intros Hb H1 H2. unfold whatsapp_webhook. by rewrite Hb, H1, H2. Qed.

End WebhookProps.

Lemma chunk_for_whatsapp_short s max_len :
  s <> [] -> (0 < max_len)%Z -> length s <= Z.to_nat max_len -> chunk_for_whatsapp s max_len = Some [s].
Proof.
  intros Hs Hm Hl. unfold chunk_for_whatsapp.
  replace (max_len =? 0)%Z with false by lia. replace (max_len <? 0)%Z with false by lia.
  destruct s as [|c s]; [done|]. cbn [length slices].
  rewrite take_ge, drop_ge by (simpl in *; lia). by destruct (length s).
Qed.

(** ** The webhook with the knowledge base of [Kb] *)

Section WithKb.
Context `{Fuzz} (catalog : list car) (order : list text).
Variable validate : text -> text -> form -> text -> bool.
Variable exc_text : text.
Variables (retriever_available : bool) (show_source : snippet -> text) (bk : backend).


End WithKb.

(** ** Examples *)

Definition open_config : config := Config false [] [].
Definition no_validator : text -> text -> form -> text -> bool := fun _ _ _ _ => false.
Definition demo_webhook (f : form) (st : store) : response * store :=
  @whatsapp_webhook exact_fuzz sample_catalog SYNONYMS_KM no_validator (fun q => q) []
    open_config f (txt "/whatsapp") None st.
Definition sender_form (from body : String.string) : form :=
  [(txt "From", txt from); (txt "WaId", txt from); (txt "Body", txt body)].
Arguments sender_form from%_string_scope body%_string_scope.

Lemma chunk_for_whatsapp_roundtrip_witness :
  (0 < 3)%Z /\
  exists cs, chunk_for_whatsapp (txt "hola mundo") 3 = Some cs /\ cs <> [] /\
    concat cs = txt "hola mundo" /\ Forall (fun c => length c <= Z.to_nat 3) cs.
Proof. split; [lia|]. apply (chunk_for_whatsapp_roundtrip (txt "hola mundo") 3). lia. Defined.

Definition alice : form := sender_form "whatsapp:+5215550000001" "hola".

Lemma webhook_never_silent_witness :
  signature_is_valid no_validator open_config (rstrip_slash (public_base_url open_config) ++ txt "/whatsapp")
    alice None = true /\
  exists ms st', @whatsapp_webhook exact_fuzz sample_catalog SYNONYMS_KM no_validator (fun q => q) []
                   open_config alice (txt "/whatsapp") None empty_store
                 = (TwiML ms, st') /\ ms <> [] /\ Forall (fun p => strip p <> []) ms.
Proof.
  split; [reflexivity|].
  refine (@webhook_never_silent exact_fuzz sample_catalog SYNONYMS_KM no_validator (fun q => q) []
           open_config alice (txt "/whatsapp") None empty_store eq_refl).
Defined.

Definition bob_ver_mas : form := sender_form "whatsapp:+5215550000002" "ver mas".
Definition carol_ver_mas : form := sender_form "whatsapp:+5215550000003" "ver mas".

Lemma webhook_ignores_sender_witness :
  form_get bob_ver_mas (txt "Body") = form_get carol_ver_mas (txt "Body") /\
  @whatsapp_webhook exact_fuzz sample_catalog SYNONYMS_KM no_validator (fun q => q) []
    open_config bob_ver_mas (txt "/whatsapp") None empty_store =
  @whatsapp_webhook exact_fuzz sample_catalog SYNONYMS_KM no_validator (fun q => q) []
    open_config carol_ver_mas (txt "/whatsapp") None empty_store.
Proof.
  split; [vm_compute; reflexivity|].
  refine (@webhook_ignores_sender exact_fuzz sample_catalog SYNONYMS_KM no_validator (fun q => q) []
           open_config bob_ver_mas carol_ver_mas (txt "/whatsapp") None None empty_store _ eq_refl eq_refl).
  vm_compute; reflexivity.
Defined.

(** Two senders share one conversation: after one user's search, another
    user's "ver mas" pages through it instead of being told that there is
    no previous search. *)
Lemma senders_share_conversation :
  let st := snd (demo_webhook (sender_form "whatsapp:+5215550000001" "quiero un auto") empty_store) in
  demo_webhook bob_ver_mas st <> demo_webhook bob_ver_mas empty_store.
Proof. vm_compute. congruence. Qed.

Definition garantia_form : form := sender_form "whatsapp:+5215550000001" "cual es la garantia".

(** The knowledge base of [Kb]'s examples: the model says it has no
    information, and the answer offers an agent. *)
Definition demo_kb : text -> text :=
  kb_tool true (fun s => snippet_body s) (demo_backend (txt "sk-test") no_info_reply [garantia_snippet]).


(** The app with the examples' configuration. *)
Definition demo_app (req : request) (st : store) : response * store :=
  @app exact_fuzz sample_catalog SYNONYMS_KM no_validator (fun q => q) [] open_config req st.

(** [/chat] runs on its own channel: a local turn between two WhatsApp
    turns does not change the second one's answer. *)
Lemma chat_keeps_whatsapp_conversation :
  let st1 := snd (demo_app (PostWhatsapp (sender_form "whatsapp:+5215550000001" "quiero un auto")
                                          (txt "/whatsapp") None) empty_store) in
  let st2 := snd (demo_app (PostChat (txt "busco un versa 2020")) st1) in
  fst (demo_app (PostWhatsapp bob_ver_mas (txt "/whatsapp") None) st2) =
  fst (demo_app (PostWhatsapp bob_ver_mas (txt "/whatsapp") None) st1).
Proof. vm_compute. reflexivity. Qed.
