(* ===== verification/Reco.v ===== *)
(** * Reco: the preference extractor and the catalogue recommender

    [app/nlp/normalize.py] reads a free-text request into preferences:
    [_apply_multiplier] (57-65), [parse_money_token] (68-99),
    [parse_price_hint] (102-144), [_rf_extract_one] and [fuzzy_pick]
    (150-182), [canonicalize_brand] (188-224) and [extract_preferences]
    (230-310).  [app/reco/catalog.py] filters, orders and prints catalogue
    rows with them: the cleaning of [load_catalog] (55),
    [build_brand_model_index] (60-71), [_apply_filters] (77-100),
    [recommend] (103-168), [format_recommendations] (174-191) and the
    [Recommender] class (197-238).

    Whether rapidfuzz is installed ([_HAS_RAPIDFUZZ], normalize.py:11-15)
    is the section variable [has_rf]: both branches of [fuzzy_pick] are
    modelled and every theorem holds for both.  Amounts are exact
    rationals where the code has floats.

    Theorems: [recommend_from_text] implements [recommend_spec] (the first
    [top_n] cleaned rows meeting the preferences, in the order of the
    sort); [canonicalize_brand] returns a brand of its list;
    [build_brand_model_index] lists each brand and each of its models once,
    in Python's string order; and [parse_price_hint] never returns both
    bounds.  The rows of the test
    fixture give the examples and the findings. *)

From stdpp Require Import base list option sorting sets.
From Stdlib Require Import NArith ZArith QArith Qminmax Qround Lqa Lia.
From S2P Require Import Prelude Text Catalog Regex Intent Resolver Search Format.

Set Warnings "-clear-no-such-hyp".
Local Close Scope Q_scope.

(** The first [Some] of [f] along a list: a [for] loop that returns. *)
Fixpoint first_some {A B} (f : A -> option B) (l : list A) : option B :=
  match l with
  | [] => None
  | x :: l => match f x with Some y => Some y | None => first_some f l end
  end.

(** [s.count(c)] *)
Definition count_char (c : N) (s : text) : nat := length (filter (fun x => x = c) s).

(** ** Money tokens (normalize.py:41-99) *)

(** [_NUM_TOKEN]: [\d{1,3}(?:[.,]\d{3})+|\d+(?:[.,]\d+)?] *)
Definition NUM_TOKEN : regex :=
  alts [RSeq (rep 1 3 digit) (plus (seqs [cls [46; 44]%N; digit; digit; digit]));
        RSeq (plus digit) (opt (RSeq (cls [46; 44]%N) (plus digit)))].

(** The alternatives of [_MULT_TOKEN], in the source's order. *)
Definition MULT_WORDS : list text :=
  [txt "k"; txt "mil"; txt "mil pesos"; txt "m"; txt "millones"].

(** [_MULT_TOKEN] = [(k|mil|mil pesos|m|millones)?]: a capturing group;
    [n] is its number in the pattern it is spliced into. *)
Definition MULT_TOKEN (n : nat) : regex := opt (RGroup n (alts (map lit MULT_WORDS))).

(** [{_NUM_TOKEN}\s*{_MULT_TOKEN}] with the multiplier as group [n]. *)
Definition AMOUNT (n : nat) : regex := seqs [NUM_TOKEN; RStar space; MULT_TOKEN n].

(** [_apply_multiplier] (57-65) *)
Definition apply_multiplier (value : Q) (mult : option text) : Q :=
  match mult with
  | None | Some [] => value
  | Some m =>
      let m := lower (strip m) in
      if decide (m ∈ [txt "k"; txt "mil"; txt "mil pesos"]) then (value * 1000)%Q
      else if decide (m ∈ [txt "m"; txt "millones"]) then (value * 1000000)%Q
      else value
  end.

(** [(\d)\s+([km])\b], replaced by [\1\2] *)
Definition JOIN_RE : regex := seqs [RGroup 1 digit; plus space; RGroup 2 (cls [107; 109]%N); RWordB].

(** [^({_NUM_TOKEN})\s*{_MULT_TOKEN}$] *)
Definition MONEY_RE : regex := seqs [RBol; RGroup 1 NUM_TOKEN; RStar space; MULT_TOKEN 2; REol].

(** [\d{1,3}(?:\.\d{3})+] *)
Definition EURO_RE : regex := RSeq (rep 1 3 digit) (plus (seqs [chr 46%N; digit; digit; digit])).

(** [parse_money_token] (68-99); [None] is both a missing group and the
    [None] the code returns. *)
Definition parse_money_token (token : option text) : option Q :=
  match token with
  | None | Some [] => None
  | Some token =>
      let t := strip (remove_char 36%N (norm_txt token)) in
      let t := re_sub JOIN_RE (fun m => default [] (group t m 1) ++ default [] (group t m 2)) t in
      match re_search MONEY_RE t with
      | None => None
      | Some m =>
          let raw := remove_char 44%N (default [] (group t m 1)) in
          let raw := if (1 <? count_char 46%N raw) && (count_char 44%N raw =? 0) then remove_char 46%N raw
                     else raw in
          let raw := if re_fullmatch EURO_RE raw then remove_char 46%N raw else raw in
          match parse_float raw with
          | None => None
          | Some v => Some (apply_multiplier v (group t m 2))
          end
      end
  end.

(** ** Price hints (normalize.py:102-144) *)

(** [entre\s+(AMOUNT)\s+y\s+(AMOUNT)]: the amounts are groups 1 and 3, their
    multipliers groups 2 and 4. *)
Definition PRICE_RANGE_RE : regex :=
  seqs [lit (txt "entre"); plus space; RGroup 1 (AMOUNT 2); plus space; chr 121%N; plus space;
        RGroup 3 (AMOUNT 4)].

(** [(menos de|hasta|tope(?: m[aá]ximo)?)\s+(AMOUNT)] *)
Definition PRICE_MAX_RE : regex :=
  seqs [RGroup 1 (alts [lit (txt "menos de"); lit (txt "hasta");
                        RSeq (lit (txt "tope"))
                             (opt (seqs [lit (txt " m"); cls [97%N; a_acute]; lit (txt "ximo")]))]);
        plus space; RGroup 2 (AMOUNT 3)].

(** [(m[aá]s de|desde|mayor a)\s+(AMOUNT)] *)
Definition PRICE_MIN_RE : regex :=
  seqs [RGroup 1 (alts [seqs [chr 109%N; cls [97%N; a_acute]; lit (txt "s de")]; lit (txt "desde");
                        lit (txt "mayor a")]);
        plus space; RGroup 2 (AMOUNT 3)].

(** [(AMOUNT)] *)
Definition PRICE_LOOSE_RE : regex := RGroup 1 (AMOUNT 2).

(** [m = re.search(p, t); v = parse_money_token(m.group(n))] *)
Definition money_at (p : regex) (n : nat) (t : text) : option Q :=
  re_search p t ≫= fun m => parse_money_token (group t m n).

(** The range branch: [m.group(1)] and [m.group(2)], both parsed. *)
Definition price_range (t : text) : option (Q * Q) :=
  match re_search PRICE_RANGE_RE t with
  | None => None
  | Some m =>
      match parse_money_token (group t m 1), parse_money_token (group t m 2) with
      | Some v1, Some v2 => Some (Qmin v1 v2, Qmax v1 v2)
      | _, _ => None
      end
  end.

Definition parse_price_hint (text0 : text) : option Q * option Q :=
  match text0 with
  | [] => (None, None)
  | _ =>
      let t := norm_txt text0 in
      match price_range t with
      | Some (lo, hi) => (Some lo, Some hi)
      | None =>
          match money_at PRICE_MAX_RE 2 t with
          | Some v => (None, Some v)
          | None =>
              match money_at PRICE_MIN_RE 2 t with
              | Some v => (Some v, None)
              | None =>
                  match money_at PRICE_LOOSE_RE 1 t with
                  | Some v => (None, Some v)
                  | None => (None, None)
                  end
              end
          end
      end
  end.

(** ** Fuzzy picking (normalize.py:150-182) *)

Section Fuzzy.
Context `{Fuzz}.

(** Whether rapidfuzz could be imported ([_HAS_RAPIDFUZZ]). *)
Variable has_rf : bool.

(** [process.extractOne(q, [normalize_text(c) for c in candidates],
    scorer=fuzz.WRatio, score_cutoff=cutoff)] keeping the index: the first
    candidate of maximal score, if that score reaches the cut-off. *)
Definition extract_step_idx (q : text) (cutoff : Q) (best : option (nat * Q)) (ic : nat * text)
    : option (nat * Q) :=
  let s := wratio q ic.2 in
  match best with
  | None => if decide (cutoff <= s)%Q then Some (ic.1, s) else None
  | Some (_, bs) => if decide (bs < s)%Q then Some (ic.1, s) else best
  end.

(** [_rf_extract_one] (150-160) *)
Definition rf_extract_one (query_norm : text) (candidates : list text) (cutoff : Q) : option nat :=
  fst <$> fold_left (extract_step_idx query_norm cutoff)
                    (zip (seq 0 (length candidates)) (map norm_txt candidates)) None.

(** [fuzzy_pick] (163-182) *)
Definition fuzzy_pick (query : option text) (candidates : list text) (cutoff : Q) : option text :=
  match query, candidates with
  | None, _ | Some [], _ | _, [] => None
  | Some q, _ =>
      let qn := norm_txt q in
      if has_rf then rf_extract_one qn candidates cutoff ≫= fun i => candidates !! i
      else snd <$> list_find (fun c => contains (norm_txt c) qn = true) candidates
  end.

(** ** [canonicalize_brand] (188-224) *)

(** [c in "abcdefghijklmnopqrstuvwxyz0123456789"] *)
Definition is_alnum_lower (c : N) : bool := ((97 <=? c) && (c <=? 122))%N || is_digit c.

(** [re.split(r"[^a-z0-9]+", n)] without its empty pieces: the maximal
    runs of [a-z0-9]. *)
Fixpoint runs_aux (cur : text) (s : text) : list text :=
  match s with
  | [] => match cur with [] => [] | _ => [rev cur] end
  | c :: s' =>
      if is_alnum_lower c then runs_aux (c :: cur) s'
      else match cur with [] => [] | _ => [rev cur] end ++ runs_aux [] s'
  end.

(** [[t for t in re.split(r"[^a-z0-9]+", n) if t and t not in STOPWORDS]] *)
Definition pref_tokens (n : text) : list text :=
  filter (fun t => t ∉ STOPWORDS) (runs_aux [] n).

(** [{normalize_text(b): b for b in brand_list}.get(k)]: a later brand
    overwrites an earlier one with the same normal form. *)
Definition norm2orig (brand_list : list text) (k : text) : option text :=
  last (filter (fun b => norm_txt b = k) brand_list).

(** Step 1: [BRAND_ALIAS.get(tok)] mapped back to the list's own spelling. *)
Definition brand_alias_hit (brand_list : list text) (tok : text) : option text :=
  truthy (assoc BRAND_ALIAS tok) ≫= fun a => truthy (norm2orig brand_list (norm_txt a)).

Definition canonicalize_brand (text_or_brand : option text) (brand_list : list text) : option text :=
  match text_or_brand, brand_list with
  | None, _ | Some [], _ | _, [] => None
  | Some tb, _ =>
      let tokens := pref_tokens (norm_txt tb) in
      match first_some (brand_alias_hit brand_list) tokens with
      | Some orig => Some orig
      | None =>
          match first_some (fun tok => truthy (fuzzy_pick (Some tok) brand_list 70)) tokens with
          | Some m => Some m
          | None => truthy (fuzzy_pick (Some tb) brand_list 70)
          end
      end
  end.

(** ** [extract_preferences] (230-310) *)

(** The dict it returns; its ["brand"] is always [None] and its ["model"]
    is ["model_canonical"]. *)
Record prefs := Prefs {
  brand_canonical : option text;
  model_canonical : option text;
  min_price : option Q;
  max_price : option Q;
  pref_year : option Z
}.

(** Step 2a for one token: [MODEL_ALIAS.get(tok)], if it is the normal form
    of a model, gives the first model of that normal form. *)
Definition model_alias_hit (models : list text) (tok : text) : option text :=
  truthy (assoc MODEL_ALIAS tok) ≫= fun a =>
    if decide (a ∈ map norm_txt models)
    then truthy (snd <$> list_find (fun m => norm_txt m = a) models) else None.

(** Steps 2a and 2b over the models of the brand found. *)
Definition pick_model (t : text) (models : list text) : option text :=
  match first_some (model_alias_hit models) (pref_tokens (norm_txt t)) with
  | Some m => Some m
  | None => truthy (fuzzy_pick (Some t) models 72)
  end.

(** [\b(19[9]\d|20[0-4]\d)\b] *)
Definition YEAR_HINT_RE : regex :=
  seqs [RWordB; RGroup 1 (alts [seqs [lit (txt "199"); digit];
                                 seqs [lit (txt "20"); cls [48; 49; 50; 51; 52]%N; digit]]);
        RWordB].

Definition extract_preferences (t : text) (brand_list : list text)
    (model_list_by_brand : list (text * list text)) : prefs :=
  let brand_final := match brand_list with [] => None | _ => canonicalize_brand (Some t) brand_list end in
  let model_final :=
    match model_list_by_brand, truthy brand_final with
    | _ :: _, Some b =>
        match default [] (assoc model_list_by_brand b) with
        | [] => None
        | models => pick_model t models
        end
    | _, _ => None
    end in
  let '(min_p, max_p) := parse_price_hint t in
  let year := re_search YEAR_HINT_RE t ≫= fun m => digits_value <$> group t m 1 in
  Prefs brand_final model_final min_p max_p year.

End Fuzzy.

(** ** The catalogue (reco/catalog.py:32-71) *)

(** The row filter of [load_catalog] (55): a positive price; brand and
    model are present in every modelled row. *)
Definition clean_catalog (rows : list car) : list car :=
  filter (fun c => (0 < price c)%Q) rows.

(** Python's order on [str]: code point by code point, a prefix first. *)
Fixpoint text_leb (a b : text) : bool :=
  match a, b with
  | [], _ => true
  | _ :: _, [] => false
  | x :: a', y :: b' => if (x <? y)%N then true else if (y <? x)%N then false else text_leb a' b'
  end.

Definition text_le (a b : text) : Prop := text_leb a b = true.
#[export] Instance text_le_dec : RelDecision text_le.
Proof. intros a b. unfold text_le. apply _. Defined.

(** [sorted(xs)] *)
Definition sort_text (xs : list text) : list text := merge_sort text_le xs.

(** [build_brand_model_index] (60-71): the sorted distinct brands, and for
    each the sorted distinct models of its rows. *)
Definition build_brand_model_index (df : list car) : list text * list (text * list text) :=
  let brands := sort_text (unique (map brand df)) in
  (brands, map (fun b => (b, sort_text (unique (map model (filter (fun c => brand c = b) df)))))
               brands).

(** ** Filtering and recommending (reco/catalog.py:77-168) *)

(** [_apply_filters] (77-100) *)
Definition apply_filters (df : list car) (brand0 model0 : option text)
    (min_price0 max_price0 : option Q) (min_year : option Z) : list car :=
  let sub := match truthy brand0 with Some b => filter (fun c => brand c = b) df | None => df end in
  let sub := match truthy model0 with Some m => filter (fun c => model c = m) sub | None => sub end in
  let sub := filter_opt min_price0 price_min_ok sub in
  let sub := filter_opt max_price0 price_max_ok sub in
  match min_year with
  | Some y => if (0 <? y)%Z then filter (fun c => year_min_ok y c = true) sub else sub
  | None => sub
  end.

(** [sort_values(by=[price, year], ascending=[True, False])]: the order of
    the sort, cheaper first and, at equal price, newer first. *)
Definition price_year_le (c1 c2 : car) : Prop :=
  (price c1 <= price c2)%Q /\ ((price c2 <= price c1)%Q -> (year c2 <= year c1)%Z).

#[export] Instance price_year_le_dec : RelDecision price_year_le.
Proof. intros c1 c2. unfold price_year_le. apply _. Defined.

Section Recommend.
Context `{Fuzz}.
Variable has_rf : bool.

(** [recommend] (103-168); each dict of its result holds the fields of
    one row, so the rows themselves are returned. *)
Definition recommend (df : list car) (brand_list : list text)
    (model_list_by_brand : list (text * list text))
    (user_text brand_hint model_hint : option text) (min_price0 max_price0 : option Q)
    (min_year : option Z) (top_n : nat) : list car :=
  let '(brand_canon, model_canon, lo, hi, y) :=
    match truthy user_text with
    | Some ut =>
        let p := extract_preferences has_rf ut brand_list model_list_by_brand in
        (truthy (brand_canonical p), truthy (model_canonical p),
         match min_price0 with None => min_price p | Some _ => min_price0 end,
         match max_price0 with None => max_price p | Some _ => max_price0 end,
         match min_year with None => pref_year p | Some _ => min_year end)
    | None => (None, None, min_price0, max_price0, min_year)
    end in
  let brand_canon :=
    match truthy brand_hint with
    | Some _ => match truthy (fuzzy_pick has_rf brand_hint brand_list 80) with
                | Some b => Some b
                | None => brand_canon
                end
    | None => brand_canon
    end in
  let model_canon :=
    match truthy model_hint, truthy brand_canon with
    | Some _, Some b =>
        let models := default [] (assoc model_list_by_brand b) in
        match truthy (fuzzy_pick has_rf model_hint models 78) with
        | Some m => Some m
        | None => model_canon
        end
    | _, _ => model_canon
    end in
  match apply_filters df brand_canon model_canon lo hi y with
  | [] => []
  | sub => take top_n (merge_sort price_year_le sub)
  end.

End Recommend.

(** ** Printing (reco/catalog.py:174-238) *)

Definition dash : text := utxt " – ".

(** One line of [format_recommendations] (179-188). *)
Definition reco_line (it : car) : text :=
  let title := strip (brand it ++ txt " " ++ model it ++ txt " " ++ str_int (year it)) in
  let price_s := if Qeq_bool (price it) 0 then txt "Precio no disponible"
                 else txt "$" ++ fmt_float0 (price it) in
  let extra := (fmt_int (km it) ++ txt " km") :: (match location it with [] => [] | l => [l] end) in
  txt "- " ++ title ++ dash ++ price_s ++ dash ++ join (txt ", ") extra.

Definition FINANCE_CTA : text := utxt "¿Quieres que te muestre opciones de financiamiento?".

(** [format_recommendations] (174-191); the [km] of a row is never [None],
    so its suffix is never empty. *)
Definition format_recommendations (items : list car) : text :=
  match items with
  | [] => utxt "No encontré opciones que cumplan con tus preferencias. ¿Quieres que te ponga en contacto con un agente de Kavak?"
  | _ => join nl (map reco_line items ++ [nl ++ FINANCE_CTA])
  end.

(** The [Recommender] (197-204): the cleaned rows and their index. *)
Record recommender := Recommender {
  rc_df : list car;
  rc_brand_list : list text;
  rc_model_list_by_brand : list (text * list text)
}.

Definition make_recommender (rows : list car) : recommender :=
  let df := clean_catalog rows in
  let '(brands, model_map) := build_brand_model_index df in
  Recommender df brands model_map.

Section Front.
Context `{Fuzz}.
Variable has_rf : bool.

(** [Recommender.recommend_from_text] (206-213) *)
Definition recommend_from_text (rc : recommender) (user_text : text) (top_n : nat) : list car :=
  recommend has_rf (rc_df rc) (rc_brand_list rc) (rc_model_list_by_brand rc)
            (Some user_text) None None None None None top_n.

(** One line of [format_from_text] (228-233). *)
Definition from_text_line (it : car) : text :=
  txt "- " ++ strip (brand it) ++ txt " " ++ strip (model it) ++ txt " " ++ str_int (year it)
  ++ dash ++ txt "$" ++ fmt_float0 (price it).

(** [Recommender.format_from_text] (215-238) *)
Definition format_from_text (rc : recommender) (query : text) (top_n : nat)
    (include_finance_cta : bool) : text :=
  match recommend_from_text rc query top_n with
  | [] => utxt "No encontré autos que cumplan con tus criterios. ¿Quieres que te ponga en contacto con un agente de Kavak?"
  | items =>
      txt "Te recomiendo:" ++ nl ++ join nl (map from_text_line items)
      ++ (if include_finance_cta then nl ++ nl ++ FINANCE_CTA else [])
  end.

End Front.

(** ** What a recommendation is *)

(** A row meets the resolved preferences: the brand and the model when
    they are set, the price bounds, and the year floor when it is positive. *)
Definition meets_opts (b m : option text) (lo hi : option Q) (y : option Z) (c : car) : Prop :=
  match truthy b with Some b => brand c = b | None => True end /\
  match truthy m with Some m => model c = m | None => True end /\
  opt_ok lo price_min_ok c /\ opt_ok hi price_max_ok c /\
  match y with Some y => (0 < y)%Z -> (y <= year c)%Z | None => True end.

#[export] Instance meets_opts_dec b m lo hi y : ∀ c, Decision (meets_opts b m lo hi y c).
Proof. intros c. unfold meets_opts, opt_ok. repeat case_match; apply _. Defined.

Definition meets (p : prefs) : car -> Prop :=
  meets_opts (brand_canonical p) (model_canonical p) (min_price p) (max_price p) (pref_year p).

(** The answer to a request read as [p]: the cleaned rows that meet [p],
    cheapest first and newest first at equal price, the first [top_n]. *)
Definition recommend_spec (rows : list car) (p : prefs) (top_n : nat) : list car :=
  take top_n (merge_sort price_year_le (filter (meets p) (clean_catalog rows))).

(** ** The rows of the [sample_catalog_df] fixture (tests/conftest.py:108-122) *)

Definition fixture_row (i : String.string) (b m : String.string) (y k : Z) (p : Z) : car :=
  {| car_id := txt i; brand := txt b; model := txt m; version := []; year := y; km := k;
     price := inject_Z p; location := txt "Online" |}.
Arguments fixture_row i%_string_scope b%_string_scope m%_string_scope y k p.

Definition reco_fixture : list car :=
  [fixture_row "1" "Nissan" "Sentra" 2015 106104 183999;
   fixture_row "2" "Nissan" "March" 2018 68601 184999;
   fixture_row "3" "Nissan" "Sentra" 2018 99564 199999;
   fixture_row "4" "Nissan" "Pathfinder" 2015 103561 218999;
   fixture_row "5" "Nissan" "Versa" 2018 69630 220999;
   fixture_row "6" "Chevrolet" "Aveo" 2017 119157 138999;
   fixture_row "7" "Volkswagen" "Jetta" 2018 100618 222999;
   fixture_row "8" "KIA" "Rio" 2020 39492 331999;
   fixture_row "9" "Mercedes Benz" "Clase C" 2017 74700 882999]%Z.

Definition fixture_reco : recommender := make_recommender reco_fixture.

(** ** The range branch of [parse_price_hint] *)

(** The multiplier group consumes one of the multiplier words. *)
Lemma mult_body s1 s2 :
  steps (alts (map lit MULT_WORDS)) s1 s2 -> consumed s1 s2 ∈ MULT_WORDS.
Proof.
  intros (r & Hr & Hs)%steps_alts. apply list_elem_of_fmap in Hr as (w & -> & Hw).
  by rewrite (steps_lit _ _ _ Hs).
Qed.

(** Group 2 of the range pattern is the multiplier of the first amount. *)
Lemma range_group2 :
  groups_ok 2 (fun r0 => forall s1 s2, steps r0 s1 s2 -> consumed s1 s2 ∈ MULT_WORDS)
            PRICE_RANGE_RE.
Proof.
  pose proof mult_body as Hb. cbn.
  repeat split; try (intros; discriminate); intros _; exact Hb.
Qed.

(** No multiplier word is an amount on its own. *)
Lemma mult_words_no_amount : Forall (fun w => parse_money_token (Some w) = None) MULT_WORDS.
Proof. repeat constructor; vm_compute; reflexivity. Qed.

(** The range branch never answers: what it parses as the second amount is
    [m.group(2)], the first amount's multiplier, never an amount. *)
Lemma price_range_none t : price_range t = None.
Proof.
  unfold price_range. destruct (re_search PRICE_RANGE_RE t) as [m|] eqn:E; [|done].
  destruct (group t m 2) as [w|] eqn:G.
  - assert (w ∈ MULT_WORDS) as Hw by exact (re_search_group_ok PRICE_RANGE_RE t m 2 (fun w => w ∈ MULT_WORDS) w ltac:(done) range_group2 E G).
    pose proof mult_words_no_amount as Hn. rewrite Forall_forall in Hn. rewrite (Hn w Hw).
    by destruct (parse_money_token (group t m 1)).
  - by destruct (parse_money_token (group t m 1)).
Qed.

(** C34: [parse_price_hint] never returns both a minimum and a maximum: for
    every text one of the two bounds is [None], so "entre 250 y 300 mil"
    never yields the range its docstring promises. *)
Theorem parse_price_hint_one_bound s :
  fst (parse_price_hint s) = None \/ snd (parse_price_hint s) = None.
Proof.
  unfold parse_price_hint. destruct s as [|c s]; [by left|].
  rewrite price_range_none. repeat case_match; simpl; auto.
Qed.

(** "entre 250 y 300 mil" is read as a cap of 250 pesos. *)
Lemma range_read_as_cap : parse_price_hint (txt "entre 250 y 300 mil") = (None, Some 250%Q).
Proof. vm_compute. reflexivity. Qed.

(** In a longer text [mil] shadows [millones]: "mayor a 1.5 millones" is a
    floor of 1500 pesos. *)
Lemma millones_read_as_mil :
  let '(lo, hi) := parse_price_hint (txt "mayor a 1.5 millones") in
  (Qred <$> lo, hi) = (Some 1500%Q, None).
Proof. vm_compute. reflexivity. Qed.

(** ** What the resolvers return *)

Lemma first_some_Some {A B} (f : A -> option B) l y :
  first_some f l = Some y -> exists x, x ∈ l /\ f x = Some y.
Proof.
  induction l as [|x l IH]; simpl; [done|].
  destruct (f x) eqn:E; [intros [= <-]; exists x; split; [left|done]|].
  intros (x' & ? & ?)%IH. exists x'. split; [by right|done].
Qed.

Lemma find_val_elem {A} (P : A -> Prop) `{!∀ x, Decision (P x)} l x :
  snd <$> list_find P l = Some x -> x ∈ l.
Proof.
  destruct (list_find P l) as [[i y]|] eqn:E; simpl; [intros [= <-]|done].
  apply list_find_Some in E as (Hi & _). by eapply list_elem_of_lookup_2.
Qed.

Section Resolve.
Context `{Fuzz}.
Variable has_rf : bool.

(** [fuzzy_pick] returns one of the candidates, on both branches. *)
Lemma fuzzy_pick_elem q cands cutoff c :
  fuzzy_pick has_rf q cands cutoff = Some c -> c ∈ cands.
Proof.
  unfold fuzzy_pick. destruct q as [[|x q]|], cands as [|d cands]; try done.
  destruct has_rf.
  - destruct (rf_extract_one _ _ _) as [i|]; simpl; [|done].
    intros Hi. by eapply list_elem_of_lookup_2.
  - apply find_val_elem.
Qed.

Lemma norm2orig_elem bl k b : norm2orig bl k = Some b -> b ∈ bl.
Proof.
  unfold norm2orig. intros (l' & E)%last_Some.
  assert (b ∈ filter (fun b => norm_txt b = k) bl) as Hb by (rewrite E; set_solver).
  by apply list_elem_of_filter in Hb as [_ ?].
Qed.

Lemma brand_alias_hit_elem bl tok b : brand_alias_hit bl tok = Some b -> b ∈ bl /\ b <> [].
Proof.
  unfold brand_alias_hit. destruct (truthy (assoc BRAND_ALIAS tok)); simpl; [|done].
  intros (Hb & ?)%truthy_some. split; [by eapply norm2orig_elem|done].
Qed.

Lemma truthy_pick_elem q cands cutoff b :
  truthy (fuzzy_pick has_rf q cands cutoff) = Some b -> b ∈ cands /\ b <> [].
Proof. intros (Hb & ?)%truthy_some. split; [by eapply fuzzy_pick_elem|done]. Qed.

End Resolve.

Section Canonical.
Context `{Fuzz}.
Variable has_rf : bool.

(** C32: [canonicalize_brand] answers with a brand of [brand_list] itself,
    spelled as the list spells it and non-empty, whichever of its three
    steps finds it and whether or not rapidfuzz is installed. *)
Theorem canonicalize_brand_in_list q bl b :
  canonicalize_brand has_rf q bl = Some b -> b ∈ bl /\ b <> [].
Proof.
  unfold canonicalize_brand. destruct q as [[|x q]|], bl as [|c bl]; try done.
  destruct (first_some (brand_alias_hit _) _) as [o|] eqn:E1.
  { intros [= <-]. apply first_some_Some in E1 as (tok & _ & Ht). by eapply brand_alias_hit_elem. }
  destruct (first_some (fun tok => truthy (fuzzy_pick has_rf (Some tok) _ 70)) _) as [m|] eqn:E2.
  { intros [= <-]. apply first_some_Some in E2 as (tok & _ & Ht). by eapply truthy_pick_elem. }
  apply truthy_pick_elem.
Qed.

End Canonical.

(** The misspelt "nisan" of the tests resolves through the alias table. *)
Lemma canonicalize_brand_in_list_witness :
  txt "Nissan" ∈ rc_brand_list fixture_reco /\ txt "Nissan" <> [].
Proof.
  apply (canonicalize_brand_in_list (H := exact_fuzz) false
           (Some (txt "busco nisan por menos de 300 mil")) (rc_brand_list fixture_reco)).
  vm_compute. reflexivity.
Defined.

(** ** [recommend] implements its specification *)

#[export] Instance price_year_le_total : Total price_year_le.
Proof.
  intros c1 c2. unfold price_year_le.
  destruct (Qlt_le_dec (price c1) (price c2)) as [Hlt|Hle].
  - left. split; [by apply Qlt_le_weak|]. intros Hge. exfalso. apply (Qlt_not_le _ _ Hlt Hge).
  - destruct (Qle_lt_or_eq _ _ Hle) as [Hlt|Heq].
    + right. split; [done|]. intros Hge. exfalso. apply (Qlt_not_le _ _ Hlt Hge).
    + destruct (Z.le_ge_cases (year c1) (year c2)); [right|left];
        (split; [rewrite Heq; apply Qle_refl|intros; lia]).
Qed.

(** The filters of [_apply_filters], one after the other, keep the rows
    that meet all of them. *)
Lemma filter_all {A} (P : A -> Prop) `{!∀ x, Decision (P x)} (l : list A) :
  (forall x, P x) -> filter P l = l :> list A.
Proof. intros HP. induction l as [|x l IH]; [done|]. rewrite filter_cons_True by done. by f_equal. Qed.

Lemma apply_filters_spec df b m lo hi y :
  apply_filters df b m lo hi y = filter (meets_opts b m lo hi y) df.
Proof.
  destruct b as [[|? ?]|], m as [[|? ?]|], lo, hi, y as [y|];
    unfold apply_filters, filter_opt; simpl; try destruct (Z.ltb_spec 0 y);
    rewrite ?list_filter_filter; first [apply list_filter_iff | symmetry; apply filter_all];
    intros c; unfold meets_opts, opt_ok, year_min_ok; simpl; rewrite ?Z.leb_le; intuition lia.
Qed.

Lemma truthy_idem o : truthy (truthy o) = truthy o.
Proof. by destruct o as [[|]|]. Qed.

(** [_apply_filters] tests the brand and the model for truth itself. *)
Lemma apply_filters_truthy df b m lo hi y :
  apply_filters df (truthy b) (truthy m) lo hi y = apply_filters df b m lo hi y.
Proof. unfold apply_filters. by rewrite !truthy_idem. Qed.

Section Refinement.
Context `{Fuzz}.
Variable has_rf : bool.

(** C31: [Recommender.recommend_from_text] over the rows of a CSV returns
    the first [top_n] cleaned rows that meet the preferences
    [extract_preferences] reads from the text, cheapest first and, at equal
    price, newest first: nothing that misses a preference, nothing that
    meets them left behind a row it would precede. *)
Theorem recommend_from_text_refines rows ut top_n :
  ut <> [] ->
  let rc := make_recommender rows in
  recommend_from_text has_rf rc ut top_n =
  recommend_spec rows (extract_preferences has_rf ut (rc_brand_list rc) (rc_model_list_by_brand rc))
                 top_n.
Proof.
  intros Hut. unfold recommend_from_text, recommend, recommend_spec, make_recommender.
  destruct (build_brand_model_index _) as [brands mm]. simpl.
  destruct ut as [|x ut]; [done|]. simpl.
  rewrite apply_filters_truthy, apply_filters_spec. unfold meets.
  case_match; [by destruct top_n|done].
Qed.

End Refinement.

Lemma recommend_from_text_refines_witness :
  txt "busco nisan por menos de 300 mil" <> [] /\
  @recommend_from_text exact_fuzz false fixture_reco (txt "busco nisan por menos de 300 mil") 10 =
  recommend_spec reco_fixture
    (@extract_preferences exact_fuzz false (txt "busco nisan por menos de 300 mil")
       (rc_brand_list fixture_reco) (rc_model_list_by_brand fixture_reco)) 10.
Proof.
  split; [vm_compute; congruence|].
  exact (@recommend_from_text_refines exact_fuzz false reco_fixture (txt "busco nisan por menos de 300 mil") 10
           ltac:(vm_compute; congruence)).
Defined.

(** The request of [test_recommender_filters_brand_and_price]: the five
    Nissan rows under 300 000, cheapest first. *)
Lemma fixture_nissan_under_300k :
  map car_id (@recommend_from_text exact_fuzz false fixture_reco
                (txt "busco nisan por menos de 300 mil") 10) =
  [txt "1"; txt "2"; txt "3"; txt "4"; txt "5"].
Proof. vm_compute. reflexivity. Qed.

(** A bare year is also read as a price cap: "vw jetta 2018" caps the price
    at 2018 pesos, and the 2018 Jetta of the fixture is not recommended. *)
Lemma bare_year_caps_price :
  max_price (@extract_preferences exact_fuzz false (txt "vw jetta 2018")
               (rc_brand_list fixture_reco) (rc_model_list_by_brand fixture_reco)) = Some 2018%Q /\
  @recommend_from_text exact_fuzz false fixture_reco (txt "vw jetta 2018") 5 = [].
Proof. split; vm_compute; reflexivity. Qed.

(** Without rapidfuzz the fallback of [fuzzy_pick] is a substring test, so
    the token "c" of "mercedez clase c" picks "Chevrolet", where the test
    expects "Mercedes Benz". *)
Lemma fallback_mercedez_is_chevrolet :
  @canonicalize_brand exact_fuzz false (Some (txt "mercedez clase c")) (rc_brand_list fixture_reco)
  = Some (txt "Chevrolet").
Proof. vm_compute. reflexivity. Qed.

(** ** The brand/model index *)

Lemma text_leb_refl a : text_leb a a = true.
Proof. induction a as [|x a IH]; simpl; [done|]. by rewrite N.ltb_irrefl. Qed.

#[export] Instance text_le_total : Total text_le.
Proof.
  unfold text_le. intros a. induction a as [|x a IH]; intros [|y b]; simpl; auto.
  destruct (N.ltb_spec x y), (N.ltb_spec y x); auto; try lia.
Qed.

#[export] Instance text_le_trans : Transitive text_le.
Proof.
  unfold text_le. intros a. induction a as [|x a IH]; intros [|y b] [|z c]; simpl; auto; try done.
  destruct (N.ltb_spec x y), (N.ltb_spec y x), (N.ltb_spec y z), (N.ltb_spec z y),
    (N.ltb_spec x z), (N.ltb_spec z x); try lia; auto.
  replace z with x by lia. replace y with x in * by lia. eauto.
Qed.

(** [unique] keeps each value once, the values not seen before. *)
Lemma unique_from_spec seen l x : x ∈ unique_from seen l <-> x ∈ l /\ x ∉ seen.
Proof.
  revert seen. induction l as [|y l IH]; intros seen; simpl; [split; [inversion 1|intros [Hx _]; inversion Hx]|].
  case_decide.
  - rewrite IH, elem_of_cons. intuition congruence.
  - rewrite !elem_of_cons, IH, elem_of_cons.
    destruct (decide (x = y)) as [->|]; intuition congruence.
Qed.

Lemma unique_from_NoDup seen l : NoDup (unique_from seen l).
Proof.
  revert seen. induction l as [|y l IH]; intros seen; simpl; [constructor|].
  case_decide; [done|]. constructor; [rewrite unique_from_spec, elem_of_cons; naive_solver|done].
Qed.

(** [sorted(set(xs))]: the values of [xs], once each, in order. *)
Lemma sort_unique_spec xs :
  NoDup (sort_text (unique xs)) /\ StronglySorted text_le (sort_text (unique xs)) /\
  forall x, x ∈ sort_text (unique xs) <-> x ∈ xs.
Proof.
  unfold sort_text, unique. split; [rewrite merge_sort_Permutation; apply unique_from_NoDup|].
  split; [apply StronglySorted_merge_sort; apply _|].
  intros x. rewrite merge_sort_Permutation, unique_from_spec. split; [by intros []|split; [done|inversion 1]].
Qed.

(** C33: [build_brand_model_index] lists every brand of the rows once, in
    Python's string order, and maps each of them, in the same order, to
    every model of its rows, once each and in order. *)
Theorem brand_model_index_spec df :
  let '(brands, model_map) := build_brand_model_index df in
  NoDup brands /\ StronglySorted text_le brands /\
  (forall b, b ∈ brands <-> exists c, c ∈ df /\ brand c = b) /\
  model_map.*1 = brands /\
  forall b ms, (b, ms) ∈ model_map ->
    NoDup ms /\ StronglySorted text_le ms /\
    forall m, m ∈ ms <-> exists c, c ∈ df /\ brand c = b /\ model c = m.
Proof.
  unfold build_brand_model_index. simpl.
  destruct (sort_unique_spec (map brand df)) as (Hnd & Hs & Hin).
  split; [done|]. split; [done|]. split.
  { intros b. rewrite Hin, list_elem_of_fmap. naive_solver. }
  split; [by rewrite <- list_fmap_compose, list_fmap_id|].
  intros b ms (b' & Heq & _)%list_elem_of_fmap. injection Heq as -> ->.
  destruct (sort_unique_spec (map model (filter (fun c => brand c = b') df))) as (Hnd' & Hs' & Hin').
  split; [done|]. split; [done|].
  intros m. rewrite Hin', list_elem_of_fmap. setoid_rewrite list_elem_of_filter. naive_solver.
Qed.
