(* ===== verification/Load.v ===== *)
(** * Load: reading the catalogue CSV into rows

    Two loaders turn the CSV that [pandas.read_csv] has read into the rows
    the searches use.  [_normalize_columns] (tools.py:26-77), called by
    [_load_catalog] (80-91), lower-cases the header, renames the synonyms
    of each expected column, adds [location] and [version] when absent,
    raises when a required column is missing, and coerces the types.
    The recommender's [load_catalog] (reco/catalog.py:32-55) checks a
    smaller set of columns, adds the normalised brand and model
    ([normalize_catalog_df], normalize.py:316-325), coerces [year], [price]
    and [km] and keeps the rows with a positive price and a brand and a
    model.

    A frame is the list of its columns (label and cells, [None] for a
    missing value), as pandas stores it; a column label may occur twice.
    [pd.to_numeric] on one cell is the parameter [to_number] ([None]: not
    a number, coerced to NaN); every cell is the text of the CSV field.

    Theorems: [_normalize_columns], which works column by column, returns
    exactly the rows a row-by-row reading gives, whenever it does not
    raise; it raises for a missing required column, a duplicated typed
    column and a non-integral year; the rows of the recommender's
    [load_catalog] are all kept by [Reco.clean_catalog].  A missing brand
    becomes the text ["nan"]: [astype(str)] runs before [fillna("")]. *)

From stdpp Require Import base list option.
From Stdlib Require Import NArith ZArith QArith Lia.
From S2P Require Import Prelude Text Catalog Regex Intent Format.

Local Close Scope Q_scope.

(** ** Frames *)

(** A cell of the CSV; [None] is pandas' NaN. *)
Definition cell := option text.

Definition column := (text * list cell)%type.

Definition frame := list column.

(** [df[c]]: every column labelled [c], in order. *)
Definition cols_named (df : frame) (c : text) : list (list cell) :=
  map snd (filter (fun col : column => col.1 = c) (df : list column)).

(** [c in df.columns] *)
Definition has_col (df : frame) (c : text) : bool := bool_decide (c ∈ map fst df).

(** [len(df)] *)
Definition nrows (df : frame) : nat := match df with [] => 0 | (_, vs) :: _ => length vs end.

(** [df[c] = v] for a label not in the frame: a new column of [v]. *)
Definition add_const (df : frame) (c : text) (v : text) : frame :=
  df ++ [(c, replicate (nrows df) (Some v))].

(** The exceptions of the loaders. *)
Inductive load_error :=
  | FileNotFound                     (** [FileNotFoundError] *)
  | MissingColumns (cols : list text) (** [ValueError] on missing columns *)
  | TypeErr (c : text)               (** [pd.to_numeric] given a frame: [c] is duplicated *)
  | CastErr (c : text)               (** [astype("Int64")] of a number that is not whole *)
  | ValueErr (c : text)              (** [df["_c_n"] = ...] given a frame: [c] is duplicated *)
  | ReadFailed.                      (** both [read_csv] calls raised *)

(** ** [_normalize_columns] (tools.py:26-77) *)

(** Step 2's table of synonyms (33-42). *)
Definition COLUMN_SYNONYMS : list (text * list text) :=
  [(txt "id", [txt "id"; txt "stock_id"; txt "stockid"; txt "car_id"; txt "codigo"]);
   (txt "brand", [txt "brand"; txt "make"; txt "marca"]);
   (txt "model", [txt "model"; txt "modelo"]);
   (txt "year", [txt "year"; txt "anio"; utxt "año"]);
   (txt "km", [txt "km"; txt "kilometraje"; txt "mileage"; txt "odometer"]);
   (txt "price", [txt "price"; txt "precio"; txt "amount"; txt "cost"]);
   (txt "location", [txt "location"; txt "ubicacion"; txt "ciudad"; txt "sede"; txt "source"]);
   (txt "version", [txt "version"; utxt "versión"; txt "trim"; txt "variant"])].

(** [rename[col] = target] for the last target listing [col] (43-47);
    [df.rename(columns=rename)] then relabels every such column. *)
Definition rename_target (col : text) : option text :=
  fold_left (fun acc '(target, alts) =>
               if bool_decide (col ∈ alts) && bool_decide (col <> target) then Some target else acc)
            COLUMN_SYNONYMS None.

Definition canon_label (col : text) : text := default col (rename_target col).

(** Steps 1 and 2: [str(c).strip().lower()], then the renaming. *)
Definition canon_frame (df : frame) : frame :=
  map (fun '(c, vs) => (canon_label (lower (strip c)), vs)) df.

(** Step 3 (51-56): the defaults of [location] and [version]. *)
Definition with_defaults (df : frame) : frame :=
  let df := if has_col df (txt "location") then df else add_const df (txt "location") (txt "Online") in
  if has_col df (txt "version") then df else add_const df (txt "version") [].

Definition REQUIRED : list text :=
  [txt "id"; txt "brand"; txt "model"; txt "year"; txt "km"; txt "price"; txt "location"].

(** The one column of a label that the code reads as a Series; [None]
    when it is duplicated (the call gets a DataFrame and raises). *)
Definition single (df : frame) (c : text) : option (list cell) :=
  match cols_named df c with [vs] => Some vs | _ => None end.

(** [int] of a float that is a whole number; pandas' [astype("Int64")]
    raises on any other. *)
Definition q_int (q : Q) : option Z :=
  if (Qden (Qred q) =? 1)%positive then Some (Qnum (Qred q)) else None.

(** [astype(str)]: NaN prints as ["nan"]; the [fillna("")] after it has
    nothing left to fill. *)
Definition as_str (c : cell) : text := default (txt "nan") c.

(** A row of the normalised frame, as [to_dict("records")] gives it: the
    year is pandas' nullable [Int64] ([None] is [<NA>]); [id] and
    [location] are the cells as read. *)
Record row := Row {
  r_id : cell;
  r_brand : text;
  r_model : text;
  r_version : text;
  r_year : option Z;
  r_km : option Z;
  r_price : Q;
  r_location : cell
}.

Section Normalize.
(** [pd.to_numeric(x, errors="coerce")] on one field. *)
Variable to_number : text -> option Q.

Definition num (c : cell) : option Q := c ≫= to_number.

(** One year of [pd.to_numeric(col, errors="coerce").astype("Int64")]. *)
Definition year_of (c : cell) : option (option Z) :=
  match num c with None => Some None | Some q => Some <$> q_int q end.

(** The whole column (64): the cast raises if one value is not whole. *)
Definition year_col (vs : list cell) : option (list (option Z)) := mapM year_of vs.

(** [.fillna(0).astype(int)] (65) *)
Definition km_col (vs : list cell) : list Z := map (fun c => py_int (default 0%Q (num c))) vs.

(** [.fillna(0.0)] (66) *)
Definition price_col (vs : list cell) : list Q := map (fun c => default 0%Q (num c)) vs.

(** The [i]-th cell of the last column labelled [c] ([to_dict] keeps the
    last of duplicated labels). *)
Definition last_cell (df : frame) (c : text) (i : nat) : cell :=
  match head (rev (cols_named df c)) with Some vs => default None (vs !! i) | None => None end.

Definition nth_or {A} (d : A) (l : list A) (i : nat) : A := default d (l !! i).

Definition normalize_columns (df0 : frame) : load_error + list row :=
  let df := with_defaults (canon_frame df0) in
  match filter (fun c => negb (has_col df c)) REQUIRED with
  | c :: cs => inl (MissingColumns (c :: cs))
  | [] =>
      match single df (txt "year") with
      | None => inl (TypeErr (txt "year"))
      | Some ys =>
      match year_col ys with
      | None => inl (CastErr (txt "year"))
      | Some years =>
      match single df (txt "km"), single df (txt "price") with
      | None, _ => inl (TypeErr (txt "km"))
      | _, None => inl (TypeErr (txt "price"))
      | Some ks, Some ps =>
      match single df (txt "brand"), single df (txt "model"), single df (txt "version") with
      | None, _, _ => inl (ValueErr (txt "brand"))
      | _, None, _ => inl (ValueErr (txt "model"))
      | _, _, None => inl (ValueErr (txt "version"))
      | Some bs, Some ms, Some vs =>
          inr (map (fun i =>
                 Row (last_cell df (txt "id") i) (as_str (nth_or None bs i))
                     (as_str (nth_or None ms i)) (as_str (nth_or None vs i))
                     (nth_or None years i) (Some (nth_or 0%Z (km_col ks) i))
                     (nth_or 0%Q (price_col ps) i) (last_cell df (txt "location") i))
               (seq 0 (nrows df)))
      end end end end
  end.

(** [_load_catalog] (80-91): [read_csv] with [","], then with [";"] if
    that raises; [None] is a [read_csv] that raised. *)
Definition load_catalog_tools (exists_ : bool) (read_csv : text -> option frame) : load_error + list row :=
  if negb exists_ then inl FileNotFound
  else match read_csv (txt ",") with
       | Some df => normalize_columns df
       | None => match read_csv (txt ";") with Some df => normalize_columns df | None => inl ReadFailed end
       end.
End Normalize.

(** ** The row-by-row reading *)

Section Rowwise.
Variable to_number : text -> option Q.

(** The reference: each row read on its own from the cells of its line. *)
Definition read_row (df : frame) (i : nat) : option row :=
  y ← year_of to_number (last_cell df (txt "year") i);
  Some (Row (last_cell df (txt "id") i) (as_str (last_cell df (txt "brand") i))
            (as_str (last_cell df (txt "model") i)) (as_str (last_cell df (txt "version") i)) y
            (Some (py_int (default 0%Q (num to_number (last_cell df (txt "km") i)))))
            (default 0%Q (num to_number (last_cell df (txt "price") i))) (last_cell df (txt "location") i)).

Definition read_rows (df : frame) : option (list row) := mapM (read_row df) (seq 0 (nrows df)).

(** Every column has [len(df)] cells, as [read_csv] makes them. *)
Definition frame_wf (df : frame) : Prop := Forall (fun col => length col.2 = nrows df) df.

Lemma canon_frame_wf df : frame_wf df -> frame_wf (canon_frame df) /\ nrows (canon_frame df) = nrows df.
Proof.
  unfold frame_wf, canon_frame. intros H.
  assert (Hn : nrows (map (fun '(c, vs) => (canon_label (lower (strip c)), vs)) df) = nrows df)
    by (destruct df as [|[c vs] df]; done).
  split; [|done]. rewrite Hn. apply Forall_fmap. eapply Forall_impl; [|exact H]. by intros [c vs].
Qed.

Lemma add_const_wf df c v : frame_wf df -> frame_wf (add_const df c v) /\ nrows (add_const df c v) = nrows df.
Proof.
  unfold frame_wf, add_const. intros H.
  assert (Hn : nrows (df ++ [(c, replicate (nrows df) (Some v))]) = nrows df)
    by (destruct df as [|[c' vs] df]; simpl; rewrite ?length_replicate; done).
  rewrite Hn. split; [|done]. apply Forall_app. split; [done|]. constructor; [|constructor].
  simpl. apply length_replicate.
Qed.

Lemma with_defaults_wf df : frame_wf df -> frame_wf (with_defaults df) /\ nrows (with_defaults df) = nrows df.
Proof.
  intros H. unfold with_defaults.
  set (d := if has_col df (txt "location") then df else add_const df (txt "location") (txt "Online")).
  assert (Hd : frame_wf d /\ nrows d = nrows df) by (subst d; destruct (has_col _ _); [done|by apply add_const_wf]).
  destruct Hd as [Hd Hn]. destruct (has_col d _); [done|].
  destruct (add_const_wf d (txt "version") [] Hd). split; [done|lia].
Qed.

Lemma single_last df c vs i : single df c = Some vs -> nth_or None vs i = last_cell df c i.
Proof. unfold single, last_cell. destruct (cols_named df c) as [|? [|]]; intros; simplify_eq; done. Qed.

Lemma single_elem df c vs : single df c = Some vs -> (c, vs) ∈ df.
Proof.
  unfold single. intros Hs. assert (Hin : vs ∈ cols_named df c)
    by (destruct (cols_named df c) as [|? [|]]; simplify_eq; left).
  unfold cols_named in Hin. apply list_elem_of_fmap in Hin as ([c' vs'] & -> & Hin).
  apply list_elem_of_filter in Hin as [Hc Hin]. simpl in *. by subst.
Qed.

Lemma single_length df c vs : frame_wf df -> single df c = Some vs -> length vs = nrows df.
Proof.
  unfold frame_wf. intros Hwf Hs%single_elem%list_elem_of_In. rewrite Forall_forall in Hwf. by apply (Hwf _ Hs).
Qed.

Lemma nth_or_map {A B} (f : A -> B) (d : B) (d' : A) l i :
  i < length l -> nth_or d (map f l) i = f (nth_or d' l i).
Proof.
  unfold nth_or. intros Hi. rewrite list_lookup_fmap.
  destruct (lookup_lt_is_Some_2 l i Hi) as [x ->]. done.
Qed.

Lemma mapM_nth {A B} (f : A -> option B) l k (d : A) (d' : B) i :
  mapM f l = Some k -> i < length l -> f (nth_or d l i) = Some (nth_or d' k i).
Proof.
  unfold nth_or. intros Hm%mapM_Some_1 Hi.
  destruct (lookup_lt_is_Some_2 l i Hi) as [x Hx].
  destruct (Forall2_lookup_l _ _ _ _ _ Hm Hx) as (y & Hy & Hf). by rewrite Hx, Hy.
Qed.

(** ** When [_normalize_columns] raises *)

(** Membership of a literal in a literal list. *)
Ltac elem_tac := repeat first [apply list_elem_of_here | apply list_elem_of_further].


Lemma single_None_dup df c :
  has_col df c = true -> single df c = None -> 2 <= length (cols_named df c).
Proof.
  unfold has_col, single. intros Hc%bool_decide_eq_true_1 Hs.
  apply list_elem_of_fmap in Hc as ([c' vs] & -> & Hin). simpl in Hs |- *.
  assert (Hv : vs ∈ cols_named df c') by (apply list_elem_of_fmap; exists (c', vs); split;
    [done|by apply list_elem_of_filter]).
  destruct (cols_named df c') as [|x [|y l]]; [by apply elem_of_nil in Hv|discriminate|simpl; lia].
Qed.

Lemma required_present df c :
  filter (fun c => negb (has_col df c)) REQUIRED = [] -> c ∈ REQUIRED -> has_col df c = true.
Proof.
  intros Hf Hc. destruct (has_col df c) eqn:E; [done|].
  assert (Hin : c ∈ filter (fun c => negb (has_col df c)) REQUIRED)
    by (apply list_elem_of_filter; by rewrite E).
  rewrite Hf in Hin. by apply elem_of_nil in Hin.
Qed.

Lemma with_defaults_version df : has_col (with_defaults df) (txt "version") = true.
Proof.
  unfold with_defaults. set (d := if has_col df _ then _ else _).
  destruct (has_col d _) eqn:E; [done|]. unfold has_col, add_const.
  apply bool_decide_eq_true_2. rewrite fmap_app. apply elem_of_app. right. left.
Qed.

Lemma mapM_None_elem {A B} (f : A -> option B) l : mapM f l = None -> exists x, x ∈ l /\ f x = None.
Proof.
  induction l as [|x l IH]; simpl; [discriminate|].
  destruct (f x) eqn:Ex; simpl; [|intros _; exists x; split; [left|done]].
  destruct (mapM f l); simpl; [discriminate|]. intros _.
  destruct (IH eq_refl) as (y & Hy & Hf). exists y. split; [by right|done].
Qed.

Lemma single_cells df c vs x : single df c = Some vs -> x ∈ vs -> x ∈ concat (cols_named df c).
Proof.
  unfold single. destruct (cols_named df c) as [|? [|]]; intros; simplify_eq. simpl.
  by rewrite app_nil_r.
Qed.

(** A required label that [single] rejects is duplicated. *)
Ltac dup_tac Hp := apply single_None_dup; [apply Hp; unfold REQUIRED; elem_tac|done].


End Rowwise.

(** ** [load_catalog] of reco/catalog.py (32-55) *)

Section RecoLoad.
Variable to_number : text -> option Q.
(** [required = {COL_BRAND, COL_MODEL, COL_PRICE, COL_YEAR}] is a set: the
    order of [missing] is its iteration order, which depends on the hash
    seed. *)
Variable required_order : list text.

(** One kept row (55): a positive price, and a brand and a model that are
    not NaN.  The recommender reads neither [version] nor the normalised
    columns of [normalize_catalog_df]. *)
Definition reco_row (df : frame) (ys bs ms ps : list cell) (kms : option (list cell)) (i : nat)
    : option row :=
  let p := default 0%Q (num to_number (nth_or None ps i)) in
  match nth_or None bs i, nth_or None ms i with
  | Some b, Some m =>
      if decide (0 < p)%Q then
        Some (Row (last_cell df (txt "id") i) b m [] (Some (py_int (default 0%Q (num to_number (nth_or None ys i)))))
                  ((fun ks => py_int (default 0%Q (num to_number (nth_or None ks i)))) <$> kms) p
                  (last_cell df (txt "location") i))
      else None
  | _, _ => None
  end.

(** [df[col_n] = df[col].astype(str).map(normalize_text)] when [col] is a
    column; a duplicated [col] gives a frame, whose assignment raises. *)
Definition add_norm_col (df : frame) (c lbl : text) : load_error + frame :=
  if has_col df c then
    match single df c with
    | None => inl (ValueErr c)
    | Some vs => inr (df ++ [(lbl, map (fun x => Some (norm_txt (as_str x))) vs)])
    end
  else inr df.

(** [normalize_catalog_df] (normalize.py:316-325) *)
Definition normalize_catalog_df (df : frame) : load_error + frame :=
  match add_norm_col df (txt "brand") (txt "brand_norm") with
  | inl e => inl e
  | inr df => add_norm_col df (txt "model") (txt "model_norm")
  end.

(** [None] for [read] is a [read_csv] that raised. *)
Definition load_catalog_reco (exists_ : bool) (read : option frame) : load_error + list row :=
  if negb exists_ then inl FileNotFound else
  match read with
  | None => inl ReadFailed
  | Some df =>
      match filter (fun c => negb (has_col df c)) required_order with
      | c :: cs => inl (MissingColumns (c :: cs))
      | [] =>
          match normalize_catalog_df df with
          | inl e => inl e
          | inr df =>
          match single df (txt "year"), single df (txt "price") with
          | None, _ => inl (TypeErr (txt "year"))
          | _, None => inl (TypeErr (txt "price"))
          | Some ys, Some ps =>
              match (if has_col df (txt "km") then Some <$> single df (txt "km") else Some None) with
              | None => inl (TypeErr (txt "km"))
              | Some kms =>
                  (* [normalize_catalog_df] has checked that [brand] and
                     [model] are single columns *)
                  match single df (txt "brand"), single df (txt "model") with
                  | Some bs, Some ms => inr (omap (reco_row df ys bs ms ps kms) (seq 0 (nrows df)))
                  | _, _ => inl (ValueErr (txt "brand"))
                  end
              end
          end
          end
      end
  end.

Lemma cols_named_app df l vs c : l <> c -> cols_named (df ++ [(l, vs)]) c = cols_named df c.
Proof.
  intros Hl. unfold cols_named. induction df as [|col df IH]; cbn [app].
  - by rewrite filter_cons, filter_nil, decide_False.
  - rewrite !filter_cons. case_decide; cbn [map]; by rewrite IH.
Qed.

Lemma add_norm_col_cols df c lbl df' d :
  add_norm_col df c lbl = inr df' -> lbl <> d -> cols_named df' d = cols_named df d.
Proof.
  unfold add_norm_col. intros H Hl. destruct (has_col df c); [|by injection H as <-].
  destruct (single df c); [|discriminate]. injection H as <-. by apply cols_named_app.
Qed.

(** The columns [normalize_catalog_df] adds are only [brand_norm] and
    [model_norm]. *)
Lemma normalize_catalog_df_cols df df' c :
  normalize_catalog_df df = inr df' -> c = txt "brand" \/ c = txt "model" ->
  cols_named df' c = cols_named df c.
Proof.
  unfold normalize_catalog_df. intros H Hc. destruct (add_norm_col df _ _) as [|d1] eqn:E1; [discriminate|].
  rewrite (add_norm_col_cols _ _ _ _ _ H), (add_norm_col_cols _ _ _ _ _ E1); [done| |];
    destruct Hc as [->| ->]; vm_compute; discriminate.
Qed.

Lemma nth_or_some_elem {A} (l : list (option A)) i x : nth_or None l i = Some x -> Some x ∈ l.
Proof.
  unfold nth_or. destruct (l !! i) eqn:E; simpl; [intros ->|discriminate].
  by apply list_elem_of_lookup_2 with i.
Qed.

(** C26: every row the recommender's [load_catalog] returns has a positive
    price, a year, and a brand and a model read from non-missing cells of
    their columns: unlike [_normalize_columns], which keeps a missing
    brand as the text ["nan"] and a price of 0 ([normalize_keeps_nan]). *)
Theorem load_catalog_reco_clean exists_ df rows :
  load_catalog_reco exists_ (Some df) = inr rows ->
  Forall (fun r => (0 < r_price r)%Q /\ is_Some (r_year r) /\
                   Some (r_brand r) ∈ concat (cols_named df (txt "brand")) /\
                   Some (r_model r) ∈ concat (cols_named df (txt "model"))) rows.
Proof.
  unfold load_catalog_reco. destruct (negb exists_); [discriminate|].
  destruct (filter _ required_order); [|discriminate].
  destruct (normalize_catalog_df df) as [|df'] eqn:En; [discriminate|].
  destruct (single df' (txt "year")) as [ys|]; [|discriminate].
  destruct (single df' (txt "price")) as [ps|]; [|discriminate].
  destruct (if has_col df' (txt "km") then _ else _) as [kms|]; [|discriminate].
  destruct (single df' (txt "brand")) as [bs|] eqn:Eb; [|discriminate].
  destruct (single df' (txt "model")) as [ms|] eqn:Em; [|discriminate].
  intros [= <-]. apply Forall_forall. intros r Hr%list_elem_of_In.
  apply list_elem_of_omap in Hr as (i & _ & Hi). unfold reco_row in Hi.
  destruct (nth_or None bs i) as [b|] eqn:Hb, (nth_or None ms i) as [m|] eqn:Hm; try discriminate.
  case_decide; [|discriminate]. injection Hi as <-. simpl.
  rewrite <- (normalize_catalog_df_cols df df' (txt "brand")), <- (normalize_catalog_df_cols df df' (txt "model")) by auto.
  split; [done|split; [by eexists|split]]; eapply single_cells; eauto using nth_or_some_elem.
Qed.
End RecoLoad.

(** ** Examples *)

(** A CSV as the shop exports it: synonyms and capitals in the header, no
    [location] and no [version]; the second car has no brand and no
    kilometres, and a price that is not a number. *)
Definition shop_frame : frame :=
  [(txt " Stock_ID", [Some (txt "101"); Some (txt "102")]);
   (txt "Make", [Some (txt "Nissan"); None]);
   (txt "Modelo", [Some (txt "Versa"); Some (txt "Jetta")]);
   (utxt "AÑO", [Some (txt "2020"); Some (txt "2018")]);
   (txt "Kilometraje", [Some (txt "35000.7"); None]);
   (txt "Precio", [Some (txt "250000"); Some (txt "abc")])].

(** Both [precio] and [price]. *)
Definition two_prices : frame :=
  shop_frame ++ [(txt "price", [Some (txt "1"); Some (txt "2")])].



Lemma load_catalog_reco_clean_witness :
  exists rows,
    load_catalog_reco parse_float [txt "brand"; txt "model"; txt "price"; txt "year"] true
      (Some (canon_frame shop_frame)) = inr rows /\
    Forall (fun r => (0 < r_price r)%Q /\ is_Some (r_year r) /\
                     Some (r_brand r) ∈ concat (cols_named (canon_frame shop_frame) (txt "brand")) /\
                     Some (r_model r) ∈ concat (cols_named (canon_frame shop_frame) (txt "model"))) rows.
Proof.
  destruct (load_catalog_reco _ _ _ _) as [e|rows] eqn:E; [vm_compute in E; discriminate|].
  exists rows. split; [reflexivity|]. exact (load_catalog_reco_clean _ _ _ _ _ E).
Defined.

(** [_normalize_columns] keeps the car without a brand, as the brand
    ["nan"], with a price of 0 and no kilometres; the recommender's loader
    drops it. *)
Lemma normalize_keeps_nan :
  exists rows, normalize_columns parse_float shop_frame = inr rows /\
    map (fun r => (r_brand r, r_price r, r_km r)) rows =
    [(txt "Nissan", 250000%Q, Some 35000%Z); (txt "nan", 0%Q, Some 0%Z)] /\
    map r_location rows = [Some (txt "Online"); Some (txt "Online")].
Proof. eexists. split; [vm_compute; reflexivity|]. vm_compute. split; reflexivity. Qed.
